(** * The Shadow worker pool and its event-dispatch API

    A shallow embedding of [src/main/core/worker.c].  The C functions become
    computations in a state-and-abort monad over a [World] that holds the
    worker pool, the thread-local worker of the calling thread, the
    collaborators reached through [pool->manager] and [pool->scheduler], and
    a log of the calls made to collaborators. *)

From Stdlib Require Import ZArith Bool Lia.
From Stdlib Require Import Floats.SpecFloat.
From stdpp Require Import base list gmap.

Open Scope Z_scope.

(** ** Machine integers and doubles *)

(** [SimulationTime] is a [guint64]; its arithmetic wraps around. *)
Definition SimulationTime := Z.
Definition u64_modulus : Z := 2 ^ 64.
Definition u64_wrap (z : Z) : Z := z mod u64_modulus.
Definition simtime_add (a b : SimulationTime) : SimulationTime := u64_wrap (a + b).
Arguments simtime_add : simpl never.

(** [gdouble] is an IEEE 754 binary64 number. *)
Definition gdouble := spec_float.
Definition double_prec : Z := 53.
Definition double_emax : Z := 1024.
Definition double_valid (x : gdouble) : bool := valid_binary double_prec double_emax x.
Definition double_mul (x y : gdouble) : gdouble := SFmul double_prec double_emax x y.
Definition double_le (x y : gdouble) : bool := SFleb x y.
Arguments double_le : simpl never.
Definition double_lt (x y : gdouble) : bool := SFltb x y.

(** By how many bits the rounding of SpecFloat shifts the mantissa [m] of
    a binary64 number of exponent [e]. *)
Definition double_shift (m e : Z) : Z :=
  Z.max 0 (Z.max (Zdigits2 m + e - 53) (-1074) - e).

(** The usual arithmetic conversion of an unsigned integer to [double]. *)
Definition double_of_u64 (z : Z) : gdouble :=
  binary_normalize double_prec double_emax z 0 false.

(** [ceil] of math.h.  The result of [ceil] is an integral double (or the
    argument itself for NaN and the infinities); it is held here as the
    integer it denotes, [None] standing for NaN and the infinities. *)
Definition ceil (x : gdouble) : option Z :=
  match x with
  | S754_zero _ => Some 0
  | S754_finite s m e =>
      let n := cond_Zopp s (Zpos m) in
      if 0 <=? e then Some (n * 2 ^ e) else Some (- ((- n) / 2 ^ (- e)))
  | S754_infinity _ | S754_nan => None
  end.

(** The cast [(SimulationTime)d] of an integral double: defined when the
    value fits a [guint64], undefined behaviour in C otherwise. *)
Definition u64_of_integral (d : option Z) : option SimulationTime :=
  match d with
  | Some z => if (0 <=? z) && (z <? u64_modulus) then Some z else None
  | None => None
  end.

(** ** Constants of main/core/support/definitions.h

    The header lies outside worker.c.  The sentinels are kept abstract:
    every result below holds for any choice of them. *)
Class Definitions := {
  SIMTIME_MAX : SimulationTime;
  SIMTIME_INVALID : SimulationTime;
  AFFINITY_UNINIT : Z;   (* of main/host/affinity.h *)
}.

(** Modelled from the spec: [SIMTIME_ONE_MILLISECOND] is the number of
    simulator nanoseconds per millisecond. *)
Definition SIMTIME_ONE_MILLISECOND : Z := 1000000.

(** The sentinels as upstream Shadow defines them, used for concrete runs. *)
Definition shadow_definitions : Definitions :=
  {| SIMTIME_MAX := 2 ^ 64 - 2; SIMTIME_INVALID := 2 ^ 64 - 1;
     AFFINITY_UNINIT := -1 |}.

(** What the platform and the collaborators compute outside worker.c: the
    generator behind [random_nextDouble], the native id of the thread of
    worker [threadID], and the CPU that the affinity policy binds to the
    logical processor [i]. *)
Class Platform := {
  random_nextDouble : Z -> gdouble * Z;
  gettid : Z -> Z;
  affinity_cpuOf : Z -> Z;
}.

(** ** Collaborator objects, as far as worker.c looks into them *)

Record Address := { address_getID : Z; address_toHostIP : Z }.

Definition Random := Z.

(** A host, as far as worker.c looks into it.  A [Host*] kept by an event
    or handed out by the scheduler is the id of the host. *)
Record Host := { host_getID : Z; host_getRandom : Random }.

Inductive PacketDeliveryStatusFlags := PDS_INET_SENT | PDS_INET_DROPPED.

Record Packet := {
  packet_getSourceIP : Z;
  packet_getDestinationIP : Z;
  packet_getPayloadLength : Z;
  packet_deliveryStatus : list PacketDeliveryStatusFlags;
}.

(** What a task runs when its event executes. *)
Inductive Task :=
| task_callback (fn : Z) (data : Z)
| task_deliverPacket (packetCopy : Packet).   (* _worker_runDeliverPacketTask *)

Record Event := {
  event_task : Task;
  event_getTime : SimulationTime;
  event_srcHost : Z;
  event_dstHost : Z;
}.

Record Topology := {
  topology_reliability : Address -> Address -> gdouble;
  topology_latency : Address -> Address -> gdouble;
  topology_pathPacketCounter : gmap (Z * Z) Z;
}.

Record Manager := {
  manager_schedulerIsRunning : bool;
  manager_getDNS : gmap Z Address;
  manager_getTopology : Topology;
}.

(** Modelled from the spec: the Scheduler offers
    [push(event, srcHost, dstHost) -> bool] and [getHost(hostId) -> Host];
    scheduler.c lies outside worker.c, so its accept/reject decision is a
    field of the scheduler. *)
Record Scheduler := {
  scheduler_hosts : gset Z;
  scheduler_accepts : Event -> bool;
  scheduler_queue : list Event;
}.

(** Modelled from the spec: a logical processor has a bound CPU id, a FIFO
    of ready workers, a FIFO of done workers and an idle timer; the
    logical-processor module lies outside worker.c. *)
Record LogicalProcessor := {
  lp_cpuId : Z;
  lp_readyWorkers : list Z;
  lp_doneWorkers : list Z;
  lp_idleTimerRunning : bool;
}.

Definition LogicalProcessors := list LogicalProcessor.

(** ** struct _WorkerPool

    [manager] and [scheduler] are unowned pointers: the objects they point
    to live in the [World].  A thread handle is not looked into.  The
    semaphores hold their count, the latch its remaining count; a function
    pointer is its address and [None] is NULL. *)
Record WorkerPool := {
  nWorkers : Z;
  workerBeginSems : list Z;
  workerLogicalProcessorIdxs : list Z;
  workerNativeThreadIDs : list Z;
  finishLatch : Z;
  taskFn : option Z;
  taskData : Z;
  joined : bool;
  logicalProcessors : LogicalProcessors;
  minEventTimes : list SimulationTime;
  magic : bool;   (* MAGIC_DECLARE: set by MAGIC_INIT, cleared by MAGIC_CLEAR *)
}.

(** The thread-local Worker of the calling thread, as far as worker.c reads
    it through [worker_threadID], [worker_getCurrentTime],
    [_worker_getRoundEndTime] and [worker_isBootstrapActive]. *)
Record Worker := {
  worker_threadID_ : Z;
  worker_currentTime : SimulationTime;
  worker_roundEndTime : SimulationTime;
  worker_bootstrapActive : bool;
}.

(** Calls made to collaborators, in program order. *)
Inductive Call :=
| call_taskFn (fn data : Z)
| call_sem_post (workerID : Z)
| call_lps_idleTimerStop (lpi : Z)
| call_affinity_setProcessAffinity (tid newCpuId oldCpuId : Z)
| call_dns_resolveIPToAddress (ip : Z)
| call_topology_getReliability (src dst : Address)
| call_random_nextDouble (host : Z)
| call_topology_getLatency (src dst : Address)
| call_topology_incrementPathPacketCounter (src dst : Address)
| call_scheduler_getHost (id : Z)
| call_packet_addDeliveryStatus (status : PacketDeliveryStatusFlags)
| call_packet_copy
| call_event_new (event : Event)
| call_scheduler_push (event : Event) (accepted : bool).

Record World := {
  w_pool : WorkerPool;
  w_worker : Worker;
  w_manager : Manager;
  w_scheduler : Scheduler;
  w_trace : list Call;
}.

(** ** Record updates *)

Definition pool_with_minEventTimes (v : list SimulationTime) (p : WorkerPool) : WorkerPool :=
  {| nWorkers := nWorkers p; workerBeginSems := workerBeginSems p;
     workerLogicalProcessorIdxs := workerLogicalProcessorIdxs p;
     workerNativeThreadIDs := workerNativeThreadIDs p;
     finishLatch := finishLatch p; taskFn := taskFn p; taskData := taskData p;
     joined := joined p; logicalProcessors := logicalProcessors p;
     minEventTimes := v; magic := magic p |}.

Definition pool_with_task (f : option Z) (d : Z) (p : WorkerPool) : WorkerPool :=
  {| nWorkers := nWorkers p; workerBeginSems := workerBeginSems p;
     workerLogicalProcessorIdxs := workerLogicalProcessorIdxs p;
     workerNativeThreadIDs := workerNativeThreadIDs p;
     finishLatch := finishLatch p; taskFn := f; taskData := d;
     joined := joined p; logicalProcessors := logicalProcessors p;
     minEventTimes := minEventTimes p; magic := magic p |}.

Definition pool_with_sems (v : list Z) (p : WorkerPool) : WorkerPool :=
  {| nWorkers := nWorkers p; workerBeginSems := v;
     workerLogicalProcessorIdxs := workerLogicalProcessorIdxs p;
     workerNativeThreadIDs := workerNativeThreadIDs p;
     finishLatch := finishLatch p; taskFn := taskFn p; taskData := taskData p;
     joined := joined p; logicalProcessors := logicalProcessors p;
     minEventTimes := minEventTimes p; magic := magic p |}.

Definition pool_with_lpIdxs (v : list Z) (p : WorkerPool) : WorkerPool :=
  {| nWorkers := nWorkers p; workerBeginSems := workerBeginSems p;
     workerLogicalProcessorIdxs := v;
     workerNativeThreadIDs := workerNativeThreadIDs p;
     finishLatch := finishLatch p; taskFn := taskFn p; taskData := taskData p;
     joined := joined p; logicalProcessors := logicalProcessors p;
     minEventTimes := minEventTimes p; magic := magic p |}.

Definition pool_with_lps (v : LogicalProcessors) (p : WorkerPool) : WorkerPool :=
  {| nWorkers := nWorkers p; workerBeginSems := workerBeginSems p;
     workerLogicalProcessorIdxs := workerLogicalProcessorIdxs p;
     workerNativeThreadIDs := workerNativeThreadIDs p;
     finishLatch := finishLatch p; taskFn := taskFn p; taskData := taskData p;
     joined := joined p; logicalProcessors := v;
     minEventTimes := minEventTimes p; magic := magic p |}.

Definition world_with_pool (p : WorkerPool) (w : World) : World :=
  {| w_pool := p; w_worker := w_worker w; w_manager := w_manager w;
     w_scheduler := w_scheduler w; w_trace := w_trace w |}.

Definition world_with_manager (m : Manager) (w : World) : World :=
  {| w_pool := w_pool w; w_worker := w_worker w; w_manager := m;
     w_scheduler := w_scheduler w; w_trace := w_trace w |}.

Definition world_with_scheduler (s : Scheduler) (w : World) : World :=
  {| w_pool := w_pool w; w_worker := w_worker w; w_manager := w_manager w;
     w_scheduler := s; w_trace := w_trace w |}.

Definition world_with_trace (t : list Call) (w : World) : World :=
  {| w_pool := w_pool w; w_worker := w_worker w; w_manager := w_manager w;
     w_scheduler := w_scheduler w; w_trace := t |}.

(** ** The monad of C computations

    A computation returns a value and a new world, or aborts the process
    (the world is the one at the point of the abort), or has undefined
    behaviour (an array read or write out of bounds, a cast out of range). *)
Inductive outcome (A : Type) : Type :=
| Returns (a : A) (w : World)
| Aborts (w : World)
| Undefined.
Arguments Returns {A} a w.
Arguments Aborts {A} w.
Arguments Undefined {A}.

Definition M (A : Type) : Type := World -> outcome A.

Definition ret {A} (a : A) : M A := fun w => Returns a w.

Definition bind {A B} (c : M A) (k : A -> M B) : M B :=
  fun w =>
    match c w with
    | Returns a w' => k a w'
    | Aborts w' => Aborts w'
    | Undefined => Undefined
    end.

Notation "'let*' x ':=' c 'in' k" := (bind c (fun x => k))
  (at level 10, x name, c at level 100, k at level 200).
Notation "c ';;;' k" := (bind c (fun _ : unit => k))
  (at level 100, k at level 200, right associativity).

Definition gets {A} (f : World -> A) : M A := fun w => Returns (f w) w.
Definition modify (f : World -> World) : M unit := fun w => Returns tt (f w).
Definition abort {A} : M A := fun w => Aborts w.
Definition undefined {A} : M A := fun _ => Undefined.

Definition log (c : Call) : M unit :=
  modify (fun w => world_with_trace (w_trace w ++ [c]) w).

(** Modelled from the spec: a failed [utility_assert] and [utility_panic]
    are fatal and abort the process; main/utility/utility.h lies outside
    worker.c. *)
Definition utility_assert (b : bool) : M unit := if b then ret tt else abort.
Definition utility_panic {A} : M A := abort.

Definition MAGIC_ASSERT : M unit :=
  let* pool := gets w_pool in utility_assert (magic pool).

(** C array accesses: outside the bounds of the array the behaviour is
    undefined. *)
Definition in_bounds {A} (l : list A) (i : Z) : bool :=
  (0 <=? i) && (i <? Z.of_nat (length l)).

Definition array_get {A} (l : list A) (i : Z) : M A :=
  if in_bounds l i then
    match l !! Z.to_nat i with Some a => ret a | None => undefined end
  else undefined.

Definition array_set {A} (l : list A) (i : Z) (a : A) : M (list A) :=
  if in_bounds l i then ret (<[Z.to_nat i := a]> l) else undefined.

Definition get_minEventTime (i : Z) : M SimulationTime :=
  let* pool := gets w_pool in array_get (minEventTimes pool) i.

Definition set_minEventTime (i : Z) (t : SimulationTime) : M unit :=
  let* pool := gets w_pool in
  let* v := array_set (minEventTimes pool) i t in
  modify (fun w => world_with_pool (pool_with_minEventTimes v (w_pool w)) w).

(** ** The logical processors, as worker.c uses them

    The operations of the LogicalProcessorSet (section 4.1 of the spec) lie
    outside worker.c.  They act on [pool->logicalProcessors]. *)

(** Modelled from the spec: [n() -> L], the count of logical processors. *)
Definition lps_n (lps : LogicalProcessors) : Z := Z.of_nat (length lps).

Definition get_lps : M LogicalProcessors :=
  gets (fun w => logicalProcessors (w_pool w)).

Definition set_lps (lps : LogicalProcessors) : M unit :=
  modify (fun w => world_with_pool (pool_with_lps lps (w_pool w)) w).

Definition lp_with_ready (q : list Z) (lp : LogicalProcessor) : LogicalProcessor :=
  {| lp_cpuId := lp_cpuId lp; lp_readyWorkers := q;
     lp_doneWorkers := lp_doneWorkers lp;
     lp_idleTimerRunning := lp_idleTimerRunning lp |}.

Definition lp_with_idleTimer (b : bool) (lp : LogicalProcessor) : LogicalProcessor :=
  {| lp_cpuId := lp_cpuId lp; lp_readyWorkers := lp_readyWorkers lp;
     lp_doneWorkers := lp_doneWorkers lp; lp_idleTimerRunning := b |}.

(** Modelled from the spec: [cpuId(i)], the CPU id bound to LP [i]. *)
Definition lps_cpuId (lpi : Z) : M Z :=
  let* lps := get_lps in
  let* lp := array_get lps lpi in
  ret (lp_cpuId lp).

(** Modelled from the spec: [readyPush(i, workerId)] appends to the ready
    queue of LP [i]. *)
Definition lps_readyPush (lpi workerID : Z) : M unit :=
  let* lps := get_lps in
  let* lp := array_get lps lpi in
  let* lps' := array_set lps lpi (lp_with_ready (lp_readyWorkers lp ++ [workerID]) lp) in
  set_lps lps'.

(** Modelled from the spec: [idleTimerStop(i)], when a worker begins to
    run on LP [i]. *)
Definition lps_idleTimerStop (lpi : Z) : M unit :=
  let* lps := get_lps in
  let* lp := array_get lps lpi in
  let* lps' := array_set lps lpi (lp_with_idleTimer false lp) in
  set_lps lps' ;;;
  log (call_lps_idleTimerStop lpi).

(** Modelled from the spec: [popWorkerToRunOn(i)] pops the front of the
    ready queue of LP [i] if there is one, else steals the front of the
    ready queue of another LP, here the next non-empty one in turn, and
    returns [-1] iff every ready queue is empty. *)
Fixpoint lps_popWorkerToRunOn_from (n : nat) (k toLpi : Z) : M Z :=
  match n with
  | O => ret (-1)
  | S n' =>
      let* lps := get_lps in
      let fromLpi := Z.rem (toLpi + k) (lps_n lps) in
      let* lp := array_get lps fromLpi in
      match lp_readyWorkers lp with
      | workerID :: rest =>
          let* lps' := array_set lps fromLpi (lp_with_ready rest lp) in
          set_lps lps' ;;;
          ret workerID
      | [] => lps_popWorkerToRunOn_from n' (k + 1) toLpi
      end
  end.

Definition lps_popWorkerToRunOn (toLpi : Z) : M Z :=
  let* lps := get_lps in
  lps_popWorkerToRunOn_from (length lps) 0 toLpi.

Section WithDefinitions.
Context `{Definitions} `{Platform}.

(** Modelled from the spec: construction binds each LP index to a CPU id
    by an affinity policy; the queues start empty, the idle timers
    running. *)
Definition lps_new (n : Z) : LogicalProcessors :=
  map (fun i => {| lp_cpuId := affinity_cpuOf i; lp_readyWorkers := [];
                   lp_doneWorkers := []; lp_idleTimerRunning := true |})
      (seqZ 0 n).

(** ** Thread-local accessors *)

(** Modelled from the spec: the thread-local Worker holds the id of its
    thread, its pool, the current simulation time ([SIMTIME_INVALID]
    outside of an event), the end of the round and whether the network is
    still bootstrapping; its accessors lie outside worker.c. *)
Definition _worker_getRoundEndTime : M SimulationTime :=
  gets (fun w => worker_roundEndTime (w_worker w)).
Definition _worker_pool : M WorkerPool := gets w_pool.
Definition worker_threadID : M Z := gets (fun w => worker_threadID_ (w_worker w)).
Definition worker_getCurrentTime : M SimulationTime :=
  gets (fun w => worker_currentTime (w_worker w)).
Definition worker_isBootstrapActive : M bool :=
  gets (fun w => worker_bootstrapActive (w_worker w)).

(** ** _workerpool_setLogicalProcessorIdx *)

Definition affinity_setProcessAffinity (tid newCpuId oldCpuId : Z) : M unit :=
  log (call_affinity_setProcessAffinity tid newCpuId oldCpuId).

Definition _workerpool_setLogicalProcessorIdx (workerID logicalProcessorIdx : Z) : M unit :=
  MAGIC_ASSERT ;;;
  let* lps := get_lps in
  utility_assert (logicalProcessorIdx <? lps_n lps) ;;;
  utility_assert (0 <=? logicalProcessorIdx) ;;;
  let* pool := _worker_pool in
  let* oldIdx := array_get (workerLogicalProcessorIdxs pool) workerID in
  let* oldCpuId := (if 0 <=? oldIdx then lps_cpuId oldIdx else ret AFFINITY_UNINIT) in
  let* idxs := array_set (workerLogicalProcessorIdxs pool) workerID logicalProcessorIdx in
  modify (fun w => world_with_pool (pool_with_lpIdxs idxs (w_pool w)) w) ;;;
  let* newCpuId := lps_cpuId logicalProcessorIdx in
  let* tid := array_get (workerNativeThreadIDs pool) workerID in
  affinity_setProcessAffinity tid newCpuId oldCpuId.

(** ** workerpool_new

    The threads that [pthread_create] starts run the head of [_worker_run]
    up to its first [countdownlatch_countDown]; each thread writes its own
    rows of the pool only, so their effect on the pool is taken one thread
    after the other, in the order of creation.  The pool returned is the
    pool of the world. *)

Definition _worker_run_init (threadID : Z) : M unit :=
  let* pool := _worker_pool in
  (* sem_init(&workerPool->workerBeginSems[threadID], 0, 0) *)
  let* sems := array_set (workerBeginSems pool) threadID 0 in
  let* idxs := array_set (workerLogicalProcessorIdxs pool) threadID (-1) in
  let* tids := array_set (workerNativeThreadIDs pool) threadID (gettid threadID) in
  (* countdownlatch_countDown(workerPool->finishLatch): fatal below zero *)
  utility_assert (0 <? finishLatch pool) ;;;
  modify (fun w => world_with_pool
    {| nWorkers := nWorkers pool; workerBeginSems := sems;
       workerLogicalProcessorIdxs := idxs; workerNativeThreadIDs := tids;
       finishLatch := finishLatch pool - 1; taskFn := taskFn pool;
       taskData := taskData pool; joined := joined pool;
       logicalProcessors := logicalProcessors pool;
       minEventTimes := minEventTimes pool; magic := magic pool |} w).

Fixpoint workerpool_new_initTimes (n : nat) (i : Z) : M unit :=
  match n with
  | O => ret tt
  | S n' => set_minEventTime i SIMTIME_MAX ;;; workerpool_new_initTimes n' (i + 1)
  end.

Fixpoint workerpool_new_createThreads (n : nat) (threadID : Z) : M unit :=
  match n with
  | O => ret tt
  | S n' => _worker_run_init threadID ;;; workerpool_new_createThreads n' (threadID + 1)
  end.

Fixpoint workerpool_new_assign (n : nat) (workerID nLogicalProcessors : Z) : M unit :=
  match n with
  | O => ret tt
  | S n' =>
      let lpi := Z.rem workerID nLogicalProcessors in
      lps_readyPush lpi workerID ;;;
      _workerpool_setLogicalProcessorIdx workerID lpi ;;;
      workerpool_new_assign n' (workerID + 1) nLogicalProcessors
  end.

(** Modelled from the spec: [reset] re-arms the latch to its count. *)
Definition countdownlatch_reset (c : Z) : M unit :=
  modify (fun w =>
    let pool := w_pool w in
    world_with_pool
      {| nWorkers := nWorkers pool; workerBeginSems := workerBeginSems pool;
         workerLogicalProcessorIdxs := workerLogicalProcessorIdxs pool;
         workerNativeThreadIDs := workerNativeThreadIDs pool;
         finishLatch := c; taskFn := taskFn pool;
         taskData := taskData pool; joined := joined pool;
         logicalProcessors := logicalProcessors pool;
         minEventTimes := minEventTimes pool; magic := magic pool |} w).

Definition workerpool_new (nWorkers_ nParallel : Z) : M unit :=
  utility_assert (1 <=? nParallel) ;;;
  utility_assert (1 <=? nWorkers_) ;;;
  let nLogicalProcessors := Z.min nParallel nWorkers_ in
  let nW := Z.to_nat nWorkers_ in
  let nL := Z.to_nat nLogicalProcessors in
  modify (world_with_pool
    {| nWorkers := nWorkers_;
       finishLatch := nWorkers_;
       joined := false;
       logicalProcessors := lps_new nLogicalProcessors;
       minEventTimes := replicate nL 0;   (* g_new: overwritten below *)
       workerBeginSems := replicate nW 0;
       workerLogicalProcessorIdxs := replicate nW 0;
       workerNativeThreadIDs := replicate nW 0;
       taskFn := None; taskData := 0;
       magic := true |}) ;;;
  workerpool_new_initTimes nL 0 ;;;
  workerpool_new_createThreads nW 0 ;;;
  (* Wait for all threads to set their tid: every thread has counted down
     by now, countdownlatch_await returns at once. *)
  countdownlatch_reset nWorkers_ ;;;
  workerpool_new_assign nW 0 nLogicalProcessors.

(** ** _workerpool_getNextWorkerForLogicalProcessorIdx *)

Definition _workerpool_getNextWorkerForLogicalProcessorIdx (toLpi : Z) : M Z :=
  let* nextWorker := lps_popWorkerToRunOn toLpi in
  (if 0 <=? nextWorker
   then _workerpool_setLogicalProcessorIdx nextWorker toLpi
   else ret tt) ;;;
  ret nextWorker.

(** ** _workerpool_startTaskFn and workerpool_startTaskFn *)

(** [sem_post]: the count of the semaphore goes up by one; the result is
    0, the error return being out of reach of this model. *)
Definition sem_post (workerID : Z) : M Z :=
  let* pool := _worker_pool in
  let* c := array_get (workerBeginSems pool) workerID in
  let* sems := array_set (workerBeginSems pool) workerID (c + 1) in
  modify (fun w => world_with_pool (pool_with_sems sems (w_pool w)) w) ;;;
  log (call_sem_post workerID) ;;;
  ret 0.

(** The [for] loop with its [break], [n] iterations left from index [i],
    as the main thread runs it when no worker thread takes a turn before
    the loop has ended.  A worker that the loop wakes up runs while the loop
    goes on: the passes of the loop one by one, with the turns of the
    workers in between, are [_workerpool_startTaskFn_iteration] and
    [run_steps] below. *)
Fixpoint _workerpool_startTaskFn_loop (n : nat) (i : Z) : M unit :=
  match n with
  | O => ret tt
  | S n' =>
      let* workerID := _workerpool_getNextWorkerForLogicalProcessorIdx i in
      if 0 <=? workerID then
        lps_idleTimerStop i ;;;
        let* rv := sem_post workerID in
        (if negb (rv =? 0) then utility_panic else ret tt) ;;;
        _workerpool_startTaskFn_loop n' (i + 1)
      else ret tt   (* There's no more work to do. *)
  end.

Definition _workerpool_startTaskFn (taskFn_ : option Z) (data : Z) : M unit :=
  MAGIC_ASSERT ;;;
  let* pool := _worker_pool in
  if nWorkers pool =? 0 then
    match taskFn_ with
    | Some fn => log (call_taskFn fn data)
    | None => ret tt
    end
  else
    (* Only supports one task at a time. *)
    utility_assert (bool_decide (taskFn pool = None)) ;;;
    modify (fun w => world_with_pool (pool_with_task taskFn_ data (w_pool w)) w) ;;;
    let* lps := get_lps in
    _workerpool_startTaskFn_loop (Z.to_nat (lps_n lps)) 0.

Definition workerpool_startTaskFn (taskFn_ : option Z) (taskData_ : Z) : M unit :=
  MAGIC_ASSERT ;;;
  (* Public interface doesn't support NULL taskFn *)
  utility_assert (bool_decide (taskFn_ <> None)) ;;;
  _workerpool_startTaskFn taskFn_ taskData_.

(** ** workerpool_getGlobalNextEventTime *)

(** The [for] loop, [n] iterations left from index [i]. *)
Fixpoint getGlobalNextEventTime_loop (n : nat) (i : Z) (minTime : SimulationTime)
  : M SimulationTime :=
  match n with
  | O => ret minTime
  | S n' =>
      let* t := get_minEventTime i in
      let minTime := if t <? minTime then t else minTime in
      set_minEventTime i SIMTIME_MAX ;;;
      getGlobalNextEventTime_loop n' (i + 1) minTime
  end.

Definition workerpool_getGlobalNextEventTime : M SimulationTime :=
  MAGIC_ASSERT ;;;
  let* lps := get_lps in
  getGlobalNextEventTime_loop (Z.to_nat (lps_n lps)) 0 SIMTIME_MAX.

(** ** worker_setMinEventTimeNextRound *)

Definition worker_setMinEventTimeNextRound (simtime : SimulationTime) : M unit :=
  let* roundEndTime := _worker_getRoundEndTime in
  if simtime <? roundEndTime then ret tt
  else
    let* pool := _worker_pool in
    let* tid := worker_threadID in
    let* lpi := array_get (workerLogicalProcessorIdxs pool) tid in
    let* cur := get_minEventTime lpi in
    if simtime <? cur then set_minEventTime lpi simtime else ret tt.

(** ** Collaborator calls of the event-dispatch API *)

Definition manager_schedulerIsRunning_ : M bool :=
  gets (fun w => manager_schedulerIsRunning (w_manager w)).

(** [worker_resolveIPToAddress]: [dns_resolveIPToAddress] on the DNS of the
    manager; NULL when the ip is unknown. *)
Definition worker_resolveIPToAddress (ip : Z) : M (option Address) :=
  log (call_dns_resolveIPToAddress ip) ;;;
  gets (fun w => manager_getDNS (w_manager w) !! ip).

Definition worker_getTopology : M Topology :=
  gets (fun w => manager_getTopology (w_manager w)).

Definition topology_getReliability (src dst : Address) : M gdouble :=
  let* top := worker_getTopology in
  log (call_topology_getReliability src dst) ;;;
  ret (topology_reliability top src dst).

Definition topology_getLatency (src dst : Address) : M gdouble :=
  let* top := worker_getTopology in
  log (call_topology_getLatency src dst) ;;;
  ret (topology_latency top src dst).

Definition path_key (src dst : Address) : Z * Z := (address_getID src, address_getID dst).

Definition pathPacketCount (top : Topology) (src dst : Address) : Z :=
  default 0 (topology_pathPacketCounter top !! path_key src dst).

Definition topology_countPacket (src dst : Address) (top : Topology) : Topology :=
  {| topology_reliability := topology_reliability top;
     topology_latency := topology_latency top;
     topology_pathPacketCounter :=
       <[path_key src dst := pathPacketCount top src dst + 1]>
         (topology_pathPacketCounter top) |}.

Definition manager_with_topology (top : Topology) (m : Manager) : Manager :=
  {| manager_schedulerIsRunning := manager_schedulerIsRunning m;
     manager_getDNS := manager_getDNS m;
     manager_getTopology := top |}.

Definition topology_incrementPathPacketCounter (src dst : Address) : M unit :=
  let* top := worker_getTopology in
  modify (fun w => world_with_manager
    (manager_with_topology (topology_countPacket src dst top) (w_manager w)) w) ;;;
  log (call_topology_incrementPathPacketCounter src dst).

(** [random_nextDouble(host_getRandom(srcHost))]: the draw, and the host
    with the generator advanced. *)
Definition host_nextDouble (srcHost : Host) : M (gdouble * Host) :=
  let (chance, random') := random_nextDouble (host_getRandom srcHost) in
  log (call_random_nextDouble (host_getID srcHost)) ;;;
  ret (chance, {| host_getID := host_getID srcHost; host_getRandom := random' |}).

Definition scheduler_getHost (id : Z) : M (option Z) :=
  log (call_scheduler_getHost id) ;;;
  gets (fun w => if bool_decide (id ∈ scheduler_hosts (w_scheduler w))
                 then Some id else None).

Definition packet_with_status (status : PacketDeliveryStatusFlags) (packet : Packet)
  : Packet :=
  {| packet_getSourceIP := packet_getSourceIP packet;
     packet_getDestinationIP := packet_getDestinationIP packet;
     packet_getPayloadLength := packet_getPayloadLength packet;
     packet_deliveryStatus := packet_deliveryStatus packet ++ [status] |}.

Definition packet_addDeliveryStatus (packet : Packet) (status : PacketDeliveryStatusFlags)
  : M Packet :=
  log (call_packet_addDeliveryStatus status) ;;;
  ret (packet_with_status status packet).

Definition packet_copy (packet : Packet) : M Packet :=
  log call_packet_copy ;;; ret packet.

Definition event_new_ (task : Task) (time : SimulationTime) (srcHost dstHost : Z) : M Event :=
  let event := {| event_task := task; event_getTime := time;
                  event_srcHost := srcHost; event_dstHost := dstHost |} in
  log (call_event_new event) ;;; ret event.

Definition scheduler_enqueue (event : Event) (sched : Scheduler) : Scheduler :=
  {| scheduler_hosts := scheduler_hosts sched;
     scheduler_accepts := scheduler_accepts sched;
     scheduler_queue := scheduler_queue sched ++ [event] |}.

Definition scheduler_push (event : Event) : M bool :=
  let* sched := gets w_scheduler in
  let accepted := scheduler_accepts sched event in
  (if accepted
   then modify (fun w => world_with_scheduler (scheduler_enqueue event sched) w)
   else ret tt) ;;;
  log (call_scheduler_push event accepted) ;;;
  ret accepted.

(** [utility_assert(p)] on a pointer: the object behind it when it is not
    NULL. *)
Definition utility_assert_ptr {A} (p : option A) : M A :=
  match p with
  | Some a => utility_assert true ;;; ret a
  | None => utility_assert false ;;; undefined
  end.

(** ** worker_scheduleTask *)

Definition worker_scheduleTask (task : option Task) (host : option Host)
  (nanoDelay : SimulationTime) : M bool :=
  let* task := utility_assert_ptr task in
  let* host := utility_assert_ptr host in
  let* running := manager_schedulerIsRunning_ in
  if negb running then ret false
  else
    let* clock_now := worker_getCurrentTime in
    utility_assert (negb (clock_now =? SIMTIME_INVALID)) ;;;
    let* event := event_new_ task (simtime_add clock_now nanoDelay)
                    (host_getID host) (host_getID host) in
    scheduler_push event.

(** ** worker_sendPacket *)

(** [(SimulationTime)ceil(latency * SIMTIME_ONE_MILLISECOND)]. *)
Definition latency_to_delay (latency : gdouble) : option SimulationTime :=
  u64_of_integral (ceil (double_mul latency (double_of_u64 SIMTIME_ONE_MILLISECOND))).

(** The result holds the objects behind [srcHost] and [packet] as the call
    leaves them. *)
Definition worker_sendPacket (srcHost : Host) (packet : option Packet)
  : M (Host * Packet) :=
  let* packet := utility_assert_ptr packet in
  let* running := manager_schedulerIsRunning_ in
  if negb running then
    (* the simulation is over, don't bother *)
    ret (srcHost, packet)
  else
    let srcIP := packet_getSourceIP packet in
    let dstIP := packet_getDestinationIP packet in
    let* srcAddress := worker_resolveIPToAddress srcIP in
    let* dstAddress := worker_resolveIPToAddress dstIP in
    match srcAddress, dstAddress with
    | Some srcAddress, Some dstAddress =>
        let* bootstrapping := worker_isBootstrapActive in
        (* check if network reliability forces us to 'drop' the packet *)
        let* reliability := topology_getReliability srcAddress dstAddress in
        let* draw := host_nextDouble srcHost in
        let chance := fst draw in
        let srcHost := snd draw in
        if bootstrapping || double_le chance reliability
           || (packet_getPayloadLength packet =? 0) then
          (* the sender's packet will make it through, find latency *)
          let* latency := topology_getLatency srcAddress dstAddress in
          let* delay := (match latency_to_delay latency with
                         | Some d => ret d
                         | None => undefined
                         end) in
          let* now := worker_getCurrentTime in
          let deliverTime := simtime_add now delay in
          topology_incrementPathPacketCounter srcAddress dstAddress ;;;
          let dstID := address_getID dstAddress in
          let* dstHost := scheduler_getHost dstID in
          let* dstHost := utility_assert_ptr dstHost in
          let* packet := packet_addDeliveryStatus packet PDS_INET_SENT in
          let* packetCopy := packet_copy packet in
          let packetTask := task_deliverPacket packetCopy in
          let* packetEvent := event_new_ packetTask deliverTime
                                (host_getID srcHost) dstHost in
          let* accepted := scheduler_push packetEvent in   (* result discarded *)
          ret (srcHost, packet)
        else
          let* packet := packet_addDeliveryStatus packet PDS_INET_DROPPED in
          ret (srcHost, packet)
    | _, _ =>
        (* unable to schedule packet because of null addresses *)
        utility_panic
    end.

End WithDefinitions.

(** ** Concrete worlds *)

Definition example_platform (chance : gdouble) : Platform :=
  {| random_nextDouble := fun r => (chance, r + 1);
     gettid := fun threadID => 1000 + threadID;
     affinity_cpuOf := fun i => i |}.

Definition double_zero : gdouble := S754_zero false.
Definition double_one : gdouble := double_of_u64 1.

(** 2^43 milliseconds, some 278 years: below it the delay of a latency
    always fits a [SimulationTime]. *)
Definition latency_bound : gdouble := double_of_u64 (2 ^ 43).

Definition example_addr (id : Z) : Address :=
  {| address_getID := id; address_toHostIP := 100 + id |}.

Definition example_topology (reliability latency : gdouble) : Topology :=
  {| topology_reliability := fun _ _ => reliability;
     topology_latency := fun _ _ => latency;
     topology_pathPacketCounter := ∅ |}.

Definition example_manager (running : bool) (reliability latency : gdouble) : Manager :=
  {| manager_schedulerIsRunning := running;
     manager_getDNS := <[101 := example_addr 1]> (<[102 := example_addr 2]> ∅);
     manager_getTopology := example_topology reliability latency |}.

Definition example_scheduler (hosts : gset Z) (accepts : bool) : Scheduler :=
  {| scheduler_hosts := hosts; scheduler_accepts := fun _ => accepts;
     scheduler_queue := [] |}.

Definition empty_pool : WorkerPool :=
  {| nWorkers := 0; workerBeginSems := []; workerLogicalProcessorIdxs := [];
     workerNativeThreadIDs := []; finishLatch := 0; taskFn := None;
     taskData := 0; joined := false; logicalProcessors := [];
     minEventTimes := []; magic := false |}.

Definition example_worker (threadID now roundEnd : Z) (bootstrapping : bool) : Worker :=
  {| worker_threadID_ := threadID; worker_currentTime := now;
     worker_roundEndTime := roundEnd; worker_bootstrapActive := bootstrapping |}.

Definition example_world (wk : Worker) (mgr : Manager) (sched : Scheduler) : World :=
  {| w_pool := empty_pool; w_worker := wk; w_manager := mgr;
     w_scheduler := sched; w_trace := [] |}.

Definition example_packet (len : Z) : Packet :=
  {| packet_getSourceIP := 101; packet_getDestinationIP := 102;
     packet_getPayloadLength := len; packet_deliveryStatus := [] |}.

Definition example_host (id : Z) : Host := {| host_getID := id; host_getRandom := 7 |}.

(** The events pushed to the scheduler, as the log has them. *)
Definition pushed_events (t : list Call) : list Event :=
  omap (fun c => match c with call_scheduler_push e _ => Some e | _ => None end) t.

(** ** Well-formed pools *)

Section PoolInvariant.
Context `{Definitions}.

(** What [workerpool_new] establishes and every function of worker.c keeps:
    the pool is live, has at least one logical processor, has one
    [minEventTimes] slot per logical processor, and no slot is above
    [SIMTIME_MAX]. *)
Definition pool_ok (p : WorkerPool) : Prop :=
  magic p = true /\
  1 <= lps_n (logicalProcessors p) /\
  Z.of_nat (length (minEventTimes p)) = lps_n (logicalProcessors p) /\
  Forall (fun t => t <= SIMTIME_MAX) (minEventTimes p).

(** The worker of the calling thread sits on a logical processor of the
    pool. *)
Definition worker_ok (w : World) (lpi : nat) : Prop :=
  0 <= worker_threadID_ (w_worker w) /\
  workerLogicalProcessorIdxs (w_pool w) !! Z.to_nat (worker_threadID_ (w_worker w))
    = Some (Z.of_nat lpi) /\
  (lpi < length (minEventTimes (w_pool w)))%nat.

Definition with_minEventTimes (v : list SimulationTime) (w : World) : World :=
  world_with_pool (pool_with_minEventTimes v (w_pool w)) w.

(** The pool while [workerpool_new] builds it: [nW] rows per worker, [nL]
    logical processors, every slot at [SIMTIME_MAX], every worker on no
    logical processor yet or on one of the pool. *)
Definition pool_shape (nW nL : Z) (p : WorkerPool) : Prop :=
  magic p = true /\ nWorkers p = nW /\ taskFn p = None /\
  Z.of_nat (length (workerBeginSems p)) = nW /\
  Z.of_nat (length (workerLogicalProcessorIdxs p)) = nW /\
  Z.of_nat (length (workerNativeThreadIDs p)) = nW /\
  lps_n (logicalProcessors p) = nL /\
  minEventTimes p = replicate (Z.to_nat nL) SIMTIME_MAX /\
  Forall (fun i => i < nL) (workerLogicalProcessorIdxs p).

End PoolInvariant.

(** ** The worlds that the event-dispatch API leaves behind *)

(** The world after [scheduler_push(event)]. *)
Definition world_after_push (event : Event) (w : World) : World :=
  let accepted := scheduler_accepts (w_scheduler w) event in
  world_with_trace (w_trace w ++ [call_scheduler_push event accepted])
    (if accepted
     then world_with_scheduler (scheduler_enqueue event (w_scheduler w)) w
     else w).

(** The event that [worker_scheduleTask] makes. *)
Definition task_event (task : Task) (host : Host) (now delay : SimulationTime) : Event :=
  {| event_task := task; event_getTime := simtime_add now delay;
     event_srcHost := host_getID host; event_dstHost := host_getID host |}.

Definition world_task_scheduled (task : Task) (host : Host) (delay : SimulationTime)
  (w : World) : World :=
  let event := task_event task host (worker_currentTime (w_worker w)) delay in
  world_after_push event (world_with_trace (w_trace w ++ [call_event_new event]) w).

Section SendPacketOutcome.
Context `{Platform}.

Definition send_chance (srcHost : Host) : gdouble :=
  fst (random_nextDouble (host_getRandom srcHost)).

Definition host_after_draw (srcHost : Host) : Host :=
  {| host_getID := host_getID srcHost;
     host_getRandom := snd (random_nextDouble (host_getRandom srcHost)) |}.

Definition send_reliability (w : World) (src dst : Address) : gdouble :=
  topology_reliability (manager_getTopology (w_manager w)) src dst.

Definition send_latency (w : World) (src dst : Address) : gdouble :=
  topology_latency (manager_getTopology (w_manager w)) src dst.

(** The condition of the [if] of [worker_sendPacket]. *)
Definition send_delivers (w : World) (srcHost : Host) (packet : Packet)
  (src dst : Address) : bool :=
  worker_bootstrapActive (w_worker w)
  || double_le (send_chance srcHost) (send_reliability w src dst)
  || (packet_getPayloadLength packet =? 0).

(** The calls up to the [if]. *)
Definition send_calls_before (srcHost : Host) (packet : Packet) (src dst : Address)
  : list Call :=
  [call_dns_resolveIPToAddress (packet_getSourceIP packet);
   call_dns_resolveIPToAddress (packet_getDestinationIP packet);
   call_topology_getReliability src dst;
   call_random_nextDouble (host_getID srcHost)].

Definition delivery_event (srcHost : Host) (packet : Packet) (dst : Address)
  (now delay : SimulationTime) : Event :=
  {| event_task := task_deliverPacket (packet_with_status PDS_INET_SENT packet);
     event_getTime := simtime_add now delay;
     event_srcHost := host_getID srcHost;
     event_dstHost := address_getID dst |}.

Definition world_packet_dropped (srcHost : Host) (packet : Packet) (src dst : Address)
  (w : World) : World :=
  world_with_trace
    (w_trace w ++ send_calls_before srcHost packet src dst
       ++ [call_packet_addDeliveryStatus PDS_INET_DROPPED]) w.

Definition world_path_counted (src dst : Address) (w : World) : World :=
  world_with_manager
    (manager_with_topology
       (topology_countPacket src dst (manager_getTopology (w_manager w)))
       (w_manager w)) w.


Definition world_packet_sent (srcHost : Host) (packet : Packet) (src dst : Address)
  (delay : SimulationTime) (w : World) : World :=
  let event := delivery_event srcHost packet dst (worker_currentTime (w_worker w)) delay in
  world_after_push event
    (world_with_trace
       (w_trace w ++ send_calls_before srcHost packet src dst
          ++ [call_topology_getLatency src dst;
              call_topology_incrementPathPacketCounter src dst;
              call_scheduler_getHost (address_getID dst);
              call_packet_addDeliveryStatus PDS_INET_SENT;
              call_packet_copy;
              call_event_new event])
       (world_path_counted src dst w)).

End SendPacketOutcome.

(** ** Scenario S2 of the spec: three workers on three logical processors *)

Definition world_with_worker (wk : Worker) (w : World) : World :=
  {| w_pool := w_pool w; w_worker := wk; w_manager := w_manager w;
     w_scheduler := w_scheduler w; w_trace := w_trace w |}.

(** The calling thread becomes the thread of worker [threadID], in a round
    that ends at [roundEnd]. *)
Definition on_worker (threadID roundEnd : Z) : M unit :=
  modify (fun w => world_with_worker (example_worker threadID roundEnd roundEnd false) w).

Definition world_of {A} (o : outcome A) (otherwise : World) : World :=
  match o with Returns _ w => w | Aborts w => w | Undefined => otherwise end.

Definition S2_start : World :=
  example_world (example_worker 0 0 0 false)
    (example_manager true double_one double_one) (example_scheduler ∅ true).

Definition S2_round : M unit :=
  let D := shadow_definitions in
  let P := example_platform double_zero in
  workerpool_new 3 3 ;;;
  on_worker 0 1000 ;;;
  worker_setMinEventTimeNextRound 10000 ;;; worker_setMinEventTimeNextRound 5000 ;;;
  on_worker 1 1000 ;;;
  worker_setMinEventTimeNextRound 10000 ;;; worker_setMinEventTimeNextRound 5000 ;;;
  on_worker 2 1000 ;;;
  worker_setMinEventTimeNextRound 10000 ;;; worker_setMinEventTimeNextRound 5000.

Definition S2_world : World := Eval vm_compute in world_of (S2_round S2_start) S2_start.

(** The delivery statuses added to packets, as the log has them. *)
Definition added_statuses (t : list Call) : list PacketDeliveryStatusFlags :=
  omap (fun c => match c with call_packet_addDeliveryStatus st => Some st | _ => None end) t.

(** ** Concrete sends and dispatches *)

(** A world in which host 1 (ip 101) sends to host 2 (ip 102) at time
    [now], the scheduler running. *)
Definition send_world (now : SimulationTime) (bootstrapping : bool)
  (reliability latency : gdouble) (hosts : gset Z) (accepts : bool) : World :=
  example_world (example_worker 0 now 0 bootstrapping)
    (example_manager true reliability latency) (example_scheduler hosts accepts).

(** 0.5 ms. *)
Definition double_half : gdouble := S754_finite false 4503599627370496 (-53).

(** The destination host is not known to the scheduler. *)
Definition unknown_host_world : World :=
  send_world 5 true double_one double_one {[1]} true.

(** Reliability 0.0 and a draw of 0.0. *)
Definition zero_draw_world : World :=
  send_world 5 false double_zero double_one {[1; 2]} true.

(** A latency of 0.0 ms. *)
Definition zero_latency_world : World :=
  send_world 5 true double_one double_zero {[1; 2]} true.

(** Reliability 1.0, a latency of 0.5 ms, both hosts known. *)
Definition delivering_world : World :=
  send_world 5 false double_one double_half {[1; 2]} true.

(** The scheduler rejects every event. *)
Definition rejecting_world : World :=
  send_world 5 false double_one double_half {[1; 2]} false.

(** The simulation is over. *)
Definition stopped_world : World :=
  example_world (example_worker 0 5 0 false)
    (example_manager false double_one double_one) (example_scheduler {[1; 2]} true).

(** Outside of any event: the current time is [SIMTIME_INVALID]. *)
Definition outside_event_world : World :=
  send_world (2 ^ 64 - 1) false double_one double_one {[1; 2]} true.

(** Outside of any event, the simulation over. *)
Definition stopped_outside_event_world : World :=
  example_world (example_worker 0 (2 ^ 64 - 1) 0 false)
    (example_manager false double_one double_one) (example_scheduler {[1; 2]} true).

Definition example_task : Task := task_callback 4096 0.

(** A fresh pool of two workers on which one task has been started and not
    awaited. *)
Definition in_flight_world : World :=
  Eval vm_compute in
    world_of
      ((let D := shadow_definitions in
        let P := example_platform double_zero in
        workerpool_new 2 2 ;;; workerpool_startTaskFn (Some 4096) 77) S2_start)
      S2_start.

(** * The rest of worker.c *)

(** ** The pool that workerpool_new builds *)

Section BuiltPool.
Context `{Definitions} `{Platform}.

(** The workers that the constructor puts on logical processor [i]: those
    whose id is [i] modulo the number of logical processors, in order. *)
Definition workers_of_lp (nW nL i : Z) : list Z :=
  filter (fun workerID => workerID mod nL = i) (seqZ 0 nW).

Definition built_lp (nW nL i : Z) : LogicalProcessor :=
  {| lp_cpuId := affinity_cpuOf i; lp_readyWorkers := workers_of_lp nW nL i;
     lp_doneWorkers := []; lp_idleTimerRunning := true |}.

Definition built_pool (nW nL : Z) : WorkerPool :=
  {| nWorkers := nW;
     workerBeginSems := replicate (Z.to_nat nW) 0;
     workerLogicalProcessorIdxs := (fun workerID => workerID mod nL) <$> seqZ 0 nW;
     workerNativeThreadIDs := gettid <$> seqZ 0 nW;
     finishLatch := nW;
     taskFn := None; taskData := 0; joined := false;
     logicalProcessors := built_lp nW nL <$> seqZ 0 nL;
     minEventTimes := replicate (Z.to_nat nL) SIMTIME_MAX;
     magic := true |}.

(** The affinity calls of the constructor: one per worker, in order, from
    no CPU to the CPU of its logical processor. *)
Definition built_trace (nW nL : Z) : list Call :=
  (fun workerID =>
     call_affinity_setProcessAffinity (gettid workerID)
       (affinity_cpuOf (workerID mod nL)) AFFINITY_UNINIT) <$> seqZ 0 nW.

Definition built_world (nW nL : Z) (w : World) : World :=
  world_with_trace (w_trace w ++ built_trace nW nL)
    (world_with_pool (built_pool nW nL) w).

(** The pool once [k] threads have run the head of [_worker_run]. *)
Definition starting_pool (nW nL : Z) (k : nat) : WorkerPool :=
  {| nWorkers := nW;
     workerBeginSems := replicate (Z.to_nat nW) 0;
     workerLogicalProcessorIdxs :=
       replicate k (-1) ++ replicate (Z.to_nat nW - k) 0;
     workerNativeThreadIDs :=
       (gettid <$> seqZ 0 (Z.of_nat k)) ++ replicate (Z.to_nat nW - k) 0;
     finishLatch := nW - Z.of_nat k;
     taskFn := None; taskData := 0; joined := false;
     logicalProcessors := lps_new nL;
     minEventTimes := replicate (Z.to_nat nL) SIMTIME_MAX;
     magic := true |}.

(** The pool once the first [k] workers are assigned. *)
Definition assigning_pool (nW nL : Z) (k : nat) : WorkerPool :=
  {| nWorkers := nW;
     workerBeginSems := replicate (Z.to_nat nW) 0;
     workerLogicalProcessorIdxs :=
       ((fun workerID => workerID mod nL) <$> seqZ 0 (Z.of_nat k))
       ++ replicate (Z.to_nat nW - k) (-1);
     workerNativeThreadIDs := gettid <$> seqZ 0 nW;
     finishLatch := nW;
     taskFn := None; taskData := 0; joined := false;
     logicalProcessors := built_lp (Z.of_nat k) nL <$> seqZ 0 nL;
     minEventTimes := replicate (Z.to_nat nL) SIMTIME_MAX;
     magic := true |}.

Definition assigning_world (nW nL : Z) (k : nat) (w : World) : World :=
  world_with_trace (w_trace w ++ built_trace (Z.of_nat k) nL)
    (world_with_pool (assigning_pool nW nL k) w).

(** ** The fresh pool after a dispatch *)

(** A logical processor whose first worker was woken up. *)
Definition dispatched_lp (nW nL i : Z) : LogicalProcessor :=
  {| lp_cpuId := affinity_cpuOf i;
     lp_readyWorkers := tail (workers_of_lp nW nL i);
     lp_doneWorkers := []; lp_idleTimerRunning := false |}.

(** What the dispatch loop does for logical processor [i] of a fresh
    pool: worker [i] stays on its CPU, the idle timer stops, the worker is
    woken up. *)
Definition dispatch_calls (i : Z) : list Call :=
  [call_affinity_setProcessAffinity (gettid i) (affinity_cpuOf i) (affinity_cpuOf i);
   call_lps_idleTimerStop i;
   call_sem_post i].

(** The fresh pool once the dispatch loop has done [i] logical
    processors. *)
Definition dispatching_pool (nW nL : Z) (fn : option Z) (data : Z) (i : nat)
  : WorkerPool :=
  {| nWorkers := nW;
     workerBeginSems := replicate i 1 ++ replicate (Z.to_nat nW - i) 0;
     workerLogicalProcessorIdxs := (fun workerID => workerID mod nL) <$> seqZ 0 nW;
     workerNativeThreadIDs := gettid <$> seqZ 0 nW;
     finishLatch := nW;
     taskFn := fn; taskData := data; joined := false;
     logicalProcessors :=
       (dispatched_lp nW nL <$> seqZ 0 (Z.of_nat i))
       ++ (built_lp nW nL <$> seqZ (Z.of_nat i) (nL - Z.of_nat i));
     minEventTimes := replicate (Z.to_nat nL) SIMTIME_MAX;
     magic := true |}.

Definition dispatching_world (nW nL : Z) (fn : option Z) (data : Z) (i : nat)
  (w : World) : World :=
  world_with_trace (w_trace w ++ concat (dispatch_calls <$> seqZ 0 (Z.of_nat i)))
    (world_with_pool (dispatching_pool nW nL fn data i) w).

Definition dispatched_world (nW nL : Z) (fn : option Z) (data : Z) (w : World)
  : World :=
  dispatching_world nW nL fn data (Z.to_nat nL) w.

(** The workers woken up, as the log has them. *)
Definition posted_workers (t : list Call) : list Z :=
  omap (fun c => match c with call_sem_post workerID => Some workerID | _ => None end) t.

End BuiltPool.

(** ** The offers of a round

    During a round the workers call [worker_setMinEventTimeNextRound], each
    from its own thread; in between rounds the main thread calls
    [workerpool_getGlobalNextEventTime]. *)

(** The thread of the worker [wk] offers [simtime]. *)
Definition offer (o : Worker * SimulationTime) : M unit :=
  modify (world_with_worker (fst o)) ;;; worker_setMinEventTimeNextRound (snd o).

Fixpoint offers (l : list (Worker * SimulationTime)) : M unit :=
  match l with
  | [] => ret tt
  | o :: l' => offer o ;;; offers l'
  end.

(** The offers that are not filtered out: those at or after the end of the
    round of the offering worker. *)
Definition admitted (l : list (Worker * SimulationTime)) : list SimulationTime :=
  snd <$> filter (fun o => worker_roundEndTime (fst o) <= snd o) l.

(** The worker [wk] is a worker of the pool and sits on one of its logical
    processors. *)
Definition worker_on_pool (p : WorkerPool) (wk : Worker) : Prop :=
  0 <= worker_threadID_ wk /\
  exists lpi : Z,
    workerLogicalProcessorIdxs p !! Z.to_nat (worker_threadID_ wk) = Some lpi /\
    0 <= lpi < lps_n (logicalProcessors p).

(** Three workers on the three logical processors of a fresh pool; the
    round ends at 1000.  Worker 2 offers a time inside the round. *)
Definition example_offers_world : World :=
  @built_world shadow_definitions (example_platform double_zero) 3 3 S2_start.

Definition example_offers : list (Worker * SimulationTime) :=
  [(example_worker 0 1000 1000 false, 10000);
   (example_worker 1 1000 1000 false, 5000);
   (example_worker 2 1000 1000 false, 500);
   (example_worker 0 1000 1000 false, 7000)].

(** ** What the log says about a send *)

(** The hosts whose generator was advanced, as the log has them. *)
Definition drawn_hosts (t : list Call) : list Z :=
  omap (fun c => match c with call_random_nextDouble h => Some h | _ => None end) t.

(** The paths whose packet counter was incremented, as the log has them. *)
Definition counted_paths (t : list Call) : list (Address * Address) :=
  omap (fun c => match c with
                 | call_topology_incrementPathPacketCounter s d => Some (s, d)
                 | _ => None
                 end) t.

(** The world at the [utility_panic] of [worker_sendPacket]: both
    addresses have been looked up. *)
Definition world_addresses_unresolved (packet : Packet) (w : World) : World :=
  world_with_trace
    (w_trace w ++ [call_dns_resolveIPToAddress (packet_getSourceIP packet);
                   call_dns_resolveIPToAddress (packet_getDestinationIP packet)]) w.

(** * The round protocol: worker threads and the calls that wait for them *)

(** ** The logical processors, continued *)

Definition lp_with_done (q : list Z) (lp : LogicalProcessor) : LogicalProcessor :=
  {| lp_cpuId := lp_cpuId lp; lp_readyWorkers := lp_readyWorkers lp;
     lp_doneWorkers := q; lp_idleTimerRunning := lp_idleTimerRunning lp |}.

(** Modelled from the spec: [donePush(i, workerId)] appends to the done
    queue of LP [i]. *)
Definition lps_donePush (lpi workerID : Z) : M unit :=
  let* lps := get_lps in
  let* lp := array_get lps lpi in
  let* lps' := array_set lps lpi (lp_with_done (lp_doneWorkers lp ++ [workerID]) lp) in
  set_lps lps'.

(** Modelled from the spec: [idleTimerContinue(i)], when LP [i] becomes
    idle. *)
Definition lps_idleTimerContinue (lpi : Z) : M unit :=
  let* lps := get_lps in
  let* lp := array_get lps lpi in
  let* lps' := array_set lps lpi (lp_with_idleTimer true lp) in
  set_lps lps'.

(** Modelled from the spec: [finishTask()] moves every worker id from the
    done queue of its LP back into the ready queue of the same LP, in
    order. *)
Definition lp_finishTask (lp : LogicalProcessor) : LogicalProcessor :=
  {| lp_cpuId := lp_cpuId lp;
     lp_readyWorkers := lp_readyWorkers lp ++ lp_doneWorkers lp;
     lp_doneWorkers := []; lp_idleTimerRunning := lp_idleTimerRunning lp |}.

Definition lps_finishTask : M unit :=
  let* lps := get_lps in set_lps (lp_finishTask <$> lps).

(** ** Record updates, continued *)

Definition pool_with_latch (c : Z) (p : WorkerPool) : WorkerPool :=
  {| nWorkers := nWorkers p; workerBeginSems := workerBeginSems p;
     workerLogicalProcessorIdxs := workerLogicalProcessorIdxs p;
     workerNativeThreadIDs := workerNativeThreadIDs p;
     finishLatch := c; taskFn := taskFn p; taskData := taskData p;
     joined := joined p; logicalProcessors := logicalProcessors p;
     minEventTimes := minEventTimes p; magic := magic p |}.

Definition pool_with_joined (b : bool) (p : WorkerPool) : WorkerPool :=
  {| nWorkers := nWorkers p; workerBeginSems := workerBeginSems p;
     workerLogicalProcessorIdxs := workerLogicalProcessorIdxs p;
     workerNativeThreadIDs := workerNativeThreadIDs p;
     finishLatch := finishLatch p; taskFn := taskFn p; taskData := taskData p;
     joined := b; logicalProcessors := logicalProcessors p;
     minEventTimes := minEventTimes p; magic := magic p |}.

(** ** Calls that may block

    A call that may block gives [None] in a state in which the calling
    thread cannot go on. *)
Definition Blocking (A : Type) : Type := World -> option (outcome A).

Definition blocking_of {A} (c : M A) : Blocking A := fun w => Some (c w).

Definition blocked {A} : Blocking A := fun _ => None.

Definition blocking_bind {A B} (c : Blocking A) (k : A -> Blocking B) : Blocking B :=
  fun w =>
    match c w with
    | None => None
    | Some (Returns a w') => k a w'
    | Some (Aborts w') => Some (Aborts w')
    | Some Undefined => Some Undefined
    end.

Notation "'wait*' x ':=' c 'in' k" := (blocking_bind c (fun x => k))
  (at level 10, x name, c at level 100, k at level 200).

(** [sem_wait]: blocks while the count is zero; else takes one from the
    count and returns 0, the error return being out of reach of this
    model. *)
Definition sem_wait (workerID : Z) : Blocking Z :=
  wait* pool := blocking_of (gets w_pool) in
  wait* c := blocking_of (array_get (workerBeginSems pool) workerID) in
  if 0 <? c then
    blocking_of
      (let* sems := array_set (workerBeginSems pool) workerID (c - 1) in
       modify (fun w => world_with_pool (pool_with_sems sems (w_pool w)) w) ;;;
       ret 0)
  else blocked.

(** Modelled from the spec: [await()] blocks until the count reaches
    zero. *)
Definition countdownlatch_await : Blocking unit :=
  wait* pool := blocking_of (gets w_pool) in
  if finishLatch pool =? 0 then blocking_of (ret tt) else blocked.

(** Modelled from the spec: [countDown()] decrements the count by one and
    panics when the count is zero already. *)
Definition countdownlatch_countDown : M unit :=
  let* pool := gets w_pool in
  utility_assert (0 <? finishLatch pool) ;;;
  modify (fun w => world_with_pool (pool_with_latch (finishLatch pool - 1) (w_pool w)) w).

(** [pthread_join] of the thread of worker [i]: blocks until the thread
    has returned from [_worker_run]; [returned] lists the threads that
    have.  The value returned by [_worker_run] is NULL. *)
Definition pthread_join (returned : list Z) (i : Z) : Blocking Z :=
  if bool_decide (i ∈ returned) then blocking_of (ret 0) else blocked.

(** A step of a thread of the pool: the main thread goes on in
    [_workerpool_startTaskFn], or the thread of a worker takes a turn. *)
Inductive Step :=
| step_dispatch
| step_turn (threadID : Z).

Section RoundProtocol.
Context `{Definitions} `{Platform}.

(** ** _worker_run: one turn of the loop

    The head of [_worker_run] is [_worker_run_init].  One turn of the
    [do ... while] loop runs from the return of [sem_wait] to the
    [countdownlatch_countDown]; the result is the loop condition
    [taskFn != NULL].  The task function lies outside worker.c: its call is
    logged. *)
Definition _worker_run_turn (threadID : Z) : Blocking bool :=
  (* Wait for work to do. *)
  wait* rv := sem_wait threadID in
  blocking_of
    ((if negb (rv =? 0) then utility_panic else ret tt) ;;;
     let* pool := _worker_pool in
     let taskFn_ := taskFn pool in
     (match taskFn_ with
      | Some fn => log (call_taskFn fn (taskData pool))
      | None => ret tt
      end) ;;;
     let* lpi := array_get (workerLogicalProcessorIdxs pool) threadID in
     lps_donePush lpi threadID ;;;
     let* nextWorkerID := _workerpool_getNextWorkerForLogicalProcessorIdx lpi in
     (if 0 <=? nextWorkerID then
        (* Start running the next worker. *)
        let* rv := sem_post nextWorkerID in
        if negb (rv =? 0) then utility_panic else ret tt
      else
        (* No more workers to run; lpi is now idle. *)
        lps_idleTimerContinue lpi) ;;;
     countdownlatch_countDown ;;;
     ret (bool_decide (taskFn_ <> None))).

(** The worker threads take turns in the order of [sched].  A thread whose
    turn ends with the loop condition false returns from [_worker_run];
    a thread that has returned takes no turn.  The result lists the threads
    that have returned. *)
Fixpoint run_turns (sched : list Z) (returned : list Z) : Blocking (list Z) :=
  match sched with
  | [] => blocking_of (ret returned)
  | threadID :: rest =>
      if bool_decide (threadID ∈ returned) then blocked
      else
        wait* continue := _worker_run_turn threadID in
        run_turns rest (if continue : bool then returned else returned ++ [threadID])
  end.

(** ** _workerpool_startTaskFn, pass by pass

    [_workerpool_startTaskFn] returns without waiting for the workers, and
    the workers that its loop wakes up run while the loop is still going:
    a worker woken up for the first logical processor may end its turn, and
    take a ready worker away from another logical processor, before the
    loop comes to that processor.  The call is therefore taken apart: the
    code before the loop, and one pass of the loop, from the test
    [i < lps_n(...)] to the increment of [i].  The result says where the
    main thread is afterwards: [Some i] before the test with the index
    [i], [None] after the loop. *)
Definition _workerpool_startTaskFn_enter (taskFn_ : option Z) (data : Z)
  : M (option Z) :=
  MAGIC_ASSERT ;;;
  let* pool := _worker_pool in
  if nWorkers pool =? 0 then
    (match taskFn_ with
     | Some fn => log (call_taskFn fn data)
     | None => ret tt
     end) ;;;
    ret None
  else
    (* Only supports one task at a time. *)
    utility_assert (bool_decide (taskFn pool = None)) ;;;
    modify (fun w => world_with_pool (pool_with_task taskFn_ data (w_pool w)) w) ;;;
    ret (Some 0).

Definition _workerpool_startTaskFn_iteration (i : Z) : M (option Z) :=
  let* lps := get_lps in
  if i <? lps_n lps then
    let* workerID := _workerpool_getNextWorkerForLogicalProcessorIdx i in
    if 0 <=? workerID then
      lps_idleTimerStop i ;;;
      let* rv := sem_post workerID in
      (if negb (rv =? 0) then utility_panic else ret tt) ;;;
      ret (Some (i + 1))
    else ret None   (* There's no more work to do. *)
  else ret None.

(** The threads take steps in the order of [sched]: the main thread makes
    one pass of the loop of [_workerpool_startTaskFn] (nothing, once it has
    left the loop), or a worker thread makes one turn of the loop of
    [_worker_run].  A pass and a turn touch the queues in
    [lps_popWorkerToRunOn] and [lps_donePush], which the logical processors
    serialize, and besides only the rows of one worker and the idle timer
    of one logical processor, so that each is taken as one step.  [main]
    says where the main thread is, [returned] lists the worker threads that
    have returned from [_worker_run]; a schedule that gives the turn to a
    worker thread that is blocked or has returned has no run. *)
Fixpoint run_steps (sched : list Step) (main : option Z) (returned : list Z)
  : Blocking (option Z * list Z) :=
  match sched with
  | [] => blocking_of (ret (main, returned))
  | step_dispatch :: rest =>
      match main with
      | Some i =>
          wait* main' := blocking_of (_workerpool_startTaskFn_iteration i) in
          run_steps rest main' returned
      | None => run_steps rest None returned
      end
  | step_turn threadID :: rest =>
      if bool_decide (threadID ∈ returned) then blocked
      else
        wait* continue := _worker_run_turn threadID in
        run_steps rest main (if continue : bool then returned else returned ++ [threadID])
  end.

(** ** workerpool_awaitTaskFn *)

Definition workerpool_awaitTaskFn : Blocking unit :=
  wait* _ := blocking_of MAGIC_ASSERT in
  wait* pool := blocking_of _worker_pool in
  if nWorkers pool =? 0 then blocking_of (ret tt)
  else
    wait* _ := countdownlatch_await in
    blocking_of
      (countdownlatch_reset (nWorkers pool) ;;;
       modify (fun w => world_with_pool (pool_with_task None 0 (w_pool w)) w) ;;;
       lps_finishTask).

(** ** workerpool_joinAll

    The call waits for the worker threads in [workerpool_awaitTaskFn], after
    it has signalled them: [workerpool_joinAll_signal] is the call up to
    there, [workerpool_joinAll_wait] the call from there on. *)
Definition workerpool_joinAll_signal : M unit :=
  MAGIC_ASSERT ;;;
  let* pool := _worker_pool in
  utility_assert (negb (joined pool)) ;;;
  (* Signal threads to exit. *)
  _workerpool_startTaskFn None 0.

(** The [for] loop of the joins, [n] iterations left from index [i]. *)
Fixpoint workerpool_joinAll_joins (returned : list Z) (n : nat) (i : Z) : Blocking unit :=
  match n with
  | O => blocking_of (ret tt)
  | S n' =>
      wait* rv := pthread_join returned i in
      wait* _ := blocking_of (if negb (rv =? 0) then utility_panic else ret tt) in
      workerpool_joinAll_joins returned n' (i + 1)
  end.


(** ** workerpool_free

    A cleared pointer is NULL: the array behind it is gone, and so is every
    element of it. *)
Definition workerpool_free : M unit :=
  MAGIC_ASSERT ;;;
  let* pool := _worker_pool in
  utility_assert (joined pool) ;;;
  modify (world_with_pool
    {| nWorkers := nWorkers pool;
       workerBeginSems := [];
       workerLogicalProcessorIdxs := [];
       workerNativeThreadIDs := [];
       finishLatch := 0;
       taskFn := taskFn pool; taskData := taskData pool;
       joined := joined pool;
       logicalProcessors := [];
       minEventTimes := [];
       magic := false |}).

(** ** workerpool_getThread, workerpool_getNWorkers, worker_getAffinity *)

(** The handle of the thread of worker [i] is [i]: [workerThreads] is an
    array of [nWorkers] handles. *)
Definition workerpool_getThread (threadId : Z) : M Z :=
  MAGIC_ASSERT ;;;
  let* pool := _worker_pool in
  utility_assert (threadId <? nWorkers pool) ;;;
  array_get (seqZ 0 (nWorkers pool)) threadId.

Definition workerpool_getNWorkers : M Z :=
  MAGIC_ASSERT ;;;
  let* pool := _worker_pool in
  ret (nWorkers pool).

Definition worker_getAffinity : M Z :=
  let* pool := _worker_pool in
  let* tid := worker_threadID in
  let* lpi := array_get (workerLogicalProcessorIdxs pool) tid in
  lps_cpuId lpi.

End RoundProtocol.

(** ** The states of the pool *)

Definition ready_workers (p : WorkerPool) : list Z :=
  concat (lp_readyWorkers <$> logicalProcessors p).

Definition done_workers (p : WorkerPool) : list Z :=
  concat (lp_doneWorkers <$> logicalProcessors p).

(** The worker [k] sits on the logical processor [i]. *)
Definition worker_on_lp (p : WorkerPool) (k : Z) (i : Z) : Prop :=
  workerLogicalProcessorIdxs p !! Z.to_nat k = Some i.

(** The workers [running] have been woken up and have not finished their
    turn; each other worker waits in a ready queue or in a done queue. *)
Record pool_state (running : list Z) (p : WorkerPool) : Prop := {
  ps_magic : magic p = true;
  ps_lps : 1 <= lps_n (logicalProcessors p) <= nWorkers p;
  ps_sems_length : Z.of_nat (length (workerBeginSems p)) = nWorkers p;
  ps_idxs_length : Z.of_nat (length (workerLogicalProcessorIdxs p)) = nWorkers p;
  ps_tids_length : Z.of_nat (length (workerNativeThreadIDs p)) = nWorkers p;
  (* the semaphore of a running worker is at 1, the others at 0 *)
  ps_sems : forall k, 0 <= k < nWorkers p ->
    workerBeginSems p !! Z.to_nat k = Some (if bool_decide (k ∈ running) then 1 else 0);
  (* worker conservation *)
  ps_conserved :
    ready_workers p ++ running ++ done_workers p ≡ₚ seqZ 0 (nWorkers p);
  (* every worker sits on a logical processor of the pool *)
  ps_idxs : forall k, 0 <= k < nWorkers p ->
    exists i, worker_on_lp p k i /\ 0 <= i < lps_n (logicalProcessors p);
  (* the exclusive-LP invariant *)
  ps_exclusive : forall k k' i,
    k ∈ running -> k' ∈ running -> worker_on_lp p k i -> worker_on_lp p k' i -> k = k';
  (* a worker waits in a queue of the logical processor it sits on *)
  ps_home : forall (i : nat) lp k,
    logicalProcessors p !! i = Some lp ->
    k ∈ lp_readyWorkers lp ++ lp_doneWorkers lp ->
    worker_on_lp p k (Z.of_nat i);
}.

(** The latch counts the workers that have not finished their turn, and
    the idle timer of a logical processor is stopped exactly while a worker
    runs on it. *)
Record pool_round (running : list Z) (p : WorkerPool) : Prop := {
  pr_state : pool_state running p;
  pr_latch : finishLatch p = nWorkers p - Z.of_nat (length (done_workers p));
  pr_timers : forall (i : nat) lp,
    logicalProcessors p !! i = Some lp ->
    (lp_idleTimerRunning lp = false <->
     exists k, k ∈ running /\ worker_on_lp p k (Z.of_nat i));
}.

(** The pool during the round of the task [fn]: as long as a worker is
    ready, every logical processor has a running worker. *)
Record pool_in_round (fn : option Z) (data : Z) (running : list Z) (p : WorkerPool)
  : Prop := {
  ir_round : pool_round running p;
  ir_taskFn : taskFn p = fn;
  ir_taskData : taskData p = data;
  ir_busy : ready_workers p = [] \/
            forall i, 0 <= i < lps_n (logicalProcessors p) ->
              exists k, k ∈ running /\ worker_on_lp p k i;
}.

(** The pool in between rounds: no task, every worker ready. *)
Record pool_idle (p : WorkerPool) : Prop := {
  id_round : pool_round [] p;
  id_taskFn : taskFn p = None;
  id_done : done_workers p = [];
}.

(** The logical processors that the loop of [_workerpool_startTaskFn] has
    been through: those below [i] when the main thread is before the test
    with the index [i], all of them when it has left the loop. *)
Definition dispatch_reached (main : option Z) (p : WorkerPool) : Z :=
  match main with
  | Some i => i
  | None => lps_n (logicalProcessors p)
  end.

(** The pool while the task [fn] is being dispatched and run: workers run
    only on logical processors that the loop has been through, and as long
    as a worker is ready each of these has a running worker. *)
Record pool_dispatching (fn : option Z) (data : Z) (main : option Z)
  (running : list Z) (p : WorkerPool) : Prop := {
  di_round : pool_round running p;
  di_taskFn : taskFn p = fn;
  di_taskData : taskData p = data;
  di_main : 0 <= dispatch_reached main p <= lps_n (logicalProcessors p);
  di_below : forall k i,
    k ∈ running -> worker_on_lp p k i -> i < dispatch_reached main p;
  di_busy : ready_workers p = [] \/
            forall i, 0 <= i < dispatch_reached main p ->
              exists k, k ∈ running /\ worker_on_lp p k i;
}.

(** A computation that, when it returns, leaves the number of logical
    processors as it is. *)
Definition keeps_lps_n {A} (c : M A) : Prop :=
  forall w a w', c w = Returns a w' ->
    lps_n (logicalProcessors (w_pool w')) = lps_n (logicalProcessors (w_pool w)).

(** The turns and the passes of a schedule. *)
Definition turns_of (sched : list Step) : list Z :=
  omap (fun s => match s with step_turn k => Some k | step_dispatch => None end) sched.

Definition passes_of (sched : list Step) : nat :=
  length (omap (fun s => match s with step_dispatch => Some tt | step_turn _ => None end)
            sched).

Definition valid_step (nW : Z) (s : Step) : Prop :=
  match s with
  | step_dispatch => True
  | step_turn k => 0 <= k < nW
  end.

(** The logical processors of which the loop of [_workerpool_startTaskFn]
    has stopped the idle timer, as the log has them: the loop does so
    exactly when it wakes up a worker. *)
Definition idle_stops (t : list Call) : list Z :=
  omap (fun c => match c with call_lps_idleTimerStop lpi => Some lpi | _ => None end) t.

(** What a call on the pool leaves alone: the thread-local worker, the
    manager, the scheduler, and in the pool the number of workers, the
    native thread ids, the [minEventTimes] and the [joined] flag. *)
Definition same_frame (w w' : World) : Prop :=
  w_worker w' = w_worker w /\ w_manager w' = w_manager w /\
  w_scheduler w' = w_scheduler w /\
  nWorkers (w_pool w') = nWorkers (w_pool w) /\
  workerNativeThreadIDs (w_pool w') = workerNativeThreadIDs (w_pool w) /\
  minEventTimes (w_pool w') = minEventTimes (w_pool w) /\
  joined (w_pool w') = joined (w_pool w) /\
  lps_n (logicalProcessors (w_pool w')) = lps_n (logicalProcessors (w_pool w)).

(** The calls of the task function, as the log has them. *)
Definition task_calls (t : list Call) : list (Z * Z) :=
  omap (fun c => match c with call_taskFn fn data => Some (fn, data) | _ => None end) t.

(** ** Concrete rounds: three workers on two logical processors *)

(** The pool as [workerpool_new] leaves it. *)
Definition example_idle_world : World :=
  @built_world shadow_definitions (example_platform double_zero) 3 2 S2_start.

(** The pool after the dispatch of the task 4096 with the data 7. *)
Definition example_round_world : World :=
  @dispatched_world shadow_definitions (example_platform double_zero) 3 2
    (Some 4096) 7 example_idle_world.

Definition world_of_blocking {A} (o : option (outcome A)) (otherwise : World) : World :=
  match o with
  | Some (Returns _ w) => w
  | Some (Aborts w) => w
  | _ => otherwise
  end.

(** The pool once the workers 0, 1 and 2 have had their turn, in this
    order. *)
Definition example_round_done_world : World :=
  Eval vm_compute in
    world_of_blocking (@run_turns shadow_definitions [0; 1; 2] [] example_round_world)
      example_round_world.

(** Two workers on two logical processors, as [workerpool_new] leaves
    them. *)
Definition example_pair_world : World :=
  @built_world shadow_definitions (example_platform double_zero) 2 2 S2_start.

(** The idle pool, marked as joined. *)
Definition example_joined_world : World :=
  world_with_pool (pool_with_joined true (w_pool example_idle_world)) example_idle_world.

(** * Events, hosts and counters *)

From stdpp Require Import strings.
Open Scope Z_scope.

(** ** The rest of the thread-local Worker and of the collaborators

    Modelled from the spec: the thread-local Worker also holds the
    currently active host (or none) and the time of the last executed
    event; a host offers [getUpstreamRouter(ip)], [boot()], [shutdown()],
    [freeAllApplications()], [continueExecutionTimer()],
    [stopExecutionTimer()] and the release of a reference.  They lie outside
    worker.c: a call is logged, together with the clock and the active host
    of the calling thread at the time of the call. *)

Inductive HostCall :=
| call_host_continueExecutionTimer (host : Z)
| call_host_boot (host : Z)
| call_host_stopExecutionTimer (host : Z)
| call_host_freeAllApplications (host : Z)
| call_host_shutdown (host : Z)
| call_host_unref (host : Z)
| call_task_execute (fn data host : Z)
| call_event_unref (event : Event)
| call_router_enqueue (host ip : Z) (packet : Packet)
| call_manager_add_alloc_object_counts
| call_manager_add_dealloc_object_counts
| call_manager_add_syscall_counts.

Record Logged := {
  logged_clock : SimulationTime;
  logged_activeHost : option Z;
  logged_call : HostCall;
}.

(** The upstream router of a host for an ip is known by the pair; it
    holds the packets enqueued. *)
Record Sim := {
  sim_world : World;
  sim_activeHost : option Z;
  sim_lastEventTime : SimulationTime;
  sim_routers : gmap (Z * Z) (list Packet);
  sim_log : list Logged;
}.

Definition worker_with_currentTime (t : SimulationTime) (wk : Worker) : Worker :=
  {| worker_threadID_ := worker_threadID_ wk; worker_currentTime := t;
     worker_roundEndTime := worker_roundEndTime wk;
     worker_bootstrapActive := worker_bootstrapActive wk |}.

Definition sim_with_world (w : World) (s : Sim) : Sim :=
  {| sim_world := w; sim_activeHost := sim_activeHost s;
     sim_lastEventTime := sim_lastEventTime s; sim_routers := sim_routers s;
     sim_log := sim_log s |}.

Definition sim_with_activeHost (h : option Z) (s : Sim) : Sim :=
  {| sim_world := sim_world s; sim_activeHost := h;
     sim_lastEventTime := sim_lastEventTime s; sim_routers := sim_routers s;
     sim_log := sim_log s |}.

Definition sim_with_lastEventTime (t : SimulationTime) (s : Sim) : Sim :=
  {| sim_world := sim_world s; sim_activeHost := sim_activeHost s;
     sim_lastEventTime := t; sim_routers := sim_routers s;
     sim_log := sim_log s |}.

Definition sim_with_routers (r : gmap (Z * Z) (list Packet)) (s : Sim) : Sim :=
  {| sim_world := sim_world s; sim_activeHost := sim_activeHost s;
     sim_lastEventTime := sim_lastEventTime s; sim_routers := r;
     sim_log := sim_log s |}.

Definition sim_with_log (l : list Logged) (s : Sim) : Sim :=
  {| sim_world := sim_world s; sim_activeHost := sim_activeHost s;
     sim_lastEventTime := sim_lastEventTime s; sim_routers := sim_routers s;
     sim_log := l |}.

Definition sim_clock (s : Sim) : SimulationTime :=
  worker_currentTime (w_worker (sim_world s)).

(** ** The monad of C computations, over [Sim] *)

Inductive sim_outcome (A : Type) : Type :=
| SimReturns (a : A) (s : Sim)
| SimAborts (s : Sim)
| SimUndefined.
Arguments SimReturns {A} a s.
Arguments SimAborts {A} s.
Arguments SimUndefined {A}.

Definition SM (A : Type) : Type := Sim -> sim_outcome A.

Definition sim_ret {A} (a : A) : SM A := fun s => SimReturns a s.

Definition sim_bind {A B} (c : SM A) (k : A -> SM B) : SM B :=
  fun s =>
    match c s with
    | SimReturns a s' => k a s'
    | SimAborts s' => SimAborts s'
    | SimUndefined => SimUndefined
    end.

Notation "'do*' x ':=' c 'in' k" := (sim_bind c (fun x => k))
  (at level 10, x name, c at level 100, k at level 200).
Notation "c ';;>' k" := (sim_bind c (fun _ : unit => k))
  (at level 100, k at level 200, right associativity).

Definition sim_gets {A} (f : Sim -> A) : SM A := fun s => SimReturns (f s) s.
Definition sim_modify (f : Sim -> Sim) : SM unit := fun s => SimReturns tt (f s).

(** A computation on the [World], run on the world of the [Sim]. *)
Definition of_world {A} (c : M A) : SM A :=
  fun s =>
    match c (sim_world s) with
    | Returns a w => SimReturns a (sim_with_world w s)
    | Aborts w => SimAborts (sim_with_world w s)
    | Undefined => SimUndefined
    end.

Definition host_call (c : HostCall) : SM unit :=
  sim_modify (fun s =>
    sim_with_log
      (sim_log s ++ [{| logged_clock := sim_clock s;
                        logged_activeHost := sim_activeHost s;
                        logged_call := c |}]) s).

Definition worker_setCurrentTime (t : SimulationTime) : SM unit :=
  sim_modify (fun s =>
    sim_with_world
      (world_with_worker (worker_with_currentTime t (w_worker (sim_world s)))
         (sim_world s)) s).

Definition worker_setActiveHost (host : option Z) : SM unit :=
  sim_modify (sim_with_activeHost host).

Definition _worker_setLastEventTime (t : SimulationTime) : SM unit :=
  sim_modify (sim_with_lastEventTime t).

(** Modelled from the spec: [getUpstreamRouter(ip)] of a host; NULL when
    the host has no router for the ip. *)
Definition host_getUpstreamRouter (host ip : Z) : SM (option (Z * Z)) :=
  sim_gets (fun s => match sim_routers s !! (host, ip) with
                     | Some _ => Some (host, ip)
                     | None => None
                     end).

Definition router_enqueue (router : Z * Z) (host : Z) (packet : Packet) : SM unit :=
  sim_modify (fun s =>
    sim_with_routers
      (<[router := default [] (sim_routers s !! router) ++ [packet]]> (sim_routers s)) s) ;;>
  host_call (call_router_enqueue host (snd router) packet).

Section EventsAndHosts.
Context `{Definitions}.

(** ** _worker_runDeliverPacketTask *)

Definition _worker_runDeliverPacketTask (host : Z) (packet : Packet) : SM unit :=
  let ip := packet_getDestinationIP packet in
  do* router := host_getUpstreamRouter host ip in
  match router with
  | Some router => router_enqueue router host packet
  | None => SimAborts   (* utility_assert(router != NULL) *)
  end.

(** Modelled from the spec: executing an event runs its task on the
    destination host of the event, between [setActiveHost] of that host and
    [clearActiveHost], which "must bracket every event's execution"
    (section 4.5) and which [worker_runEvent] leaves to the event; event.c
    and task.c lie outside worker.c, and what they do besides is not
    modelled. *)
Definition event_execute (event : Event) : SM unit :=
  let host := event_dstHost event in
  worker_setActiveHost (Some host) ;;>
  (match event_task event with
   | task_callback fn data => host_call (call_task_execute fn data host)
   | task_deliverPacket packetCopy => _worker_runDeliverPacketTask host packetCopy
   end) ;;>
  worker_setActiveHost None.

(** ** worker_runEvent *)

Definition worker_runEvent (event : Event) : SM unit :=
  (* update cache, reset clocks *)
  worker_setCurrentTime (event_getTime event) ;;>
  (* process the local event *)
  event_execute event ;;>
  host_call (call_event_unref event) ;;>
  (* update times *)
  do* now := of_world worker_getCurrentTime in
  _worker_setLastEventTime now ;;>
  worker_setCurrentTime SIMTIME_INVALID.

(** ** worker_bootHosts and worker_finish *)

(** [g_queue_foreach(hosts, f, NULL)]. *)
Fixpoint g_queue_foreach (hosts : list Z) (f : Z -> SM unit) : SM unit :=
  match hosts with
  | [] => sim_ret tt
  | host :: rest => f host ;;> g_queue_foreach rest f
  end.

Definition _worker_bootHost (host : Z) : SM unit :=
  worker_setActiveHost (Some host) ;;>
  worker_setCurrentTime 0 ;;>
  host_call (call_host_continueExecutionTimer host) ;;>
  host_call (call_host_boot host) ;;>
  host_call (call_host_stopExecutionTimer host) ;;>
  worker_setCurrentTime SIMTIME_INVALID ;;>
  worker_setActiveHost None.

Definition worker_bootHosts (hosts : list Z) : SM unit :=
  g_queue_foreach hosts _worker_bootHost.

Definition _worker_freeHostProcesses (host : Z) : SM unit :=
  worker_setActiveHost (Some host) ;;>
  host_call (call_host_continueExecutionTimer host) ;;>
  host_call (call_host_freeAllApplications host) ;;>
  host_call (call_host_stopExecutionTimer host) ;;>
  worker_setActiveHost None.

Definition _worker_shutdownHost (host : Z) : SM unit :=
  worker_setActiveHost (Some host) ;;>
  host_call (call_host_shutdown host) ;;>
  worker_setActiveHost None ;;>
  host_call (call_host_unref host).

(** [hosts] is [None] for a NULL queue. *)
Definition worker_finish (hosts : option (list Z)) : SM unit :=
  (match hosts with
   | Some hosts =>
       g_queue_foreach hosts _worker_freeHostProcesses ;;>
       g_queue_foreach hosts _worker_shutdownHost
   | None => sim_ret tt
   end) ;;>
  (* cleanup is all done, send counters to manager *)
  host_call call_manager_add_alloc_object_counts ;;>
  host_call call_manager_add_dealloc_object_counts ;;>
  host_call call_manager_add_syscall_counts.

End EventsAndHosts.

(** The calls of the log, without their context. *)
Definition logged_calls (l : list Logged) : list HostCall := logged_call <$> l.

(** What [_worker_bootHost] logs for a host. *)
Definition boot_log (host : Z) : list Logged :=
  [{| logged_clock := 0; logged_activeHost := Some host;
      logged_call := call_host_continueExecutionTimer host |};
   {| logged_clock := 0; logged_activeHost := Some host;
      logged_call := call_host_boot host |};
   {| logged_clock := 0; logged_activeHost := Some host;
      logged_call := call_host_stopExecutionTimer host |}].

(** What [_worker_freeHostProcesses] and [_worker_shutdownHost] log for a
    host, at the clock [t]. *)
Definition free_log (t : SimulationTime) (host : Z) : list Logged :=
  [{| logged_clock := t; logged_activeHost := Some host;
      logged_call := call_host_continueExecutionTimer host |};
   {| logged_clock := t; logged_activeHost := Some host;
      logged_call := call_host_freeAllApplications host |};
   {| logged_clock := t; logged_activeHost := Some host;
      logged_call := call_host_stopExecutionTimer host |}].

Definition shutdown_log (t : SimulationTime) (host : Z) : list Logged :=
  [{| logged_clock := t; logged_activeHost := Some host;
      logged_call := call_host_shutdown host |};
   {| logged_clock := t; logged_activeHost := None;
      logged_call := call_host_unref host |}].

Definition counters_log (t : SimulationTime) (active : option Z) : list Logged :=
  [{| logged_clock := t; logged_activeHost := active;
      logged_call := call_manager_add_alloc_object_counts |};
   {| logged_clock := t; logged_activeHost := active;
      logged_call := call_manager_add_dealloc_object_counts |};
   {| logged_clock := t; logged_activeHost := active;
      logged_call := call_manager_add_syscall_counts |}].

(** The world with the clock of the calling thread at [t]. *)
Definition world_at_time (t : SimulationTime) (w : World) : World :=
  world_with_worker (worker_with_currentTime t (w_worker w)) w.

(** ** The object and syscall counters

    Modelled from the spec: a Counter maps a name to a count;
    [counter_add_value] adds to the count of a name and
    [counter_add_counter] adds the counts of another counter.  The
    thread-local counters are those of the live Worker bound to the calling
    thread, NULL when there is none; the manager holds the shared
    counters. *)
Definition Counter := gmap string Z.

Definition counter_get (c : Counter) (name : string) : Z := default 0 (c !! name).

Definition counter_add_value (c : Counter) (name : string) (v : Z) : Counter :=
  <[name := counter_get c name + v]> c.

Definition counter_add_counter (c other : Counter) : Counter :=
  union_with (fun a b => Some (a + b)) c other.

Record Counters := {
  _use_object_counters : bool;
  _worker_objectAllocCounter : option Counter;
  _worker_objectDeallocCounter : option Counter;
  _worker_syscallCounter : option Counter;
  manager_object_alloc_counter_global : Counter;
  manager_object_dealloc_counter_global : Counter;
  manager_syscall_counts_global : Counter;
}.

Definition __worker_increment_object_alloc_counter (object_name : string)
  (c : Counters) : Counters :=
  (* If disabled, we never create the counter (and never send it to the manager). *)
  if negb (_use_object_counters c) then c
  else
    match _worker_objectAllocCounter c with
    | Some counter =>
        {| _use_object_counters := _use_object_counters c;
           _worker_objectAllocCounter := Some (counter_add_value counter object_name 1);
           _worker_objectDeallocCounter := _worker_objectDeallocCounter c;
           _worker_syscallCounter := _worker_syscallCounter c;
           manager_object_alloc_counter_global := manager_object_alloc_counter_global c;
           manager_object_dealloc_counter_global := manager_object_dealloc_counter_global c;
           manager_syscall_counts_global := manager_syscall_counts_global c |}
    | None =>
        (* No live worker; fall back to the shared manager counter. *)
        {| _use_object_counters := _use_object_counters c;
           _worker_objectAllocCounter := None;
           _worker_objectDeallocCounter := _worker_objectDeallocCounter c;
           _worker_syscallCounter := _worker_syscallCounter c;
           manager_object_alloc_counter_global :=
             counter_add_value (manager_object_alloc_counter_global c) object_name 1;
           manager_object_dealloc_counter_global := manager_object_dealloc_counter_global c;
           manager_syscall_counts_global := manager_syscall_counts_global c |}
    end.

Definition __worker_increment_object_dealloc_counter (object_name : string)
  (c : Counters) : Counters :=
  if negb (_use_object_counters c) then c
  else
    match _worker_objectDeallocCounter c with
    | Some counter =>
        {| _use_object_counters := _use_object_counters c;
           _worker_objectAllocCounter := _worker_objectAllocCounter c;
           _worker_objectDeallocCounter := Some (counter_add_value counter object_name 1);
           _worker_syscallCounter := _worker_syscallCounter c;
           manager_object_alloc_counter_global := manager_object_alloc_counter_global c;
           manager_object_dealloc_counter_global := manager_object_dealloc_counter_global c;
           manager_syscall_counts_global := manager_syscall_counts_global c |}
    | None =>
        {| _use_object_counters := _use_object_counters c;
           _worker_objectAllocCounter := _worker_objectAllocCounter c;
           _worker_objectDeallocCounter := None;
           _worker_syscallCounter := _worker_syscallCounter c;
           manager_object_alloc_counter_global := manager_object_alloc_counter_global c;
           manager_object_dealloc_counter_global :=
             counter_add_value (manager_object_dealloc_counter_global c) object_name 1;
           manager_syscall_counts_global := manager_syscall_counts_global c |}
    end.

Definition worker_add_syscall_counts (syscall_counts : Counter) (c : Counters)
  : Counters :=
  match _worker_syscallCounter c with
  | Some counter =>
      {| _use_object_counters := _use_object_counters c;
         _worker_objectAllocCounter := _worker_objectAllocCounter c;
         _worker_objectDeallocCounter := _worker_objectDeallocCounter c;
         _worker_syscallCounter := Some (counter_add_counter counter syscall_counts);
         manager_object_alloc_counter_global := manager_object_alloc_counter_global c;
         manager_object_dealloc_counter_global := manager_object_dealloc_counter_global c;
         manager_syscall_counts_global := manager_syscall_counts_global c |}
  | None =>
      (* No live worker; fall back to the shared manager counter. *)
      {| _use_object_counters := _use_object_counters c;
         _worker_objectAllocCounter := _worker_objectAllocCounter c;
         _worker_objectDeallocCounter := _worker_objectDeallocCounter c;
         _worker_syscallCounter := None;
         manager_object_alloc_counter_global := manager_object_alloc_counter_global c;
         manager_object_dealloc_counter_global := manager_object_dealloc_counter_global c;
         manager_syscall_counts_global :=
           counter_add_counter (manager_syscall_counts_global c) syscall_counts |}
  end.

(** The count of a name, in the thread-local counter and in the shared
    one together. *)
Definition local_count (c : option Counter) (name : string) : Z :=
  match c with Some counter => counter_get counter name | None => 0 end.

Definition alloc_count (c : Counters) (name : string) : Z :=
  local_count (_worker_objectAllocCounter c) name
  + counter_get (manager_object_alloc_counter_global c) name.

Definition dealloc_count (c : Counters) (name : string) : Z :=
  local_count (_worker_objectDeallocCounter c) name
  + counter_get (manager_object_dealloc_counter_global c) name.

Definition syscall_count (c : Counters) (name : string) : Z :=
  local_count (_worker_syscallCounter c) name
  + counter_get (manager_syscall_counts_global c) name.

(** The allocations and deallocations of a run, in order. *)
Inductive CounterOp :=
| op_alloc (object_name : string)
| op_dealloc (object_name : string).

#[global] Instance CounterOp_eq_dec : EqDecision CounterOp.
Proof. solve_decision. Defined.

Definition counter_op (op : CounterOp) (c : Counters) : Counters :=
  match op with
  | op_alloc name => __worker_increment_object_alloc_counter name c
  | op_dealloc name => __worker_increment_object_dealloc_counter name c
  end.

Definition counter_ops (ops : list CounterOp) (c : Counters) : Counters :=
  foldl (fun c op => counter_op op c) c ops.

Definition count_allocs (name : string) (ops : list CounterOp) : Z :=
  Z.of_nat (length (filter (fun op => op = op_alloc name) ops)).

Definition count_deallocs (name : string) (ops : list CounterOp) : Z :=
  Z.of_nat (length (filter (fun op => op = op_dealloc name) ops)).

(** ** A concrete delivery *)

(** Host 2 has an upstream router for its ip 102, which holds nothing
    yet; the world is the one in which host 1 sends to host 2. *)
Definition example_sim : Sim :=
  {| sim_world := delivering_world; sim_activeHost := None;
     sim_lastEventTime := 0;
     sim_routers := {[ (2, 102) := [] ]};
     sim_log := [] |}.

Definition example_delivery_event : Event :=
  {| event_task := task_deliverPacket (packet_with_status PDS_INET_SENT (example_packet 10));
     event_getTime := 500005; event_srcHost := 1; event_dstHost := 2 |}.

(** A live worker with empty counters, object counting enabled. *)
Definition example_counters : Counters :=
  {| _use_object_counters := true;
     _worker_objectAllocCounter := Some ∅;
     _worker_objectDeallocCounter := Some ∅;
     _worker_syscallCounter := Some ∅;
     manager_object_alloc_counter_global := ∅;
     manager_object_dealloc_counter_global := ∅;
     manager_syscall_counts_global := ∅ |}.

Definition example_counter_ops : list CounterOp :=
  [op_alloc "Packet"; op_alloc "Event"; op_alloc "Packet"; op_dealloc "Packet"]%string.

(** * Proofs *)

(** ** Binary64 rounding *)

Section DoubleFacts.

Lemma digits2_pos_bounds (p : positive) :
  2 ^ (Zpos (digits2_pos p) - 1) <= Zpos p < 2 ^ Zpos (digits2_pos p).
Proof.
  induction p as [p IH|p IH|]; cbn [digits2_pos].
  - rewrite Pos2Z.inj_succ.
    replace (Z.succ (Zpos (digits2_pos p)) - 1) with (Z.succ (Zpos (digits2_pos p) - 1)) by lia.
    rewrite !Z.pow_succ_r by lia. lia.
  - rewrite Pos2Z.inj_succ.
    replace (Z.succ (Zpos (digits2_pos p)) - 1) with (Z.succ (Zpos (digits2_pos p) - 1)) by lia.
    rewrite !Z.pow_succ_r by lia. lia.
  - simpl. lia.
Qed.

Lemma Zdigits2_bounds (m : Z) :
  0 < m -> 2 ^ (Zdigits2 m - 1) <= m < 2 ^ Zdigits2 m.
Proof. destruct m as [|p|p]; try lia. intros _. apply digits2_pos_bounds. Qed.

Lemma Zdigits2_pos (m : Z) : 0 < m -> 1 <= Zdigits2 m.
Proof. destruct m as [|p|p]; simpl; lia. Qed.

Lemma Zdigits2_le (m k : Z) : 0 < m -> 0 <= k -> m < 2 ^ k -> Zdigits2 m <= k.
Proof.
  intros Hm Hk Hlt.
  pose proof (Zdigits2_bounds m Hm) as [Hlo _].
  pose proof (Zdigits2_pos m Hm).
  destruct (Z_lt_le_dec k (Zdigits2 m)) as [Hgt|]; [|lia].
  assert (2 ^ k <= 2 ^ (Zdigits2 m - 1)) by (apply Z.pow_le_mono_r; lia).
  lia.
Qed.

Lemma Zdigits2_ge (m k : Z) : 0 <= k -> 2 ^ k <= m -> k + 1 <= Zdigits2 m.
Proof.
  intros Hk Hle.
  assert (Hm : 0 < m) by (pose proof (Z.pow_pos_nonneg 2 k); lia).
  pose proof (Zdigits2_bounds m Hm) as [_ Hhi].
  pose proof (Zdigits2_pos m Hm).
  destruct (Z_lt_le_dec (Zdigits2 m) (k + 1)) as [Hlt|]; [|lia].
  assert (2 ^ Zdigits2 m <= 2 ^ k) by (apply Z.pow_le_mono_r; lia).
  lia.
Qed.

Lemma shr_1_m (mrs : shr_record) :
  0 <= shr_m mrs -> shr_m (shr_1 mrs) = shr_m mrs / 2.
Proof.
  destruct mrs as [m r s]. simpl. intros Hm.
  rewrite <- Z.div2_div.
  destruct m as [|[p|p|]|p]; try reflexivity; lia.
Qed.

Lemma iter_pos_shr_1_m (p : positive) :
  forall mrs, 0 <= shr_m mrs ->
    shr_m (SpecFloat.iter_pos shr_1 p mrs) = shr_m mrs / 2 ^ Zpos p.
Proof.
  induction p as [p IH|p IH|]; intros mrs Hm; cbn [SpecFloat.iter_pos].
  - assert (H1 : 0 <= shr_m (shr_1 mrs))
      by (rewrite shr_1_m by lia; apply Z.div_pos; lia).
    assert (H2 : 0 <= shr_m (SpecFloat.iter_pos shr_1 p (shr_1 mrs)))
      by (rewrite IH by lia; apply Z.div_pos; lia).
    rewrite IH, IH, shr_1_m by lia.
    rewrite !Z.div_div by lia.
    f_equal. rewrite Pos2Z.inj_xI.
    replace (2 * Zpos p + 1) with (1 + Zpos p + Zpos p) by lia.
    rewrite !Z.pow_add_r by lia. change (2 ^ 1) with 2. ring.
  - assert (H2 : 0 <= shr_m (SpecFloat.iter_pos shr_1 p mrs))
      by (rewrite IH by lia; apply Z.div_pos; lia).
    rewrite IH, IH by lia.
    rewrite !Z.div_div by lia.
    f_equal.
    replace (Zpos p~0) with (Zpos p + Zpos p) by lia.
    rewrite Z.pow_add_r by lia. reflexivity.
  - rewrite shr_1_m by lia. reflexivity.
Qed.

Lemma shr_spec (mrs : shr_record) (e n : Z) :
  0 <= shr_m mrs ->
  shr_m (fst (shr mrs e n)) = shr_m mrs / 2 ^ Z.max 0 n /\
  snd (shr mrs e n) = e + Z.max 0 n.
Proof.
  intros Hm. destruct n as [|p|p]; cbn [shr fst snd].
  - change (Z.max 0 0) with 0. rewrite Z.div_1_r. lia.
  - rewrite iter_pos_shr_1_m by exact Hm.
    replace (Z.max 0 (Zpos p)) with (Zpos p) by lia. lia.
  - replace (Z.max 0 (Zneg p)) with 0 by lia. rewrite Z.div_1_r. lia.
Qed.

Lemma shr_record_of_loc_m (m : Z) (l : location) : shr_m (shr_record_of_loc m l) = m.
Proof. destruct l as [|[]]; reflexivity. Qed.

Lemma shr_fexp_spec (m e : Z) (l : location) :
  0 <= m ->
  shr_m (fst (shr_fexp 53 1024 m e l)) = m / 2 ^ double_shift m e /\
  snd (shr_fexp 53 1024 m e l) = e + double_shift m e.
Proof.
  intros Hm. unfold shr_fexp.
  pose proof (shr_spec (shr_record_of_loc m l) e
                (fexp 53 1024 (Zdigits2 m + e) - e)) as Hs.
  rewrite shr_record_of_loc_m in Hs. exact (Hs Hm).
Qed.

Lemma round_nearest_even_bounds (m : Z) (l : location) :
  m <= round_nearest_even m l <= m + 1.
Proof. destruct l as [|[]]; simpl; try destruct (Z.even m); lia. Qed.

Lemma div_pow2_bounds (m d n : Z) :
  2 ^ (d - 1) <= m < 2 ^ d -> 0 <= n <= d - 1 -> d - 53 <= n ->
  1 <= m / 2 ^ n < 2 ^ 53.
Proof.
  intros [Hlo Hhi] Hn Hd.
  assert (Hpos : 0 < 2 ^ n) by (apply Z.pow_pos_nonneg; lia).
  split.
  - apply Z.div_le_lower_bound; [exact Hpos|].
    assert (2 ^ n <= 2 ^ (d - 1)) by (apply Z.pow_le_mono_r; lia). lia.
  - apply Z.div_lt_upper_bound; [exact Hpos|].
    rewrite <- Z.pow_add_r by lia.
    assert (2 ^ d <= 2 ^ (n + 53)) by (apply Z.pow_le_mono_r; lia). lia.
Qed.

(** Rounding a positive mantissa that does not sit too far below the least
    exponent: the result is a positive number or +/- infinity, never zero. *)
Lemma binary_round_aux_positive (sx : bool) (mx ex : Z) :
  0 < mx -> -1074 - ex <= Zdigits2 mx - 1 ->
  exists m e : Z,
    0 < m < 2 ^ 53 /\
    e <= ex + double_shift mx ex + 1 /\
    binary_round_aux 53 1024 sx mx ex loc_Exact
    = if e <=? 971 then S754_finite sx (Z.to_pos m) e else S754_infinity sx.
Proof.
  intros Hmx Hex.
  pose proof (Zdigits2_bounds mx Hmx) as Hd.
  pose proof (Zdigits2_pos mx Hmx) as Hd1.
  unfold binary_round_aux.
  destruct (shr_fexp_spec mx ex loc_Exact ltac:(lia)) as [Hm1 He1].
  destruct (shr_fexp 53 1024 mx ex loc_Exact) as [mrs1 e1]. cbn [fst snd] in Hm1, He1.
  set (n1 := double_shift mx ex) in *.
  assert (Hn1 : 0 <= n1 <= Zdigits2 mx - 1 /\ Zdigits2 mx - 53 <= n1 /\ -1074 <= ex + n1)
    by (unfold n1, double_shift; lia).
  pose proof (div_pow2_bounds mx (Zdigits2 mx) n1 Hd ltac:(lia) ltac:(lia)) as Hb1.
  rewrite <- Hm1 in Hb1.
  pose proof (round_nearest_even_bounds (shr_m mrs1) (loc_of_shr_record mrs1)) as Hr.
  set (m2 := round_nearest_even (shr_m mrs1) (loc_of_shr_record mrs1)) in *.
  assert (Hm2 : 0 < m2) by lia.
  destruct (shr_fexp_spec m2 e1 loc_Exact ltac:(lia)) as [Hm3 He3].
  destruct (shr_fexp 53 1024 m2 e1 loc_Exact) as [mrs3 e3]. cbn [fst snd] in Hm3, He3.
  pose proof (Zdigits2_bounds m2 Hm2) as Hd2.
  pose proof (Zdigits2_pos m2 Hm2) as Hd21.
  assert (Hd2' : Zdigits2 m2 <= 54).
  { apply Zdigits2_le; [lia|lia|]. change (2 ^ 54) with (2 * 2 ^ 53). lia. }
  set (n2 := double_shift m2 e1) in *.
  assert (Hn2 : 0 <= n2 <= Zdigits2 m2 - 1 /\ Zdigits2 m2 - 53 <= n2 /\ n2 <= 1)
    by (unfold n2, double_shift; lia).
  pose proof (div_pow2_bounds m2 (Zdigits2 m2) n2 Hd2 ltac:(lia) ltac:(lia)) as Hb3.
  rewrite <- Hm3 in Hb3.
  exists (shr_m mrs3), e3.
  split; [lia|]. split; [lia|].
  destruct (shr_m mrs3) as [|p|p]; try lia.
  reflexivity.
Qed.

End DoubleFacts.


Lemma world_with_same_minEventTimes w :
  with_minEventTimes (minEventTimes (w_pool w)) w = w.
Proof. destruct w as [[] ? ? ? ?]; reflexivity. Qed.

Lemma with_minEventTimes_twice v v' w :
  with_minEventTimes v (with_minEventTimes v' w) = with_minEventTimes v w.
Proof. reflexivity. Qed.

Lemma bind_Returns {A B} (c : M A) (k : A -> M B) w a w' :
  c w = Returns a w' -> bind c k w = k a w'.
Proof. unfold bind; intros ->; reflexivity. Qed.

Lemma in_bounds_of_nat {A} (l : list A) (i : nat) :
  (i < length l)%nat -> in_bounds l (Z.of_nat i) = true.
Proof.
  intros Hi; unfold in_bounds.
  apply andb_true_iff; split; [apply Z.leb_le | apply Z.ltb_lt]; lia.
Qed.

Lemma array_get_ok {A} (l : list A) (i : nat) (a : A) w :
  l !! i = Some a -> array_get l (Z.of_nat i) w = Returns a w.
Proof.
  intros Hl; unfold array_get.
  rewrite in_bounds_of_nat by (eapply lookup_lt_Some; eassumption).
  rewrite Nat2Z.id, Hl; reflexivity.
Qed.

Lemma array_set_ok {A} (l : list A) (i : nat) (a : A) w :
  (i < length l)%nat -> array_set l (Z.of_nat i) a w = Returns (<[i := a]> l) w.
Proof.
  intros Hi; unfold array_set.
  rewrite in_bounds_of_nat by assumption.
  rewrite Nat2Z.id; reflexivity.
Qed.

Lemma get_minEventTime_ok (i : nat) t w :
  minEventTimes (w_pool w) !! i = Some t ->
  get_minEventTime (Z.of_nat i) w = Returns t w.
Proof.
  intros Hl; unfold get_minEventTime.
  erewrite bind_Returns by reflexivity.
  apply array_get_ok; assumption.
Qed.

Lemma set_minEventTime_ok (i : nat) t w :
  (i < length (minEventTimes (w_pool w)))%nat ->
  set_minEventTime (Z.of_nat i) t w
  = Returns tt (with_minEventTimes (<[i := t]> (minEventTimes (w_pool w))) w).
Proof.
  intros Hi; unfold set_minEventTime.
  erewrite bind_Returns by reflexivity.
  erewrite bind_Returns by (apply array_set_ok; assumption).
  reflexivity.
Qed.

Lemma MAGIC_ASSERT_ok w : magic (w_pool w) = true -> MAGIC_ASSERT w = Returns tt w.
Proof. intros Hm; unfold MAGIC_ASSERT, bind, gets; simpl; rewrite Hm; reflexivity. Qed.

Lemma MAGIC_ASSERT_fails w : magic (w_pool w) = false -> MAGIC_ASSERT w = Aborts w.
Proof. intros Hm; unfold MAGIC_ASSERT, bind, gets; simpl; rewrite Hm; reflexivity. Qed.

(** ** The scan of workerpool_getGlobalNextEventTime *)

Section GlobalNextEventTime.
Context `{Definitions}.

Lemma step_min (t m : Z) : (if t <? m then t else m) = Z.min m t.
Proof. destruct (Z.ltb_spec t m); lia. Qed.

(** The loop from index [i] on folds [min] over the slots not yet visited
    and leaves [SIMTIME_MAX] in each of them. *)
Lemma getGlobalNextEventTime_loop_spec (n : nat) :
  forall (i : nat) (m : SimulationTime) (w : World),
    (i + n)%nat = length (minEventTimes (w_pool w)) ->
    getGlobalNextEventTime_loop n (Z.of_nat i) m w
    = Returns (fold_left Z.min (drop i (minEventTimes (w_pool w))) m)
        (with_minEventTimes
           (take i (minEventTimes (w_pool w)) ++ replicate n SIMTIME_MAX) w).
Proof.
  induction n as [|n IH]; intros i m w Hlen.
  - simpl. unfold ret.
    rewrite drop_ge, take_ge, app_nil_r by lia.
    rewrite world_with_same_minEventTimes. reflexivity.
  - set (slots := minEventTimes (w_pool w)) in *.
    assert (Hi : (i < length slots)%nat) by lia.
    destruct (lookup_lt_is_Some_2 slots i Hi) as [t Ht].
    cbn [getGlobalNextEventTime_loop].
    erewrite bind_Returns by (apply get_minEventTime_ok; exact Ht).
    erewrite bind_Returns by (apply set_minEventTime_ok; exact Hi).
    fold slots.
    replace (Z.of_nat i + 1) with (Z.of_nat (S i)) by lia.
    rewrite IH by (simpl; rewrite length_insert; fold slots; lia).
    simpl minEventTimes. rewrite with_minEventTimes_twice.
    rewrite step_min.
    rewrite drop_insert_lt by lia.
    rewrite (drop_S slots t i Ht). simpl fold_left.
    f_equal. f_equal.
    rewrite (take_S_r _ _ SIMTIME_MAX)
      by (apply list_lookup_insert_eq; exact Hi).
    rewrite take_insert_ge by lia.
    rewrite <- app_assoc. reflexivity.
Qed.

Lemma fold_min_le (l : list Z) : forall m x, x ∈ (m :: l) -> fold_left Z.min l m <= x.
Proof.
  induction l as [|a l IH]; intros m x Hx; simpl.
  - apply list_elem_of_singleton in Hx. lia.
  - apply elem_of_cons in Hx as [->|Hx].
    + etransitivity; [apply IH; left | lia].
    + apply elem_of_cons in Hx as [->|Hx].
      * etransitivity; [apply IH; left | lia].
      * apply IH. right. exact Hx.
Qed.

Lemma fold_min_in (l : list Z) : forall m, fold_left Z.min l m ∈ (m :: l).
Proof.
  induction l as [|a l IH]; intros m; simpl.
  - left.
  - specialize (IH (Z.min m a)).
    apply elem_of_cons in IH as [Heq|Hin].
    + rewrite Heq. destruct (Z.min_spec m a) as [[_ ->]|[_ ->]].
      * left.
      * right; left.
    + right; right; exact Hin.
Qed.

(** Starting from [SIMTIME_MAX], the fold is a slot as soon as there is a
    slot and no slot is above [SIMTIME_MAX]. *)
Lemma fold_min_from_max_in (l : list Z) :
  l <> [] -> Forall (fun t => t <= SIMTIME_MAX) l ->
  fold_left Z.min l SIMTIME_MAX ∈ l.
Proof.
  intros Hne Hall.
  pose proof (fold_min_in l SIMTIME_MAX) as Hin.
  apply elem_of_cons in Hin as [Heq|Hin]; [|exact Hin].
  destruct l as [|a l]; [congruence|].
  assert (Hle : fold_left Z.min (a :: l) SIMTIME_MAX <= a)
    by (apply fold_min_le; right; left).
  pose proof (Forall_inv Hall) as Ha. simpl in Ha.
  assert (a = SIMTIME_MAX) by lia. subst a.
  rewrite Heq. left.
Qed.

Lemma fold_min_replicate (n : nat) (m : Z) : fold_left Z.min (replicate n m) m = m.
Proof. induction n as [|n IH]; simpl; [|rewrite Z.min_id]; auto. Qed.

Lemma workerpool_getGlobalNextEventTime_spec w :
  magic (w_pool w) = true ->
  Z.of_nat (length (minEventTimes (w_pool w))) = lps_n (logicalProcessors (w_pool w)) ->
  workerpool_getGlobalNextEventTime w
  = Returns (fold_left Z.min (minEventTimes (w_pool w)) SIMTIME_MAX)
      (with_minEventTimes
         (replicate (length (minEventTimes (w_pool w))) SIMTIME_MAX) w).
Proof.
  intros Hmagic Hlen. unfold workerpool_getGlobalNextEventTime.
  erewrite bind_Returns by (apply MAGIC_ASSERT_ok; exact Hmagic).
  erewrite bind_Returns by reflexivity.
  rewrite <- Hlen, Nat2Z.id.
  exact (getGlobalNextEventTime_loop_spec _ 0%nat SIMTIME_MAX w eq_refl).
Qed.

End GlobalNextEventTime.

(** ** worker_setMinEventTimeNextRound *)

Section MinEventTimeNextRound.
Context `{Definitions}.

Lemma worker_setMinEventTimeNextRound_filtered w t :
  t < worker_roundEndTime (w_worker w) ->
  worker_setMinEventTimeNextRound t w = Returns tt w.
Proof.
  intros Hlt. unfold worker_setMinEventTimeNextRound.
  erewrite bind_Returns by reflexivity.
  apply Z.ltb_lt in Hlt. rewrite Hlt. reflexivity.
Qed.

Lemma worker_setMinEventTimeNextRound_offered w t lpi cur :
  worker_roundEndTime (w_worker w) <= t ->
  worker_ok w lpi ->
  minEventTimes (w_pool w) !! lpi = Some cur ->
  worker_setMinEventTimeNextRound t w
  = Returns tt (with_minEventTimes (<[lpi := Z.min cur t]> (minEventTimes (w_pool w))) w).
Proof.
  intros Hge (Htid & Hidx & Hlpi) Hcur. unfold worker_setMinEventTimeNextRound.
  erewrite bind_Returns by reflexivity.
  apply Z.ltb_ge in Hge. rewrite Hge.
  erewrite bind_Returns by reflexivity.
  erewrite bind_Returns by reflexivity.
  rewrite <- (Z2Nat.id (worker_threadID_ (w_worker w))) by exact Htid.
  erewrite bind_Returns by (apply array_get_ok; exact Hidx).
  erewrite bind_Returns by (apply get_minEventTime_ok; exact Hcur).
  destruct (Z.ltb_spec t cur) as [Hlt|Hle].
  - rewrite set_minEventTime_ok by exact Hlpi.
    rewrite Z.min_r by lia. reflexivity.
  - rewrite Z.min_l by lia.
    rewrite list_insert_id by exact Hcur.
    rewrite world_with_same_minEventTimes. reflexivity.
Qed.

End MinEventTimeNextRound.

(** ** workerpool_new builds a well-formed pool *)

Section Construction.
Context `{Definitions} `{Platform}.

Lemma array_get_in_range {A} (l : list A) (i : Z) w :
  0 <= i < Z.of_nat (length l) ->
  exists a, l !! Z.to_nat i = Some a /\ array_get l i w = Returns a w.
Proof.
  intros Hi.
  destruct (lookup_lt_is_Some_2 l (Z.to_nat i) ltac:(lia)) as [a Ha].
  exists a. split; [exact Ha|].
  rewrite <- (Z2Nat.id i) by lia. apply array_get_ok. exact Ha.
Qed.

Lemma array_set_in_range {A} (l : list A) (i : Z) (a : A) w :
  0 <= i < Z.of_nat (length l) ->
  array_set l i a w = Returns (<[Z.to_nat i := a]> l) w.
Proof.
  intros Hi. rewrite <- (Z2Nat.id i) at 1 by lia. apply array_set_ok. lia.
Qed.

Lemma workerpool_new_initTimes_spec (n : nat) :
  forall (i : nat) (w : World),
    (i + n)%nat = length (minEventTimes (w_pool w)) ->
    workerpool_new_initTimes n (Z.of_nat i) w
    = Returns tt
        (with_minEventTimes
           (take i (minEventTimes (w_pool w)) ++ replicate n SIMTIME_MAX) w).
Proof.
  induction n as [|n IH]; intros i w Hlen.
  - simpl. unfold ret.
    rewrite take_ge, app_nil_r by lia.
    rewrite world_with_same_minEventTimes. reflexivity.
  - set (slots := minEventTimes (w_pool w)) in *.
    assert (Hi : (i < length slots)%nat) by lia.
    cbn [workerpool_new_initTimes].
    erewrite bind_Returns by (apply set_minEventTime_ok; exact Hi).
    fold slots.
    replace (Z.of_nat i + 1) with (Z.of_nat (S i)) by lia.
    rewrite IH by (simpl; rewrite length_insert; fold slots; lia).
    simpl minEventTimes. rewrite with_minEventTimes_twice.
    f_equal. f_equal.
    rewrite (take_S_r _ _ SIMTIME_MAX)
      by (apply list_lookup_insert_eq; exact Hi).
    rewrite take_insert_ge by lia.
    rewrite <- app_assoc. reflexivity.
Qed.

Lemma _worker_run_init_shape (nW nL threadID : Z) (w : World) :
  pool_shape nW nL (w_pool w) -> 0 < nL ->
  0 <= threadID < nW -> 0 < finishLatch (w_pool w) ->
  exists w',
    _worker_run_init threadID w = Returns tt w' /\
    pool_shape nW nL (w_pool w') /\
    finishLatch (w_pool w') = finishLatch (w_pool w) - 1.
Proof.
  intros (Hmagic & HnW & Hfn & Hsems & Hidxs & Htids & Hlps & Hslots & Hall)
    HnL Htid Hlatch.
  unfold _worker_run_init, _worker_pool.
  erewrite bind_Returns by reflexivity.
  erewrite bind_Returns by (apply array_set_in_range; lia).
  erewrite bind_Returns by (apply array_set_in_range; lia).
  erewrite bind_Returns by (apply array_set_in_range; lia).
  unfold utility_assert.
  replace (0 <? finishLatch (w_pool w)) with true by (symmetry; apply Z.ltb_lt; lia).
  erewrite bind_Returns by reflexivity.
  eexists. split; [reflexivity|]. cbn.
  split; [|reflexivity].
  unfold pool_shape; cbn. rewrite !length_insert.
  repeat (split; [assumption|]).
  apply Forall_insert; [assumption | lia].
Qed.

Lemma workerpool_new_createThreads_shape (nW nL : Z) (n : nat) :
  forall (threadID : Z) (w : World),
    pool_shape nW nL (w_pool w) -> 0 < nL ->
    0 <= threadID -> threadID + Z.of_nat n <= nW ->
    Z.of_nat n <= finishLatch (w_pool w) ->
    exists w',
      workerpool_new_createThreads n threadID w = Returns tt w' /\
      pool_shape nW nL (w_pool w') /\
      finishLatch (w_pool w') = finishLatch (w_pool w) - Z.of_nat n.
Proof.
  induction n as [|n IH]; intros threadID w Hshape HnL Hlo Hhi Hlatch.
  - exists w. split; [reflexivity|]. split; [assumption|]. lia.
  - destruct (_worker_run_init_shape nW nL threadID w Hshape HnL ltac:(lia) ltac:(lia))
      as (w1 & Hrun1 & Hshape1 & Hlatch1).
    destruct (IH (threadID + 1) w1 Hshape1 HnL ltac:(lia) ltac:(lia) ltac:(lia))
      as (w2 & Hrun2 & Hshape2 & Hlatch2).
    exists w2. cbn [workerpool_new_createThreads].
    erewrite bind_Returns by exact Hrun1.
    split; [exact Hrun2|]. split; [exact Hshape2|]. lia.
Qed.

Lemma lps_cpuId_in_range (lpi : Z) (w : World) :
  0 <= lpi < lps_n (logicalProcessors (w_pool w)) ->
  exists cpu, lps_cpuId lpi w = Returns cpu w.
Proof.
  intros Hi. unfold lps_cpuId, get_lps.
  erewrite bind_Returns by reflexivity.
  destruct (array_get_in_range (logicalProcessors (w_pool w)) lpi w Hi)
    as (lp & _ & Hget).
  erewrite bind_Returns by exact Hget.
  eexists. reflexivity.
Qed.

Lemma lps_readyPush_shape (nW nL lpi workerID : Z) (w : World) :
  pool_shape nW nL (w_pool w) -> 0 <= lpi < nL ->
  exists w',
    lps_readyPush lpi workerID w = Returns tt w' /\
    pool_shape nW nL (w_pool w').
Proof.
  intros (Hmagic & HnW & Hfn & Hsems & Hidxs & Htids & Hlps & Hslots & Hall) Hlpi.
  unfold lps_readyPush, get_lps, set_lps.
  erewrite bind_Returns by reflexivity.
  destruct (array_get_in_range (logicalProcessors (w_pool w)) lpi w
              ltac:(unfold lps_n in Hlps; lia)) as (lp & _ & Hget).
  erewrite bind_Returns by exact Hget.
  erewrite bind_Returns
    by (apply array_set_in_range; unfold lps_n in Hlps; lia).
  eexists. split; [reflexivity|].
  unfold pool_shape, lps_n; cbn. rewrite length_insert.
  repeat (split; [assumption|]). assumption.
Qed.

Lemma _workerpool_setLogicalProcessorIdx_shape (nW nL workerID lpi : Z) (w : World) :
  pool_shape nW nL (w_pool w) -> 0 <= workerID < nW -> 0 <= lpi < nL ->
  exists w',
    _workerpool_setLogicalProcessorIdx workerID lpi w = Returns tt w' /\
    pool_shape nW nL (w_pool w').
Proof.
  intros Hshape Hworker Hlpi.
  pose proof Hshape
    as (Hmagic & HnW & Hfn & Hsems & Hidxs & Htids & Hlps & Hslots & Hall).
  unfold _workerpool_setLogicalProcessorIdx, get_lps, _worker_pool.
  erewrite bind_Returns by (apply MAGIC_ASSERT_ok; exact Hmagic).
  erewrite bind_Returns by reflexivity.
  unfold utility_assert.
  replace (lpi <? lps_n (logicalProcessors (w_pool w))) with true
    by (symmetry; apply Z.ltb_lt; lia).
  erewrite bind_Returns by reflexivity.
  replace (0 <=? lpi) with true by (symmetry; apply Z.leb_le; lia).
  erewrite bind_Returns by reflexivity.
  erewrite bind_Returns by reflexivity.
  destruct (array_get_in_range (workerLogicalProcessorIdxs (w_pool w)) workerID w
              ltac:(lia)) as (oldIdx & Hold & Hget).
  erewrite bind_Returns by exact Hget.
  assert (Holdlt : oldIdx < nL) by (eapply (Forall_lookup_1 _ _ _ _ Hall); exact Hold).
  assert (HoldCpu : exists cpu,
             (if 0 <=? oldIdx then lps_cpuId oldIdx else ret AFFINITY_UNINIT) w
             = Returns cpu w).
  { destruct (Z.leb_spec 0 oldIdx).
    - apply lps_cpuId_in_range. lia.
    - eexists. reflexivity. }
  destruct HoldCpu as (oldCpu & HoldCpu).
  erewrite bind_Returns by exact HoldCpu.
  erewrite bind_Returns by (apply array_set_in_range; lia).
  erewrite bind_Returns by reflexivity.
  match goal with
  | |- context [bind (lps_cpuId lpi) _ ?w1] =>
      destruct (lps_cpuId_in_range lpi w1 ltac:(cbn; lia)) as (newCpu & HnewCpu)
  end.
  erewrite bind_Returns by exact HnewCpu.
  match goal with
  | |- context [bind (array_get (workerNativeThreadIDs (w_pool w)) workerID) _ ?w1] =>
      destruct (array_get_in_range (workerNativeThreadIDs (w_pool w)) workerID w1
                  ltac:(lia)) as (tid & _ & Htid)
  end.
  erewrite bind_Returns by exact Htid.
  eexists. split; [reflexivity|].
  unfold pool_shape; cbn. rewrite length_insert.
  repeat (split; [assumption|]).
  apply Forall_insert; [assumption | lia].
Qed.

Lemma workerpool_new_assign_shape (nW nL : Z) (n : nat) :
  forall (workerID : Z) (w : World),
    pool_shape nW nL (w_pool w) -> 0 < nL ->
    0 <= workerID -> workerID + Z.of_nat n <= nW ->
    exists w',
      workerpool_new_assign n workerID nL w = Returns tt w' /\
      pool_shape nW nL (w_pool w').
Proof.
  induction n as [|n IH]; intros workerID w Hshape HnL Hlo Hhi.
  - exists w. split; [reflexivity | assumption].
  - assert (Hlpi : 0 <= Z.rem workerID nL < nL) by (apply Z.rem_bound_pos; lia).
    destruct (lps_readyPush_shape nW nL _ workerID w Hshape Hlpi)
      as (w1 & Hrun1 & Hshape1).
    destruct (_workerpool_setLogicalProcessorIdx_shape nW nL workerID _ w1
                Hshape1 ltac:(lia) Hlpi) as (w2 & Hrun2 & Hshape2).
    destruct (IH (workerID + 1) w2 Hshape2 HnL ltac:(lia) ltac:(lia))
      as (w3 & Hrun3 & Hshape3).
    exists w3. cbn [workerpool_new_assign].
    erewrite bind_Returns by exact Hrun1.
    erewrite bind_Returns by exact Hrun2.
    split; [exact Hrun3 | exact Hshape3].
Qed.

Lemma pool_shape_ok (nW nL : Z) (p : WorkerPool) :
  1 <= nL -> pool_shape nW nL p -> pool_ok p.
Proof.
  intros HnL (Hmagic & _ & _ & _ & _ & _ & Hlps & Hslots & _).
  unfold pool_ok. rewrite Hslots, Hlps, length_replicate.
  split; [exact Hmagic|]. split; [exact HnL|]. split; [lia|].
  apply Forall_replicate. lia.
Qed.

(** [workerpool_new] returns, and the pool it leaves is well-formed, with
    [min(nParallel, nWorkers)] logical processors, every slot of
    [minEventTimes] at [SIMTIME_MAX] and no task in flight. *)
Lemma workerpool_new_pool_ok (nWorkers_ nParallel : Z) (w : World) :
  1 <= nWorkers_ -> 1 <= nParallel ->
  exists w',
    workerpool_new nWorkers_ nParallel w = Returns tt w' /\
    pool_ok (w_pool w') /\
    nWorkers (w_pool w') = nWorkers_ /\
    lps_n (logicalProcessors (w_pool w')) = Z.min nParallel nWorkers_ /\
    minEventTimes (w_pool w')
    = replicate (Z.to_nat (Z.min nParallel nWorkers_)) SIMTIME_MAX /\
    taskFn (w_pool w') = None.
Proof.
  intros HnW HnP.
  set (nL := Z.min nParallel nWorkers_).
  assert (HnL : 1 <= nL) by (unfold nL; lia).
  unfold workerpool_new, utility_assert. fold nL.
  replace (1 <=? nParallel) with true by (symmetry; apply Z.leb_le; lia).
  replace (1 <=? nWorkers_) with true by (symmetry; apply Z.leb_le; lia).
  erewrite bind_Returns by reflexivity.
  erewrite bind_Returns by reflexivity.
  erewrite bind_Returns by reflexivity.
  match goal with
  | |- context [bind (workerpool_new_initTimes _ 0) _ ?w0] => set (w0' := w0)
  end.
  pose proof (workerpool_new_initTimes_spec (Z.to_nat nL) 0%nat w0') as Hinit.
  change (Z.of_nat 0) with 0 in Hinit.
  erewrite bind_Returns by (apply Hinit; cbn; rewrite length_replicate; reflexivity).
  clear Hinit.
  match goal with
  | |- context [bind (workerpool_new_createThreads _ 0) _ ?w1] => set (w1' := w1)
  end.
  assert (Hshape1 : pool_shape nWorkers_ nL (w_pool w1')).
  { unfold pool_shape, lps_n; cbn. unfold lps_new.
    rewrite !length_replicate, length_map, length_seqZ.
    repeat (split; [reflexivity || lia|]).
    apply Forall_replicate. lia. }
  destruct (workerpool_new_createThreads_shape nWorkers_ nL (Z.to_nat nWorkers_)
              0 w1' Hshape1 ltac:(lia) ltac:(lia) ltac:(lia) ltac:(cbn; lia))
    as (w2 & Hrun2 & Hshape2 & _).
  erewrite bind_Returns by exact Hrun2.
  unfold countdownlatch_reset.
  erewrite bind_Returns by reflexivity.
  match goal with
  | |- context [workerpool_new_assign _ 0 nL ?w3] => set (w3' := w3)
  end.
  assert (Hshape3 : pool_shape nWorkers_ nL (w_pool w3')).
  { destruct Hshape2 as (? & ? & ? & ? & ? & ? & ? & ? & ?).
    unfold pool_shape; cbn. repeat (split; [assumption|]). assumption. }
  destruct (workerpool_new_assign_shape nWorkers_ nL (Z.to_nat nWorkers_) 0 w3'
              Hshape3 ltac:(lia) ltac:(lia) ltac:(lia)) as (w4 & Hrun4 & Hshape4).
  exists w4. split; [exact Hrun4|].
  split; [exact (pool_shape_ok _ _ _ HnL Hshape4)|].
  destruct Hshape4 as (_ & HnW4 & Hfn4 & _ & _ & _ & Hlps4 & Hslots4 & _).
  repeat split; assumption.
Qed.

End Construction.

(** The two writers of [minEventTimes] keep the pool well-formed. *)
Section InvariantKept.
Context `{Definitions}.

Lemma workerpool_getGlobalNextEventTime_keeps_pool_ok (w : World) :
  pool_ok (w_pool w) ->
  exists t w',
    workerpool_getGlobalNextEventTime w = Returns t w' /\ pool_ok (w_pool w').
Proof.
  intros (Hmagic & Hpos & Hlen & Hall).
  eexists. eexists. split.
  - apply workerpool_getGlobalNextEventTime_spec; assumption.
  - unfold pool_ok; cbn. rewrite length_replicate.
    repeat (split; [assumption|]).
    apply Forall_replicate. lia.
Qed.

Lemma worker_setMinEventTimeNextRound_keeps_pool_ok (w : World) (t : SimulationTime)
  (lpi : nat) :
  pool_ok (w_pool w) -> worker_ok w lpi ->
  exists w',
    worker_setMinEventTimeNextRound t w = Returns tt w' /\ pool_ok (w_pool w').
Proof.
  intros Hok Hworker.
  destruct (Z.lt_ge_cases t (worker_roundEndTime (w_worker w))) as [Hlt|Hge].
  - exists w. split; [|exact Hok].
    apply worker_setMinEventTimeNextRound_filtered. exact Hlt.
  - pose proof Hworker as (_ & _ & Hlpi).
    destruct (lookup_lt_is_Some_2 _ _ Hlpi) as [cur Hcur].
    eexists. split.
    + apply (worker_setMinEventTimeNextRound_offered w t lpi cur Hge Hworker Hcur).
    + destruct Hok as (Hmagic & Hpos & Hlen & Hall).
      unfold pool_ok; cbn. rewrite length_insert.
      repeat (split; [assumption|]).
      apply Forall_insert; [assumption|].
      pose proof (Forall_lookup_1 _ _ _ _ Hall Hcur) as Hle. simpl in Hle. lia.
Qed.

End InvariantKept.

(** * The claims about the minimum event times *)

Section ClaimsMinEventTimes.
Context `{Definitions}.

(** C1. On a well-formed pool, [workerpool_getGlobalNextEventTime] returns a
    time [t] that is the minimum of the slots [minEventTimes[0..L)]: [t] is
    one of the slots and no slot is below it.  The call changes nothing but
    [minEventTimes], in which every slot [i < L] then holds [SIMTIME_MAX];
    a second call right after returns [SIMTIME_MAX]. *)
Theorem C1_getGlobalNextEventTime_min_then_reset (w : World) :
  pool_ok (w_pool w) ->
  exists (t : SimulationTime) (w' : World),
    workerpool_getGlobalNextEventTime w = Returns t w' /\
    t ∈ minEventTimes (w_pool w) /\
    (forall x, x ∈ minEventTimes (w_pool w) -> t <= x) /\
    w' = with_minEventTimes
           (replicate (length (minEventTimes (w_pool w))) SIMTIME_MAX) w /\
    (forall i, 0 <= i < lps_n (logicalProcessors (w_pool w')) ->
       minEventTimes (w_pool w') !! Z.to_nat i = Some SIMTIME_MAX) /\
    workerpool_getGlobalNextEventTime w' = Returns SIMTIME_MAX w'.
Proof.
  intros (Hmagic & Hpos & Hlen & Hall).
  set (slots := minEventTimes (w_pool w)) in *.
  exists (fold_left Z.min slots SIMTIME_MAX),
         (with_minEventTimes (replicate (length slots) SIMTIME_MAX) w).
  split; [apply workerpool_getGlobalNextEventTime_spec; assumption|].
  split.
  { apply fold_min_from_max_in; [|exact Hall].
    intros Hnil. rewrite Hnil in Hlen. simpl in Hlen. lia. }
  split.
  { intros x Hx. apply fold_min_le. right. exact Hx. }
  split; [reflexivity|].
  split.
  { intros i Hi. simpl. apply lookup_replicate_2.
    simpl in Hi. fold slots in Hlen. lia. }
  rewrite workerpool_getGlobalNextEventTime_spec.
  - simpl minEventTimes. rewrite length_replicate, fold_min_replicate.
    rewrite with_minEventTimes_twice. reflexivity.
  - exact Hmagic.
  - simpl. rewrite length_replicate. exact Hlen.
Qed.

(** C2. [worker_setMinEventTimeNextRound t] leaves the world, and so the
    array [minEventTimes], as it is when [t < roundEndTime], so that the
    next [workerpool_getGlobalNextEventTime] gives what it would have given
    without the call.  Otherwise the call returns, and in the array
    [minEventTimes] of the pool it leaves the slot [i] of the logical
    processor of the calling worker is [min(minEventTimes[i], t)] and every
    other slot is as it was; the array has the length it had and the rest
    of the world is as it was. *)
Theorem C2_setMinEventTimeNextRound_round_filter (w : World) (t : SimulationTime) :
  (t < worker_roundEndTime (w_worker w) ->
     worker_setMinEventTimeNextRound t w = Returns tt w /\
     (worker_setMinEventTimeNextRound t ;;; workerpool_getGlobalNextEventTime) w
     = workerpool_getGlobalNextEventTime w) /\
  (worker_roundEndTime (w_worker w) <= t ->
     forall (i : nat) (cur : SimulationTime),
       worker_ok w i ->
       minEventTimes (w_pool w) !! i = Some cur ->
       exists w' : World,
         worker_setMinEventTimeNextRound t w = Returns tt w' /\
         length (minEventTimes (w_pool w')) = length (minEventTimes (w_pool w)) /\
         minEventTimes (w_pool w') !! i = Some (Z.min cur t) /\
         (forall j, j <> i ->
            minEventTimes (w_pool w') !! j = minEventTimes (w_pool w) !! j) /\
         w' = with_minEventTimes (minEventTimes (w_pool w')) w).
Proof.
  split.
  - intros Hlt.
    pose proof (worker_setMinEventTimeNextRound_filtered w t Hlt) as Hrun.
    split; [exact Hrun|].
    unfold bind at 1. rewrite Hrun. reflexivity.
  - intros Hge i cur Hok Hcur.
    exists (with_minEventTimes (<[i := Z.min cur t]> (minEventTimes (w_pool w))) w).
    split; [apply worker_setMinEventTimeNextRound_offered; assumption|].
    cbn [with_minEventTimes world_with_pool w_pool pool_with_minEventTimes minEventTimes].
    split; [apply length_insert|].
    split.
    { apply list_lookup_insert_eq. eapply lookup_lt_Some; exact Hcur. }
    split.
    { intros j Hj. apply list_lookup_insert_ne. congruence. }
    reflexivity.
Qed.

End ClaimsMinEventTimes.

(** Scenario S2 of the spec, run on the model. *)
Example scenario_S2 :
  minEventTimes (w_pool S2_world) = [5000; 5000; 5000] /\
  (let D := shadow_definitions in
   (let* first := workerpool_getGlobalNextEventTime in
    workerpool_getGlobalNextEventTime) S2_world
   = Returns (2 ^ 64 - 2)
       (with_minEventTimes [2 ^ 64 - 2; 2 ^ 64 - 2; 2 ^ 64 - 2] S2_world)) /\
  (let D := shadow_definitions in
   exists w', workerpool_getGlobalNextEventTime S2_world = Returns 5000 w').
Proof.
  split; [reflexivity|]. split; [vm_compute; reflexivity|].
  eexists. vm_compute. reflexivity.
Qed.

(** The worlds of the concrete runs are worlds that the calls return. *)
Example S2_round_returns : S2_round S2_start = Returns tt S2_world.
Proof. vm_compute. reflexivity. Qed.

Example first_dispatch_returns :
  (let D := shadow_definitions in
   let P := example_platform double_zero in
   workerpool_new 2 2 ;;; workerpool_startTaskFn (Some 4096) 77) S2_start
  = Returns tt in_flight_world /\
  taskFn (w_pool in_flight_world) = Some 4096 /\
  taskData (w_pool in_flight_world) = 77.
Proof. split; [vm_compute; reflexivity|]. split; reflexivity. Qed.

(** Scenario S1 of the spec: on a fresh pool of four workers on two
    logical processors the global next event time is [SIMTIME_MAX]. *)
Example scenario_S1 :
  exists w',
    (let D := shadow_definitions in
     let P := example_platform double_zero in
     workerpool_new 4 2 ;;; workerpool_getGlobalNextEventTime) S2_start
    = Returns (2 ^ 64 - 2) w' /\
    nWorkers (w_pool w') = 4 /\
    length (logicalProcessors (w_pool w')) = 2%nat.
Proof. eexists. split; [vm_compute; reflexivity|]. split; reflexivity. Qed.

Lemma S2_world_pool_ok : @pool_ok shadow_definitions (w_pool S2_world).
Proof.
  split; [reflexivity|]. split; [vm_compute; congruence|].
  split; [reflexivity|]. repeat constructor; vm_compute; congruence.
Defined.

Lemma C1_witness :
  exists (t : SimulationTime) (w' : World),
    @workerpool_getGlobalNextEventTime shadow_definitions S2_world = Returns t w' /\
    t ∈ minEventTimes (w_pool S2_world) /\
    (forall x, x ∈ minEventTimes (w_pool S2_world) -> t <= x) /\
    w' = with_minEventTimes
           (replicate (length (minEventTimes (w_pool S2_world)))
              (@SIMTIME_MAX shadow_definitions)) S2_world /\
    (forall i, 0 <= i < lps_n (logicalProcessors (w_pool w')) ->
       minEventTimes (w_pool w') !! Z.to_nat i = Some (@SIMTIME_MAX shadow_definitions)) /\
    @workerpool_getGlobalNextEventTime shadow_definitions w'
    = Returns (@SIMTIME_MAX shadow_definitions) w'.
Proof.
  apply (@C1_getGlobalNextEventTime_min_then_reset shadow_definitions S2_world).
  exact S2_world_pool_ok.
Defined.

(** ** worker_scheduleTask and worker_sendPacket, case by case *)

Section EventDispatch.
Context `{Definitions} `{Platform}.

Lemma scheduler_push_spec event w :
  scheduler_push event w
  = Returns (scheduler_accepts (w_scheduler w) event) (world_after_push event w).
Proof.
  unfold scheduler_push, world_after_push, bind, gets, modify, log, ret.
  destruct (scheduler_accepts (w_scheduler w) event); reflexivity.
Qed.

Lemma worker_scheduleTask_rejected task host delay w :
  manager_schedulerIsRunning (w_manager w) = false ->
  worker_scheduleTask (Some task) (Some host) delay w = Returns false w.
Proof.
  intros Hrun.
  unfold worker_scheduleTask, utility_assert_ptr, utility_assert, bind,
    manager_schedulerIsRunning_, gets, ret.
  rewrite Hrun. reflexivity.
Qed.

Lemma worker_scheduleTask_outside_event task host delay w :
  manager_schedulerIsRunning (w_manager w) = true ->
  worker_currentTime (w_worker w) = SIMTIME_INVALID ->
  worker_scheduleTask task host delay w = Aborts w.
Proof.
  intros Hrun Hnow.
  destruct task as [task|], host as [host|]; try reflexivity.
  unfold worker_scheduleTask, utility_assert_ptr, utility_assert, bind,
    manager_schedulerIsRunning_, worker_getCurrentTime, gets, ret.
  rewrite Hrun. simpl. rewrite Hnow, Z.eqb_refl. reflexivity.
Qed.

Lemma worker_scheduleTask_pushed task host delay w :
  manager_schedulerIsRunning (w_manager w) = true ->
  worker_currentTime (w_worker w) <> SIMTIME_INVALID ->
  worker_scheduleTask (Some task) (Some host) delay w
  = Returns
      (scheduler_accepts (w_scheduler w)
         (task_event task host (worker_currentTime (w_worker w)) delay))
      (world_task_scheduled task host delay w).
Proof.
  intros Hrun Hnow. apply Z.eqb_neq in Hnow.
  unfold worker_scheduleTask, utility_assert_ptr, utility_assert, bind,
    manager_schedulerIsRunning_, worker_getCurrentTime, gets, ret.
  rewrite Hrun. simpl. rewrite Hnow. simpl.
  unfold event_new_, bind, log, modify, ret.
  rewrite scheduler_push_spec. reflexivity.
Qed.

Lemma worker_sendPacket_not_running srcHost packet w :
  manager_schedulerIsRunning (w_manager w) = false ->
  worker_sendPacket srcHost (Some packet) w = Returns (srcHost, packet) w.
Proof.
  intros Hrun.
  unfold worker_sendPacket, utility_assert_ptr, utility_assert, bind,
    manager_schedulerIsRunning_, gets, ret.
  rewrite Hrun. reflexivity.
Qed.

(** The calls up to the [if]: both addresses are resolved, the reliability
    is read and the draw is made. *)
Lemma worker_sendPacket_dropped srcHost packet src dst w :
  manager_schedulerIsRunning (w_manager w) = true ->
  manager_getDNS (w_manager w) !! packet_getSourceIP packet = Some src ->
  manager_getDNS (w_manager w) !! packet_getDestinationIP packet = Some dst ->
  send_delivers w srcHost packet src dst = false ->
  worker_sendPacket srcHost (Some packet) w
  = Returns (host_after_draw srcHost, packet_with_status PDS_INET_DROPPED packet)
      (world_packet_dropped srcHost packet src dst w).
Proof.
  intros Hrun Hsrc Hdst Hcond.
  unfold send_delivers, send_reliability, send_chance in Hcond.
  unfold worker_sendPacket, utility_assert_ptr, utility_assert, bind,
    manager_schedulerIsRunning_,
    worker_resolveIPToAddress, worker_isBootstrapActive, topology_getReliability,
    worker_getTopology, host_nextDouble, gets, log, modify, ret.
  simpl. rewrite Hrun. simpl. rewrite Hsrc, Hdst.
  destruct (random_nextDouble (host_getRandom srcHost)) as [chance random'] eqn:Hdraw.
  simpl in *. rewrite Hcond.
  unfold packet_addDeliveryStatus, bind, log, modify, ret. simpl.
  unfold world_packet_dropped, host_after_draw, send_calls_before.
  rewrite Hdraw. simpl. rewrite <- !app_assoc. reflexivity.
Qed.

Lemma worker_sendPacket_sent srcHost packet src dst delay w :
  manager_schedulerIsRunning (w_manager w) = true ->
  manager_getDNS (w_manager w) !! packet_getSourceIP packet = Some src ->
  manager_getDNS (w_manager w) !! packet_getDestinationIP packet = Some dst ->
  send_delivers w srcHost packet src dst = true ->
  latency_to_delay (send_latency w src dst) = Some delay ->
  address_getID dst ∈ scheduler_hosts (w_scheduler w) ->
  worker_sendPacket srcHost (Some packet) w
  = Returns (host_after_draw srcHost, packet_with_status PDS_INET_SENT packet)
      (world_packet_sent srcHost packet src dst delay w).
Proof.
  intros Hrun Hsrc Hdst Hcond Hdelay Hhost.
  unfold send_delivers, send_reliability, send_chance in Hcond.
  unfold send_latency in Hdelay.
  unfold worker_sendPacket, utility_assert_ptr, utility_assert, bind,
    manager_schedulerIsRunning_,
    worker_resolveIPToAddress, worker_isBootstrapActive, topology_getReliability,
    worker_getTopology, host_nextDouble, gets, log, modify, ret.
  simpl. rewrite Hrun. simpl. rewrite Hsrc, Hdst.
  destruct (random_nextDouble (host_getRandom srcHost)) as [chance random'] eqn:Hdraw.
  simpl in *. rewrite Hcond.
  unfold topology_getLatency, worker_getTopology, bind, gets, log, modify, ret.
  simpl. rewrite Hdelay.
  unfold worker_getCurrentTime, topology_incrementPathPacketCounter,
    worker_getTopology, scheduler_getHost, bind, gets, log, modify, ret.
  simpl. rewrite bool_decide_eq_true_2 by exact Hhost. simpl.
  unfold packet_addDeliveryStatus, packet_copy, event_new_, bind, log, modify, ret.
  simpl. rewrite scheduler_push_spec.
  unfold world_packet_sent, host_after_draw, send_calls_before, delivery_event,
    world_path_counted.
  rewrite Hdraw. simpl. rewrite <- !app_assoc. reflexivity.
Qed.


End EventDispatch.

(** ** From a latency in milliseconds to a delay in nanoseconds *)

Section LatencyToDelay.

Lemma double_of_one_millisecond :
  double_of_u64 SIMTIME_ONE_MILLISECOND = S754_finite false 8589934592000000 (-33).
Proof. reflexivity. Qed.

(** A valid binary64 number has at most 53 digits and an exponent of at
    least -1074. *)
Lemma double_valid_finite (s : bool) (m : positive) (e : Z) :
  double_valid (S754_finite s m e) = true ->
  -1074 <= e /\ Zpos m < 2 ^ 53 /\ (-1074 < e -> 2 ^ 52 <= Zpos m).
Proof.
  unfold double_valid, valid_binary, bounded, canonical_mantissa, fexp, emin.
  intros Hv. apply andb_true_iff in Hv as [Hc _]. apply Z.eqb_eq in Hc.
  pose proof (digits2_pos_bounds m) as [Hlo Hhi].
  change (3 - double_emax - double_prec) with (-1074) in Hc.
  change double_prec with 53 in Hc.
  assert (Hd : Zpos (digits2_pos m) <= 53) by lia.
  split; [lia|]. split.
  - assert (2 ^ Zpos (digits2_pos m) <= 2 ^ 53) by (apply Z.pow_le_mono_r; lia). lia.
  - intros He. replace (Zpos (digits2_pos m)) with 53 in Hlo by lia. exact Hlo.
Qed.

Lemma double_positive_cases (x : gdouble) :
  double_lt double_zero x = true ->
  x = S754_infinity false \/ exists m e, x = S754_finite false m e.
Proof.
  destruct x as [s|[]| |[] m e]; cbn; try discriminate; eauto.
Qed.

(** The product of a positive latency and 1e6 is positive: the rounding
    does not flush it to zero. *)
Lemma latency_scaled_positive (m : positive) (e : Z) :
  double_valid (S754_finite false m e) = true ->
  exists (m' e' : Z),
    0 < m' < 2 ^ 53 /\ e' <= e + 21 /\
    double_mul (S754_finite false m e) (double_of_u64 SIMTIME_ONE_MILLISECOND)
    = if e' <=? 971 then S754_finite false (Z.to_pos m') e' else S754_infinity false.
Proof.
  intros Hv. apply double_valid_finite in Hv as (He & Hm & _).
  rewrite double_of_one_millisecond.
  unfold double_mul, SFmul. cbn [xorb].
  set (mx := Zpos (m * 8589934592000000)).
  assert (Hmx : mx = Zpos m * 8589934592000000) by reflexivity.
  assert (Hlo : 2 ^ 52 <= mx) by (change (2 ^ 52) with 4503599627370496; lia).
  assert (Hhi : mx < 2 ^ 106).
  { change (2 ^ 106) with (2 ^ 53 * 2 ^ 53).
    change (2 ^ 53) with 9007199254740992 in *. nia. }
  pose proof (Zdigits2_ge mx 52 ltac:(lia) Hlo) as Hd.
  pose proof (Zdigits2_le mx 106 ltac:(lia) ltac:(lia) Hhi) as Hd'.
  destruct (binary_round_aux_positive false mx (e + -33) ltac:(lia) ltac:(lia))
    as (m' & e' & Hm' & He' & Hround).
  exists m', e'. split; [exact Hm'|]. split; [|exact Hround].
  unfold double_shift in He'. lia.
Qed.

(** [ceil] of a positive number is at least 1, and no more than its
    mantissa scaled by a non-negative exponent. *)
Lemma ceil_positive (m : positive) (e : Z) :
  exists z, ceil (S754_finite false m e) = Some z /\ 1 <= z /\
            z <= Zpos m * 2 ^ Z.max 0 e.
Proof.
  unfold ceil. cbn [cond_Zopp].
  destruct (Z.leb_spec 0 e) as [He|He].
  - eexists; split; [reflexivity|].
    assert (0 < 2 ^ e) by (apply Z.pow_pos_nonneg; lia).
    rewrite Z.max_r by lia. split; nia.
  - eexists; split; [reflexivity|].
    assert (Hd : 0 < 2 ^ (- e)) by (apply Z.pow_pos_nonneg; lia).
    rewrite Z.max_l by lia. change (2 ^ 0) with 1.
    assert (- Zpos m / 2 ^ (- e) < 0)
      by (apply Z.div_lt_upper_bound; lia).
    assert (- Zpos m <= - Zpos m / 2 ^ (- e))
      by (apply Z.div_le_lower_bound; nia).
    lia.
Qed.

Lemma latency_to_delay_positive (latency : gdouble) (delay : SimulationTime) :
  double_valid latency = true ->
  double_lt double_zero latency = true ->
  latency_to_delay latency = Some delay ->
  1 <= delay.
Proof.
  intros Hv Hpos Hdelay.
  destruct (double_positive_cases latency Hpos) as [->|(m & e & ->)];
    [discriminate|].
  destruct (latency_scaled_positive m e Hv) as (m' & e' & Hm' & He' & Hmul).
  unfold latency_to_delay in Hdelay. rewrite Hmul in Hdelay.
  destruct (e' <=? 971); [|discriminate].
  destruct (ceil_positive (Z.to_pos m') e') as (z & Hz & Hz1 & _).
  rewrite Hz in Hdelay. cbn [u64_of_integral] in Hdelay.
  destruct ((0 <=? z) && (z <? u64_modulus)); congruence.
Qed.

(** Below [latency_bound] the delay is defined: the cast of the ceiling
    is in range. *)
Lemma latency_to_delay_defined (latency : gdouble) :
  double_valid latency = true ->
  double_lt double_zero latency = true ->
  double_lt latency latency_bound = true ->
  exists delay, latency_to_delay latency = Some delay.
Proof.
  intros Hv Hpos Hbound.
  destruct (double_positive_cases latency Hpos) as [->|(m & e & ->)];
    [discriminate|].
  pose proof (double_valid_finite _ _ _ Hv) as (He & Hm & Hnormal).
  assert (Hexp : e <= -10).
  { change latency_bound with (S754_finite false 4503599627370496 (-9)) in Hbound.
    unfold double_lt, SFltb, SFcompare in Hbound.
    destruct (Z.compare_spec e (-9)) as [Heq|Hlt|Hgt]; try discriminate; [|lia].
    subst e. specialize (Hnormal ltac:(lia)).
    rewrite Pos.compare_cont_spec in Hbound.
    destruct (m ?= 4503599627370496)%positive eqn:Hc; try discriminate.
    change (m < 4503599627370496)%positive in Hc.
    change (2 ^ 52) with 4503599627370496 in Hnormal.
    exfalso.
    exact (Z.lt_irrefl _ (Z.le_lt_trans _ _ _ Hnormal (Pos2Z.pos_lt_pos _ _ Hc))). }
  destruct (latency_scaled_positive m e Hv) as (m' & e' & Hm' & He' & Hmul).
  unfold latency_to_delay. rewrite Hmul.
  destruct (Z.leb_spec e' 971) as [_|]; [|lia].
  destruct (ceil_positive (Z.to_pos m') e') as (z & Hz & Hz1 & Hz2).
  rewrite Hz. cbn [u64_of_integral].
  rewrite Z2Pos.id in Hz2 by lia.
  assert (Hz3 : z < u64_modulus).
  { assert (2 ^ Z.max 0 e' <= 2 ^ 11) by (apply Z.pow_le_mono_r; lia).
    assert (0 < 2 ^ Z.max 0 e') by (apply Z.pow_pos_nonneg; lia).
    unfold u64_modulus. change (2 ^ 64) with (2 ^ 53 * 2 ^ 11).
    change (2 ^ 53) with 9007199254740992 in *.
    change (2 ^ 11) with 2048 in *. nia. }
  exists z.
  replace (0 <=? z) with true by (symmetry; apply Z.leb_le; lia).
  replace (z <? u64_modulus) with true by (symmetry; apply Z.ltb_lt; lia).
  reflexivity.
Qed.

(** A draw above zero is not [<=] a reliability of zero. *)
Lemma double_le_zero_false (chance : gdouble) (s : bool) :
  double_lt double_zero chance = true ->
  double_le chance (S754_zero s) = false.
Proof.
  destruct chance as [?|[]| |[] m e]; cbn; try discriminate; reflexivity.
Qed.

End LatencyToDelay.

(** * The claims about the event-dispatch API *)

Section ClaimsEventDispatch.
Context `{Definitions} `{Platform}.

Lemma pushed_events_app (a b : list Call) :
  pushed_events (a ++ b) = pushed_events a ++ pushed_events b.
Proof. apply omap_app. Qed.

Lemma pushed_events_dropped srcHost packet src dst w :
  pushed_events (w_trace (world_packet_dropped srcHost packet src dst w))
  = pushed_events (w_trace w).
Proof.
  unfold world_packet_dropped. cbn [w_trace world_with_trace].
  rewrite pushed_events_app. cbn. apply app_nil_r.
Qed.

Lemma w_trace_after_push event w :
  w_trace (world_after_push event w)
  = w_trace w ++ [call_scheduler_push event (scheduler_accepts (w_scheduler w) event)].
Proof. unfold world_after_push. reflexivity. Qed.

Lemma pushed_events_sent srcHost packet src dst delay w :
  pushed_events (w_trace (world_packet_sent srcHost packet src dst delay w))
  = pushed_events (w_trace w)
    ++ [delivery_event srcHost packet dst (worker_currentTime (w_worker w)) delay].
Proof.
  unfold world_packet_sent. rewrite w_trace_after_push.
  cbn [w_trace world_with_trace w_worker world_path_counted world_with_manager].
  rewrite !pushed_events_app. cbn. rewrite app_nil_r. reflexivity.
Qed.

Lemma simtime_add_small (now delay : SimulationTime) :
  0 <= now + delay < u64_modulus -> simtime_add now delay = now + delay.
Proof. intros Hs. unfold simtime_add, u64_wrap. apply Z.mod_small. exact Hs. Qed.

(** C3, as amended.  With the scheduler running and both addresses
    resolvable, let [delivers] be [bootstrapping || draw <= reliability ||
    payload length == 0].  When [delivers] is false the call returns, the
    packet is marked DROPPED and no event is pushed.  When [delivers] is
    true, the destination host is known to the scheduler and the ceiling of
    the latency in nanoseconds fits a [SimulationTime], the call returns,
    the packet is marked SENT, and exactly one event is pushed: a delivery
    task holding a copy of the packet, from the source host to the
    destination host, at time [currentTime + delay] in 64-bit arithmetic,
    which is the plain sum when that does not wrap around.  A reliability
    of 1.0 delivers for every draw [<= 1.0], a payload length of 0 delivers
    whatever the reliability. *)
Theorem C3_sendPacket_delivery_law (srcHost : Host) (packet : Packet)
  (src dst : Address) (w : World) :
  manager_schedulerIsRunning (w_manager w) = true ->
  manager_getDNS (w_manager w) !! packet_getSourceIP packet = Some src ->
  manager_getDNS (w_manager w) !! packet_getDestinationIP packet = Some dst ->
  let now := worker_currentTime (w_worker w) in
  let delivers :=
    worker_bootstrapActive (w_worker w)
    || double_le (send_chance srcHost) (send_reliability w src dst)
    || (packet_getPayloadLength packet =? 0) in
  (delivers = false ->
     exists w',
       worker_sendPacket srcHost (Some packet) w
       = Returns (host_after_draw srcHost, packet_with_status PDS_INET_DROPPED packet) w' /\
       pushed_events (w_trace w') = pushed_events (w_trace w) /\
       w_scheduler w' = w_scheduler w) /\
  (delivers = true ->
     forall delay : SimulationTime,
       address_getID dst ∈ scheduler_hosts (w_scheduler w) ->
       latency_to_delay (send_latency w src dst) = Some delay ->
       exists w',
         worker_sendPacket srcHost (Some packet) w
         = Returns (host_after_draw srcHost, packet_with_status PDS_INET_SENT packet) w' /\
         pushed_events (w_trace w')
         = pushed_events (w_trace w)
           ++ [{| event_task := task_deliverPacket (packet_with_status PDS_INET_SENT packet);
                  event_getTime := simtime_add now delay;
                  event_srcHost := host_getID srcHost;
                  event_dstHost := address_getID dst |}] /\
         (0 <= now + delay < u64_modulus -> simtime_add now delay = now + delay)) /\
  (send_reliability w src dst = double_one ->
     double_le (send_chance srcHost) double_one = true -> delivers = true) /\
  (packet_getPayloadLength packet = 0 -> delivers = true).
Proof.
  intros Hrun Hsrc Hdst now delivers.
  split; [|split; [|split]].
  - intros Hcond. eexists. split.
    + exact (worker_sendPacket_dropped srcHost packet src dst w Hrun Hsrc Hdst Hcond).
    + split; [apply pushed_events_dropped | reflexivity].
  - intros Hcond delay Hhost Hdelay. eexists. split.
    + exact (worker_sendPacket_sent srcHost packet src dst delay w
               Hrun Hsrc Hdst Hcond Hdelay Hhost).
    + split; [apply pushed_events_sent | apply simtime_add_small].
  - intros Hrel Hle. unfold delivers. rewrite Hrel, Hle.
    rewrite orb_true_r. reflexivity.
  - intros Hlen. unfold delivers. rewrite Hlen. apply orb_true_r.
Qed.

(** C4, as amended.  With the scheduler running, both addresses
    resolvable, bootstrapping inactive, a payload length above zero and a
    topology reliability of 0.0, the packet is marked DROPPED and no event
    is pushed for every draw strictly above 0.0.  (A draw of exactly 0.0
    passes the test [chance <= reliability].) *)
Theorem C4_sendPacket_zero_reliability_drops (srcHost : Host) (packet : Packet)
  (src dst : Address) (s : bool) (w : World) :
  manager_schedulerIsRunning (w_manager w) = true ->
  manager_getDNS (w_manager w) !! packet_getSourceIP packet = Some src ->
  manager_getDNS (w_manager w) !! packet_getDestinationIP packet = Some dst ->
  worker_bootstrapActive (w_worker w) = false ->
  0 < packet_getPayloadLength packet ->
  send_reliability w src dst = S754_zero s ->
  double_lt double_zero (send_chance srcHost) = true ->
  exists w',
    worker_sendPacket srcHost (Some packet) w
    = Returns (host_after_draw srcHost, packet_with_status PDS_INET_DROPPED packet) w' /\
    pushed_events (w_trace w') = pushed_events (w_trace w) /\
    w_scheduler w' = w_scheduler w.
Proof.
  intros Hrun Hsrc Hdst Hboot Hlen Hrel Hdraw.
  eexists. split.
  - apply (worker_sendPacket_dropped srcHost packet src dst w Hrun Hsrc Hdst).
    unfold send_delivers. rewrite Hboot, Hrel.
    rewrite (double_le_zero_false _ s Hdraw).
    replace (packet_getPayloadLength packet =? 0) with false
      by (symmetry; apply Z.eqb_neq; lia).
    reflexivity.
  - split; [apply pushed_events_dropped | reflexivity].
Qed.

(** C5, as amended.  In a delivered [worker_sendPacket] whose latency is a
    valid binary64 number strictly above 0.0 ms, the delay
    [ceil(latency * SIMTIME_ONE_MILLISECOND)], whenever its cast to
    [SimulationTime] is defined, is at least 1 nanosecond, and the time of
    the event pushed is strictly above the current time as long as
    [currentTime + delay] does not wrap around 2^64.  The cast is defined
    for every such latency below 2^43 ms. *)
Theorem C5_sendPacket_delay_at_least_one (srcHost : Host) (packet : Packet)
  (src dst : Address) (w : World) :
  manager_schedulerIsRunning (w_manager w) = true ->
  manager_getDNS (w_manager w) !! packet_getSourceIP packet = Some src ->
  manager_getDNS (w_manager w) !! packet_getDestinationIP packet = Some dst ->
  send_delivers w srcHost packet src dst = true ->
  address_getID dst ∈ scheduler_hosts (w_scheduler w) ->
  double_valid (send_latency w src dst) = true ->
  double_lt double_zero (send_latency w src dst) = true ->
  let now := worker_currentTime (w_worker w) in
  (forall delay : SimulationTime,
     latency_to_delay (send_latency w src dst) = Some delay ->
     1 <= delay /\
     exists w' event,
       worker_sendPacket srcHost (Some packet) w
       = Returns (host_after_draw srcHost, packet_with_status PDS_INET_SENT packet) w' /\
       pushed_events (w_trace w') = pushed_events (w_trace w) ++ [event] /\
       event_getTime event = simtime_add now delay /\
       (0 <= now -> now + delay < u64_modulus -> now < event_getTime event)) /\
  (double_lt (send_latency w src dst) latency_bound = true ->
     exists delay, latency_to_delay (send_latency w src dst) = Some delay).
Proof.
  intros Hrun Hsrc Hdst Hcond Hhost Hvalid Hpos now.
  split.
  - intros delay Hdelay.
    pose proof (latency_to_delay_positive _ _ Hvalid Hpos Hdelay) as Hone.
    split; [exact Hone|].
    eexists. eexists. split.
    + exact (worker_sendPacket_sent srcHost packet src dst delay w
               Hrun Hsrc Hdst Hcond Hdelay Hhost).
    + split; [apply pushed_events_sent|]. split; [reflexivity|].
      intros Hnow Hsum. cbn [event_getTime delivery_event].
      rewrite simtime_add_small by (fold now; lia). fold now. lia.
  - intros Hbound. apply latency_to_delay_defined; assumption.
Qed.

(** C6, as amended.  When the manager reports that the scheduler is no
    longer running, [worker_scheduleTask] returns false and leaves the
    world as it is: no event is made.  When the scheduler is running and
    the current time of the worker is not [SIMTIME_INVALID], it makes one
    event, at [currentTime + delay] in 64-bit arithmetic, with the given
    host as source and as destination, pushes it, and returns what the
    scheduler answers. *)
Theorem C6_scheduleTask_result (task : Task) (host : Host)
  (delay : SimulationTime) (w : World) :
  (manager_schedulerIsRunning (w_manager w) = false ->
     worker_scheduleTask (Some task) (Some host) delay w = Returns false w) /\
  (manager_schedulerIsRunning (w_manager w) = true ->
     worker_currentTime (w_worker w) <> SIMTIME_INVALID ->
     let now := worker_currentTime (w_worker w) in
     let event := {| event_task := task; event_getTime := simtime_add now delay;
                     event_srcHost := host_getID host;
                     event_dstHost := host_getID host |} in
     let accepted := scheduler_accepts (w_scheduler w) event in
     exists w',
       worker_scheduleTask (Some task) (Some host) delay w = Returns accepted w' /\
       w_trace w' = w_trace w ++ [call_event_new event; call_scheduler_push event accepted] /\
       pushed_events (w_trace w') = pushed_events (w_trace w) ++ [event] /\
       (0 <= now + delay < u64_modulus -> event_getTime event = now + delay)).
Proof.
  split.
  - apply worker_scheduleTask_rejected.
  - intros Hrun Hnow now event accepted.
    exists (world_task_scheduled task host delay w).
    split; [apply worker_scheduleTask_pushed; assumption|].
    assert (Htrace : w_trace (world_task_scheduled task host delay w)
                     = w_trace w ++ [call_event_new event; call_scheduler_push event accepted]).
    { unfold world_task_scheduled. rewrite w_trace_after_push.
      cbn [w_trace world_with_trace w_scheduler]. rewrite <- app_assoc. reflexivity. }
    split; [exact Htrace|]. split.
    + rewrite Htrace, pushed_events_app. reflexivity.
    + apply simtime_add_small.
Qed.

(** C7.  When the scheduler is no longer running, [worker_sendPacket]
    returns and leaves the world, the source host and the packet as they
    are: no address is resolved, no event is pushed, no delivery status is
    added. *)
Theorem C7_sendPacket_after_shutdown_is_noop (srcHost : Host) (packet : Packet)
  (w : World) :
  manager_schedulerIsRunning (w_manager w) = false ->
  worker_sendPacket srcHost (Some packet) w = Returns (srcHost, packet) w.
Proof. apply worker_sendPacket_not_running. Qed.

(** C9.  Outside of an event, when the current time of the worker is
    [SIMTIME_INVALID], [worker_scheduleTask] aborts the process if the
    scheduler is running, whatever the task and the host; the assertion
    comes after the check of the scheduler, so that with the scheduler no
    longer running the call still returns false. *)
Theorem C9_scheduleTask_outside_event_aborts (task : option Task) (host : option Host)
  (delay : SimulationTime) (w : World) :
  worker_currentTime (w_worker w) = SIMTIME_INVALID ->
  (manager_schedulerIsRunning (w_manager w) = true ->
     worker_scheduleTask task host delay w = Aborts w) /\
  (manager_schedulerIsRunning (w_manager w) = false ->
     forall t h, task = Some t -> host = Some h ->
       worker_scheduleTask task host delay w = Returns false w).
Proof.
  intros Hnow. split.
  - intros Hrun. apply worker_scheduleTask_outside_event; assumption.
  - intros Hrun t h -> ->. apply worker_scheduleTask_rejected. exact Hrun.
Qed.

(** C10.  In the delivered branch of [worker_sendPacket] the path packet
    counter is incremented and the packet is marked SENT before the event
    is pushed, and what [scheduler_push] answers is not looked at: the
    call returns the packet marked SENT with the counter one higher also
    when the scheduler rejects the event, in which case its queue is as
    before. *)
Theorem C10_sendPacket_sent_even_if_rejected (srcHost : Host) (packet : Packet)
  (src dst : Address) (delay : SimulationTime) (w : World) :
  manager_schedulerIsRunning (w_manager w) = true ->
  manager_getDNS (w_manager w) !! packet_getSourceIP packet = Some src ->
  manager_getDNS (w_manager w) !! packet_getDestinationIP packet = Some dst ->
  send_delivers w srcHost packet src dst = true ->
  address_getID dst ∈ scheduler_hosts (w_scheduler w) ->
  latency_to_delay (send_latency w src dst) = Some delay ->
  let event := delivery_event srcHost packet dst (worker_currentTime (w_worker w)) delay in
  let accepted := scheduler_accepts (w_scheduler w) event in
  exists w',
    worker_sendPacket srcHost (Some packet) w
    = Returns (host_after_draw srcHost, packet_with_status PDS_INET_SENT packet) w' /\
    w_trace w'
    = w_trace w ++ send_calls_before srcHost packet src dst
      ++ [call_topology_getLatency src dst;
          call_topology_incrementPathPacketCounter src dst;
          call_scheduler_getHost (address_getID dst);
          call_packet_addDeliveryStatus PDS_INET_SENT;
          call_packet_copy;
          call_event_new event;
          call_scheduler_push event accepted] /\
    pathPacketCount (manager_getTopology (w_manager w')) src dst
    = pathPacketCount (manager_getTopology (w_manager w)) src dst + 1 /\
    (accepted = false ->
       scheduler_queue (w_scheduler w') = scheduler_queue (w_scheduler w)).
Proof.
  intros Hrun Hsrc Hdst Hcond Hhost Hdelay event accepted.
  exists (world_packet_sent srcHost packet src dst delay w).
  split; [apply worker_sendPacket_sent; assumption|].
  split.
  { unfold world_packet_sent. rewrite w_trace_after_push.
    cbn [w_trace world_with_trace w_scheduler w_worker world_path_counted
         world_with_manager].
    rewrite <- !app_assoc. reflexivity. }
  split.
  { unfold world_packet_sent, world_after_push.
    fold event. cbn [w_scheduler world_with_trace world_path_counted world_with_manager].
    fold accepted.
    assert (Hcount : pathPacketCount
                       (topology_countPacket src dst (manager_getTopology (w_manager w)))
                       src dst
                     = pathPacketCount (manager_getTopology (w_manager w)) src dst + 1).
    { unfold pathPacketCount at 1, topology_countPacket.
      cbn [topology_pathPacketCounter]. rewrite lookup_insert_eq. reflexivity. }
    destruct accepted; exact Hcount. }
  intros Hrej. unfold world_packet_sent, world_after_push.
  fold event. cbn [w_scheduler world_with_trace world_path_counted world_with_manager].
  fold accepted. rewrite Hrej. reflexivity.
Qed.

(** C8.  On a pool with at least one worker whose task-function slot is
    not NULL, [workerpool_startTaskFn], and [_workerpool_startTaskFn]
    under it, abort the process; the world at the abort is the world of
    the call, so that the task function and the task data in flight are
    not overwritten. *)
Theorem C8_startTaskFn_in_flight_aborts (fn : option Z) (data inFlight : Z) (w : World) :
  1 <= nWorkers (w_pool w) ->
  taskFn (w_pool w) = Some inFlight ->
  workerpool_startTaskFn fn data w = Aborts w /\
  _workerpool_startTaskFn fn data w = Aborts w.
Proof.
  intros Hn Hfn.
  assert (Hnz : (nWorkers (w_pool w) =? 0) = false) by (apply Z.eqb_neq; lia).
  assert (Hinner : _workerpool_startTaskFn fn data w = Aborts w).
  { unfold _workerpool_startTaskFn, MAGIC_ASSERT, _worker_pool, utility_assert,
      bind, gets, ret, abort.
    destruct (magic (w_pool w)); [|reflexivity].
    rewrite Hnz, Hfn. reflexivity. }
  split; [|exact Hinner].
  unfold workerpool_startTaskFn, bind.
  destruct (magic (w_pool w)) eqn:Hmagic.
  - rewrite MAGIC_ASSERT_ok by exact Hmagic.
    destruct fn as [f|]; [|reflexivity].
    cbn. exact Hinner.
  - rewrite MAGIC_ASSERT_fails by exact Hmagic. reflexivity.
Qed.

End ClaimsEventDispatch.

(** * Concrete runs of the claims *)

Lemma C2_witness :
  (worker_setMinEventTimeNextRound 500 S2_world = Returns tt S2_world /\
   (worker_setMinEventTimeNextRound 500 ;;;
    @workerpool_getGlobalNextEventTime shadow_definitions) S2_world
   = @workerpool_getGlobalNextEventTime shadow_definitions S2_world) /\
  (exists w' : World,
     worker_setMinEventTimeNextRound 3000 S2_world = Returns tt w' /\
     length (minEventTimes (w_pool w')) = length (minEventTimes (w_pool S2_world)) /\
     minEventTimes (w_pool w') !! 2%nat = Some (Z.min 5000 3000) /\
     (forall j : nat, j <> 2%nat ->
        minEventTimes (w_pool w') !! j = minEventTimes (w_pool S2_world) !! j) /\
     w' = with_minEventTimes (minEventTimes (w_pool w')) S2_world).
Proof.
  split.
  - apply (proj1 (@C2_setMinEventTimeNextRound_round_filter
                    shadow_definitions S2_world 500)).
    reflexivity.
  - apply (proj2 (@C2_setMinEventTimeNextRound_round_filter
                    shadow_definitions S2_world 3000)).
    + vm_compute. congruence.
    + split; [vm_compute; congruence|]. split; [reflexivity|]. simpl. lia.
    + reflexivity.
Defined.

Lemma C3_counterexample :
  manager_schedulerIsRunning (w_manager unknown_host_world) = true /\
  manager_getDNS (w_manager unknown_host_world) !! 101 = Some (example_addr 1) /\
  manager_getDNS (w_manager unknown_host_world) !! 102 = Some (example_addr 2) /\
  worker_bootstrapActive (w_worker unknown_host_world) = true /\
  exists w',
    @worker_sendPacket (example_platform double_zero) (example_host 1)
      (Some (example_packet 10)) unknown_host_world = Aborts w' /\
    pushed_events (w_trace w') = [] /\
    added_statuses (w_trace w') = [].
Proof.
  repeat (split; [reflexivity|]).
  eexists. split; [vm_compute; reflexivity|]. split; reflexivity.
Qed.

Lemma C3_witness :
  exists w',
    @worker_sendPacket (example_platform double_half) (example_host 1)
      (Some (example_packet 10)) delivering_world
    = Returns (@host_after_draw (example_platform double_half) (example_host 1),
               packet_with_status PDS_INET_SENT (example_packet 10)) w' /\
    pushed_events (w_trace w')
    = pushed_events (w_trace delivering_world)
      ++ [{| event_task :=
               task_deliverPacket (packet_with_status PDS_INET_SENT (example_packet 10));
             event_getTime := simtime_add 5 500000;
             event_srcHost := 1;
             event_dstHost := 2 |}] /\
    (0 <= 5 + 500000 < u64_modulus -> simtime_add 5 500000 = 5 + 500000).
Proof.
  refine (proj1 (proj2 (@C3_sendPacket_delivery_law (example_platform double_half)
            (example_host 1) (example_packet 10) (example_addr 1) (example_addr 2)
            delivering_world _ _ _)) _ 500000 _ _).
  - reflexivity.
  - reflexivity.
  - reflexivity.
  - reflexivity.
  - vm_compute. set_solver.
  - reflexivity.
Defined.

Lemma C4_counterexample :
  manager_schedulerIsRunning (w_manager zero_draw_world) = true /\
  worker_bootstrapActive (w_worker zero_draw_world) = false /\
  send_reliability zero_draw_world (example_addr 1) (example_addr 2) = double_zero /\
  0 < packet_getPayloadLength (example_packet 10) /\
  @send_chance (example_platform double_zero) (example_host 1) = double_zero /\
  exists h p w',
    @worker_sendPacket (example_platform double_zero) (example_host 1)
      (Some (example_packet 10)) zero_draw_world = Returns (h, p) w' /\
    packet_deliveryStatus p = [PDS_INET_SENT] /\
    map event_getTime (pushed_events (w_trace w')) = [1000005] /\
    scheduler_queue (w_scheduler w') = pushed_events (w_trace w').
Proof.
  repeat (split; [reflexivity|]).
  do 3 eexists. split; [vm_compute; reflexivity|]. repeat split; reflexivity.
Qed.

Lemma C4_witness :
  exists w',
    @worker_sendPacket (example_platform double_half) (example_host 1)
      (Some (example_packet 10)) zero_draw_world
    = Returns (@host_after_draw (example_platform double_half) (example_host 1),
               packet_with_status PDS_INET_DROPPED (example_packet 10)) w' /\
    pushed_events (w_trace w') = pushed_events (w_trace zero_draw_world) /\
    w_scheduler w' = w_scheduler zero_draw_world.
Proof.
  apply (@C4_sendPacket_zero_reliability_drops (example_platform double_half)
           (example_host 1) (example_packet 10) (example_addr 1) (example_addr 2)
           false zero_draw_world); reflexivity.
Defined.

Lemma C5_counterexample :
  double_valid double_zero = true /\
  (exists delay, latency_to_delay double_zero = Some delay /\ delay < 1) /\
  send_latency zero_latency_world (example_addr 1) (example_addr 2) = double_zero /\
  exists h p w',
    @worker_sendPacket (example_platform double_zero) (example_host 1)
      (Some (example_packet 10)) zero_latency_world = Returns (h, p) w' /\
    packet_deliveryStatus p = [PDS_INET_SENT] /\
    map event_getTime (pushed_events (w_trace w'))
    = [worker_currentTime (w_worker zero_latency_world)].
Proof.
  split; [reflexivity|].
  split; [exists 0; split; [reflexivity | lia]|].
  split; [reflexivity|].
  do 3 eexists. split; [vm_compute; reflexivity|]. split; reflexivity.
Qed.

Lemma C5_witness :
  (1 <= 500000 /\
   exists w' event,
     @worker_sendPacket (example_platform double_half) (example_host 1)
       (Some (example_packet 10)) delivering_world
     = Returns (@host_after_draw (example_platform double_half) (example_host 1),
                packet_with_status PDS_INET_SENT (example_packet 10)) w' /\
     pushed_events (w_trace w') = pushed_events (w_trace delivering_world) ++ [event] /\
     event_getTime event = simtime_add 5 500000 /\
     (0 <= 5 -> 5 + 500000 < u64_modulus -> 5 < event_getTime event)) /\
  (exists delay,
     latency_to_delay (send_latency delivering_world (example_addr 1) (example_addr 2))
     = Some delay).
Proof.
  pose proof (@C5_sendPacket_delay_at_least_one (example_platform double_half)
                (example_host 1) (example_packet 10) (example_addr 1) (example_addr 2)
                delivering_world) as Hclaim.
  assert (Hhost : address_getID (example_addr 2)
                  ∈ scheduler_hosts (w_scheduler delivering_world))
    by (vm_compute; set_solver).
  destruct (Hclaim eq_refl eq_refl eq_refl eq_refl Hhost eq_refl eq_refl)
    as [Hdelay Hdefined].
  split.
  - exact (Hdelay 500000 eq_refl).
  - exact (Hdefined eq_refl).
Defined.

Lemma C6_counterexample :
  manager_schedulerIsRunning (w_manager outside_event_world) = true /\
  @worker_scheduleTask shadow_definitions (Some example_task) (Some (example_host 1)) 10
    outside_event_world
  = Aborts outside_event_world /\
  pushed_events (w_trace outside_event_world) = [].
Proof. split; [reflexivity|]. split; [vm_compute; reflexivity | reflexivity]. Qed.

Lemma C6_witness :
  @worker_scheduleTask shadow_definitions (Some example_task) (Some (example_host 1)) 10
    stopped_world
  = Returns false stopped_world /\
  (exists w',
     @worker_scheduleTask shadow_definitions (Some example_task) (Some (example_host 1)) 10
       delivering_world
     = Returns true w' /\
     w_trace w'
     = w_trace delivering_world
       ++ [call_event_new
             {| event_task := example_task; event_getTime := simtime_add 5 10;
                event_srcHost := 1; event_dstHost := 1 |};
           call_scheduler_push
             {| event_task := example_task; event_getTime := simtime_add 5 10;
                event_srcHost := 1; event_dstHost := 1 |} true] /\
     pushed_events (w_trace w')
     = pushed_events (w_trace delivering_world)
       ++ [{| event_task := example_task; event_getTime := simtime_add 5 10;
              event_srcHost := 1; event_dstHost := 1 |}] /\
     (0 <= 5 + 10 < u64_modulus -> simtime_add 5 10 = 5 + 10)).
Proof.
  split.
  - apply (proj1 (@C6_scheduleTask_result shadow_definitions example_task
                    (example_host 1) 10 stopped_world)).
    reflexivity.
  - apply (proj2 (@C6_scheduleTask_result shadow_definitions example_task
                    (example_host 1) 10 delivering_world)).
    + reflexivity.
    + vm_compute. congruence.
Defined.

Lemma C7_witness :
  @worker_sendPacket (example_platform double_half) (example_host 1)
    (Some (example_packet 10)) stopped_world
  = Returns (example_host 1, example_packet 10) stopped_world.
Proof.
  apply (@C7_sendPacket_after_shutdown_is_noop (example_platform double_half)).
  reflexivity.
Defined.

Lemma C8_witness :
  @workerpool_startTaskFn shadow_definitions (Some 8192) 78 in_flight_world
  = Aborts in_flight_world /\
  @_workerpool_startTaskFn shadow_definitions (Some 8192) 78 in_flight_world
  = Aborts in_flight_world.
Proof.
  apply (@C8_startTaskFn_in_flight_aborts shadow_definitions (Some 8192) 78 4096
           in_flight_world).
  - vm_compute. congruence.
  - reflexivity.
Defined.

Lemma C9_witness :
  @worker_scheduleTask shadow_definitions (Some example_task) (Some (example_host 1)) 10
    outside_event_world
  = Aborts outside_event_world /\
  @worker_scheduleTask shadow_definitions (Some example_task) (Some (example_host 1)) 10
    stopped_outside_event_world
  = Returns false stopped_outside_event_world.
Proof.
  split.
  - apply (proj1 (@C9_scheduleTask_outside_event_aborts shadow_definitions
                    (Some example_task) (Some (example_host 1)) 10
                    outside_event_world eq_refl)).
    reflexivity.
  - apply (proj2 (@C9_scheduleTask_outside_event_aborts shadow_definitions
                    (Some example_task) (Some (example_host 1)) 10
                    stopped_outside_event_world eq_refl)
             eq_refl example_task (example_host 1) eq_refl eq_refl).
Defined.

Lemma C10_witness :
  exists w',
    @worker_sendPacket (example_platform double_half) (example_host 1)
      (Some (example_packet 10)) rejecting_world
    = Returns (@host_after_draw (example_platform double_half) (example_host 1),
               packet_with_status PDS_INET_SENT (example_packet 10)) w' /\
    w_trace w'
    = w_trace rejecting_world
      ++ send_calls_before (example_host 1) (example_packet 10)
           (example_addr 1) (example_addr 2)
      ++ [call_topology_getLatency (example_addr 1) (example_addr 2);
          call_topology_incrementPathPacketCounter (example_addr 1) (example_addr 2);
          call_scheduler_getHost 2;
          call_packet_addDeliveryStatus PDS_INET_SENT;
          call_packet_copy;
          call_event_new
            (delivery_event (example_host 1) (example_packet 10) (example_addr 2) 5 500000);
          call_scheduler_push
            (delivery_event (example_host 1) (example_packet 10) (example_addr 2) 5 500000)
            false] /\
    pathPacketCount (manager_getTopology (w_manager w')) (example_addr 1) (example_addr 2)
    = pathPacketCount (manager_getTopology (w_manager rejecting_world))
        (example_addr 1) (example_addr 2) + 1 /\
    (false = false ->
     scheduler_queue (w_scheduler w') = scheduler_queue (w_scheduler rejecting_world)).
Proof.
  apply (@C10_sendPacket_sent_even_if_rejected (example_platform double_half)
           (example_host 1) (example_packet 10) (example_addr 1) (example_addr 2)
           500000 rejecting_world).
  - reflexivity.
  - reflexivity.
  - reflexivity.
  - reflexivity.
  - vm_compute. set_solver.
  - reflexivity.
Defined.

(** Scenario S5 of the spec: with reliability 0.0 a packet without payload
    is delivered, here for a draw of 0.5. *)
Example scenario_S5 :
  exists h p w',
    @worker_sendPacket (example_platform double_half) (example_host 1)
      (Some (example_packet 0)) zero_draw_world = Returns (h, p) w' /\
    packet_deliveryStatus p = [PDS_INET_SENT] /\
    map event_getTime (pushed_events (w_trace w')) = [1000005].
Proof. do 3 eexists. split; [vm_compute; reflexivity|]. split; reflexivity. Qed.

(** * The rest of worker.c: proofs *)

(** ** Array and logical-processor steps, exactly *)

Section ExactSteps.
Context `{Definitions} `{Platform}.

Lemma array_get_at {A} (l : list A) (i : Z) (a : A) w :
  0 <= i -> l !! Z.to_nat i = Some a -> array_get l i w = Returns a w.
Proof.
  intros Hi Ha. rewrite <- (Z2Nat.id i) by lia. apply array_get_ok. exact Ha.
Qed.

Lemma array_set_at {A} (l : list A) (i : Z) (a b : A) w :
  0 <= i -> l !! Z.to_nat i = Some b ->
  array_set l i a w = Returns (<[Z.to_nat i := a]> l) w.
Proof.
  intros Hi Hb. apply array_set_in_range.
  apply lookup_lt_Some in Hb. lia.
Qed.

Lemma lps_cpuId_at (lpi : Z) (lp : LogicalProcessor) (w : World) :
  0 <= lpi -> logicalProcessors (w_pool w) !! Z.to_nat lpi = Some lp ->
  lps_cpuId lpi w = Returns (lp_cpuId lp) w.
Proof.
  intros Hi Hlp. unfold lps_cpuId, get_lps.
  erewrite bind_Returns by reflexivity.
  erewrite bind_Returns by (apply array_get_at; eassumption).
  reflexivity.
Qed.

Lemma lps_readyPush_at (lpi workerID : Z) (lp : LogicalProcessor) (w : World) :
  0 <= lpi -> logicalProcessors (w_pool w) !! Z.to_nat lpi = Some lp ->
  lps_readyPush lpi workerID w
  = Returns tt
      (world_with_pool
         (pool_with_lps
            (<[Z.to_nat lpi := lp_with_ready (lp_readyWorkers lp ++ [workerID]) lp]>
               (logicalProcessors (w_pool w)))
            (w_pool w)) w).
Proof.
  intros Hi Hlp. unfold lps_readyPush, get_lps, set_lps.
  erewrite bind_Returns by reflexivity.
  erewrite bind_Returns by (apply array_get_at; eassumption).
  erewrite bind_Returns by (eapply array_set_at; eassumption).
  reflexivity.
Qed.

(** [_workerpool_setLogicalProcessorIdx] on a live pool, for a worker and a
    logical processor of the pool: the row of the worker is written and the
    affinity of its thread goes from the CPU of [oldCpuId] to the CPU of
    the logical processor. *)
Lemma _workerpool_setLogicalProcessorIdx_at (workerID lpi oldIdx tid oldCpuId : Z)
  (lp : LogicalProcessor) (w : World) :
  magic (w_pool w) = true ->
  0 <= workerID -> 0 <= lpi ->
  workerLogicalProcessorIdxs (w_pool w) !! Z.to_nat workerID = Some oldIdx ->
  workerNativeThreadIDs (w_pool w) !! Z.to_nat workerID = Some tid ->
  logicalProcessors (w_pool w) !! Z.to_nat lpi = Some lp ->
  (if 0 <=? oldIdx
   then exists lpOld, logicalProcessors (w_pool w) !! Z.to_nat oldIdx = Some lpOld
                      /\ oldCpuId = lp_cpuId lpOld
   else oldCpuId = AFFINITY_UNINIT) ->
  _workerpool_setLogicalProcessorIdx workerID lpi w
  = Returns tt
      (world_with_trace
         (w_trace w ++ [call_affinity_setProcessAffinity tid (lp_cpuId lp) oldCpuId])
         (world_with_pool
            (pool_with_lpIdxs
               (<[Z.to_nat workerID := lpi]> (workerLogicalProcessorIdxs (w_pool w)))
               (w_pool w)) w)).
Proof.
  intros Hmagic Hworker Hlpi Hold Htid Hlp Hcpu.
  assert (Hlt : lpi < lps_n (logicalProcessors (w_pool w))).
  { apply lookup_lt_Some in Hlp. unfold lps_n. lia. }
  unfold _workerpool_setLogicalProcessorIdx, get_lps, _worker_pool.
  erewrite bind_Returns by (apply MAGIC_ASSERT_ok; exact Hmagic).
  erewrite bind_Returns by reflexivity.
  unfold utility_assert.
  replace (lpi <? lps_n (logicalProcessors (w_pool w))) with true
    by (symmetry; apply Z.ltb_lt; lia).
  erewrite bind_Returns by reflexivity.
  replace (0 <=? lpi) with true by (symmetry; apply Z.leb_le; lia).
  erewrite bind_Returns by reflexivity.
  erewrite bind_Returns by reflexivity.
  erewrite bind_Returns by (apply array_get_at; eassumption).
  assert (HoldCpu : (if 0 <=? oldIdx then lps_cpuId oldIdx else ret AFFINITY_UNINIT) w
                    = Returns oldCpuId w).
  { destruct (Z.leb_spec 0 oldIdx) as [Hge|Hneg].
    - destruct Hcpu as (lpOld & HlpOld & ->). apply lps_cpuId_at; assumption.
    - subst oldCpuId. reflexivity. }
  erewrite bind_Returns by exact HoldCpu.
  erewrite bind_Returns by (eapply array_set_at; eassumption).
  erewrite bind_Returns by reflexivity.
  erewrite bind_Returns by (apply lps_cpuId_at; [exact Hlpi | exact Hlp]).
  erewrite bind_Returns by (apply array_get_at; eassumption).
  reflexivity.
Qed.

End ExactSteps.

(** ** workerpool_new, exactly *)

Section ConstructionExact.
Context `{Definitions} `{Platform}.

Lemma insert_after_prefix {A} (l : list A) (n : nat) (x y : A) :
  <[length l := x]> (l ++ replicate (S n) y) = (l ++ [x]) ++ replicate n y.
Proof.
  rewrite <- (Nat.add_0_r (length l)), insert_app_r.
  rewrite <- app_assoc. reflexivity.
Qed.

Lemma lookup_after_prefix {A} (l : list A) (n : nat) (y : A) :
  (l ++ replicate (S n) y) !! length l = Some y.
Proof. rewrite lookup_app_r by lia. rewrite Nat.sub_diag. reflexivity. Qed.

Lemma workers_of_lp_S (k : nat) (nL i : Z) :
  workers_of_lp (Z.of_nat (S k)) nL i
  = workers_of_lp (Z.of_nat k) nL i
    ++ (if decide (Z.of_nat k mod nL = i) then [Z.of_nat k] else []).
Proof.
  unfold workers_of_lp. rewrite seqZ_S, filter_app. f_equal.
Qed.

Lemma lps_new_built (nL : Z) : lps_new nL = built_lp 0 nL <$> seqZ 0 nL.
Proof.
  unfold lps_new. induction (seqZ 0 nL) as [|i l IH]; [reflexivity|].
  cbn. rewrite IH. reflexivity.
Qed.

Lemma lookup_built_lps (k nL : Z) (i : nat) :
  Z.of_nat i < nL ->
  (built_lp k nL <$> seqZ 0 nL) !! i = Some (built_lp k nL (Z.of_nat i)).
Proof.
  intros Hi. rewrite list_lookup_fmap, lookup_seqZ_lt by lia. reflexivity.
Qed.

(** Pushing worker [k] on the ready queue of logical processor [k mod nL]
    turns the queues of the first [k] workers into those of the first
    [k + 1]. *)
Lemma built_lps_push (k : nat) (nL : Z) :
  0 < nL ->
  let lpi := Z.to_nat (Z.of_nat k mod nL) in
  <[lpi := lp_with_ready
             (workers_of_lp (Z.of_nat k) nL (Z.of_nat lpi) ++ [Z.of_nat k])
             (built_lp (Z.of_nat k) nL (Z.of_nat lpi))]>
    (built_lp (Z.of_nat k) nL <$> seqZ 0 nL)
  = built_lp (Z.of_nat (S k)) nL <$> seqZ 0 nL.
Proof.
  intros HnL lpi.
  assert (Hmod : 0 <= Z.of_nat k mod nL < nL) by (apply Z.mod_pos_bound; lia).
  assert (Hlpi : Z.of_nat lpi = Z.of_nat k mod nL) by (unfold lpi; lia).
  apply list_eq. intros i.
  destruct (decide (Z.of_nat i < nL)) as [Hi|Hi].
  - rewrite (lookup_built_lps _ _ i Hi).
    destruct (decide (i = lpi)) as [->|Hne].
    + rewrite list_lookup_insert_eq
        by (rewrite length_fmap, length_seqZ; lia).
      f_equal. unfold lp_with_ready, built_lp; cbn. f_equal.
      rewrite workers_of_lp_S, Hlpi. rewrite decide_True by reflexivity. reflexivity.
    + rewrite list_lookup_insert_ne by congruence.
      rewrite (lookup_built_lps _ _ i Hi). f_equal.
      unfold built_lp. f_equal.
      rewrite workers_of_lp_S. rewrite decide_False by lia.
      rewrite app_nil_r. reflexivity.
  - rewrite !lookup_ge_None_2; [reflexivity| |].
    + rewrite length_fmap, length_seqZ. lia.
    + rewrite length_insert, length_fmap, length_seqZ. lia.
Qed.

Lemma built_trace_S (k : nat) (nL : Z) :
  built_trace (Z.of_nat (S k)) nL
  = built_trace (Z.of_nat k) nL
    ++ [call_affinity_setProcessAffinity (gettid (Z.of_nat k))
          (affinity_cpuOf (Z.of_nat k mod nL)) AFFINITY_UNINIT].
Proof. unfold built_trace. rewrite seqZ_S, fmap_app. reflexivity. Qed.

Lemma _worker_run_init_exact (nW nL : Z) (k : nat) (w : World) :
  (k < Z.to_nat nW)%nat -> 0 <= nW ->
  _worker_run_init (Z.of_nat k) (world_with_pool (starting_pool nW nL k) w)
  = Returns tt (world_with_pool (starting_pool nW nL (S k)) w).
Proof.
  intros Hk HnW.
  assert (Hrest : (Z.to_nat nW - k = S (Z.to_nat nW - S k))%nat) by lia.
  unfold _worker_run_init, _worker_pool.
  erewrite bind_Returns by reflexivity.
  erewrite bind_Returns
    by (apply array_set_in_range; cbn; rewrite length_replicate; lia).
  erewrite bind_Returns
    by (apply array_set_in_range; cbn;
        rewrite length_app, !length_replicate; lia).
  erewrite bind_Returns
    by (apply array_set_in_range; cbn;
        rewrite length_app, length_fmap, length_seqZ, length_replicate; lia).
  unfold utility_assert. cbn [w_pool world_with_pool finishLatch starting_pool].
  replace (0 <? nW - Z.of_nat k) with true by (symmetry; apply Z.ltb_lt; lia).
  erewrite bind_Returns by reflexivity.
  unfold modify. f_equal. unfold world_with_pool, starting_pool. cbn.
  rewrite Nat2Z.id. f_equal. f_equal.
  - apply insert_replicate.
  - rewrite Hrest.
    rewrite <- (length_replicate k (-1)) at 1.
    rewrite insert_after_prefix. rewrite <- replicate_S_end. reflexivity.
  - rewrite Hrest.
    assert (Hlen : length (gettid <$> seqZ 0 (Z.of_nat k)) = k)
      by (rewrite length_fmap, length_seqZ; lia).
    rewrite <- Hlen at 1. rewrite insert_after_prefix.
    rewrite seqZ_S, fmap_app. reflexivity.
  - lia.
Qed.

Lemma workerpool_new_createThreads_exact (nW nL : Z) (n : nat) :
  forall (k : nat) (w : World),
    (k + n <= Z.to_nat nW)%nat -> 0 <= nW ->
    workerpool_new_createThreads n (Z.of_nat k)
      (world_with_pool (starting_pool nW nL k) w)
    = Returns tt (world_with_pool (starting_pool nW nL (k + n)) w).
Proof.
  induction n as [|n IH]; intros k w Hk HnW.
  - rewrite Nat.add_0_r. reflexivity.
  - cbn [workerpool_new_createThreads].
    erewrite bind_Returns by (apply _worker_run_init_exact; lia).
    replace (Z.of_nat k + 1) with (Z.of_nat (S k)) by lia.
    rewrite IH by lia. f_equal. f_equal. f_equal. lia.
Qed.

Lemma workerpool_new_assign_step (nW nL : Z) (k : nat) (w : World) :
  (k < Z.to_nat nW)%nat -> 0 < nL ->
  (lps_readyPush (Z.rem (Z.of_nat k) nL) (Z.of_nat k) ;;;
   _workerpool_setLogicalProcessorIdx (Z.of_nat k) (Z.rem (Z.of_nat k) nL))
    (assigning_world nW nL k w)
  = Returns tt (assigning_world nW nL (S k) w).
Proof.
  intros Hk HnL.
  rewrite Z.rem_mod_nonneg by lia.
  assert (Hmod : 0 <= Z.of_nat k mod nL < nL) by (apply Z.mod_pos_bound; lia).
  set (lpi := Z.of_nat k mod nL) in *.
  assert (Hrest : (Z.to_nat nW - k = S (Z.to_nat nW - S k))%nat) by lia.
  assert (Hlen : length ((fun workerID => workerID mod nL) <$> seqZ 0 (Z.of_nat k)) = k)
    by (rewrite length_fmap, length_seqZ; lia).
  erewrite bind_Returns.
  2:{ apply (lps_readyPush_at lpi (Z.of_nat k) (built_lp (Z.of_nat k) nL lpi));
        [lia|].
      cbn. rewrite lookup_built_lps by lia. rewrite Z2Nat.id by lia. reflexivity. }
  erewrite (_workerpool_setLogicalProcessorIdx_at (Z.of_nat k) lpi (-1)
              (gettid (Z.of_nat k)) AFFINITY_UNINIT
              (built_lp (Z.of_nat (S k)) nL lpi)).
  - unfold assigning_world. cbn. f_equal.
    unfold world_with_trace, world_with_pool, pool_with_lpIdxs, pool_with_lps,
      assigning_pool. cbn.
    f_equal.
    + f_equal.
      * rewrite Nat2Z.id, Hrest. rewrite <- Hlen at 1.
        rewrite insert_after_prefix, seqZ_S, fmap_app. reflexivity.
      * pose proof (built_lps_push k nL HnL) as Hpush. cbv zeta in Hpush.
        fold lpi in Hpush. rewrite Z2Nat.id in Hpush by lia. exact Hpush.
    + rewrite built_trace_S, <- app_assoc. reflexivity.
  - reflexivity.
  - lia.
  - lia.
  - cbn. rewrite Nat2Z.id, Hrest. rewrite <- Hlen at 1.
    apply lookup_after_prefix.
  - cbn. rewrite Nat2Z.id, list_lookup_fmap, lookup_seqZ_lt by lia. reflexivity.
  - cbn. pose proof (built_lps_push k nL HnL) as Hpush. cbv zeta in Hpush.
    fold lpi in Hpush. rewrite Z2Nat.id in Hpush by lia.
    etransitivity; [exact (f_equal (fun l => l !! Z.to_nat lpi) Hpush)|].
    rewrite lookup_built_lps by lia. rewrite Z2Nat.id by lia. reflexivity.
  - reflexivity.
Qed.

Lemma workerpool_new_assign_exact (nW nL : Z) (n : nat) :
  forall (k : nat) (w : World),
    (k + n <= Z.to_nat nW)%nat -> 0 < nL ->
    workerpool_new_assign n (Z.of_nat k) nL (assigning_world nW nL k w)
    = Returns tt (assigning_world nW nL (k + n) w).
Proof.
  induction n as [|n IH]; intros k w Hk HnL.
  - rewrite Nat.add_0_r. reflexivity.
  - cbn [workerpool_new_assign].
    pose proof (workerpool_new_assign_step nW nL k w ltac:(lia) HnL) as Hstep.
    unfold bind at 1 in Hstep. unfold bind at 1.
    destruct (lps_readyPush (Z.rem (Z.of_nat k) nL) (Z.of_nat k)
                (assigning_world nW nL k w)) as [[] w1| |]; try discriminate.
    erewrite bind_Returns by exact Hstep.
    replace (Z.of_nat k + 1) with (Z.of_nat (S k)) by lia.
    rewrite IH by lia. f_equal. f_equal. lia.
Qed.

(** The constructor, for at least one worker and a parallelism of at least
    one: the pool of the world becomes [built_pool], the log grows by the
    affinity calls, nothing else changes. *)
Lemma workerpool_new_exact (nWorkers_ nParallel : Z) (w : World) :
  1 <= nWorkers_ -> 1 <= nParallel ->
  workerpool_new nWorkers_ nParallel w
  = Returns tt (built_world nWorkers_ (Z.min nParallel nWorkers_) w).
Proof.
  intros HnW HnP.
  set (nL := Z.min nParallel nWorkers_).
  assert (HnL : 1 <= nL <= nWorkers_) by (unfold nL; lia).
  unfold workerpool_new, utility_assert. fold nL.
  replace (1 <=? nParallel) with true by (symmetry; apply Z.leb_le; lia).
  replace (1 <=? nWorkers_) with true by (symmetry; apply Z.leb_le; lia).
  erewrite bind_Returns by reflexivity.
  erewrite bind_Returns by reflexivity.
  erewrite bind_Returns by reflexivity.
  match goal with
  | |- context [bind (workerpool_new_initTimes _ 0) _ ?w0] => set (w0' := w0)
  end.
  pose proof (workerpool_new_initTimes_spec (Z.to_nat nL) 0%nat w0') as Hinit.
  change (Z.of_nat 0) with 0 in Hinit.
  erewrite bind_Returns by (apply Hinit; cbn; rewrite length_replicate; reflexivity).
  clear Hinit.
  assert (Hstart : with_minEventTimes
                     (take 0 (minEventTimes (w_pool w0'))
                      ++ replicate (Z.to_nat nL) SIMTIME_MAX) w0'
                   = world_with_pool (starting_pool nWorkers_ nL 0) w).
  { unfold w0', with_minEventTimes, world_with_pool, pool_with_minEventTimes,
      starting_pool. cbn. rewrite Nat.sub_0_r, Z.sub_0_r. reflexivity. }
  rewrite Hstart.
  pose proof (workerpool_new_createThreads_exact nWorkers_ nL (Z.to_nat nWorkers_)
                0%nat w ltac:(lia) ltac:(lia)) as Hthreads.
  change (Z.of_nat 0) with 0 in Hthreads.
  erewrite bind_Returns by exact Hthreads.
  unfold countdownlatch_reset.
  erewrite bind_Returns by reflexivity.
  assert (Hassign0 :
            world_with_pool
              {| nWorkers := nWorkers (w_pool (world_with_pool
                                (starting_pool nWorkers_ nL (0 + Z.to_nat nWorkers_)) w));
                 workerBeginSems := workerBeginSems (w_pool (world_with_pool
                                (starting_pool nWorkers_ nL (0 + Z.to_nat nWorkers_)) w));
                 workerLogicalProcessorIdxs :=
                   workerLogicalProcessorIdxs (w_pool (world_with_pool
                                (starting_pool nWorkers_ nL (0 + Z.to_nat nWorkers_)) w));
                 workerNativeThreadIDs :=
                   workerNativeThreadIDs (w_pool (world_with_pool
                                (starting_pool nWorkers_ nL (0 + Z.to_nat nWorkers_)) w));
                 finishLatch := nWorkers_;
                 taskFn := taskFn (w_pool (world_with_pool
                                (starting_pool nWorkers_ nL (0 + Z.to_nat nWorkers_)) w));
                 taskData := taskData (w_pool (world_with_pool
                                (starting_pool nWorkers_ nL (0 + Z.to_nat nWorkers_)) w));
                 joined := joined (w_pool (world_with_pool
                                (starting_pool nWorkers_ nL (0 + Z.to_nat nWorkers_)) w));
                 logicalProcessors := logicalProcessors (w_pool (world_with_pool
                                (starting_pool nWorkers_ nL (0 + Z.to_nat nWorkers_)) w));
                 minEventTimes := minEventTimes (w_pool (world_with_pool
                                (starting_pool nWorkers_ nL (0 + Z.to_nat nWorkers_)) w));
                 magic := magic (w_pool (world_with_pool
                                (starting_pool nWorkers_ nL (0 + Z.to_nat nWorkers_)) w)) |}
              (world_with_pool (starting_pool nWorkers_ nL (0 + Z.to_nat nWorkers_)) w)
            = assigning_world nWorkers_ nL 0 w).
  { unfold assigning_world, assigning_pool, starting_pool, world_with_trace,
      world_with_pool. cbn.
    rewrite Nat.sub_diag, Nat.sub_0_r, !app_nil_r, Z2Nat.id by lia.
    rewrite lps_new_built. reflexivity. }
  rewrite Hassign0.
  pose proof (workerpool_new_assign_exact nWorkers_ nL (Z.to_nat nWorkers_) 0%nat w
                ltac:(lia) ltac:(lia)) as Hassign.
  change (Z.of_nat 0) with 0 in Hassign.
  rewrite Hassign.
  f_equal. unfold assigning_world, built_world, assigning_pool, built_pool. cbn.
  rewrite Nat.sub_diag, app_nil_r, Z2Nat.id by lia. reflexivity.
Qed.

End ConstructionExact.

(** ** A dispatch on the fresh pool *)

Section FreshDispatch.
Context `{Definitions} `{Platform}.

Lemma lps_popWorkerToRunOn_own (toLpi workerID : Z) (rest : list Z)
  (lp : LogicalProcessor) (w : World) :
  0 <= toLpi ->
  logicalProcessors (w_pool w) !! Z.to_nat toLpi = Some lp ->
  lp_readyWorkers lp = workerID :: rest ->
  lps_popWorkerToRunOn toLpi w
  = Returns workerID
      (world_with_pool
         (pool_with_lps
            (<[Z.to_nat toLpi := lp_with_ready rest lp]> (logicalProcessors (w_pool w)))
            (w_pool w)) w).
Proof.
  intros Hi Hlp Hready.
  pose proof (lookup_lt_Some _ _ _ Hlp) as Hlt.
  unfold lps_popWorkerToRunOn, get_lps.
  erewrite bind_Returns by reflexivity.
  destruct (length (logicalProcessors (w_pool w))) as [|n] eqn:Hlen; [lia|].
  cbn [lps_popWorkerToRunOn_from]. unfold get_lps, set_lps.
  erewrite bind_Returns by reflexivity.
  assert (Hrem : Z.rem (toLpi + 0) (lps_n (logicalProcessors (w_pool w))) = toLpi).
  { rewrite Z.add_0_r. apply Z.rem_small. unfold lps_n. lia. }
  rewrite Hrem.
  erewrite bind_Returns by (apply array_get_at; eassumption).
  rewrite Hready.
  erewrite bind_Returns by (eapply array_set_at; eassumption).
  erewrite bind_Returns by reflexivity.
  reflexivity.
Qed.

Lemma filter_none (P : Z -> Prop) `{forall x, Decision (P x)} (l : list Z) :
  Forall (fun x => ~ P x) l -> filter P l = [].
Proof.
  induction 1 as [|x l Hx _ IH]; [reflexivity|].
  rewrite filter_cons_False by exact Hx. exact IH.
Qed.

(** The first worker of logical processor [i] is worker [i]. *)
Lemma workers_of_lp_head (nW nL i : Z) :
  0 <= i < nL -> nL <= nW ->
  workers_of_lp nW nL i = i :: tail (workers_of_lp nW nL i).
Proof.
  intros Hi HnL. unfold workers_of_lp.
  replace nW with (i + (1 + (nW - i - 1))) by lia.
  rewrite seqZ_app by lia. rewrite (seqZ_app _ 1) by lia.
  rewrite !filter_app.
  rewrite (filter_none _ (seqZ 0 i)).
  - change (seqZ (0 + i) 1) with [0 + i]. rewrite Z.add_0_l.
    rewrite filter_cons_True by (apply Z.mod_small; lia).
    reflexivity.
  - apply Forall_seqZ. intros j Hj. rewrite Z.mod_small by lia. lia.
Qed.

Lemma dispatching_lps_lookup (nW nL : Z) (i : nat) :
  Z.of_nat i < nL ->
  ((dispatched_lp nW nL <$> seqZ 0 (Z.of_nat i))
   ++ (built_lp nW nL <$> seqZ (Z.of_nat i) (nL - Z.of_nat i))) !! i
  = Some (built_lp nW nL (Z.of_nat i)).
Proof.
  intros Hi.
  rewrite lookup_app_r by (rewrite length_fmap, length_seqZ; lia).
  rewrite length_fmap, length_seqZ, Nat2Z.id, Nat.sub_diag.
  rewrite list_lookup_fmap, lookup_seqZ_lt by lia.
  cbn. rewrite Z.add_0_r. reflexivity.
Qed.

Lemma dispatching_lps_step (nW nL : Z) (i : nat) (lp : LogicalProcessor) :
  Z.of_nat i < nL ->
  <[i := dispatched_lp nW nL (Z.of_nat i)]>
    (<[i := lp]>
       ((dispatched_lp nW nL <$> seqZ 0 (Z.of_nat i))
        ++ (built_lp nW nL <$> seqZ (Z.of_nat i) (nL - Z.of_nat i))))
  = (dispatched_lp nW nL <$> seqZ 0 (Z.of_nat (S i)))
    ++ (built_lp nW nL <$> seqZ (Z.of_nat (S i)) (nL - Z.of_nat (S i))).
Proof.
  intros Hi.
  assert (Hlen : length (dispatched_lp nW nL <$> seqZ 0 (Z.of_nat i)) = i)
    by (rewrite length_fmap, length_seqZ; lia).
  rewrite (seqZ_cons (Z.of_nat i)) by lia.
  rewrite fmap_cons.
  rewrite !insert_app_r_alt by lia.
  rewrite Hlen, Nat.sub_diag. cbn [insert list_insert].
  rewrite seqZ_S, fmap_app, <- app_assoc. cbn.
  replace (Z.succ (Z.of_nat i)) with (Z.of_nat (S i)) by lia.
  replace (Z.pred (nL - Z.of_nat i)) with (nL - Z.of_nat (S i)) by lia.
  reflexivity.
Qed.

Lemma dispatch_trace_S (i : nat) :
  concat (dispatch_calls <$> seqZ 0 (Z.of_nat (S i)))
  = concat (dispatch_calls <$> seqZ 0 (Z.of_nat i)) ++ dispatch_calls (Z.of_nat i).
Proof.
  rewrite seqZ_S, fmap_app, concat_app. reflexivity.
Qed.

Lemma lps_idleTimerStop_at (lpi : Z) (lp : LogicalProcessor) (w : World) :
  0 <= lpi -> logicalProcessors (w_pool w) !! Z.to_nat lpi = Some lp ->
  lps_idleTimerStop lpi w
  = Returns tt
      (world_with_trace (w_trace w ++ [call_lps_idleTimerStop lpi])
         (world_with_pool
            (pool_with_lps
               (<[Z.to_nat lpi := lp_with_idleTimer false lp]>
                  (logicalProcessors (w_pool w)))
               (w_pool w)) w)).
Proof.
  intros Hi Hlp. unfold lps_idleTimerStop, get_lps, set_lps.
  erewrite bind_Returns by reflexivity.
  erewrite bind_Returns by (apply array_get_at; eassumption).
  erewrite bind_Returns by (eapply array_set_at; eassumption).
  erewrite bind_Returns by reflexivity.
  reflexivity.
Qed.

Lemma sem_post_at (workerID count : Z) (w : World) :
  0 <= workerID ->
  workerBeginSems (w_pool w) !! Z.to_nat workerID = Some count ->
  sem_post workerID w
  = Returns 0
      (world_with_trace (w_trace w ++ [call_sem_post workerID])
         (world_with_pool
            (pool_with_sems
               (<[Z.to_nat workerID := count + 1]> (workerBeginSems (w_pool w)))
               (w_pool w)) w)).
Proof.
  intros Hi Hc. unfold sem_post, _worker_pool.
  erewrite bind_Returns by reflexivity.
  erewrite bind_Returns by (apply array_get_at; eassumption).
  erewrite bind_Returns by (eapply array_set_at; eassumption).
  erewrite bind_Returns by reflexivity.
  erewrite bind_Returns by reflexivity.
  reflexivity.
Qed.

(** One turn of the dispatch loop on the fresh pool: logical processor
    [i] wakes up worker [i]. *)
Lemma _workerpool_startTaskFn_loop_step (nW nL : Z) (fn : option Z) (data : Z)
  (i : nat) (w : World) :
  Z.of_nat i < nL -> nL <= nW ->
  (let* workerID := _workerpool_getNextWorkerForLogicalProcessorIdx (Z.of_nat i) in
   lps_idleTimerStop (Z.of_nat i) ;;;
   sem_post workerID) (dispatching_world nW nL fn data i w)
  = Returns 0 (dispatching_world nW nL fn data (S i) w)
  /\ _workerpool_getNextWorkerForLogicalProcessorIdx (Z.of_nat i)
       (dispatching_world nW nL fn data i w)
     = Returns (Z.of_nat i)
         (world_of (_workerpool_getNextWorkerForLogicalProcessorIdx (Z.of_nat i)
                      (dispatching_world nW nL fn data i w)) w).
Proof.
  intros Hi HnL.
  set (W := dispatching_world nW nL fn data i w).
  set (lp0 := built_lp nW nL (Z.of_nat i)).
  set (lp1 := lp_with_ready (tail (workers_of_lp nW nL (Z.of_nat i))) lp0).
  assert (Hlp0 : logicalProcessors (w_pool W) !! Z.to_nat (Z.of_nat i) = Some lp0).
  { rewrite Nat2Z.id. apply dispatching_lps_lookup. exact Hi. }
  assert (Hpop := lps_popWorkerToRunOn_own (Z.of_nat i) (Z.of_nat i)
                    (tail (workers_of_lp nW nL (Z.of_nat i))) lp0 W
                    ltac:(lia) Hlp0 (workers_of_lp_head nW nL (Z.of_nat i)
                                       ltac:(lia) HnL)).
  fold lp1 in Hpop. rewrite Nat2Z.id in Hpop.
  set (W1 := world_with_pool
               (pool_with_lps (<[i := lp1]> (logicalProcessors (w_pool W))) (w_pool W)) W)
    in *.
  assert (Hlen : (i < length (logicalProcessors (w_pool W)))%nat)
    by (eapply lookup_lt_Some; rewrite Nat2Z.id in Hlp0; exact Hlp0).
  assert (Hlp1 : logicalProcessors (w_pool W1) !! Z.to_nat (Z.of_nat i) = Some lp1).
  { rewrite Nat2Z.id. cbn. apply list_lookup_insert_eq. exact Hlen. }
  assert (Hidx : workerLogicalProcessorIdxs (w_pool W1) !! Z.to_nat (Z.of_nat i)
                 = Some (Z.of_nat i)).
  { rewrite Nat2Z.id. cbn. rewrite list_lookup_fmap, lookup_seqZ_lt by lia.
    cbn. rewrite Z.mod_small by lia. reflexivity. }
  assert (Hset := _workerpool_setLogicalProcessorIdx_at (Z.of_nat i) (Z.of_nat i)
                    (Z.of_nat i) (gettid (Z.of_nat i)) (affinity_cpuOf (Z.of_nat i))
                    lp1 W1 eq_refl ltac:(lia) ltac:(lia) Hidx).
  rewrite Nat2Z.id in Hset.
  specialize (Hset ltac:(cbn; rewrite list_lookup_fmap, lookup_seqZ_lt by lia;
                         reflexivity)).
  rewrite Nat2Z.id in Hlp1. specialize (Hset Hlp1).
  replace (0 <=? Z.of_nat i) with true in Hset by (symmetry; apply Z.leb_le; lia).
  specialize (Hset ltac:(exists lp1; split; [exact Hlp1 | reflexivity])).
  rewrite list_insert_id in Hset by (rewrite Nat2Z.id in Hidx; exact Hidx).
  set (W2 := world_with_trace _ _) in Hset.
  assert (Hnext : _workerpool_getNextWorkerForLogicalProcessorIdx (Z.of_nat i) W
                  = Returns (Z.of_nat i) W2).
  { unfold _workerpool_getNextWorkerForLogicalProcessorIdx.
    erewrite bind_Returns by exact Hpop.
    replace (0 <=? Z.of_nat i) with true by (symmetry; apply Z.leb_le; lia).
    erewrite bind_Returns by exact Hset.
    reflexivity. }
  split; [|rewrite Hnext; reflexivity].
  erewrite bind_Returns by exact Hnext.
  erewrite bind_Returns.
  2:{ apply (lps_idleTimerStop_at (Z.of_nat i) lp1); [lia|].
      rewrite Nat2Z.id. exact Hlp1. }
  assert (Hrest : (Z.to_nat nW - i = S (Z.to_nat nW - S i))%nat) by lia.
  erewrite (sem_post_at (Z.of_nat i) 0).
  - f_equal. unfold W2, W1, W, dispatching_world. cbn.
    unfold world_with_trace, world_with_pool, pool_with_sems, pool_with_lps,
      pool_with_lpIdxs, dispatching_pool. cbn.
    f_equal.
    + f_equal.
      * rewrite Nat2Z.id, Hrest. rewrite <- (length_replicate i 1) at 1.
        rewrite insert_after_prefix, <- replicate_S_end. reflexivity.
      * rewrite Nat2Z.id. apply (dispatching_lps_step nW nL i lp1 Hi).
    + rewrite dispatch_trace_S. unfold dispatch_calls.
      rewrite <- !app_assoc. reflexivity.
  - lia.
  - cbn. rewrite Nat2Z.id, Hrest. rewrite <- (length_replicate i 1) at 1.
    apply lookup_after_prefix.
Qed.

Lemma bind_assoc {A B C} (c : M A) (f : A -> M B) (g : B -> M C) (w : World) :
  bind (bind c f) g w = bind c (fun a => bind (f a) g) w.
Proof. unfold bind. destruct (c w); reflexivity. Qed.

Lemma _workerpool_startTaskFn_loop_exact (nW nL : Z) (fn : option Z) (data : Z)
  (n : nat) :
  forall (i : nat) (w : World),
    Z.of_nat (i + n) <= nL -> nL <= nW ->
    _workerpool_startTaskFn_loop n (Z.of_nat i) (dispatching_world nW nL fn data i w)
    = Returns tt (dispatching_world nW nL fn data (i + n) w).
Proof.
  induction n as [|n IH]; intros i w Hi HnL.
  - rewrite Nat.add_0_r. reflexivity.
  - destruct (_workerpool_startTaskFn_loop_step nW nL fn data i w ltac:(lia) HnL)
      as [Hstep Hnext].
    cbn [_workerpool_startTaskFn_loop].
    unfold bind at 1 in Hstep. unfold bind at 1.
    destruct (_workerpool_getNextWorkerForLogicalProcessorIdx (Z.of_nat i)
                (dispatching_world nW nL fn data i w)) as [workerID w1| |];
      try discriminate.
    cbn [world_of] in Hnext. injection Hnext as ->.
    replace (0 <=? Z.of_nat i) with true by (symmetry; apply Z.leb_le; lia).
    unfold bind at 1 in Hstep. unfold bind at 1.
    destruct (lps_idleTimerStop (Z.of_nat i) w1) as [[] w2| |]; try discriminate.
    erewrite bind_Returns by exact Hstep.
    cbn [Z.eqb negb].
    erewrite bind_Returns by reflexivity.
    replace (Z.of_nat i + 1) with (Z.of_nat (S i)) by lia.
    rewrite IH by lia. f_equal. f_equal. lia.
Qed.

Lemma world_with_own_pool (w : World) : world_with_pool (w_pool w) w = w.
Proof. destruct w; reflexivity. Qed.

(** [_workerpool_startTaskFn] on the pool that the constructor builds:
    the task is stored and the first worker of every logical processor,
    worker [i] for logical processor [i], is woken up. *)
Lemma _workerpool_startTaskFn_fresh (nW nL : Z) (fn : option Z) (data : Z) (w : World) :
  1 <= nL <= nW ->
  w_pool w = built_pool nW nL ->
  _workerpool_startTaskFn fn data w = Returns tt (dispatched_world nW nL fn data w).
Proof.
  intros HnL Hpool.
  unfold _workerpool_startTaskFn, _worker_pool, get_lps.
  erewrite bind_Returns by (apply MAGIC_ASSERT_ok; rewrite Hpool; reflexivity).
  erewrite bind_Returns by reflexivity.
  rewrite Hpool. cbn [nWorkers built_pool].
  replace (nW =? 0) with false by (symmetry; apply Z.eqb_neq; lia).
  unfold utility_assert. cbn [taskFn]. cbn [bool_decide decide_rel].
  rewrite bool_decide_eq_true_2 by reflexivity.
  erewrite bind_Returns by reflexivity.
  erewrite bind_Returns by reflexivity.
  erewrite bind_Returns by reflexivity.
  assert (Hstart : world_with_pool (pool_with_task fn data (w_pool w)) w
                   = dispatching_world nW nL fn data 0 w).
  { unfold dispatching_world, dispatching_pool. rewrite Hpool.
    cbn. rewrite app_nil_r, Nat.sub_0_r, Z.sub_0_r.
    destruct w; reflexivity. }
  rewrite Hstart.
  assert (Hn : lps_n (logicalProcessors (w_pool (dispatching_world nW nL fn data 0 w)))
               = nL).
  { unfold lps_n, dispatching_world, dispatching_pool.
    cbn [w_pool world_with_trace world_with_pool logicalProcessors].
    rewrite length_app, !length_fmap, !length_seqZ. lia. }
  rewrite Hn.
  exact (_workerpool_startTaskFn_loop_exact nW nL fn data (Z.to_nat nL) 0%nat w
           ltac:(lia) ltac:(lia)).
Qed.

(** ** The loop of the dispatch and its passes

    Every call of a pass leaves the number of logical processors as it
    is, so that the loop with its [n] iterations left and the passes of
    the main thread, left alone, are the same run. *)

Lemma keeps_bind {A B} (c : M A) (k : A -> M B) :
  keeps_lps_n c -> (forall a, keeps_lps_n (k a)) -> keeps_lps_n (bind c k).
Proof.
  intros Hc Hk w b w' Hrun. unfold bind in Hrun.
  destruct (c w) as [a w1| |] eqn:Hcw; try discriminate.
  rewrite (Hk a w1 b w' Hrun). exact (Hc w a w1 Hcw).
Qed.

Lemma keeps_pure {A} (c : M A) :
  (forall w a w', c w = Returns a w' -> w' = w) -> keeps_lps_n c.
Proof. intros Hc w a w' Hrun. rewrite (Hc w a w' Hrun). reflexivity. Qed.

Lemma array_get_Returns {A} (l : list A) (i : Z) (w : World) a w' :
  array_get l i w = Returns a w' -> w' = w /\ l !! Z.to_nat i = Some a.
Proof.
  unfold array_get, ret, undefined. destruct (in_bounds l i); [|discriminate].
  destruct (l !! Z.to_nat i); [|discriminate]. intros [= -> ->]. split; reflexivity.
Qed.

Lemma array_set_Returns {A} (l : list A) (i : Z) (x : A) (w : World) l' w' :
  array_set l i x w = Returns l' w' -> w' = w /\ l' = <[Z.to_nat i := x]> l.
Proof.
  unfold array_set, ret, undefined. destruct (in_bounds l i); [|discriminate].
  intros [= <- <-]. split; reflexivity.
Qed.

Lemma keeps_array_get {A} (l : list A) i : keeps_lps_n (array_get l i).
Proof.
  apply keeps_pure. intros w a w' Hrun. apply array_get_Returns in Hrun as [-> _].
  reflexivity.
Qed.

Lemma keeps_array_set {A} (l : list A) i x : keeps_lps_n (array_set l i x).
Proof.
  apply keeps_pure. intros w a w' Hrun. apply array_set_Returns in Hrun as [-> _].
  reflexivity.
Qed.

Lemma keeps_ret {A} (a : A) : keeps_lps_n (ret a).
Proof. apply keeps_pure. intros w b w' [= _ <-]. reflexivity. Qed.

Lemma keeps_gets {A} (f : World -> A) : keeps_lps_n (gets f).
Proof. apply keeps_pure. intros w b w' [= _ <-]. reflexivity. Qed.

Lemma keeps_aborts {A} (c : M A) :
  (forall w, c w = Aborts w) -> keeps_lps_n c.
Proof. intros Hc w a w' Hrun. rewrite Hc in Hrun. discriminate. Qed.

Lemma keeps_utility_assert (b : bool) : keeps_lps_n (utility_assert b).
Proof. destruct b; [apply keeps_ret|apply keeps_aborts; reflexivity]. Qed.

Lemma keeps_modify (f : World -> World) :
  (forall w, logicalProcessors (w_pool (f w)) = logicalProcessors (w_pool w)) ->
  keeps_lps_n (modify f).
Proof. intros Hf w a w' [= _ <-]. rewrite Hf. reflexivity. Qed.

Lemma keeps_log (c : Call) : keeps_lps_n (log c).
Proof. apply keeps_modify. reflexivity. Qed.

Lemma keeps_lps_cpuId (i : Z) : keeps_lps_n (lps_cpuId i).
Proof.
  unfold lps_cpuId, get_lps.
  apply keeps_bind; [apply keeps_gets|intros lps].
  apply keeps_bind; [apply keeps_array_get|intros lp]. apply keeps_ret.
Qed.

Lemma keeps_lps_popWorkerToRunOn_from (n : nat) :
  forall k toLpi, keeps_lps_n (lps_popWorkerToRunOn_from n k toLpi).
Proof.
  induction n as [|n IH]; intros k toLpi; cbn [lps_popWorkerToRunOn_from].
  - apply keeps_ret.
  - intros w a w' Hrun. unfold bind at 1, get_lps, gets in Hrun.
    unfold bind at 1 in Hrun.
    destruct (array_get _ _ w) as [lp w1| |] eqn:Hget; try discriminate.
    apply array_get_Returns in Hget as [-> _].
    destruct (lp_readyWorkers lp) as [|workerID rest].
    + exact (IH _ _ w a w' Hrun).
    + unfold bind at 1 in Hrun.
      destruct (array_set _ _ _ w) as [lps' w1| |] eqn:Hset; try discriminate.
      apply array_set_Returns in Hset as [-> ->].
      injection Hrun as _ <-. cbn. unfold lps_n. f_equal. apply length_insert.
Qed.

Lemma keeps__workerpool_setLogicalProcessorIdx (workerID i : Z) :
  keeps_lps_n (_workerpool_setLogicalProcessorIdx workerID i).
Proof.
  unfold _workerpool_setLogicalProcessorIdx, MAGIC_ASSERT, get_lps, _worker_pool,
    affinity_setProcessAffinity.
  repeat first
    [ apply keeps_ret | apply keeps_gets | apply keeps_array_get | apply keeps_array_set
    | apply keeps_utility_assert | apply keeps_log | apply keeps_lps_cpuId
    | apply keeps_modify; reflexivity
    | apply keeps_bind; [|intros ?]
    | match goal with |- keeps_lps_n (if ?b then _ else _) => destruct b end ].
Qed.

Lemma keeps__workerpool_getNextWorkerForLogicalProcessorIdx (i : Z) :
  keeps_lps_n (_workerpool_getNextWorkerForLogicalProcessorIdx i).
Proof.
  unfold _workerpool_getNextWorkerForLogicalProcessorIdx, lps_popWorkerToRunOn, get_lps.
  apply keeps_bind.
  - apply keeps_bind; [apply keeps_gets|intros lps].
    apply keeps_lps_popWorkerToRunOn_from.
  - intros k. apply keeps_bind; [|intros ?; apply keeps_ret].
    destruct (0 <=? k);
      [apply keeps__workerpool_setLogicalProcessorIdx|apply keeps_ret].
Qed.

Lemma keeps_lps_idleTimerStop (i : Z) : keeps_lps_n (lps_idleTimerStop i).
Proof.
  intros w a w' Hrun. unfold lps_idleTimerStop in Hrun.
  unfold bind, get_lps, gets in Hrun.
  destruct (array_get _ i w) as [lp w1| |] eqn:Hget; try discriminate.
  apply array_get_Returns in Hget as [-> _].
  destruct (array_set _ i _ w) as [lps' w1| |] eqn:Hset; try discriminate.
  apply array_set_Returns in Hset as [-> ->].
  cbn in Hrun. injection Hrun as _ <-. cbn. unfold lps_n. f_equal. apply length_insert.
Qed.

Lemma keeps_sem_post (k : Z) : keeps_lps_n (sem_post k).
Proof.
  unfold sem_post, _worker_pool.
  repeat first
    [ apply keeps_ret | apply keeps_gets | apply keeps_array_get | apply keeps_array_set
    | apply keeps_log | apply keeps_modify; reflexivity
    | apply keeps_bind; [|intros ?] ].
Qed.

(** The passes of the main thread, left alone. *)
Lemma run_steps_returned (n : nat) (returned : list Z) (w : World) :
  run_steps (replicate n step_dispatch) None returned w
  = Some (Returns (None, returned) w).
Proof. induction n as [|n IH]; [reflexivity|exact IH]. Qed.

Lemma bind_Aborts {A B} (c : M A) (k : A -> M B) w w' :
  c w = Aborts w' -> bind c k w = Aborts w'.
Proof. intros Hc. unfold bind. rewrite Hc. reflexivity. Qed.

Lemma bind_Undefined {A B} (c : M A) (k : A -> M B) w :
  c w = Undefined -> bind c k w = Undefined.
Proof. intros Hc. unfold bind. rewrite Hc. reflexivity. Qed.

Lemma _workerpool_startTaskFn_loop_alone (n : nat) :
  forall (i : Z) (returned : list Z) (w : World),
    lps_n (logicalProcessors (w_pool w)) = i + Z.of_nat n ->
    run_steps (replicate (S n) step_dispatch) (Some i) returned w
    = Some (match _workerpool_startTaskFn_loop n i w with
            | Returns _ w' => Returns (None, returned) w'
            | Aborts w' => Aborts w'
            | Undefined => Undefined
            end).
Proof.
  induction n as [|n IH]; intros i returned w HL.
  - cbn [replicate run_steps _workerpool_startTaskFn_loop].
    unfold blocking_bind, blocking_of, _workerpool_startTaskFn_iteration.
    unfold bind at 1, get_lps, gets.
    replace (i <? _) with false by (symmetry; apply Z.ltb_ge; lia).
    reflexivity.
  - change (replicate (S (S n)) step_dispatch)
      with (step_dispatch :: replicate (S n) step_dispatch).
    cbn [run_steps _workerpool_startTaskFn_loop].
    unfold blocking_bind at 1, blocking_of, _workerpool_startTaskFn_iteration.
    unfold get_lps. erewrite bind_Returns by reflexivity.
    replace (i <? _) with true by (symmetry; apply Z.ltb_lt; lia).
    destruct (_workerpool_getNextWorkerForLogicalProcessorIdx i w)
      as [workerID w1| |] eqn:Hnext.
    2:{ rewrite !(bind_Aborts _ _ _ _ Hnext). reflexivity. }
    2:{ rewrite !(bind_Undefined _ _ _ Hnext). reflexivity. }
    pose proof (keeps__workerpool_getNextWorkerForLogicalProcessorIdx i w _ _ Hnext) as HL1.
    rewrite !(bind_Returns _ _ _ _ _ Hnext).
    destruct (0 <=? workerID).
    2:{ cbn [ret]. rewrite run_steps_returned. reflexivity. }
    destruct (lps_idleTimerStop i w1) as [[] w2| |] eqn:Hstop.
    2:{ rewrite !(bind_Aborts _ _ _ _ Hstop). reflexivity. }
    2:{ rewrite !(bind_Undefined _ _ _ Hstop). reflexivity. }
    pose proof (keeps_lps_idleTimerStop i w1 _ _ Hstop) as HL2.
    rewrite !(bind_Returns _ _ _ _ _ Hstop).
    destruct (sem_post workerID w2) as [rv w3| |] eqn:Hpost.
    2:{ rewrite !(bind_Aborts _ _ _ _ Hpost). reflexivity. }
    2:{ rewrite !(bind_Undefined _ _ _ Hpost). reflexivity. }
    pose proof (keeps_sem_post workerID w2 _ _ Hpost) as HL3.
    rewrite !(bind_Returns _ _ _ _ _ Hpost).
    destruct (negb (rv =? 0)); [reflexivity|].
    erewrite !bind_Returns by reflexivity. cbn [ret].
    apply IH. lia.
Qed.

(** [_workerpool_startTaskFn] is its code before the loop followed by the
    passes of the loop, the main thread being left alone. *)
Lemma _workerpool_startTaskFn_alone (fn : option Z) (data : Z) (returned : list Z)
  (w w0 : World) :
  _workerpool_startTaskFn_enter fn data w = Returns (Some 0) w0 ->
  run_steps (replicate (S (Z.to_nat (lps_n (logicalProcessors (w_pool w0))))) step_dispatch)
    (Some 0) returned w0
  = Some (match _workerpool_startTaskFn fn data w with
          | Returns _ w' => Returns (None, returned) w'
          | Aborts w' => Aborts w'
          | Undefined => Undefined
          end).
Proof.
  intros Henter.
  rewrite _workerpool_startTaskFn_loop_alone by (unfold lps_n; lia).
  f_equal.
  unfold _workerpool_startTaskFn_enter, _workerpool_startTaskFn in *.
  unfold bind at 1 in Henter. unfold bind at 1.
  destruct (MAGIC_ASSERT w) as [[] w1| |]; try discriminate.
  unfold bind at 1 in Henter. unfold bind at 1. unfold _worker_pool, gets in *.
  destruct (nWorkers (w_pool w1) =? 0).
  { unfold bind in Henter. destruct fn; discriminate. }
  unfold bind at 1 in Henter. unfold bind at 1.
  destruct (utility_assert _ w1) as [[] w2| |]; try discriminate.
  unfold bind at 1 in Henter. unfold bind at 1. unfold modify in *.
  injection Henter as <-.
  unfold bind at 1, get_lps, gets. reflexivity.
Qed.

End FreshDispatch.

(** * Properties of the constructor and of the dispatch *)

Section ExtraPool.
Context `{Definitions} `{Platform}.

Lemma built_pool_ok (nW nL : Z) : 1 <= nL -> pool_ok (built_pool nW nL).
Proof.
  intros HnL. unfold pool_ok, lps_n. cbn.
  rewrite length_replicate, length_fmap, length_seqZ.
  split; [reflexivity|]. split; [lia|]. split; [reflexivity|].
  apply Forall_replicate. lia.
Qed.

Lemma elem_of_workers_of_lp (nW nL i k : Z) :
  k ∈ workers_of_lp nW nL i <-> (0 <= k < nW) /\ k mod nL = i.
Proof.
  unfold workers_of_lp. rewrite list_elem_of_filter, elem_of_seqZ. tauto.
Qed.

Lemma posted_workers_app (a b : list Call) :
  posted_workers (a ++ b) = posted_workers a ++ posted_workers b.
Proof. apply omap_app. Qed.

Lemma posted_workers_dispatch (n : nat) :
  posted_workers (concat (dispatch_calls <$> seqZ 0 (Z.of_nat n))) = seqZ 0 (Z.of_nat n).
Proof.
  induction n as [|n IH]; [reflexivity|].
  rewrite dispatch_trace_S, posted_workers_app, IH, seqZ_S. reflexivity.
Qed.

(** X1.  [workerpool_new], for at least one worker and a parallelism of at
    least one, returns; it leaves a well-formed pool of
    [L = min(nParallel, nWorkers)] logical processors in which worker [k]
    sits on logical processor [k mod L], whose ready queue lists exactly
    the workers congruent to it, every semaphore is at 0, every slot of
    [minEventTimes] is at [SIMTIME_MAX] and no task is in flight; the only
    calls made are the affinity calls, one per worker, from no CPU to the
    CPU of its logical processor; the rest of the world is untouched. *)
Theorem X1_workerpool_new_builds_pool (nWorkers_ nParallel : Z) (w : World) :
  1 <= nWorkers_ -> 1 <= nParallel ->
  let L := Z.min nParallel nWorkers_ in
  workerpool_new nWorkers_ nParallel w = Returns tt (built_world nWorkers_ L w) /\
  pool_ok (built_pool nWorkers_ L) /\
  (forall k, 0 <= k < nWorkers_ ->
     workerLogicalProcessorIdxs (built_pool nWorkers_ L) !! Z.to_nat k = Some (k mod L) /\
     0 <= k mod L < L) /\
  (forall i, 0 <= i < L ->
     exists lp,
       logicalProcessors (built_pool nWorkers_ L) !! Z.to_nat i = Some lp /\
       lp_doneWorkers lp = [] /\
       (forall k, k ∈ lp_readyWorkers lp <-> (0 <= k < nWorkers_) /\ k mod L = i)).
Proof.
  intros HnW HnP L.
  assert (HL : 1 <= L <= nWorkers_) by (unfold L; lia).
  split; [apply workerpool_new_exact; assumption|].
  split; [apply built_pool_ok; lia|].
  split.
  - intros k Hk. split; [|apply Z.mod_pos_bound; lia].
    cbn. rewrite list_lookup_fmap, lookup_seqZ_lt by lia.
    cbn. rewrite Z2Nat.id by lia. reflexivity.
  - intros i Hi. exists (built_lp nWorkers_ L i). split.
    + cbn. rewrite lookup_built_lps by lia. rewrite Z2Nat.id by lia. reflexivity.
    + split; [reflexivity|]. intros k. apply elem_of_workers_of_lp.
Qed.

(** X2.  [workerpool_new] aborts on its assertions, before anything is
    allocated or any thread is started, when the number of workers or the
    parallelism is below one. *)
Theorem X2_workerpool_new_rejects_empty_pool (nWorkers_ nParallel : Z) (w : World) :
  nWorkers_ < 1 \/ nParallel < 1 ->
  workerpool_new nWorkers_ nParallel w = Aborts w.
Proof.
  intros Hbad. unfold workerpool_new, utility_assert, bind.
  destruct (Z.leb_spec 1 nParallel) as [HnP|HnP]; [|reflexivity].
  destruct (Z.leb_spec 1 nWorkers_) as [HnW|HnW]; [lia|reflexivity].
Qed.

Lemma idle_stops_app (a b : list Call) :
  idle_stops (a ++ b) = idle_stops a ++ idle_stops b.
Proof. unfold idle_stops. apply omap_app. Qed.

Lemma idle_stops_dispatch (n : nat) :
  idle_stops (concat (dispatch_calls <$> seqZ 0 (Z.of_nat n))) = seqZ 0 (Z.of_nat n).
Proof.
  induction n as [|n IH]; [reflexivity|].
  rewrite dispatch_trace_S, idle_stops_app, IH, seqZ_S. reflexivity.
Qed.

(** X3.  The dispatch on the pool that the constructor builds, when no
    worker takes a turn before the loop has ended: the code before the loop
    stores the task and its data, and the passes of the loop wake up
    exactly the workers [0 .. L-1], the first worker of each of the [L]
    logical processors, each once, in order, each keeping its logical
    processor and its CPU; their semaphores are then at 1 and those of the
    other workers at 0.  This is the state that [_workerpool_startTaskFn]
    gives, also for a NULL task function, and [workerpool_startTaskFn] for
    a task function that is not NULL. *)
Theorem X3_dispatch_alone_wakes_one_worker_per_lp (nW nL : Z) (fn : option Z) (data : Z)
  (w : World) :
  1 <= nL <= nW ->
  w_pool w = built_pool nW nL ->
  let w0 := world_with_pool (pool_with_task fn data (w_pool w)) w in
  let w' := dispatched_world nW nL fn data w in
  _workerpool_startTaskFn_enter fn data w = Returns (Some 0) w0 /\
  run_steps (replicate (S (Z.to_nat nL)) step_dispatch) (Some 0) [] w0
  = Some (Returns (None, []) w') /\
  _workerpool_startTaskFn fn data w = Returns tt w' /\
  (fn <> None -> workerpool_startTaskFn fn data w = Returns tt w') /\
  taskFn (w_pool w') = fn /\ taskData (w_pool w') = data /\
  idle_stops (w_trace w') = idle_stops (w_trace w) ++ seqZ 0 nL /\
  posted_workers (w_trace w') = posted_workers (w_trace w) ++ seqZ 0 nL /\
  workerBeginSems (w_pool w')
  = replicate (Z.to_nat nL) 1 ++ replicate (Z.to_nat nW - Z.to_nat nL) 0 /\
  workerLogicalProcessorIdxs (w_pool w') = workerLogicalProcessorIdxs (w_pool w).
Proof.
  intros HnL Hpool w0 w'.
  pose proof (_workerpool_startTaskFn_fresh nW nL fn data w HnL Hpool) as Hrun.
  assert (Henter : _workerpool_startTaskFn_enter fn data w = Returns (Some 0) w0).
  { unfold _workerpool_startTaskFn_enter, _worker_pool.
    erewrite bind_Returns by (apply MAGIC_ASSERT_ok; rewrite Hpool; reflexivity).
    erewrite bind_Returns by reflexivity.
    replace (nWorkers (w_pool w) =? 0) with false
      by (rewrite Hpool; symmetry; apply Z.eqb_neq; cbn; lia).
    unfold utility_assert.
    rewrite bool_decide_eq_true_2 by (rewrite Hpool; reflexivity).
    erewrite bind_Returns by reflexivity.
    erewrite bind_Returns by reflexivity. reflexivity. }
  split; [exact Henter|].
  split.
  { pose proof (_workerpool_startTaskFn_alone fn data [] w w0 Henter) as Halone.
    rewrite Hrun in Halone.
    assert (HL : lps_n (logicalProcessors (w_pool w0)) = nL).
    { unfold w0. cbn. rewrite Hpool. unfold lps_n. cbn.
      rewrite length_fmap, length_seqZ. lia. }
    rewrite HL in Halone. exact Halone. }
  split; [exact Hrun|].
  split.
  { intros Hfn. unfold workerpool_startTaskFn.
    erewrite bind_Returns by (apply MAGIC_ASSERT_ok; rewrite Hpool; reflexivity).
    unfold utility_assert. rewrite bool_decide_eq_true_2 by exact Hfn.
    erewrite bind_Returns by reflexivity. exact Hrun. }
  split; [reflexivity|]. split; [reflexivity|].
  split.
  { unfold w', dispatched_world, dispatching_world.
    cbn [w_trace world_with_trace].
    rewrite idle_stops_app, idle_stops_dispatch, Z2Nat.id by lia.
    reflexivity. }
  split.
  { unfold w', dispatched_world, dispatching_world.
    cbn [w_trace world_with_trace].
    rewrite posted_workers_app, posted_workers_dispatch, Z2Nat.id by lia.
    reflexivity. }
  split; [reflexivity|].
  rewrite Hpool. reflexivity.
Qed.

End ExtraPool.

Lemma X1_witness :
  @workerpool_new shadow_definitions (example_platform double_zero) 3 2 S2_start
  = Returns tt (@built_world shadow_definitions (example_platform double_zero) 3 2 S2_start).
Proof.
  exact (proj1 (@X1_workerpool_new_builds_pool shadow_definitions
                  (example_platform double_zero) 3 2 S2_start
                  ltac:(lia) ltac:(lia))).
Defined.

Lemma X2_witness :
  @workerpool_new shadow_definitions (example_platform double_zero) 0 2 S2_start
  = Aborts S2_start.
Proof.
  apply (@X2_workerpool_new_rejects_empty_pool shadow_definitions
           (example_platform double_zero) 0 2 S2_start).
  left. lia.
Defined.

Lemma X3_witness :
  let w := @built_world shadow_definitions (example_platform double_zero) 3 2 S2_start in
  let w' := @dispatched_world shadow_definitions (example_platform double_zero)
              3 2 (Some 4096) 7 w in
  @run_steps shadow_definitions [step_dispatch; step_dispatch; step_dispatch] (Some 0) []
    (world_with_pool (pool_with_task (Some 4096) 7 (w_pool w)) w)
  = Some (Returns (None, []) w') /\
  posted_workers (w_trace w') = posted_workers (w_trace w) ++ [0; 1] /\
  workerBeginSems (w_pool w') = [1; 1; 0].
Proof.
  destruct (@X3_dispatch_alone_wakes_one_worker_per_lp shadow_definitions
              (example_platform double_zero) 3 2 (Some 4096) 7
              (@built_world shadow_definitions (example_platform double_zero) 3 2 S2_start)
              ltac:(lia) eq_refl)
    as (_ & Hrun & _ & _ & _ & _ & _ & Hposted & Hsems & _).
  split; [exact Hrun|]. split; [exact Hposted|exact Hsems].
Defined.

(** * A round of offers, then the global minimum *)

Section OffersOfARound.
Context `{Definitions}.

Lemma fold_min_acc (l : list Z) : forall a b,
  fold_left Z.min l (Z.min a b) = Z.min b (fold_left Z.min l a).
Proof.
  induction l as [|x l IH]; intros a b; simpl; [lia|].
  rewrite <- IH. f_equal. lia.
Qed.

Lemma fold_min_insert (l : list Z) : forall (i : nat) (cur t m : Z),
  l !! i = Some cur ->
  fold_left Z.min (<[i := Z.min cur t]> l) m = Z.min t (fold_left Z.min l m).
Proof.
  induction l as [|x l IH]; intros i cur t m Hi; [discriminate|].
  destruct i as [|i]; simpl in *.
  - injection Hi as ->. rewrite <- fold_min_acc. f_equal. lia.
  - apply IH. exact Hi.
Qed.

Lemma fold_min_from (l : list Z) : forall m a,
  fold_left Z.min l (Z.min a m) = Z.min a (fold_left Z.min l m).
Proof.
  intros m a. rewrite Z.min_comm. apply fold_min_acc.
Qed.

Lemma offer_spec (o : Worker * SimulationTime) (w : World) :
  worker_on_pool (w_pool w) (fst o) ->
  Z.of_nat (length (minEventTimes (w_pool w))) = lps_n (logicalProcessors (w_pool w)) ->
  exists slots',
    offer o w = Returns tt (with_minEventTimes slots' (world_with_worker (fst o) w)) /\
    length slots' = length (minEventTimes (w_pool w)) /\
    forall m, fold_left Z.min slots' m
              = fold_left Z.min (admitted [o]) (fold_left Z.min (minEventTimes (w_pool w)) m).
Proof.
  destruct o as [wk t]. intros (Htid & lpi & Hidx & Hlpi) Hlen.
  unfold offer, admitted. cbn [fst snd].
  erewrite bind_Returns by reflexivity.
  destruct (Z.ltb_spec t (worker_roundEndTime wk)) as [Hlt|Hge].
  - exists (minEventTimes (w_pool w)).
    rewrite worker_setMinEventTimeNextRound_filtered by exact Hlt.
    split; [f_equal; destruct w as [[] ? ? ? ?]; reflexivity|].
    split; [reflexivity|]. intros m.
    rewrite filter_cons_False by (cbn; lia). reflexivity.
  - assert (Hlt : (Z.to_nat lpi < length (minEventTimes (w_pool w)))%nat)
      by (unfold lps_n in *; lia).
    destruct (lookup_lt_is_Some_2 _ _ Hlt) as [cur Hcur].
    exists (<[Z.to_nat lpi := Z.min cur t]> (minEventTimes (w_pool w))).
    split.
    { cbn [fst] in Htid, Hidx.
      apply (worker_setMinEventTimeNextRound_offered (world_with_worker wk w) t
               (Z.to_nat lpi) cur); [exact Hge| |exact Hcur].
      split; [exact Htid|]. split; [|exact Hlt].
      cbn. rewrite Hidx, Z2Nat.id by lia. reflexivity. }
    split; [apply length_insert|]. intros m.
    rewrite filter_cons_True by (cbn; lia). cbn.
    rewrite fold_min_insert with (cur := cur) by exact Hcur. lia.
Qed.

Lemma admitted_cons (o : Worker * SimulationTime) l :
  admitted (o :: l) = admitted [o] ++ admitted l.
Proof.
  unfold admitted. change (o :: l) with ([o] ++ l).
  rewrite filter_app, fmap_app. reflexivity.
Qed.

Lemma offers_spec (l : list (Worker * SimulationTime)) : forall (w : World),
  Forall (fun o => worker_on_pool (w_pool w) (fst o)) l ->
  Z.of_nat (length (minEventTimes (w_pool w))) = lps_n (logicalProcessors (w_pool w)) ->
  exists slots' wk',
    offers l w = Returns tt (with_minEventTimes slots' (world_with_worker wk' w)) /\
    length slots' = length (minEventTimes (w_pool w)) /\
    forall m, fold_left Z.min slots' m
              = fold_left Z.min (admitted l) (fold_left Z.min (minEventTimes (w_pool w)) m).
Proof.
  induction l as [|o l IH]; intros w Hall Hlen.
  - exists (minEventTimes (w_pool w)), (w_worker w). cbn.
    split; [|split; [reflexivity|reflexivity]].
    unfold ret. f_equal. destruct w as [[] ? ? ? ?]; reflexivity.
  - pose proof (Forall_inv Hall) as Ho. pose proof (Forall_inv_tail Hall) as Hl.
    destruct (offer_spec o w Ho Hlen) as (slots1 & Hrun1 & Hlen1 & Hmin1).
    set (w1 := with_minEventTimes slots1 (world_with_worker (fst o) w)) in *.
    destruct (IH w1) as (slots2 & wk2 & Hrun2 & Hlen2 & Hmin2).
    { exact Hl. }
    { cbn. rewrite Hlen1. exact Hlen. }
    exists slots2, wk2. cbn [offers].
    erewrite bind_Returns by exact Hrun1.
    split; [rewrite Hrun2; reflexivity|].
    split; [cbn in Hlen2; congruence|].
    intros m. rewrite Hmin2. cbn [w1 with_minEventTimes w_pool world_with_pool
      minEventTimes pool_with_minEventTimes].
    rewrite Hmin1, (admitted_cons o l), fold_left_app. reflexivity.
Qed.

(** X4.  The offers of a round and the scan compose: after any sequence of
    [worker_setMinEventTimeNextRound] calls, made by any workers of a
    well-formed pool in any order, [workerpool_getGlobalNextEventTime]
    returns the least of what the slots held before and of the offers that
    were at or after the end of the round of the offering worker; an offer
    below the end of the round never lowers the result.  All slots are back
    at [SIMTIME_MAX] and nothing else of the pool, the manager, the
    scheduler or the call log has changed. *)
Theorem X4_offers_then_global_minimum (l : list (Worker * SimulationTime)) (w : World) :
  pool_ok (w_pool w) ->
  Forall (fun o => worker_on_pool (w_pool w) (fst o)) l ->
  exists (t : SimulationTime) (w' : World),
    (offers l ;;; workerpool_getGlobalNextEventTime) w = Returns t w' /\
    t = fold_left Z.min (admitted l)
          (fold_left Z.min (minEventTimes (w_pool w)) SIMTIME_MAX) /\
    (forall x, x ∈ admitted l -> t <= x) /\
    (forall x, x ∈ minEventTimes (w_pool w) -> t <= x) /\
    w_pool w' = pool_with_minEventTimes
                  (replicate (length (minEventTimes (w_pool w))) SIMTIME_MAX) (w_pool w) /\
    w_manager w' = w_manager w /\ w_scheduler w' = w_scheduler w /\
    w_trace w' = w_trace w.
Proof.
  intros (Hmagic & Hpos & Hlen & Hall) Hl.
  destruct (offers_spec l w Hl Hlen) as (slots' & wk' & Hrun & Hlen' & Hmin).
  set (w1 := with_minEventTimes slots' (world_with_worker wk' w)) in *.
  eexists _, _. split.
  { unfold bind at 1. rewrite Hrun.
    apply workerpool_getGlobalNextEventTime_spec.
    - exact Hmagic.
    - cbn. rewrite Hlen'. exact Hlen. }
  cbn [w1 with_minEventTimes w_pool world_with_pool minEventTimes pool_with_minEventTimes].
  rewrite Hmin.
  split; [reflexivity|].
  split.
  { intros x Hx. apply fold_min_le. right. exact Hx. }
  split.
  { intros x Hx.
    pose proof (fold_min_le (minEventTimes (w_pool w)) SIMTIME_MAX x) as Hle.
    pose proof (fold_min_in (admitted l)
                  (fold_left Z.min (minEventTimes (w_pool w)) SIMTIME_MAX)) as Hin.
    apply elem_of_cons in Hin as [->|Hin]; [apply Hle; right; exact Hx|].
    etransitivity; [|apply Hle; right; exact Hx].
    apply fold_min_le. left. }
  rewrite Hlen'. split; [reflexivity|]. repeat split.
Qed.

End OffersOfARound.

Lemma X4_witness :
  exists (t : SimulationTime) (w' : World),
    (offers example_offers ;;; @workerpool_getGlobalNextEventTime shadow_definitions)
      example_offers_world = Returns t w' /\
    t = 5000.
Proof.
  destruct (@X4_offers_then_global_minimum shadow_definitions
              example_offers example_offers_world)
    as (t & w' & Hrun & Ht & _).
  - apply (@built_pool_ok shadow_definitions (example_platform double_zero)). lia.
  - unfold example_offers.
    repeat (constructor;
            [split; [cbn; lia|eexists; split; [reflexivity|vm_compute; split; [discriminate|reflexivity]]]|]).
    constructor.
  - exists t, w'. split; [exact Hrun|]. rewrite Ht. reflexivity.
Defined.

(** * The edges of worker_sendPacket and worker_scheduleTask *)

Section SendPacketEdges.
Context `{Definitions} `{Platform}.

Lemma drawn_hosts_app (a b : list Call) :
  drawn_hosts (a ++ b) = drawn_hosts a ++ drawn_hosts b.
Proof. apply omap_app. Qed.

Lemma counted_paths_app (a b : list Call) :
  counted_paths (a ++ b) = counted_paths a ++ counted_paths b.
Proof. apply omap_app. Qed.

Lemma added_statuses_app (a b : list Call) :
  added_statuses (a ++ b) = added_statuses a ++ added_statuses b.
Proof. apply omap_app. Qed.

Lemma worker_sendPacket_unresolved srcHost packet w :
  manager_schedulerIsRunning (w_manager w) = true ->
  manager_getDNS (w_manager w) !! packet_getSourceIP packet = None \/
  manager_getDNS (w_manager w) !! packet_getDestinationIP packet = None ->
  worker_sendPacket srcHost (Some packet) w
  = Aborts (world_addresses_unresolved packet w).
Proof.
  intros Hrun Hnone.
  unfold worker_sendPacket, utility_assert_ptr, utility_assert, bind,
    manager_schedulerIsRunning_, worker_resolveIPToAddress, utility_panic, abort,
    gets, log, modify, ret.
  simpl. rewrite Hrun. simpl.
  unfold world_addresses_unresolved.
  destruct (manager_getDNS (w_manager w) !! packet_getSourceIP packet) as [src|] eqn:Hsrc;
    destruct (manager_getDNS (w_manager w) !! packet_getDestinationIP packet) as [dst|] eqn:Hdst;
    try (rewrite <- !app_assoc; reflexivity).
  destruct Hnone; discriminate.
Qed.

(** X5.  With the scheduler running, a packet of which the source or the
    destination address does not resolve is fatal: [worker_sendPacket]
    panics after both lookups, the second being made even when the first
    has failed, and before anything else: the reliability is not read, no
    draw is made, no delivery status is added, no path is counted and
    nothing is pushed. *)
Theorem X5_sendPacket_unresolved_address_panics (srcHost : Host) (packet : Packet)
  (w : World) :
  manager_schedulerIsRunning (w_manager w) = true ->
  manager_getDNS (w_manager w) !! packet_getSourceIP packet = None \/
  manager_getDNS (w_manager w) !! packet_getDestinationIP packet = None ->
  exists w',
    worker_sendPacket srcHost (Some packet) w = Aborts w' /\
    w_trace w' = w_trace w
                 ++ [call_dns_resolveIPToAddress (packet_getSourceIP packet);
                     call_dns_resolveIPToAddress (packet_getDestinationIP packet)] /\
    drawn_hosts (w_trace w') = drawn_hosts (w_trace w) /\
    added_statuses (w_trace w') = added_statuses (w_trace w) /\
    pushed_events (w_trace w') = pushed_events (w_trace w) /\
    w_manager w' = w_manager w /\ w_scheduler w' = w_scheduler w /\
    w_pool w' = w_pool w.
Proof.
  intros Hrun Hnone. exists (world_addresses_unresolved packet w).
  split; [apply worker_sendPacket_unresolved; assumption|].
  unfold world_addresses_unresolved. cbn [w_trace world_with_trace].
  rewrite drawn_hosts_app, added_statuses_app, pushed_events_app. cbn.
  rewrite !app_nil_r. repeat split.
Qed.



(** X7.  Once both addresses resolve, a send that returns has advanced the
    generator of the source host exactly once, also while bootstrapping or
    for an empty packet, where the draw decides nothing; and the packet
    counter of the path is incremented exactly when the packet passes the
    reliability test: a dropped packet leaves the manager, and with it the
    topology, and the scheduler untouched. *)
Theorem X7_sendPacket_draws_once_counts_delivered (srcHost : Host) (packet : Packet)
  (src dst : Address) (w : World) :
  manager_schedulerIsRunning (w_manager w) = true ->
  manager_getDNS (w_manager w) !! packet_getSourceIP packet = Some src ->
  manager_getDNS (w_manager w) !! packet_getDestinationIP packet = Some dst ->
  (send_delivers w srcHost packet src dst = true ->
     (exists delay, latency_to_delay (send_latency w src dst) = Some delay) /\
     address_getID dst ∈ scheduler_hosts (w_scheduler w)) ->
  exists packet' w',
    worker_sendPacket srcHost (Some packet) w
    = Returns (host_after_draw srcHost, packet') w' /\
    drawn_hosts (w_trace w') = drawn_hosts (w_trace w) ++ [host_getID srcHost] /\
    counted_paths (w_trace w')
    = counted_paths (w_trace w)
      ++ (if send_delivers w srcHost packet src dst then [(src, dst)] else []) /\
    (send_delivers w srcHost packet src dst = false ->
       w_manager w' = w_manager w /\ w_scheduler w' = w_scheduler w).
Proof.
  intros Hrun Hsrc Hdst Hok.
  destruct (send_delivers w srcHost packet src dst) eqn:Hcond.
  - destruct (Hok eq_refl) as ((delay & Hdelay) & Hhost).
    eexists _, _.
    split; [eapply worker_sendPacket_sent; eassumption|].
    unfold world_packet_sent. rewrite w_trace_after_push.
    cbn [w_trace world_with_trace].
    unfold send_calls_before.
    rewrite !drawn_hosts_app, !counted_paths_app. cbn.
    rewrite !app_nil_r. split; [reflexivity|]. split; [reflexivity|].
    intros Hfalse; discriminate.
  - eexists _, _.
    split; [eapply worker_sendPacket_dropped; eassumption|].
    unfold world_packet_dropped, send_calls_before.
    cbn [w_trace world_with_trace w_manager w_scheduler].
    rewrite !drawn_hosts_app, !counted_paths_app. cbn.
    rewrite !app_nil_r. repeat split.
Qed.

End SendPacketEdges.

Lemma X5_witness :
  exists w',
    @worker_sendPacket (example_platform double_zero) (example_host 1)
      (Some {| packet_getSourceIP := 101; packet_getDestinationIP := 109;
               packet_getPayloadLength := 10; packet_deliveryStatus := [] |})
      delivering_world = Aborts w' /\
    drawn_hosts (w_trace w') = [].
Proof.
  destruct (@X5_sendPacket_unresolved_address_panics (example_platform double_zero)
              (example_host 1)
              {| packet_getSourceIP := 101; packet_getDestinationIP := 109;
                 packet_getPayloadLength := 10; packet_deliveryStatus := [] |}
              delivering_world eq_refl (or_intror eq_refl))
    as (w' & Hrun & _ & Hdrawn & _).
  exists w'. split; [exact Hrun|exact Hdrawn].
Defined.


Lemma X7_witness :
  exists packet' w',
    @worker_sendPacket (example_platform double_half) (example_host 1)
      (Some (example_packet 10)) delivering_world
    = Returns (@host_after_draw (example_platform double_half) (example_host 1), packet') w' /\
    drawn_hosts (w_trace w') = [1] /\
    counted_paths (w_trace w') = [(example_addr 1, example_addr 2)].
Proof.
  destruct (@X7_sendPacket_draws_once_counts_delivered (example_platform double_half)
              (example_host 1) (example_packet 10) (example_addr 1) (example_addr 2)
              delivering_world)
    as (packet' & w' & Hrun & Hdrawn & Hcounted & _).
  - reflexivity.
  - reflexivity.
  - reflexivity.
  - intros _. split; [exists 500000; reflexivity|]. vm_compute. set_solver.
  - exists packet', w'. split; [exact Hrun|]. split; [exact Hdrawn|exact Hcounted].
Defined.

(** * The round protocol: proofs *)

(** ** The steps of a turn, exactly *)

Section RoundSteps.
Context `{Definitions} `{Platform}.

Lemma lps_donePush_at (lpi workerID : Z) (lp : LogicalProcessor) (w : World) :
  0 <= lpi -> logicalProcessors (w_pool w) !! Z.to_nat lpi = Some lp ->
  lps_donePush lpi workerID w
  = Returns tt
      (world_with_pool
         (pool_with_lps
            (<[Z.to_nat lpi := lp_with_done (lp_doneWorkers lp ++ [workerID]) lp]>
               (logicalProcessors (w_pool w)))
            (w_pool w)) w).
Proof.
  intros Hi Hlp. unfold lps_donePush, get_lps, set_lps.
  erewrite bind_Returns by reflexivity.
  erewrite bind_Returns by (apply array_get_at; eassumption).
  erewrite bind_Returns by (eapply array_set_at; eassumption).
  reflexivity.
Qed.

Lemma lps_idleTimerContinue_at (lpi : Z) (lp : LogicalProcessor) (w : World) :
  0 <= lpi -> logicalProcessors (w_pool w) !! Z.to_nat lpi = Some lp ->
  lps_idleTimerContinue lpi w
  = Returns tt
      (world_with_pool
         (pool_with_lps
            (<[Z.to_nat lpi := lp_with_idleTimer true lp]>
               (logicalProcessors (w_pool w)))
            (w_pool w)) w).
Proof.
  intros Hi Hlp. unfold lps_idleTimerContinue, get_lps, set_lps.
  erewrite bind_Returns by reflexivity.
  erewrite bind_Returns by (apply array_get_at; eassumption).
  erewrite bind_Returns by (eapply array_set_at; eassumption).
  reflexivity.
Qed.

Lemma countdownlatch_countDown_at (w : World) :
  0 < finishLatch (w_pool w) ->
  countdownlatch_countDown w
  = Returns tt
      (world_with_pool (pool_with_latch (finishLatch (w_pool w) - 1) (w_pool w)) w).
Proof.
  intros Hpos. unfold countdownlatch_countDown, utility_assert.
  erewrite bind_Returns by reflexivity.
  replace (0 <? finishLatch (w_pool w)) with true by (symmetry; apply Z.ltb_lt; lia).
  erewrite bind_Returns by reflexivity.
  reflexivity.
Qed.

Lemma countdownlatch_countDown_at_zero (w : World) :
  finishLatch (w_pool w) <= 0 -> countdownlatch_countDown w = Aborts w.
Proof.
  intros Hzero. unfold countdownlatch_countDown, utility_assert.
  erewrite bind_Returns by reflexivity.
  replace (0 <? finishLatch (w_pool w)) with false by (symmetry; apply Z.ltb_ge; lia).
  reflexivity.
Qed.

Lemma sem_wait_at (workerID count : Z) (w : World) :
  0 <= workerID ->
  workerBeginSems (w_pool w) !! Z.to_nat workerID = Some count ->
  sem_wait workerID w
  = if 0 <? count
    then Some (Returns 0
           (world_with_pool
              (pool_with_sems
                 (<[Z.to_nat workerID := count - 1]> (workerBeginSems (w_pool w)))
                 (w_pool w)) w))
    else None.
Proof.
  intros Hi Hc. unfold sem_wait, blocking_bind, blocking_of, blocked.
  cbn [gets].
  rewrite (array_get_at _ _ count) by assumption.
  destruct (0 <? count); [|reflexivity].
  erewrite bind_Returns by (eapply array_set_at; eassumption).
  erewrite bind_Returns by reflexivity.
  reflexivity.
Qed.

(** The scan of [lps_popWorkerToRunOn]: it takes the front of the first
    ready queue that is not empty, or finds them all empty. *)
Lemma lps_popWorkerToRunOn_from_spec (toLpi : Z) (w : World) (n : nat) :
  0 <= toLpi < lps_n (logicalProcessors (w_pool w)) ->
  forall k : nat,
    (k + n)%nat = length (logicalProcessors (w_pool w)) ->
    (forall k' : nat, (k' < k)%nat ->
       exists lp,
         logicalProcessors (w_pool w)
           !! Z.to_nat (Z.rem (toLpi + Z.of_nat k') (lps_n (logicalProcessors (w_pool w))))
         = Some lp /\ lp_readyWorkers lp = []) ->
    (lps_popWorkerToRunOn_from n (Z.of_nat k) toLpi w = Returns (-1) w /\
     forall k' : nat, (k' < length (logicalProcessors (w_pool w)))%nat ->
       exists lp,
         logicalProcessors (w_pool w)
           !! Z.to_nat (Z.rem (toLpi + Z.of_nat k') (lps_n (logicalProcessors (w_pool w))))
         = Some lp /\ lp_readyWorkers lp = [])
    \/ exists (j : nat) lp q r,
         logicalProcessors (w_pool w) !! j = Some lp /\
         lp_readyWorkers lp = q :: r /\
         lps_popWorkerToRunOn_from n (Z.of_nat k) toLpi w
         = Returns q
             (world_with_pool
                (pool_with_lps
                   (<[j := lp_with_ready r lp]> (logicalProcessors (w_pool w)))
                   (w_pool w)) w).
Proof.
  intros HtoLpi. induction n as [|n IH]; intros k Hkn Hseen.
  - left. split; [reflexivity|]. intros k' Hk'. apply Hseen. lia.
  - cbn [lps_popWorkerToRunOn_from]. unfold get_lps, set_lps.
    erewrite bind_Returns by reflexivity.
    set (L := lps_n (logicalProcessors (w_pool w))) in *.
    assert (HL : L = Z.of_nat (length (logicalProcessors (w_pool w)))) by reflexivity.
    assert (Hrem : 0 <= Z.rem (toLpi + Z.of_nat k) L < L).
    { apply Z.rem_bound_pos_pos; lia. }
    destruct (lookup_lt_is_Some_2 (logicalProcessors (w_pool w))
                (Z.to_nat (Z.rem (toLpi + Z.of_nat k) L)) ltac:(lia)) as [lp Hlp].
    erewrite bind_Returns by (apply array_get_at; [lia|exact Hlp]).
    destruct (lp_readyWorkers lp) as [|q r] eqn:Hready.
    + replace (Z.of_nat k + 1) with (Z.of_nat (S k)) by lia.
      apply IH; [lia|].
      intros k' Hk'. destruct (decide (k' = k)) as [->|Hne].
      * exists lp. split; assumption.
      * apply Hseen. lia.
    + right. exists (Z.to_nat (Z.rem (toLpi + Z.of_nat k) L)), lp, q, r.
      split; [exact Hlp|]. split; [exact Hready|].
      erewrite bind_Returns by (eapply array_set_at; [lia|exact Hlp]).
      erewrite bind_Returns by reflexivity.
      reflexivity.
Qed.

Lemma concat_all_nil {A} (ls : list (list A)) :
  (forall i q, ls !! i = Some q -> q = []) -> concat ls = [].
Proof.
  induction ls as [|q ls IH]; intros Hall; [reflexivity|].
  cbn. rewrite (Hall 0%nat q eq_refl). cbn. apply IH.
  intros i q' Hq'. apply (Hall (S i)). exact Hq'.
Qed.

Lemma lps_popWorkerToRunOn_spec (toLpi : Z) (w : World) :
  0 <= toLpi < lps_n (logicalProcessors (w_pool w)) ->
  (lps_popWorkerToRunOn toLpi w = Returns (-1) w /\ ready_workers (w_pool w) = [])
  \/ exists (j : nat) lp q r,
       logicalProcessors (w_pool w) !! j = Some lp /\
       lp_readyWorkers lp = q :: r /\
       lps_popWorkerToRunOn toLpi w
       = Returns q
           (world_with_pool
              (pool_with_lps
                 (<[j := lp_with_ready r lp]> (logicalProcessors (w_pool w)))
                 (w_pool w)) w).
Proof.
  intros HtoLpi. unfold lps_popWorkerToRunOn, get_lps.
  erewrite bind_Returns by reflexivity.
  destruct (lps_popWorkerToRunOn_from_spec toLpi w
              (length (logicalProcessors (w_pool w))) HtoLpi 0%nat eq_refl)
    as [[Hrun Hall]|Hfound].
  { intros k' Hk'. lia. }
  - left. split; [exact Hrun|].
    unfold ready_workers. apply concat_all_nil.
    intros i q Hq. apply list_lookup_fmap_Some in Hq as (lp & -> & Hlp).
    pose proof (lookup_lt_Some _ _ _ Hlp) as Hi.
    set (L := lps_n (logicalProcessors (w_pool w))) in *.
    assert (HL : L = Z.of_nat (length (logicalProcessors (w_pool w)))) by reflexivity.
    destruct (Hall (Z.to_nat ((Z.of_nat i - toLpi) mod L))) as (lp' & Hlp' & Hnil).
    { pose proof (Z.mod_pos_bound (Z.of_nat i - toLpi) L ltac:(lia)). lia. }
    rewrite Z2Nat.id in Hlp' by (apply Z.mod_pos_bound; lia).
    rewrite Z.rem_mod_nonneg in Hlp'
      by (pose proof (Z.mod_pos_bound (Z.of_nat i - toLpi) L ltac:(lia)); lia).
    rewrite Zplus_mod_idemp_r in Hlp'.
    replace (toLpi + (Z.of_nat i - toLpi)) with (Z.of_nat i) in Hlp' by lia.
    rewrite Z.mod_small, Nat2Z.id in Hlp' by lia.
    pose proof (eq_trans (eq_sym Hlp) Hlp') as Heq. injection Heq as ->. exact Hnil.
  - right. exact Hfound.
Qed.

End RoundSteps.

(** ** The invariants of the pool *)

Section PoolStates.

Lemma concat_insert_pop {A} (ls : list (list A)) : forall (j : nat) (q : A) (r : list A),
  ls !! j = Some (q :: r) -> concat ls ≡ₚ q :: concat (<[j := r]> ls).
Proof.
  induction ls as [|a ls IH]; intros j q r Hj; [discriminate|].
  destruct j as [|j]; cbn in *.
  - injection Hj as ->. reflexivity.
  - rewrite (IH j q r Hj). symmetry. apply Permutation_middle.
Qed.

Lemma concat_insert_push {A} (ls : list (list A)) : forall (j : nat) (d : list A) (k : A),
  ls !! j = Some d -> concat (<[j := d ++ [k]]> ls) ≡ₚ k :: concat ls.
Proof.
  induction ls as [|a ls IH]; intros j d k Hj; [discriminate|].
  destruct j as [|j]; cbn in *.
  - injection Hj as ->. rewrite <- app_assoc. cbn.
    symmetry. apply Permutation_middle.
  - rewrite (IH j d k Hj). symmetry. apply Permutation_middle.
Qed.

Lemma elem_of_concat_lookup {A} (ls : list (list A)) : forall (i : nat) (q : list A) (x : A),
  ls !! i = Some q -> x ∈ q -> x ∈ concat ls.
Proof.
  induction ls as [|a ls IH]; intros i q x Hi Hx; [discriminate|].
  destruct i as [|i]; cbn in *.
  - injection Hi as ->. apply elem_of_app. left. exact Hx.
  - apply elem_of_app. right. exact (IH i q x Hi Hx).
Qed.

Lemma elem_of_concat_inv {A} (ls : list (list A)) (x : A) :
  x ∈ concat ls -> exists (i : nat) (q : list A), ls !! i = Some q /\ x ∈ q.
Proof.
  induction ls as [|a ls IH]; cbn; intros Hx.
  - apply elem_of_nil in Hx. destruct Hx.
  - apply elem_of_app in Hx as [Hx|Hx].
    + exists 0%nat, a. split; [reflexivity|exact Hx].
    + destruct (IH Hx) as (i & q & Hi & Hq). exists (S i), q. split; assumption.
Qed.

Lemma lookup_fmap_of {A B} (f : A -> B) (l : list A) (i : nat) (x : A) :
  l !! i = Some x -> (f <$> l) !! i = Some (f x).
Proof. intros Hx. rewrite list_lookup_fmap, Hx. reflexivity. Qed.

Lemma lps_n_of_view (lps lps' : LogicalProcessors) (f : LogicalProcessor -> list Z)
  (j : nat) (r : list Z) :
  f <$> lps' = <[j := r]> (f <$> lps) -> lps_n lps' = lps_n lps.
Proof.
  intros Hview. unfold lps_n. f_equal.
  rewrite <- (length_fmap f lps'), Hview, length_insert, length_fmap. reflexivity.
Qed.

Lemma lps_n_of_same_view (lps lps' : LogicalProcessors) (f : LogicalProcessor -> list Z) :
  f <$> lps' = f <$> lps -> lps_n lps' = lps_n lps.
Proof.
  intros Hview. unfold lps_n. f_equal.
  rewrite <- (length_fmap f lps'), Hview, length_fmap. reflexivity.
Qed.

Lemma pool_state_NoDup running p :
  pool_state running p -> NoDup (ready_workers p ++ running ++ done_workers p).
Proof.
  intros Hst. rewrite (ps_conserved _ _ Hst). apply NoDup_seqZ.
Qed.

Lemma pool_state_range running p k :
  pool_state running p ->
  k ∈ ready_workers p ++ running ++ done_workers p -> 0 <= k < nWorkers p.
Proof.
  intros Hst Hk. rewrite (ps_conserved _ _ Hst) in Hk.
  apply elem_of_seqZ in Hk. lia.
Qed.

Lemma pool_state_running_range running p k :
  pool_state running p -> k ∈ running -> 0 <= k < nWorkers p.
Proof.
  intros Hst Hk. apply (pool_state_range running p k Hst).
  apply elem_of_app. right. apply elem_of_app. left. exact Hk.
Qed.

Lemma pool_state_lengths running p :
  pool_state running p ->
  (length (ready_workers p) + length running + length (done_workers p))%nat
  = Z.to_nat (nWorkers p).
Proof.
  intros Hst. pose proof (Permutation_length (ps_conserved _ _ Hst)) as Hlen.
  rewrite !length_app, length_seqZ in Hlen. lia.
Qed.

Lemma worker_on_lp_insert_eq (p p' : WorkerPool) (k i x : Z) :
  workerLogicalProcessorIdxs p' = <[Z.to_nat k := i]> (workerLogicalProcessorIdxs p) ->
  (Z.to_nat k < length (workerLogicalProcessorIdxs p))%nat ->
  worker_on_lp p' k x <-> x = i.
Proof.
  intros Hidxs Hlt. unfold worker_on_lp.
  rewrite Hidxs, list_lookup_insert_eq by exact Hlt.
  split; [intros [= ->]; reflexivity|intros ->; reflexivity].
Qed.

Lemma worker_on_lp_insert_ne (p p' : WorkerPool) (k k0 i x : Z) :
  workerLogicalProcessorIdxs p' = <[Z.to_nat k := i]> (workerLogicalProcessorIdxs p) ->
  0 <= k -> 0 <= k0 -> k0 <> k ->
  worker_on_lp p' k0 x <-> worker_on_lp p k0 x.
Proof.
  intros Hidxs Hk Hk0 Hne. unfold worker_on_lp.
  rewrite Hidxs, list_lookup_insert_ne by lia. reflexivity.
Qed.

(** A worker is taken from the front of a ready queue and woken up on the
    logical processor [i], on which no worker runs. *)
Lemma pool_state_wake running p p' (i : Z) (j : nat) lp k r :
  pool_state running p ->
  logicalProcessors p !! j = Some lp -> lp_readyWorkers lp = k :: r ->
  0 <= i < lps_n (logicalProcessors p) ->
  (forall k0, k0 ∈ running -> ~ worker_on_lp p k0 i) ->
  magic p' = true -> nWorkers p' = nWorkers p ->
  workerBeginSems p' = <[Z.to_nat k := 1]> (workerBeginSems p) ->
  workerLogicalProcessorIdxs p' = <[Z.to_nat k := i]> (workerLogicalProcessorIdxs p) ->
  length (workerNativeThreadIDs p') = length (workerNativeThreadIDs p) ->
  lp_readyWorkers <$> logicalProcessors p'
  = <[j := r]> (lp_readyWorkers <$> logicalProcessors p) ->
  lp_doneWorkers <$> logicalProcessors p' = lp_doneWorkers <$> logicalProcessors p ->
  pool_state (k :: running) p' /\ (k ∉ running) /\ (0 <= k < nWorkers p).
Proof.
  intros Hst Hlp Hready Hi Hfree Hmagic HnW Hsems Hidxs Htids Hrq Hdq.
  assert (Hpop : ready_workers p ≡ₚ k :: ready_workers p').
  { unfold ready_workers. rewrite Hrq. apply concat_insert_pop.
    rewrite <- Hready. apply lookup_fmap_of. exact Hlp. }
  assert (Hdone : done_workers p' = done_workers p).
  { unfold done_workers. rewrite Hdq. reflexivity. }
  assert (Hcons : ready_workers p' ++ (k :: running) ++ done_workers p'
                  ≡ₚ seqZ 0 (nWorkers p')).
  { rewrite HnW, <- (ps_conserved _ _ Hst), Hpop, Hdone. cbn.
    symmetry. apply Permutation_middle. }
  assert (Hnodup : NoDup (k :: ready_workers p' ++ running ++ done_workers p)).
  { pose proof (pool_state_NoDup _ _ Hst) as Hnd. rewrite Hpop in Hnd. exact Hnd. }
  apply NoDup_cons in Hnodup as [Hfresh Hnodup].
  assert (Hk : 0 <= k < nWorkers p).
  { apply (pool_state_range running p k Hst). rewrite Hpop. left. }
  assert (Hkrun : k ∉ running).
  { intros Hin. apply Hfresh. apply elem_of_app. right. apply elem_of_app. left. exact Hin. }
  assert (HL : lps_n (logicalProcessors p') = lps_n (logicalProcessors p))
    by (eapply lps_n_of_view; exact Hrq).
  assert (Hklt : (Z.to_nat k < length (workerLogicalProcessorIdxs p))%nat)
    by (pose proof (ps_idxs_length _ _ Hst); lia).
  split; [|split; assumption].
  constructor.
  - exact Hmagic.
  - rewrite HL, HnW. exact (ps_lps _ _ Hst).
  - rewrite Hsems, length_insert, HnW. exact (ps_sems_length _ _ Hst).
  - rewrite Hidxs, length_insert, HnW. exact (ps_idxs_length _ _ Hst).
  - rewrite Htids, HnW. exact (ps_tids_length _ _ Hst).
  - intros k0 Hk0. rewrite HnW in Hk0. rewrite Hsems.
    destruct (decide (k0 = k)) as [->|Hne].
    + rewrite list_lookup_insert_eq by (pose proof (ps_sems_length _ _ Hst); lia).
      rewrite bool_decide_eq_true_2 by left. reflexivity.
    + rewrite list_lookup_insert_ne by lia.
      rewrite (ps_sems _ _ Hst k0 Hk0). f_equal.
      rewrite (bool_decide_ext (k0 ∈ k :: running) (k0 ∈ running)); [reflexivity|].
      rewrite elem_of_cons. tauto.
  - exact Hcons.
  - intros k0 Hk0. rewrite HnW in Hk0. rewrite HL.
    destruct (decide (k0 = k)) as [->|Hne].
    + exists i. split; [|exact Hi].
      apply (worker_on_lp_insert_eq p p' k i i Hidxs Hklt). reflexivity.
    + destruct (ps_idxs _ _ Hst k0 Hk0) as (x & Hx & Hxr). exists x. split; [|exact Hxr].
      apply (worker_on_lp_insert_ne p p' k k0 i x Hidxs); [lia|lia|exact Hne|exact Hx].
  - intros k1 k2 x Hk1 Hk2 Hon1 Hon2.
    apply elem_of_cons in Hk1 as [->|Hk1]; apply elem_of_cons in Hk2 as [->|Hk2].
    + reflexivity.
    + exfalso. apply (worker_on_lp_insert_eq p p' k i x Hidxs Hklt) in Hon1. subst x.
      assert (k2 <> k) by (intros ->; contradiction).
      pose proof (pool_state_running_range _ _ _ Hst Hk2).
      apply (worker_on_lp_insert_ne p p' k k2 i i Hidxs) in Hon2; [|lia|lia|assumption].
      exact (Hfree k2 Hk2 Hon2).
    + exfalso. apply (worker_on_lp_insert_eq p p' k i x Hidxs Hklt) in Hon2. subst x.
      assert (k1 <> k) by (intros ->; contradiction).
      pose proof (pool_state_running_range _ _ _ Hst Hk1).
      apply (worker_on_lp_insert_ne p p' k k1 i i Hidxs) in Hon1; [|lia|lia|assumption].
      exact (Hfree k1 Hk1 Hon1).
    + assert (k1 <> k) by (intros ->; contradiction).
      assert (k2 <> k) by (intros ->; contradiction).
      pose proof (pool_state_running_range _ _ _ Hst Hk1).
      pose proof (pool_state_running_range _ _ _ Hst Hk2).
      apply (worker_on_lp_insert_ne p p' k k1 i x Hidxs) in Hon1; [|lia|lia|assumption].
      apply (worker_on_lp_insert_ne p p' k k2 i x Hidxs) in Hon2; [|lia|lia|assumption].
      exact (ps_exclusive _ _ Hst k1 k2 x Hk1 Hk2 Hon1 Hon2).
  - intros i0 lp0' k0 Hlp0' Hk0.
    assert (Hrq0 : (<[j := r]> (lp_readyWorkers <$> logicalProcessors p)) !! i0
                   = Some (lp_readyWorkers lp0')).
    { rewrite <- Hrq. apply lookup_fmap_of. exact Hlp0'. }
    assert (Hdq0 : (lp_doneWorkers <$> logicalProcessors p) !! i0
                   = Some (lp_doneWorkers lp0')).
    { rewrite <- Hdq. apply lookup_fmap_of. exact Hlp0'. }
    apply list_lookup_fmap_Some in Hdq0 as (lp0 & Hdone0 & Hlp0).
    assert (Hin' : k0 ∈ ready_workers p' ++ running ++ done_workers p).
    { apply elem_of_app in Hk0 as [Hk0|Hk0].
      - apply elem_of_app. left. unfold ready_workers.
        apply (elem_of_concat_lookup _ i0 (lp_readyWorkers lp0')); [|exact Hk0].
        apply lookup_fmap_of. exact Hlp0'.
      - apply elem_of_app. right. apply elem_of_app. right. unfold done_workers.
        apply (elem_of_concat_lookup _ i0 (lp_doneWorkers lp0')); [|exact Hk0].
        rewrite <- Hdq. apply lookup_fmap_of. exact Hlp0'. }
    assert (Hne : k0 <> k) by (intros ->; contradiction).
    assert (Hrange : 0 <= k0 < nWorkers p).
    { apply (pool_state_range running p k0 Hst). rewrite Hpop. right. exact Hin'. }
    apply (worker_on_lp_insert_ne p p' k k0 i _ Hidxs); [lia|lia|exact Hne|].
    apply (ps_home _ _ Hst i0 lp0 k0 Hlp0).
    apply elem_of_app in Hk0 as [Hk0|Hk0].
    + apply elem_of_app. left.
      destruct (decide (i0 = j)) as [->|Hij].
      * rewrite list_lookup_insert_eq in Hrq0
          by (rewrite length_fmap; eapply lookup_lt_Some; exact Hlp).
        injection Hrq0 as Hr.
        pose proof (eq_trans (eq_sym Hlp) Hlp0) as Heq. injection Heq as <-.
        rewrite Hready, Hr. right. exact Hk0.
      * rewrite list_lookup_insert_ne in Hrq0 by congruence.
        rewrite (lookup_fmap_of lp_readyWorkers _ _ _ Hlp0) in Hrq0.
        injection Hrq0 as ->. exact Hk0.
    + apply elem_of_app. right. rewrite <- Hdone0. exact Hk0.
Qed.

(** The running worker [k] finishes its turn on the logical processor [i]
    it sits on. *)
Lemma pool_state_done running running' p p' (i : Z) lp k :
  pool_state running p ->
  running ≡ₚ k :: running' ->
  worker_on_lp p k i -> 0 <= i ->
  logicalProcessors p !! Z.to_nat i = Some lp ->
  magic p' = true -> nWorkers p' = nWorkers p ->
  workerBeginSems p' = <[Z.to_nat k := 0]> (workerBeginSems p) ->
  workerLogicalProcessorIdxs p' = workerLogicalProcessorIdxs p ->
  length (workerNativeThreadIDs p') = length (workerNativeThreadIDs p) ->
  lp_readyWorkers <$> logicalProcessors p' = lp_readyWorkers <$> logicalProcessors p ->
  lp_doneWorkers <$> logicalProcessors p'
  = <[Z.to_nat i := lp_doneWorkers lp ++ [k]]> (lp_doneWorkers <$> logicalProcessors p) ->
  pool_state running' p' /\ (k ∉ running') /\
  (forall k0, k0 ∈ running' -> ~ worker_on_lp p' k0 i) /\
  done_workers p' ≡ₚ k :: done_workers p.
Proof.
  intros Hst Hrun Hon Hi Hlp Hmagic HnW Hsems Hidxs Htids Hrq Hdq.
  assert (Hpush : done_workers p' ≡ₚ k :: done_workers p).
  { unfold done_workers. rewrite Hdq. apply concat_insert_push.
    apply lookup_fmap_of. exact Hlp. }
  assert (Hready : ready_workers p' = ready_workers p).
  { unfold ready_workers. rewrite Hrq. reflexivity. }
  assert (Hcons : ready_workers p' ++ running' ++ done_workers p'
                  ≡ₚ seqZ 0 (nWorkers p')).
  { rewrite HnW, <- (ps_conserved _ _ Hst), Hready, Hpush, Hrun. cbn.
    apply Permutation_app_head. symmetry. apply Permutation_middle. }
  assert (Hkin : k ∈ running) by (rewrite Hrun; left).
  assert (Hk : 0 <= k < nWorkers p) by (eapply pool_state_running_range; eassumption).
  assert (Hnd : NoDup running).
  { pose proof (pool_state_NoDup _ _ Hst) as Hnd.
    apply NoDup_app in Hnd as (_ & _ & Hnd). apply NoDup_app in Hnd as (Hnd & _ & _).
    exact Hnd. }
  rewrite Hrun in Hnd. apply NoDup_cons in Hnd as [Hfresh Hnd].
  assert (Hsub : forall k0, k0 ∈ running' -> k0 ∈ running /\ k0 <> k).
  { intros k0 Hk0. split; [rewrite Hrun; right; exact Hk0|].
    intros ->. contradiction. }
  assert (HL : lps_n (logicalProcessors p') = lps_n (logicalProcessors p))
    by (eapply lps_n_of_same_view; exact Hrq).
  assert (Hst' : pool_state running' p').
  { constructor.
    - exact Hmagic.
    - rewrite HL, HnW. exact (ps_lps _ _ Hst).
    - rewrite Hsems, length_insert, HnW. exact (ps_sems_length _ _ Hst).
    - rewrite Hidxs, HnW. exact (ps_idxs_length _ _ Hst).
    - rewrite Htids, HnW. exact (ps_tids_length _ _ Hst).
    - intros k0 Hk0. rewrite HnW in Hk0. rewrite Hsems.
      destruct (decide (k0 = k)) as [->|Hne].
      + rewrite list_lookup_insert_eq by (pose proof (ps_sems_length _ _ Hst); lia).
        rewrite bool_decide_eq_false_2 by exact Hfresh. reflexivity.
      + rewrite list_lookup_insert_ne by lia.
        rewrite (ps_sems _ _ Hst k0 Hk0). f_equal.
        rewrite (bool_decide_ext (k0 ∈ running) (k0 ∈ running')); [reflexivity|].
        rewrite Hrun, elem_of_cons. tauto.
    - exact Hcons.
    - intros k0 Hk0. rewrite HnW in Hk0. rewrite HL. unfold worker_on_lp. rewrite Hidxs.
      exact (ps_idxs _ _ Hst k0 Hk0).
    - intros k1 k2 x Hk1 Hk2 Hon1 Hon2. unfold worker_on_lp in Hon1, Hon2.
      rewrite Hidxs in Hon1, Hon2.
      exact (ps_exclusive _ _ Hst k1 k2 x (proj1 (Hsub k1 Hk1)) (proj1 (Hsub k2 Hk2))
               Hon1 Hon2).
    - intros i0 lp0' k0 Hlp0' Hk0. unfold worker_on_lp. rewrite Hidxs.
      assert (Hrq0 : (lp_readyWorkers <$> logicalProcessors p) !! i0
                     = Some (lp_readyWorkers lp0')).
      { rewrite <- Hrq. apply lookup_fmap_of. exact Hlp0'. }
      assert (Hdq0 : (<[Z.to_nat i := lp_doneWorkers lp ++ [k]]>
                        (lp_doneWorkers <$> logicalProcessors p)) !! i0
                     = Some (lp_doneWorkers lp0')).
      { rewrite <- Hdq. apply lookup_fmap_of. exact Hlp0'. }
      apply list_lookup_fmap_Some in Hrq0 as (lp0 & Hready0 & Hlp0).
      destruct (decide (i0 = Z.to_nat i)) as [->|Hij].
      + rewrite list_lookup_insert_eq in Hdq0
          by (rewrite length_fmap; eapply lookup_lt_Some; exact Hlp).
        injection Hdq0 as Hd.
        pose proof (eq_trans (eq_sym Hlp) Hlp0) as Heq. injection Heq as <-.
        apply elem_of_app in Hk0 as [Hk0|Hk0].
        * apply (ps_home _ _ Hst (Z.to_nat i) lp k0 Hlp).
          apply elem_of_app. left. rewrite <- Hready0. exact Hk0.
        * rewrite <- Hd in Hk0. apply elem_of_app in Hk0 as [Hk0|Hk0].
          -- apply (ps_home _ _ Hst (Z.to_nat i) lp k0 Hlp).
             apply elem_of_app. right. exact Hk0.
          -- apply list_elem_of_singleton in Hk0. subst k0.
             rewrite Z2Nat.id by lia. exact Hon.
      + rewrite list_lookup_insert_ne in Hdq0 by congruence.
        rewrite (lookup_fmap_of lp_doneWorkers _ _ _ Hlp0) in Hdq0.
        injection Hdq0 as Hd.
        apply (ps_home _ _ Hst i0 lp0 k0 Hlp0).
        rewrite <- Hready0, Hd. exact Hk0. }
  split; [exact Hst'|]. split; [exact Hfresh|]. split; [|exact Hpush].
  intros k0 Hk0 Hon0. unfold worker_on_lp in Hon0. rewrite Hidxs in Hon0.
  destruct (Hsub k0 Hk0) as [Hin Hne]. apply Hne.
  exact (ps_exclusive _ _ Hst k0 k i Hin Hkin Hon0 Hon).
Qed.

Lemma length_done_pushed p p' k :
  done_workers p' ≡ₚ k :: done_workers p ->
  Z.of_nat (length (done_workers p')) = Z.of_nat (length (done_workers p)) + 1.
Proof.
  intros Hperm. apply Permutation_length in Hperm. cbn in Hperm. lia.
Qed.

(** The dispatch loop wakes up a worker on the idle logical processor
    [i] and stops the idle timer of [i]. *)
Lemma pool_round_dispatch running p p' (i : Z) k :
  pool_round running p ->
  pool_state (k :: running) p' ->
  k ∉ running -> 0 <= k < nWorkers p -> 0 <= i < lps_n (logicalProcessors p) ->
  (forall k0, k0 ∈ running -> ~ worker_on_lp p k0 i) ->
  workerLogicalProcessorIdxs p' = <[Z.to_nat k := i]> (workerLogicalProcessorIdxs p) ->
  lp_doneWorkers <$> logicalProcessors p' = lp_doneWorkers <$> logicalProcessors p ->
  lp_idleTimerRunning <$> logicalProcessors p'
  = <[Z.to_nat i := false]> (lp_idleTimerRunning <$> logicalProcessors p) ->
  finishLatch p' = finishLatch p -> nWorkers p' = nWorkers p ->
  pool_round (k :: running) p'.
Proof.
  intros Hround Hst' Hfresh Hk Hi Hfree Hidxs Hdq Htimers Hlatch HnW.
  pose proof (pr_state _ _ Hround) as Hst.
  assert (Hklt : (Z.to_nat k < length (workerLogicalProcessorIdxs p))%nat)
    by (pose proof (ps_idxs_length _ _ Hst); lia).
  constructor.
  - exact Hst'.
  - rewrite Hlatch, HnW. unfold done_workers. rewrite Hdq.
    exact (pr_latch _ _ Hround).
  - intros i0 lp0' Hlp0'.
    assert (Ht0 : (<[Z.to_nat i := false]> (lp_idleTimerRunning <$> logicalProcessors p))
                    !! i0 = Some (lp_idleTimerRunning lp0')).
    { rewrite <- Htimers. apply lookup_fmap_of. exact Hlp0'. }
    destruct (decide (i0 = Z.to_nat i)) as [->|Hij].
    + rewrite list_lookup_insert_eq in Ht0.
      2:{ rewrite length_fmap. unfold lps_n in Hi. lia. }
      injection Ht0 as <-. split; [intros _|reflexivity].
      exists k. split; [left|].
      apply (worker_on_lp_insert_eq p p' k i _ Hidxs Hklt). lia.
    + rewrite list_lookup_insert_ne in Ht0 by congruence.
      apply list_lookup_fmap_Some in Ht0 as (lp0 & Ht0 & Hlp0).
      rewrite Ht0, (pr_timers _ _ Hround i0 lp0 Hlp0).
      split.
      * intros (k1 & Hk1 & Hon1). exists k1. split; [right; exact Hk1|].
        assert (k1 <> k) by (intros ->; contradiction).
        pose proof (pool_state_running_range _ _ _ Hst Hk1).
        apply (worker_on_lp_insert_ne p p' k k1 i _ Hidxs); [lia|lia|assumption|exact Hon1].
      * intros (k1 & Hk1 & Hon1).
        apply elem_of_cons in Hk1 as [->|Hk1].
        -- apply (worker_on_lp_insert_eq p p' k i _ Hidxs Hklt) in Hon1. lia.
        -- exists k1. split; [exact Hk1|].
           assert (k1 <> k) by (intros ->; contradiction).
           pose proof (pool_state_running_range _ _ _ Hst Hk1).
           apply (worker_on_lp_insert_ne p p' k k1 i _ Hidxs) in Hon1;
             [exact Hon1|lia|lia|assumption].
Qed.

(** A turn that ends with the wake-up of the worker [k'] on the logical
    processor [i] that the worker [k] leaves. *)
Lemma pool_round_turn_wake running running' p p' (i : Z) k k' :
  pool_round running p ->
  running ≡ₚ k :: running' -> worker_on_lp p k i ->
  pool_state (k' :: running') p' ->
  k' ∉ running -> 0 <= k' < nWorkers p ->
  workerLogicalProcessorIdxs p' = <[Z.to_nat k' := i]> (workerLogicalProcessorIdxs p) ->
  done_workers p' ≡ₚ k :: done_workers p ->
  lp_idleTimerRunning <$> logicalProcessors p'
  = lp_idleTimerRunning <$> logicalProcessors p ->
  finishLatch p' = finishLatch p - 1 -> nWorkers p' = nWorkers p ->
  pool_round (k' :: running') p' /\
  forall i0, (exists k1, k1 ∈ running /\ worker_on_lp p k1 i0) ->
             exists k1, k1 ∈ k' :: running' /\ worker_on_lp p' k1 i0.
Proof.
  intros Hround Hrun Hon Hst' Hfresh Hk' Hidxs Hdone Htimers Hlatch HnW.
  pose proof (pr_state _ _ Hround) as Hst.
  assert (Hklt : (Z.to_nat k' < length (workerLogicalProcessorIdxs p))%nat)
    by (pose proof (ps_idxs_length _ _ Hst); lia).
  assert (Hkin : k ∈ running) by (rewrite Hrun; left).
  assert (Hsame : forall k1 x, k1 ∈ running ->
            (worker_on_lp p' k1 x <-> worker_on_lp p k1 x)).
  { intros k1 x Hk1.
    assert (k1 <> k') by (intros ->; contradiction).
    pose proof (pool_state_running_range _ _ _ Hst Hk1).
    apply (worker_on_lp_insert_ne p p' k' k1 i x Hidxs); [lia|lia|assumption]. }
  assert (Hfwd : forall i0, (exists k1, k1 ∈ running /\ worker_on_lp p k1 i0) ->
                            exists k1, k1 ∈ k' :: running' /\ worker_on_lp p' k1 i0).
  { intros i0 (k1 & Hk1 & Hon1).
    pose proof Hk1 as Hk1'. rewrite Hrun in Hk1'.
    apply elem_of_cons in Hk1' as [->|Hk1'].
    - exists k'. split; [left|].
      apply (worker_on_lp_insert_eq p p' k' i _ Hidxs Hklt).
      unfold worker_on_lp in Hon, Hon1. congruence.
    - exists k1. split; [right; exact Hk1'|]. apply Hsame; assumption. }
  split; [|exact Hfwd].
  constructor.
  - exact Hst'.
  - rewrite Hlatch, HnW, (length_done_pushed _ _ _ Hdone), (pr_latch _ _ Hround). lia.
  - intros i0 lp0' Hlp0'.
    assert (Ht0 : (lp_idleTimerRunning <$> logicalProcessors p) !! i0
                  = Some (lp_idleTimerRunning lp0')).
    { rewrite <- Htimers. apply lookup_fmap_of. exact Hlp0'. }
    apply list_lookup_fmap_Some in Ht0 as (lp0 & Ht0 & Hlp0).
    rewrite Ht0, (pr_timers _ _ Hround i0 lp0 Hlp0).
    split; [apply Hfwd|].
    intros (k1 & Hk1 & Hon1).
    apply elem_of_cons in Hk1 as [->|Hk1].
    + apply (worker_on_lp_insert_eq p p' k' i _ Hidxs Hklt) in Hon1. subst i.
      exists k. split; [exact Hkin|exact Hon].
    + assert (Hk1run : k1 ∈ running) by (rewrite Hrun; right; exact Hk1).
      exists k1. split; [exact Hk1run|]. apply Hsame; assumption.
Qed.

(** A turn after which the logical processor [i] is idle. *)
Lemma pool_round_turn_idle running running' p p' (i : Z) k :
  pool_round running p ->
  running ≡ₚ k :: running' -> worker_on_lp p k i ->
  0 <= i < lps_n (logicalProcessors p) ->
  pool_state running' p' -> k ∉ running' ->
  workerLogicalProcessorIdxs p' = workerLogicalProcessorIdxs p ->
  done_workers p' ≡ₚ k :: done_workers p ->
  lp_idleTimerRunning <$> logicalProcessors p'
  = <[Z.to_nat i := true]> (lp_idleTimerRunning <$> logicalProcessors p) ->
  finishLatch p' = finishLatch p - 1 -> nWorkers p' = nWorkers p ->
  pool_round running' p'.
Proof.
  intros Hround Hrun Hon Hi Hst' Hfresh Hidxs Hdone Htimers Hlatch HnW.
  pose proof (pr_state _ _ Hround) as Hst.
  assert (Hkin : k ∈ running) by (rewrite Hrun; left).
  constructor.
  - exact Hst'.
  - rewrite Hlatch, HnW, (length_done_pushed _ _ _ Hdone), (pr_latch _ _ Hround). lia.
  - intros i0 lp0' Hlp0'. unfold worker_on_lp. rewrite Hidxs.
    assert (Ht0 : (<[Z.to_nat i := true]> (lp_idleTimerRunning <$> logicalProcessors p))
                    !! i0 = Some (lp_idleTimerRunning lp0')).
    { rewrite <- Htimers. apply lookup_fmap_of. exact Hlp0'. }
    destruct (decide (i0 = Z.to_nat i)) as [->|Hij].
    + rewrite list_lookup_insert_eq in Ht0.
      2:{ rewrite length_fmap. unfold lps_n in Hi. lia. }
      injection Ht0 as <-. split; [discriminate|].
      intros (k1 & Hk1 & Hon1). exfalso.
      rewrite Z2Nat.id in Hon1 by lia.
      assert (Hk1run : k1 ∈ running) by (rewrite Hrun; right; exact Hk1).
      pose proof (ps_exclusive _ _ Hst k1 k i Hk1run Hkin Hon1 Hon). subst k1.
      contradiction.
    + rewrite list_lookup_insert_ne in Ht0 by congruence.
      apply list_lookup_fmap_Some in Ht0 as (lp0 & Ht0 & Hlp0).
      rewrite Ht0, (pr_timers _ _ Hround i0 lp0 Hlp0).
      split.
      * intros (k1 & Hk1 & Hon1). exists k1. split; [|exact Hon1].
        rewrite Hrun in Hk1. apply elem_of_cons in Hk1 as [->|Hk1]; [|exact Hk1].
        exfalso. unfold worker_on_lp in Hon, Hon1.
        rewrite Hon in Hon1. injection Hon1 as ->. lia.
      * intros (k1 & Hk1 & Hon1). exists k1. split; [|exact Hon1].
        rewrite Hrun. right. exact Hk1.
Qed.

End PoolStates.

(** ** The dispatch and the turns keep the invariants *)

Section RoundInvariants.
Context `{Definitions} `{Platform}.

Lemma fmap_insert_same_view {A B} (f : A -> B) (l : list A) (i : nat) (x x' : A) :
  l !! i = Some x -> f x' = f x -> f <$> <[i := x']> l = f <$> l.
Proof.
  intros Hx Hf. rewrite list_fmap_insert, Hf.
  apply list_insert_id. apply lookup_fmap_of. exact Hx.
Qed.

Lemma pool_round_same running p p' :
  pool_round running p ->
  magic p' = magic p -> nWorkers p' = nWorkers p ->
  workerBeginSems p' = workerBeginSems p ->
  workerLogicalProcessorIdxs p' = workerLogicalProcessorIdxs p ->
  workerNativeThreadIDs p' = workerNativeThreadIDs p ->
  logicalProcessors p' = logicalProcessors p ->
  finishLatch p' = finishLatch p ->
  pool_round running p'.
Proof.
  intros [[Hm HL Hs Hi Ht Hsem Hcons Hidx Hexcl Hhome] Hlatch Htimers]
    Hmagic HnW Hsems Hidxs Htids Hlps Hfl.
  constructor; [constructor|..];
    unfold ready_workers, done_workers, worker_on_lp in *;
    rewrite ?Hmagic, ?HnW, ?Hsems, ?Hidxs, ?Htids, ?Hlps, ?Hfl; assumption.
Qed.

(** [_workerpool_getNextWorkerForLogicalProcessorIdx]: either every ready
    queue is empty, or the worker at the front of one of them is taken and
    moved to the logical processor [i]. *)
Lemma _workerpool_getNextWorkerForLogicalProcessorIdx_spec (i : Z) (running : list Z)
  (w : World) :
  pool_state running (w_pool w) ->
  0 <= i < lps_n (logicalProcessors (w_pool w)) ->
  (ready_workers (w_pool w) = [] /\
   _workerpool_getNextWorkerForLogicalProcessorIdx i w = Returns (-1) w)
  \/ exists (j : nat) lp k r tid newCpuId oldCpuId,
       logicalProcessors (w_pool w) !! j = Some lp /\
       lp_readyWorkers lp = k :: r /\
       0 <= k < nWorkers (w_pool w) /\
       _workerpool_getNextWorkerForLogicalProcessorIdx i w
       = Returns k
           (world_with_trace
              (w_trace w ++ [call_affinity_setProcessAffinity tid newCpuId oldCpuId])
              (world_with_pool
                 (pool_with_lpIdxs
                    (<[Z.to_nat k := i]> (workerLogicalProcessorIdxs (w_pool w)))
                    (pool_with_lps
                       (<[j := lp_with_ready r lp]> (logicalProcessors (w_pool w)))
                       (w_pool w))) w)).
Proof.
  intros Hst Hi. unfold _workerpool_getNextWorkerForLogicalProcessorIdx.
  destruct (lps_popWorkerToRunOn_spec i w Hi)
    as [[Hrun Hempty]|(j & lp & k & r & Hlp & Hready & Hrun)].
  - left. split; [exact Hempty|].
    erewrite bind_Returns by exact Hrun. reflexivity.
  - right.
    assert (Hk : 0 <= k < nWorkers (w_pool w)).
    { apply (pool_state_range running _ k Hst). apply elem_of_app. left.
      unfold ready_workers.
      apply (elem_of_concat_lookup _ j (lp_readyWorkers lp)).
      - apply lookup_fmap_of. exact Hlp.
      - rewrite Hready. left. }
    destruct (ps_idxs _ _ Hst k Hk) as (old & Hold & Holdr).
    destruct (lookup_lt_is_Some_2 (workerNativeThreadIDs (w_pool w)) (Z.to_nat k))
      as [tid Htid].
    { pose proof (ps_tids_length _ _ Hst). lia. }
    set (lps1 := <[j := lp_with_ready r lp]> (logicalProcessors (w_pool w))).
    assert (Hlen1 : length lps1 = length (logicalProcessors (w_pool w)))
      by apply length_insert.
    destruct (lookup_lt_is_Some_2 lps1 (Z.to_nat i)) as [lpNew HlpNew].
    { unfold lps_n in Hi. lia. }
    destruct (lookup_lt_is_Some_2 lps1 (Z.to_nat old)) as [lpOld HlpOld].
    { unfold lps_n in Holdr. lia. }
    exists j, lp, k, r, tid, (lp_cpuId lpNew), (lp_cpuId lpOld).
    split; [exact Hlp|]. split; [exact Hready|]. split; [exact Hk|].
    erewrite bind_Returns by exact Hrun.
    replace (0 <=? k) with true by (symmetry; apply Z.leb_le; lia).
    erewrite bind_Returns.
    2:{ apply (_workerpool_setLogicalProcessorIdx_at k i old tid (lp_cpuId lpOld) lpNew).
        - cbn. exact (ps_magic _ _ Hst).
        - lia.
        - lia.
        - exact Hold.
        - exact Htid.
        - exact HlpNew.
        - replace (0 <=? old) with true by (symmetry; apply Z.leb_le; lia).
          exists lpOld. split; [exact HlpOld|reflexivity]. }
    reflexivity.
Qed.

Lemma ready_not_running running p k :
  pool_state running p -> k ∈ ready_workers p -> k ∉ running.
Proof.
  intros Hst Hk Hin. pose proof (pool_state_NoDup _ _ Hst) as Hnd.
  apply NoDup_app in Hnd as (_ & Hdisj & _).
  apply (Hdisj k Hk). apply elem_of_app. left. exact Hin.
Qed.

Lemma task_calls_app (a b : list Call) :
  task_calls (a ++ b) = task_calls a ++ task_calls b.
Proof. apply omap_app. Qed.

Lemma same_frame_refl (w : World) : same_frame w w.
Proof. repeat split. Qed.

Lemma same_frame_trans (w1 w2 w3 : World) :
  same_frame w1 w2 -> same_frame w2 w3 -> same_frame w1 w3.
Proof.
  unfold same_frame. intros (?&?&?&?&?&?&?&?) (?&?&?&?&?&?&?&?).
  repeat split; congruence.
Qed.

Lemma worker_on_lp_functional p k i i' :
  worker_on_lp p k i -> worker_on_lp p k i' -> i = i'.
Proof. unfold worker_on_lp. congruence. Qed.

(** The dispatch loop, from logical processor [i] on: the logical
    processors below [i] have a running worker each, the others none. *)
Lemma _workerpool_startTaskFn_loop_wakes (n : nat) :
  forall (i : nat) (running : list Z) (w : World),
    pool_round running (w_pool w) ->
    done_workers (w_pool w) = [] ->
    (i + n)%nat = length (logicalProcessors (w_pool w)) ->
    length running = i ->
    (forall k, k ∈ running ->
       exists i0, worker_on_lp (w_pool w) k i0 /\ 0 <= i0 < Z.of_nat i) ->
    (forall i0, 0 <= i0 < Z.of_nat i ->
       exists k, k ∈ running /\ worker_on_lp (w_pool w) k i0) ->
    exists (w' : World) (running' : list Z),
      _workerpool_startTaskFn_loop n (Z.of_nat i) w = Returns tt w' /\
      pool_round running' (w_pool w') /\
      done_workers (w_pool w') = [] /\
      length running' = length (logicalProcessors (w_pool w)) /\
      (forall i0, 0 <= i0 < lps_n (logicalProcessors (w_pool w)) ->
         exists k, k ∈ running' /\ worker_on_lp (w_pool w') k i0) /\
      same_frame w w' /\
      taskFn (w_pool w') = taskFn (w_pool w) /\
      taskData (w_pool w') = taskData (w_pool w) /\
      task_calls (w_trace w') = task_calls (w_trace w).
Proof.
  induction n as [|n IH]; intros i running w Hround Hdone Hin Hlen Hbelow Hbusy.
  - exists w, running. split; [reflexivity|]. split; [exact Hround|].
    split; [exact Hdone|]. split; [lia|].
    split; [intros i0 Hi0; apply Hbusy; unfold lps_n in Hi0; lia|].
    split; [apply same_frame_refl|]. repeat split.
  - pose proof (pr_state _ _ Hround) as Hst.
    assert (Hi : 0 <= Z.of_nat i < lps_n (logicalProcessors (w_pool w)))
      by (unfold lps_n; lia).
    assert (Hfree : forall k0, k0 ∈ running -> ~ worker_on_lp (w_pool w) k0 (Z.of_nat i)).
    { intros k0 Hk0 Hon. destruct (Hbelow k0 Hk0) as (i0 & Hon0 & Hi0).
      pose proof (worker_on_lp_functional _ _ _ _ Hon Hon0). lia. }
    cbn [_workerpool_startTaskFn_loop].
    destruct (_workerpool_getNextWorkerForLogicalProcessorIdx_spec (Z.of_nat i) running w
                Hst Hi)
      as [[Hempty _]|(j & lp & k & r & tid & newCpu & oldCpu & Hlp & Hready & Hk & Hrun)].
    { exfalso. pose proof (pool_state_lengths _ _ Hst) as Hsum.
      pose proof (ps_lps _ _ Hst) as HL. unfold lps_n in HL.
      rewrite Hempty, Hdone in Hsum. cbn in Hsum. lia. }
    assert (Hkready : k ∈ ready_workers (w_pool w)).
    { unfold ready_workers. apply (elem_of_concat_lookup _ j (lp_readyWorkers lp)).
      - apply lookup_fmap_of. exact Hlp.
      - rewrite Hready. left. }
    pose proof (ready_not_running _ _ _ Hst Hkready) as Hkrun.
    erewrite bind_Returns by exact Hrun.
    replace (0 <=? k) with true by (symmetry; apply Z.leb_le; lia).
    set (lps1 := <[j := lp_with_ready r lp]> (logicalProcessors (w_pool w))).
    assert (Hlen1 : length lps1 = length (logicalProcessors (w_pool w)))
      by apply length_insert.
    destruct (lookup_lt_is_Some_2 lps1 (Z.to_nat (Z.of_nat i))) as [lpi Hlpi].
    { lia. }
    erewrite bind_Returns
      by (apply (lps_idleTimerStop_at (Z.of_nat i) lpi); [lia|exact Hlpi]).
    erewrite bind_Returns.
    2:{ apply (sem_post_at k 0); [lia|]. cbn.
        rewrite (ps_sems _ _ Hst k Hk), bool_decide_eq_false_2 by exact Hkrun.
        reflexivity. }
    cbn [Z.eqb negb].
    erewrite bind_Returns by reflexivity.
    match goal with |- exists w' running', _ ?ww = _ /\ _ => set (w3 := ww) end.
    assert (Hlen3 : length (logicalProcessors (w_pool w3))
                    = length (logicalProcessors (w_pool w))).
    { cbn. etransitivity; [apply length_insert|exact Hlen1]. }
    assert (Hrq : lp_readyWorkers <$> logicalProcessors (w_pool w3)
                  = <[j := r]> (lp_readyWorkers <$> logicalProcessors (w_pool w))).
    { cbn. rewrite (fmap_insert_same_view lp_readyWorkers lps1 _ lpi) by (exact Hlpi || reflexivity).
      exact (list_fmap_insert lp_readyWorkers _ j (lp_with_ready r lp)). }
    assert (Hdq : lp_doneWorkers <$> logicalProcessors (w_pool w3)
                  = lp_doneWorkers <$> logicalProcessors (w_pool w)).
    { cbn. rewrite (fmap_insert_same_view lp_doneWorkers lps1 _ lpi) by (exact Hlpi || reflexivity).
      unfold lps1.
      apply (fmap_insert_same_view lp_doneWorkers _ _ lp); [exact Hlp|reflexivity]. }
    assert (Htimers : lp_idleTimerRunning <$> logicalProcessors (w_pool w3)
                      = <[Z.to_nat (Z.of_nat i) := false]>
                          (lp_idleTimerRunning <$> logicalProcessors (w_pool w))).
    { cbn. etransitivity;
        [exact (list_fmap_insert lp_idleTimerRunning lps1 _ (lp_with_idleTimer false lpi))|].
      cbn. f_equal.
      apply (fmap_insert_same_view lp_idleTimerRunning _ _ lp); [exact Hlp|reflexivity]. }
    destruct (pool_state_wake running (w_pool w) (w_pool w3) (Z.of_nat i) j lp k r
                Hst Hlp Hready Hi Hfree)
      as (Hst3 & _ & _).
    { cbn. exact (ps_magic _ _ Hst). }
    { reflexivity. }
    { reflexivity. }
    { reflexivity. }
    { reflexivity. }
    { exact Hrq. }
    { exact Hdq. }
    assert (Hround3 : pool_round (k :: running) (w_pool w3)).
    { apply (pool_round_dispatch running (w_pool w) (w_pool w3) (Z.of_nat i) k);
        try assumption; reflexivity. }
    assert (Hklt : (Z.to_nat k < length (workerLogicalProcessorIdxs (w_pool w)))%nat)
      by (pose proof (ps_idxs_length _ _ Hst); lia).
    assert (Hsame : forall k0 x, k0 ∈ running ->
              (worker_on_lp (w_pool w3) k0 x <-> worker_on_lp (w_pool w) k0 x)).
    { intros k0 x Hk0. assert (k0 <> k) by (intros ->; contradiction).
      pose proof (pool_state_running_range _ _ _ Hst Hk0).
      apply (worker_on_lp_insert_ne (w_pool w) (w_pool w3) k k0 (Z.of_nat i) x);
        [reflexivity|lia|lia|assumption]. }
    assert (Hknew : worker_on_lp (w_pool w3) k (Z.of_nat i)).
    { apply (worker_on_lp_insert_eq (w_pool w) (w_pool w3) k (Z.of_nat i));
        [reflexivity|exact Hklt|reflexivity]. }
    replace (Z.of_nat i + 1) with (Z.of_nat (S i)) by lia.
    destruct (IH (S i) (k :: running) w3) as
      (w' & running' & Hrun' & Hround' & Hdone' & Hlen' & Hbusy' & Hframe' & Hfn' & Hdata' & Hcalls').
    + exact Hround3.
    + unfold done_workers. rewrite Hdq. exact Hdone.
    + rewrite Hlen3. lia.
    + cbn. lia.
    + intros k0 Hk0. apply elem_of_cons in Hk0 as [->|Hk0].
      * exists (Z.of_nat i). split; [exact Hknew|lia].
      * destruct (Hbelow k0 Hk0) as (i0 & Hon0 & Hi0). exists i0.
        split; [apply Hsame; assumption|lia].
    + intros i0 Hi0. destruct (decide (i0 = Z.of_nat i)) as [->|Hne].
      * exists k. split; [left|exact Hknew].
      * destruct (Hbusy i0 ltac:(lia)) as (k0 & Hk0 & Hon0). exists k0.
        split; [right; exact Hk0|apply Hsame; assumption].
    + exists w', running'. split; [exact Hrun'|]. split; [exact Hround'|].
      split; [exact Hdone'|].
      split; [rewrite Hlen'; exact Hlen3|].
      split.
      { intros i0 Hi0. apply Hbusy'. unfold lps_n in *. rewrite Hlen3. exact Hi0. }
      split.
      { apply (same_frame_trans w w3 w'); [|exact Hframe'].
        repeat split. unfold lps_n. rewrite Hlen3. reflexivity. }
      split; [rewrite Hfn'; reflexivity|]. split; [rewrite Hdata'; reflexivity|].
      rewrite Hcalls'. cbn [w3 w_trace world_with_trace world_with_pool].
      rewrite !task_calls_app. cbn. rewrite !app_nil_r. reflexivity.
Qed.

(** The dispatch on an idle pool: every logical processor gets a running
    worker. *)
Lemma _workerpool_startTaskFn_idle (fn : option Z) (data : Z) (w : World) :
  pool_idle (w_pool w) ->
  exists (w' : World) (running : list Z),
    _workerpool_startTaskFn fn data w = Returns tt w' /\
    pool_in_round fn data running (w_pool w') /\
    done_workers (w_pool w') = [] /\
    Z.of_nat (length running) = lps_n (logicalProcessors (w_pool w)) /\
    same_frame w w' /\
    task_calls (w_trace w') = task_calls (w_trace w).
Proof.
  intros [Hround Hfn Hdone].
  pose proof (pr_state _ _ Hround) as Hst.
  pose proof (ps_lps _ _ Hst) as HL.
  unfold _workerpool_startTaskFn, _worker_pool, get_lps.
  erewrite bind_Returns by (apply MAGIC_ASSERT_ok; exact (ps_magic _ _ Hst)).
  erewrite bind_Returns by reflexivity.
  replace (nWorkers (w_pool w) =? 0) with false by (symmetry; apply Z.eqb_neq; lia).
  unfold utility_assert.
  rewrite bool_decide_eq_true_2 by exact Hfn.
  erewrite bind_Returns by reflexivity.
  erewrite bind_Returns by reflexivity.
  erewrite bind_Returns by reflexivity.
  set (w1 := world_with_pool (pool_with_task fn data (w_pool w)) w).
  change (logicalProcessors (w_pool w1)) with (logicalProcessors (w_pool w)).
  unfold lps_n at 1. rewrite Nat2Z.id.
  destruct (_workerpool_startTaskFn_loop_wakes (length (logicalProcessors (w_pool w)))
              0%nat [] w1)
    as (w' & running & Hrun & Hround' & Hdone' & Hlen' & Hbusy' & Hframe' & Hfn' & Hdata' & Hcalls').
  - apply (pool_round_same [] (w_pool w)); [exact Hround|reflexivity..].
  - exact Hdone.
  - reflexivity.
  - reflexivity.
  - intros k Hk. apply elem_of_nil in Hk. destruct Hk.
  - intros i0 Hi0. lia.
  - exists w', running. split; [exact Hrun|].
    split.
    { constructor.
      - exact Hround'.
      - rewrite Hfn'. reflexivity.
      - rewrite Hdata'. reflexivity.
      - right. intros i0 Hi0. apply Hbusy'.
        destruct Hframe' as (_ & _ & _ & _ & _ & _ & _ & HLeq).
        rewrite <- HLeq. exact Hi0. }
    split; [exact Hdone'|].
    split; [rewrite Hlen'; reflexivity|].
    split; [|exact Hcalls'].
    apply (same_frame_trans w w1 w'); [|exact Hframe']. repeat split.
Qed.

Lemma world_with_trace_nil (w : World) : world_with_trace (w_trace w ++ []) w = w.
Proof. destruct w. unfold world_with_trace. cbn. rewrite app_nil_r. reflexivity. Qed.

(** The calls of the task function in one turn. *)
Lemma task_log_spec (fn : option Z) (data : Z) (w : World) :
  (match fn with
   | Some fn0 => log (call_taskFn fn0 data)
   | None => ret tt
   end) w
  = Returns tt
      (world_with_trace
         (w_trace w ++ match fn with Some fn0 => [call_taskFn fn0 data] | None => [] end)
         w).
Proof.
  destruct fn as [fn0|]; [reflexivity|].
  rewrite world_with_trace_nil. reflexivity.
Qed.

(** One turn of a running worker, in a round. *)
Lemma _worker_run_turn_round (fn : option Z) (data : Z) (running running' : list Z)
  (k : Z) (w : World) :
  pool_round running (w_pool w) ->
  taskFn (w_pool w) = fn -> taskData (w_pool w) = data ->
  running ≡ₚ k :: running' ->
  exists (w' : World) (next : list Z) (i : Z),
    _worker_run_turn k w = Some (Returns (bool_decide (fn <> None)) w') /\
    pool_round (next ++ running') (w_pool w') /\
    taskFn (w_pool w') = fn /\ taskData (w_pool w') = data /\
    worker_on_lp (w_pool w) k i /\
    (next = [] /\ ready_workers (w_pool w') = [] /\
     workerLogicalProcessorIdxs (w_pool w') = workerLogicalProcessorIdxs (w_pool w)
     \/ exists k',
          next = [k'] /\ k' ∈ ready_workers (w_pool w) /\
          workerLogicalProcessorIdxs (w_pool w')
          = <[Z.to_nat k' := i]> (workerLogicalProcessorIdxs (w_pool w)) /\
          forall i0, (exists k1, k1 ∈ running /\ worker_on_lp (w_pool w) k1 i0) ->
                     exists k1, k1 ∈ k' :: running' /\ worker_on_lp (w_pool w') k1 i0) /\
    done_workers (w_pool w') ≡ₚ k :: done_workers (w_pool w) /\
    same_frame w w' /\
    task_calls (w_trace w')
    = task_calls (w_trace w)
      ++ match fn with Some fn0 => [(fn0, data)] | None => [] end /\
    idle_stops (w_trace w') = idle_stops (w_trace w).
Proof.
  intros Hround Hfn Hdata Hrun.
  pose proof (pr_state _ _ Hround) as Hst.
  assert (Hkin : k ∈ running) by (rewrite Hrun; left).
  pose proof (pool_state_running_range _ _ _ Hst Hkin) as Hk.
  destruct (ps_idxs _ _ Hst k Hk) as (i & Hon & Hi).
  destruct (lookup_lt_is_Some_2 (logicalProcessors (w_pool w)) (Z.to_nat i))
    as [lpi Hlpi].
  { unfold lps_n in Hi. lia. }
  assert (Hlatch : 0 < finishLatch (w_pool w)).
  { rewrite (pr_latch _ _ Hround).
    pose proof (pool_state_lengths _ _ Hst) as Hsum.
    apply Permutation_length in Hrun. cbn in Hrun. lia. }
  (* sem_wait *)
  unfold _worker_run_turn, blocking_bind.
  rewrite (sem_wait_at k 1 w).
  2:{ lia. }
  2:{ rewrite (ps_sems _ _ Hst k Hk), bool_decide_eq_true_2 by exact Hkin. reflexivity. }
  change (0 <? 1) with true. cbn iota.
  set (w1 := world_with_pool _ w).
  unfold blocking_of.
  change (negb (0 =? 0)) with false. cbn iota.
  erewrite bind_Returns by reflexivity.
  unfold _worker_pool.
  erewrite bind_Returns by reflexivity.
  change (taskFn (w_pool w1)) with (taskFn (w_pool w)).
  change (taskData (w_pool w1)) with (taskData (w_pool w)).
  rewrite Hfn, Hdata.
  erewrite bind_Returns by apply task_log_spec.
  set (w2 := world_with_trace _ w1).
  erewrite bind_Returns by (apply (array_get_at _ k i); [lia|exact Hon]).
  erewrite bind_Returns by (apply (lps_donePush_at i k lpi); [lia|exact Hlpi]).
  set (w3 := world_with_pool _ w2).
  (* the state once the worker is in the done queue *)
  assert (Hdq3 : lp_doneWorkers <$> logicalProcessors (w_pool w3)
                 = <[Z.to_nat i := lp_doneWorkers lpi ++ [k]]>
                     (lp_doneWorkers <$> logicalProcessors (w_pool w))).
  { exact (list_fmap_insert lp_doneWorkers _ (Z.to_nat i)
             (lp_with_done (lp_doneWorkers lpi ++ [k]) lpi)). }
  assert (Hrq3 : lp_readyWorkers <$> logicalProcessors (w_pool w3)
                 = lp_readyWorkers <$> logicalProcessors (w_pool w)).
  { apply (fmap_insert_same_view lp_readyWorkers _ _ lpi); [exact Hlpi|reflexivity]. }
  assert (Htm3 : lp_idleTimerRunning <$> logicalProcessors (w_pool w3)
                 = lp_idleTimerRunning <$> logicalProcessors (w_pool w)).
  { apply (fmap_insert_same_view lp_idleTimerRunning _ _ lpi); [exact Hlpi|reflexivity]. }
  assert (Hlen3 : length (logicalProcessors (w_pool w3))
                  = length (logicalProcessors (w_pool w))) by apply length_insert.
  destruct (pool_state_done running running' (w_pool w) (w_pool w3) i lpi k
              Hst Hrun Hon ltac:(lia) Hlpi)
    as (Hst3 & Hfresh & Hfree3 & Hdone3).
  { exact (ps_magic _ _ Hst). }
  { reflexivity. }
  { reflexivity. }
  { reflexivity. }
  { reflexivity. }
  { exact Hrq3. }
  { exact Hdq3. }
  assert (Hi3 : 0 <= i < lps_n (logicalProcessors (w_pool w3)))
    by (unfold lps_n in *; rewrite Hlen3; exact Hi).
  assert (Hready3 : ready_workers (w_pool w3) = ready_workers (w_pool w)).
  { unfold ready_workers. rewrite Hrq3. reflexivity. }
  destruct (_workerpool_getNextWorkerForLogicalProcessorIdx_spec i running' w3 Hst3 Hi3)
    as [[Hempty Hnext]
       |(j & lpj & k' & r & tid & newCpu & oldCpu & Hlpj & Hreadyj & Hk' & Hnext)].
  - (* no more workers to run *)
    erewrite bind_Returns by exact Hnext.
    change (0 <=? -1) with false. cbn iota.
    destruct (lookup_lt_is_Some_2 (logicalProcessors (w_pool w3)) (Z.to_nat i))
      as [lp3 Hlp3].
    { unfold lps_n in Hi3. lia. }
    erewrite bind_Returns
      by (apply (lps_idleTimerContinue_at i lp3); [lia|exact Hlp3]).
    set (w4 := world_with_pool _ w3).
    erewrite bind_Returns by (apply countdownlatch_countDown_at; exact Hlatch).
    set (w5 := world_with_pool _ w4).
    exists w5, [], i. split; [reflexivity|].
    assert (Hrq5 : lp_readyWorkers <$> logicalProcessors (w_pool w5)
                   = lp_readyWorkers <$> logicalProcessors (w_pool w)).
    { rewrite <- Hrq3.
      apply (fmap_insert_same_view lp_readyWorkers _ _ lp3); [exact Hlp3|reflexivity]. }
    assert (Hdq5 : lp_doneWorkers <$> logicalProcessors (w_pool w5)
                   = <[Z.to_nat i := lp_doneWorkers lpi ++ [k]]>
                       (lp_doneWorkers <$> logicalProcessors (w_pool w))).
    { rewrite <- Hdq3.
      apply (fmap_insert_same_view lp_doneWorkers _ _ lp3); [exact Hlp3|reflexivity]. }
    assert (Htm5 : lp_idleTimerRunning <$> logicalProcessors (w_pool w5)
                   = <[Z.to_nat i := true]>
                       (lp_idleTimerRunning <$> logicalProcessors (w_pool w))).
    { rewrite <- Htm3.
      exact (list_fmap_insert lp_idleTimerRunning _ (Z.to_nat i)
               (lp_with_idleTimer true lp3)). }
    destruct (pool_state_done running running' (w_pool w) (w_pool w5) i lpi k
                Hst Hrun Hon ltac:(lia) Hlpi)
      as (Hst5 & _ & _ & Hdone5).
    { exact (ps_magic _ _ Hst). }
    { reflexivity. }
    { reflexivity. }
    { reflexivity. }
    { reflexivity. }
    { exact Hrq5. }
    { exact Hdq5. }
    split.
    { apply (pool_round_turn_idle running running' (w_pool w) (w_pool w5) i k);
        try assumption; reflexivity. }
    split; [exact Hfn|]. split; [exact Hdata|]. split; [exact Hon|].
    split.
    { left. split; [reflexivity|]. split; [|reflexivity].
      unfold ready_workers. rewrite Hrq5.
      fold (ready_workers (w_pool w)). rewrite <- Hready3. exact Hempty. }
    split; [exact Hdone5|].
    split.
    { repeat split. unfold lps_n.
      f_equal. rewrite <- (length_fmap lp_readyWorkers), Hrq5, length_fmap. reflexivity. }
    cbn [w5 w4 w3 w2 w1 w_trace world_with_trace world_with_pool].
    rewrite task_calls_app, idle_stops_app. destruct fn; split; cbn;
      rewrite ?app_nil_r; reflexivity.
  - (* start running the next worker *)
    erewrite bind_Returns by exact Hnext.
    replace (0 <=? k') with true by (symmetry; apply Z.leb_le; lia).
    set (w4 := world_with_trace _ _).
    assert (Hk'ready : k' ∈ ready_workers (w_pool w3)).
    { unfold ready_workers. apply (elem_of_concat_lookup _ j (lp_readyWorkers lpj)).
      - apply lookup_fmap_of. exact Hlpj.
      - rewrite Hreadyj. left. }
    pose proof (ready_not_running _ _ _ Hst3 Hk'ready) as Hk'run.
    erewrite bind_Returns.
    2:{ erewrite bind_Returns.
        2:{ apply (sem_post_at k' 0); [lia|].
            change (workerBeginSems (w_pool w4)) with (workerBeginSems (w_pool w3)).
            rewrite (ps_sems _ _ Hst3 k' Hk'), bool_decide_eq_false_2 by exact Hk'run.
            reflexivity. }
        change (negb (0 =? 0)) with false. cbn iota. reflexivity. }
    set (w5 := world_with_trace _ _).
    erewrite bind_Returns by (apply countdownlatch_countDown_at; exact Hlatch).
    set (w6 := world_with_pool _ w5).
    exists w6, [k'], i. split; [reflexivity|].
    assert (Hrq6 : lp_readyWorkers <$> logicalProcessors (w_pool w6)
                   = <[j := r]> (lp_readyWorkers <$> logicalProcessors (w_pool w3))).
    { exact (list_fmap_insert lp_readyWorkers _ j (lp_with_ready r lpj)). }
    assert (Hdq6 : lp_doneWorkers <$> logicalProcessors (w_pool w6)
                   = lp_doneWorkers <$> logicalProcessors (w_pool w3)).
    { apply (fmap_insert_same_view lp_doneWorkers _ _ lpj); [exact Hlpj|reflexivity]. }
    assert (Htm6 : lp_idleTimerRunning <$> logicalProcessors (w_pool w6)
                   = lp_idleTimerRunning <$> logicalProcessors (w_pool w)).
    { rewrite <- Htm3.
      apply (fmap_insert_same_view lp_idleTimerRunning _ _ lpj); [exact Hlpj|reflexivity]. }
    destruct (pool_state_wake running' (w_pool w3) (w_pool w6) i j lpj k' r
                Hst3 Hlpj Hreadyj Hi3 Hfree3)
      as (Hst6 & _ & _).
    { exact (ps_magic _ _ Hst). }
    { reflexivity. }
    { reflexivity. }
    { reflexivity. }
    { reflexivity. }
    { exact Hrq6. }
    { exact Hdq6. }
    assert (Hdone6 : done_workers (w_pool w6) ≡ₚ k :: done_workers (w_pool w)).
    { unfold done_workers at 1. rewrite Hdq6. exact Hdone3. }
    assert (Hk'old : k' ∈ ready_workers (w_pool w)) by (rewrite <- Hready3; exact Hk'ready).
    destruct (pool_round_turn_wake running running' (w_pool w) (w_pool w6) i k k'
                Hround Hrun Hon Hst6)
      as (Hround6 & Hfwd).
    { exact (ready_not_running _ _ _ Hst Hk'old). }
    { exact Hk'. }
    { reflexivity. }
    { exact Hdone6. }
    { exact Htm6. }
    { reflexivity. }
    { reflexivity. }
    assert (HL6 : lps_n (logicalProcessors (w_pool w6)) = lps_n (logicalProcessors (w_pool w))).
    { unfold lps_n. f_equal.
      rewrite <- (length_fmap lp_idleTimerRunning), Htm6, length_fmap. reflexivity. }
    split; [exact Hround6|].
    split; [exact Hfn|]. split; [exact Hdata|]. split; [exact Hon|].
    split.
    { right. exists k'. split; [reflexivity|]. split; [exact Hk'old|].
      split; [reflexivity|exact Hfwd]. }
    split; [exact Hdone6|].
    split; [repeat split; exact HL6|].
    cbn [w6 w5 w4 w3 w2 w1 w_trace world_with_trace world_with_pool].
    rewrite !task_calls_app, !idle_stops_app.
    destruct fn; split; cbn; rewrite ?app_nil_r; reflexivity.
Qed.

(** One turn of a running worker. *)
Lemma _worker_run_turn_running (fn : option Z) (data : Z) (running running' : list Z)
  (k : Z) (w : World) :
  pool_in_round fn data running (w_pool w) ->
  running ≡ₚ k :: running' ->
  exists (w' : World) (next : list Z),
    _worker_run_turn k w = Some (Returns (bool_decide (fn <> None)) w') /\
    pool_in_round fn data (next ++ running') (w_pool w') /\
    (length next <= 1)%nat /\
    (forall x, x ∈ next -> x ∈ ready_workers (w_pool w)) /\
    done_workers (w_pool w') ≡ₚ k :: done_workers (w_pool w) /\
    same_frame w w' /\
    task_calls (w_trace w')
    = task_calls (w_trace w)
      ++ match fn with Some fn0 => [(fn0, data)] | None => [] end.
Proof.
  intros [Hround Hfn Hdata Hbusy] Hrun.
  destruct (_worker_run_turn_round fn data running running' k w Hround Hfn Hdata Hrun)
    as (w' & next & i & Hturn & Hround' & Hfn' & Hdata' & Hon & Hnext & Hdone & Hframe
        & Hcalls & _).
  exists w', next. split; [exact Hturn|].
  assert (HL : lps_n (logicalProcessors (w_pool w')) = lps_n (logicalProcessors (w_pool w)))
    by (destruct Hframe as (_ & _ & _ & _ & _ & _ & _ & HL); exact HL).
  destruct Hnext as [(-> & Hempty & _)|(k' & -> & Hk' & _ & Hfwd)].
  - split.
    { constructor; [exact Hround'|exact Hfn'|exact Hdata'|left; exact Hempty]. }
    split; [cbn; lia|].
    split; [intros x Hx; apply elem_of_nil in Hx; destruct Hx|].
    split; [exact Hdone|]. split; [exact Hframe|exact Hcalls].
  - split.
    { constructor; [exact Hround'|exact Hfn'|exact Hdata'|].
      right. intros i0 Hi0. apply Hfwd.
      destruct Hbusy as [Hnil|Hall].
      + rewrite Hnil in Hk'. apply elem_of_nil in Hk'. destruct Hk'.
      + apply Hall. rewrite <- HL. exact Hi0. }
    split; [cbn; lia|].
    split; [intros x Hx; apply list_elem_of_singleton in Hx; subst x; exact Hk'|].
    split; [exact Hdone|]. split; [exact Hframe|exact Hcalls].
Qed.

(** A worker that is not running waits in [sem_wait]. *)
Lemma _worker_run_turn_blocked (running : list Z) (k : Z) (w : World) :
  pool_state running (w_pool w) ->
  0 <= k < nWorkers (w_pool w) -> k ∉ running ->
  _worker_run_turn k w = None.
Proof.
  intros Hst Hk Hnot. unfold _worker_run_turn, blocking_bind.
  rewrite (sem_wait_at k 0 w); [reflexivity|lia|].
  rewrite (ps_sems _ _ Hst k Hk), bool_decide_eq_false_2 by exact Hnot. reflexivity.
Qed.

(** One pass of the loop of the dispatch, in a round. *)
Lemma _workerpool_startTaskFn_iteration_spec (i : Z) (running : list Z) (w : World) :
  pool_round running (w_pool w) ->
  0 <= i ->
  (forall k0, k0 ∈ running -> ~ worker_on_lp (w_pool w) k0 i) ->
  ((lps_n (logicalProcessors (w_pool w)) <= i \/ ready_workers (w_pool w) = []) /\
   _workerpool_startTaskFn_iteration i w = Returns None w)
  \/ exists (k : Z) (w' : World),
       i < lps_n (logicalProcessors (w_pool w)) /\
       _workerpool_startTaskFn_iteration i w = Returns (Some (i + 1)) w' /\
       pool_round (k :: running) (w_pool w') /\
       k ∈ ready_workers (w_pool w) /\
       workerLogicalProcessorIdxs (w_pool w')
       = <[Z.to_nat k := i]> (workerLogicalProcessorIdxs (w_pool w)) /\
       done_workers (w_pool w') = done_workers (w_pool w) /\
       taskFn (w_pool w') = taskFn (w_pool w) /\
       taskData (w_pool w') = taskData (w_pool w) /\
       same_frame w w' /\
       task_calls (w_trace w') = task_calls (w_trace w) /\
       idle_stops (w_trace w') = idle_stops (w_trace w) ++ [i] /\
       posted_workers (w_trace w') = posted_workers (w_trace w) ++ [k].
Proof.
  intros Hround Hi0 Hfree.
  pose proof (pr_state _ _ Hround) as Hst.
  unfold _workerpool_startTaskFn_iteration, get_lps.
  erewrite bind_Returns by reflexivity.
  destruct (Z.ltb_spec i (lps_n (logicalProcessors (w_pool w)))) as [Hlt|Hge].
  2:{ left. split; [left; exact Hge|reflexivity]. }
  assert (Hi : 0 <= i < lps_n (logicalProcessors (w_pool w))) by lia.
  destruct (_workerpool_getNextWorkerForLogicalProcessorIdx_spec i running w Hst Hi)
    as [[Hempty Hrun]|(j & lp & k & r & tid & newCpu & oldCpu & Hlp & Hready & Hk & Hrun)].
  { left. split; [right; exact Hempty|].
    erewrite bind_Returns by exact Hrun. reflexivity. }
  right.
  assert (Hkready : k ∈ ready_workers (w_pool w)).
  { unfold ready_workers. apply (elem_of_concat_lookup _ j (lp_readyWorkers lp)).
    - apply lookup_fmap_of. exact Hlp.
    - rewrite Hready. left. }
  pose proof (ready_not_running _ _ _ Hst Hkready) as Hkrun.
  erewrite bind_Returns by exact Hrun.
  replace (0 <=? k) with true by (symmetry; apply Z.leb_le; lia).
  set (lps1 := <[j := lp_with_ready r lp]> (logicalProcessors (w_pool w))).
  assert (Hlen1 : length lps1 = length (logicalProcessors (w_pool w)))
    by apply length_insert.
  destruct (lookup_lt_is_Some_2 lps1 (Z.to_nat i)) as [lpi Hlpi].
  { unfold lps_n in Hi. lia. }
  erewrite bind_Returns
    by (apply (lps_idleTimerStop_at i lpi); [lia|exact Hlpi]).
  erewrite bind_Returns.
  2:{ apply (sem_post_at k 0); [lia|]. cbn.
      rewrite (ps_sems _ _ Hst k Hk), bool_decide_eq_false_2 by exact Hkrun.
      reflexivity. }
  cbn [Z.eqb negb].
  erewrite bind_Returns by reflexivity.
  match goal with |- exists k0 w', _ /\ ret _ ?ww = _ /\ _ => set (w3 := ww) end.
  exists k, w3. split; [exact Hlt|]. split; [reflexivity|].
  assert (Hlen3 : length (logicalProcessors (w_pool w3))
                  = length (logicalProcessors (w_pool w))).
  { cbn. etransitivity; [apply length_insert|exact Hlen1]. }
  assert (Hrq : lp_readyWorkers <$> logicalProcessors (w_pool w3)
                = <[j := r]> (lp_readyWorkers <$> logicalProcessors (w_pool w))).
  { cbn. rewrite (fmap_insert_same_view lp_readyWorkers lps1 _ lpi) by (exact Hlpi || reflexivity).
    exact (list_fmap_insert lp_readyWorkers _ j (lp_with_ready r lp)). }
  assert (Hdq : lp_doneWorkers <$> logicalProcessors (w_pool w3)
                = lp_doneWorkers <$> logicalProcessors (w_pool w)).
  { cbn. rewrite (fmap_insert_same_view lp_doneWorkers lps1 _ lpi) by (exact Hlpi || reflexivity).
    unfold lps1.
    apply (fmap_insert_same_view lp_doneWorkers _ _ lp); [exact Hlp|reflexivity]. }
  assert (Htimers : lp_idleTimerRunning <$> logicalProcessors (w_pool w3)
                    = <[Z.to_nat i := false]>
                        (lp_idleTimerRunning <$> logicalProcessors (w_pool w))).
  { cbn. etransitivity;
      [exact (list_fmap_insert lp_idleTimerRunning lps1 _ (lp_with_idleTimer false lpi))|].
    cbn. f_equal.
    apply (fmap_insert_same_view lp_idleTimerRunning _ _ lp); [exact Hlp|reflexivity]. }
  destruct (pool_state_wake running (w_pool w) (w_pool w3) i j lp k r
              Hst Hlp Hready Hi Hfree)
    as (Hst3 & _ & _).
  { cbn. exact (ps_magic _ _ Hst). }
  { reflexivity. }
  { reflexivity. }
  { reflexivity. }
  { reflexivity. }
  { exact Hrq. }
  { exact Hdq. }
  split.
  { apply (pool_round_dispatch running (w_pool w) (w_pool w3) i k);
      try assumption; reflexivity. }
  split; [exact Hkready|].
  split; [reflexivity|].
  split; [unfold done_workers; rewrite Hdq; reflexivity|].
  split; [reflexivity|]. split; [reflexivity|].
  split.
  { repeat split. unfold lps_n. rewrite Hlen3. reflexivity. }
  cbn [w3 w_trace world_with_trace world_with_pool].
  rewrite !task_calls_app, !idle_stops_app, !posted_workers_app.
  cbn. rewrite !app_nil_r. repeat split; reflexivity.
Qed.

Lemma pool_dispatching_returned fn data running p :
  pool_dispatching fn data None running p <-> pool_in_round fn data running p.
Proof.
  split.
  - intros [Hround Hfn Hdata Hmain Hbelow Hbusy].
    constructor; [exact Hround|exact Hfn|exact Hdata|exact Hbusy].
  - intros [Hround Hfn Hdata Hbusy].
    pose proof (pr_state _ _ Hround) as Hst.
    constructor; [exact Hround|exact Hfn|exact Hdata| | |exact Hbusy].
    + cbn. pose proof (ps_lps _ _ Hst). lia.
    + intros k i Hk Hon. cbn.
      destruct (ps_idxs _ _ Hst k (pool_state_running_range _ _ _ Hst Hk))
        as (i' & Hon' & Hi').
      rewrite (worker_on_lp_functional _ _ _ _ Hon Hon'). lia.
Qed.

(** The turn of a running worker, while the dispatch may still be going. *)
Lemma _worker_run_turn_dispatching (fn : option Z) (data : Z) (main : option Z)
  (running running0 : list Z) (k : Z) (w : World) :
  pool_dispatching fn data main running (w_pool w) ->
  running ≡ₚ k :: running0 ->
  exists (w' : World) (next : list Z),
    _worker_run_turn k w = Some (Returns (bool_decide (fn <> None)) w') /\
    pool_dispatching fn data main (next ++ running0) (w_pool w') /\
    done_workers (w_pool w') ≡ₚ k :: done_workers (w_pool w) /\
    same_frame w w' /\
    task_calls (w_trace w')
    = task_calls (w_trace w)
      ++ match fn with Some fn0 => [(fn0, data)] | None => [] end /\
    idle_stops (w_trace w') = idle_stops (w_trace w).
Proof.
  intros [Hround Hfn Hdata Hmain Hbelow Hbusy] Hrun.
  pose proof (pr_state _ _ Hround) as Hst.
  destruct (_worker_run_turn_round fn data running running0 k w Hround Hfn Hdata Hrun)
    as (w' & next & i & Hturn & Hround' & Hfn' & Hdata' & Hon & Hnext & Hdone & Hframe
        & Hcalls & Hstops).
  exists w', next. split; [exact Hturn|].
  assert (HL : lps_n (logicalProcessors (w_pool w')) = lps_n (logicalProcessors (w_pool w)))
    by (destruct Hframe as (_ & _ & _ & _ & _ & _ & _ & HL); exact HL).
  assert (Hreached : dispatch_reached main (w_pool w') = dispatch_reached main (w_pool w))
    by (destruct main; [reflexivity|exact HL]).
  assert (Hkin : k ∈ running) by (rewrite Hrun; left).
  assert (Hsub : forall k1, k1 ∈ running0 -> k1 ∈ running)
    by (intros k1 Hk1; rewrite Hrun; right; exact Hk1).
  split; [|split; [exact Hdone|split; [exact Hframe|split; [exact Hcalls|exact Hstops]]]].
  constructor; [exact Hround'|exact Hfn'|exact Hdata'|rewrite Hreached, HL; exact Hmain| |].
  - intros k1 i1 Hk1 Hon1. rewrite Hreached.
    destruct Hnext as [(-> & _ & Hidxs)|(k' & -> & Hk' & Hidxs & _)].
    + apply (Hbelow k1 i1); [apply Hsub; exact Hk1|].
      unfold worker_on_lp in *. rewrite <- Hidxs. exact Hon1.
    + pose proof (ready_not_running _ _ _ Hst Hk') as Hk'run.
      assert (Hk'range : 0 <= k' < nWorkers (w_pool w)).
      { apply (pool_state_range running _ k' Hst). apply elem_of_app. left. exact Hk'. }
      cbn in Hk1. apply elem_of_cons in Hk1 as [->|Hk1].
      * apply (worker_on_lp_insert_eq (w_pool w) (w_pool w') k' i i1 Hidxs) in Hon1.
        2:{ pose proof (ps_idxs_length _ _ Hst). lia. }
        subst i1. exact (Hbelow k i Hkin Hon).
      * apply (Hbelow k1 i1); [apply Hsub; exact Hk1|].
        pose proof (pool_state_running_range _ _ _ Hst (Hsub k1 Hk1)).
        apply (worker_on_lp_insert_ne (w_pool w) (w_pool w') k' k1 i i1 Hidxs);
          [lia|lia| |exact Hon1].
        intros ->. apply Hk'run. apply Hsub. exact Hk1.
  - destruct Hnext as [(-> & Hempty & _)|(k' & -> & Hk' & _ & Hfwd)].
    + left. exact Hempty.
    + right. intros i0 Hi0. rewrite Hreached in Hi0. apply Hfwd.
      destruct Hbusy as [Hnil|Hall].
      * rewrite Hnil in Hk'. apply elem_of_nil in Hk'. destruct Hk'.
      * apply Hall. exact Hi0.
Qed.

(** A pass of the loop of the dispatch, while workers may be running. *)
Lemma _workerpool_startTaskFn_iteration_dispatching (fn : option Z) (data : Z) (i : Z)
  (running : list Z) (w : World) :
  pool_dispatching fn data (Some i) running (w_pool w) ->
  exists (main' : option Z) (running' : list Z) (w' : World),
    _workerpool_startTaskFn_iteration i w = Returns main' w' /\
    pool_dispatching fn data main' running' (w_pool w') /\
    done_workers (w_pool w') = done_workers (w_pool w) /\
    same_frame w w' /\
    task_calls (w_trace w') = task_calls (w_trace w) /\
    ((main' = None /\ w' = w /\ running' = running /\
      (i = lps_n (logicalProcessors (w_pool w)) \/ ready_workers (w_pool w) = []))
     \/ (main' = Some (i + 1) /\ i < lps_n (logicalProcessors (w_pool w)) /\
         idle_stops (w_trace w') = idle_stops (w_trace w) ++ [i] /\
         exists k, running' = k :: running /\ k ∈ ready_workers (w_pool w) /\
                   worker_on_lp (w_pool w') k i /\
                   posted_workers (w_trace w') = posted_workers (w_trace w) ++ [k])).
Proof.
  intros [Hround Hfn Hdata Hmain Hbelow Hbusy]. cbn in Hmain, Hbelow, Hbusy.
  pose proof (pr_state _ _ Hround) as Hst.
  assert (Hfree : forall k0, k0 ∈ running -> ~ worker_on_lp (w_pool w) k0 i).
  { intros k0 Hk0 Hon. pose proof (Hbelow k0 i Hk0 Hon). lia. }
  destruct (_workerpool_startTaskFn_iteration_spec i running w Hround ltac:(lia) Hfree)
    as [[Hwhy Hrun]
       |(k & w' & Hlt & Hrun & Hround' & Hk & Hidxs & Hdone & Hfn' & Hdata' & Hframe
         & Hcalls & Hstops & Hposted)].
  - exists None, running, w. split; [exact Hrun|].
    split.
    { constructor; [exact Hround|exact Hfn|exact Hdata| | |]; cbn.
      - lia.
      - intros k0 i0 Hk0 Hon. pose proof (Hbelow k0 i0 Hk0 Hon). lia.
      - destruct Hwhy as [Hge|Hempty]; [|left; exact Hempty].
        destruct Hbusy as [Hempty|Hall]; [left; exact Hempty|].
        right. intros i0 Hi0. apply Hall. lia. }
    split; [reflexivity|]. split; [apply same_frame_refl|]. split; [reflexivity|].
    left. split; [reflexivity|]. split; [reflexivity|]. split; [reflexivity|].
    destruct Hwhy as [Hge|Hempty]; [left; lia|right; exact Hempty].
  - assert (HL : lps_n (logicalProcessors (w_pool w')) = lps_n (logicalProcessors (w_pool w)))
      by (destruct Hframe as (_ & _ & _ & _ & _ & _ & _ & HL); exact HL).
    pose proof (ready_not_running _ _ _ Hst Hk) as Hkrun.
    assert (Hkrange : 0 <= k < nWorkers (w_pool w)).
    { apply (pool_state_range running _ k Hst). apply elem_of_app. left. exact Hk. }
    assert (Hknew : worker_on_lp (w_pool w') k i).
    { apply (worker_on_lp_insert_eq (w_pool w) (w_pool w') k i i Hidxs); [|reflexivity].
      pose proof (ps_idxs_length _ _ Hst). lia. }
    assert (Hsame : forall k0 x, k0 ∈ running ->
              (worker_on_lp (w_pool w') k0 x <-> worker_on_lp (w_pool w) k0 x)).
    { intros k0 x Hk0. pose proof (pool_state_running_range _ _ _ Hst Hk0).
      apply (worker_on_lp_insert_ne (w_pool w) (w_pool w') k k0 i x Hidxs); [lia|lia|].
      intros ->. contradiction. }
    exists (Some (i + 1)), (k :: running), w'. split; [exact Hrun|].
    split.
    { constructor; [exact Hround'|congruence|congruence| | |]; cbn.
      - lia.
      - intros k0 i0 Hk0 Hon. apply elem_of_cons in Hk0 as [->|Hk0].
        + rewrite (worker_on_lp_functional _ _ _ _ Hon Hknew). lia.
        + apply Hsame in Hon; [|exact Hk0]. pose proof (Hbelow k0 i0 Hk0 Hon). lia.
      - right. intros i0 Hi0. destruct (decide (i0 = i)) as [->|Hne].
        + exists k. split; [left|exact Hknew].
        + destruct Hbusy as [Hnil|Hall].
          { rewrite Hnil in Hk. apply elem_of_nil in Hk. destruct Hk. }
          destruct (Hall i0 ltac:(lia)) as (k0 & Hk0 & Hon0). exists k0.
          split; [right; exact Hk0|apply Hsame; assumption]. }
    split; [exact Hdone|]. split; [exact Hframe|]. split; [exact Hcalls|].
    right. split; [reflexivity|]. split; [exact Hlt|]. split; [exact Hstops|].
    exists k. split; [reflexivity|]. split; [exact Hk|]. split; [exact Hknew|exact Hposted].
Qed.

(** The threads of the pool under any schedule, from a state of the
    dispatch. *)
Lemma run_steps_spec (fn : option Z) (data : Z) (sched : list Step) :
  forall (main : option Z) (returned running : list Z) (w : World),
    pool_dispatching fn data main running (w_pool w) ->
    Forall (valid_step (nWorkers (w_pool w))) sched ->
    run_steps sched main returned w = None
    \/ exists (main' : option Z) (running' : list Z) (w' : World) (j : nat),
         run_steps sched main returned w
         = Some (Returns
                   (main',
                    returned ++ match fn with Some _ => [] | None => turns_of sched end)
                   w') /\
         pool_dispatching fn data main' running' (w_pool w') /\
         done_workers (w_pool w') ≡ₚ turns_of sched ++ done_workers (w_pool w) /\
         same_frame w w' /\
         task_calls (w_trace w')
         = task_calls (w_trace w)
           ++ match fn with
              | Some fn0 => replicate (length (turns_of sched)) (fn0, data)
              | None => []
              end /\
         idle_stops (w_trace w')
         = idle_stops (w_trace w)
           ++ seqZ (dispatch_reached main (w_pool w)) (Z.of_nat j) /\
         (j <= passes_of sched)%nat /\
         (main = None -> j = 0%nat /\ main' = None) /\
         (forall i', main' = Some i' ->
            j = passes_of sched /\ main = Some (i' - Z.of_nat j)) /\
         dispatch_reached main (w_pool w) + Z.of_nat j
         <= lps_n (logicalProcessors (w_pool w)) /\
         (running = [] -> ready_workers (w_pool w) <> [] ->
          dispatch_reached main (w_pool w) < lps_n (logicalProcessors (w_pool w)) ->
          (1 <= passes_of sched)%nat -> (1 <= j)%nat).
Proof.
  induction sched as [|s sched IH]; intros main returned running w Hin Hall.
  - right. exists main, running, w, 0%nat. cbn.
    split; [destruct fn; rewrite app_nil_r; reflexivity|].
    split; [exact Hin|]. split; [reflexivity|].
    split; [apply same_frame_refl|].
    split; [destruct fn; rewrite app_nil_r; reflexivity|].
    split; [rewrite app_nil_r; reflexivity|].
    split; [lia|].
    split; [intros ->; split; reflexivity|].
    split; [intros i' ->; split; [reflexivity|f_equal; lia]|].
    split; [pose proof (di_main _ _ _ _ _ Hin); lia|].
    intros _ _ _ Hpass. unfold passes_of in Hpass. cbn in Hpass. lia.
  - pose proof (Forall_inv Hall) as Hs. pose proof (Forall_inv_tail Hall) as Hrest.
    destruct s as [|k].
    + (* a pass of the main thread *)
      destruct main as [i|].
      2:{ cbn [run_steps].
          destruct (IH None returned running w Hin Hrest)
            as [Hblocked|(main' & running' & w' & j & Hrun' & Hin' & Hdone' & Hframe'
                          & Hcalls' & Hstops' & Hj' & Hnone' & Hsome' & Hbound' & Hfirst')];
            [left; exact Hblocked|right].
          destruct (Hnone' eq_refl) as [-> ->].
          exists None, running', w', 0%nat.
          split; [exact Hrun'|]. split; [exact Hin'|]. split; [exact Hdone'|].
          split; [exact Hframe'|]. split; [exact Hcalls'|]. split; [exact Hstops'|].
          split; [lia|]. split; [intros _; split; reflexivity|].
          split; [intros i' [=]|].
          split; [cbn; lia|]. cbn. intros _ _ Hlt. lia. }
      destruct (_workerpool_startTaskFn_iteration_dispatching fn data i running w Hin)
        as (main1 & running1 & w1 & Hrun1 & Hin1 & Hdone1 & Hframe1 & Hcalls1 & Hcase).
      assert (HnW1 : nWorkers (w_pool w1) = nWorkers (w_pool w))
        by (destruct Hframe1 as (_ & _ & _ & HnW & _); exact HnW).
      destruct (IH main1 returned running1 w1 Hin1)
        as [Hblocked|(main' & running' & w' & j & Hrun' & Hin' & Hdone' & Hframe'
                      & Hcalls' & Hstops' & Hj' & Hnone' & Hsome' & Hbound' & Hfirst')].
      { rewrite HnW1. exact Hrest. }
      { left. cbn [run_steps]. unfold blocking_bind, blocking_of. rewrite Hrun1.
        exact Hblocked. }
      right.
      assert (Hrun : run_steps (step_dispatch :: sched) (Some i) returned w
                     = Some (Returns
                               (main',
                                returned ++ match fn with
                                            | Some _ => []
                                            | None => turns_of (step_dispatch :: sched)
                                            end) w')).
      { cbn [run_steps]. unfold blocking_bind, blocking_of. rewrite Hrun1. exact Hrun'. }
      destruct Hcase as [(-> & -> & -> & Hwhy)|(-> & Hlt & Hstops1 & k & -> & Hk & Hon & _)].
      * destruct (Hnone' eq_refl) as [-> ->].
        exists None, running', w', 0%nat.
        split; [exact Hrun|]. split; [exact Hin'|]. split; [exact Hdone'|].
        split; [exact Hframe'|]. split; [exact Hcalls'|].
        split; [rewrite Hstops'; cbn; reflexivity|].
        split; [lia|]. split; [intros [=]|]. split; [intros i' [=]|].
        split; [pose proof (di_main _ _ _ _ _ Hin) as Hm; cbn in Hm |- *; lia|].
        cbn. intros _ Hready Hlt _. destruct Hwhy as [Heq|Hempty]; [lia|contradiction].
      * exists main', running', w', (S j).
        split; [exact Hrun|]. split; [exact Hin'|].
        split; [cbn [turns_of omap]; rewrite Hdone', Hdone1; reflexivity|].
        split; [exact (same_frame_trans _ _ _ Hframe1 Hframe')|].
        split; [rewrite Hcalls', Hcalls1; reflexivity|].
        split.
        { rewrite Hstops', Hstops1. cbn [dispatch_reached].
          rewrite <- app_assoc. f_equal.
          replace (Z.of_nat (S j)) with (Z.succ (Z.of_nat j)) by lia.
          rewrite (seqZ_cons i) by lia. rewrite Z.pred_succ.
          replace (Z.succ i) with (i + 1) by lia. reflexivity. }
        split; [change (passes_of (step_dispatch :: sched)) with (S (passes_of sched)); lia|].
        split; [intros [=]|].
        split.
        { intros i' Hi'. destruct (Hsome' i' Hi') as [Hjeq [= Hmain]].
        split; [change (passes_of (step_dispatch :: sched)) with (S (passes_of sched)); lia|].
        f_equal. lia. }
        assert (HL1 : lps_n (logicalProcessors (w_pool w1))
                      = lps_n (logicalProcessors (w_pool w)))
          by (destruct Hframe1 as (_ & _ & _ & _ & _ & _ & _ & HL); exact HL).
        split; [cbn in Hbound' |- *; lia|].
        intros _ _ _ _. lia.
    + (* a turn of the worker k *)
      cbn beta in Hs. cbn [valid_step] in Hs. cbn [run_steps].
      destruct (decide (k ∈ returned)) as [Hret|Hret].
      { left. rewrite bool_decide_eq_true_2 by exact Hret. reflexivity. }
      rewrite bool_decide_eq_false_2 by exact Hret.
      pose proof (pr_state _ _ (di_round _ _ _ _ _ Hin)) as Hst.
      destruct (decide (k ∈ running)) as [Hrun|Hrun].
      2:{ left. unfold blocking_bind.
          rewrite (_worker_run_turn_blocked running k w Hst Hs Hrun). reflexivity. }
      apply elem_of_Permutation in Hrun as [running0 Hrun].
      destruct (_worker_run_turn_dispatching fn data main running running0 k w Hin Hrun)
        as (w1 & next & Hturn & Hin1 & Hdone1 & Hframe1 & Hcalls1 & Hstops1).
      assert (HnW1 : nWorkers (w_pool w1) = nWorkers (w_pool w))
        by (destruct Hframe1 as (_ & _ & _ & HnW & _); exact HnW).
      assert (HL1 : lps_n (logicalProcessors (w_pool w1))
                    = lps_n (logicalProcessors (w_pool w)))
        by (destruct Hframe1 as (_ & _ & _ & _ & _ & _ & _ & HL); exact HL).
      destruct (IH main (if bool_decide (fn <> None) then returned else returned ++ [k])
                  (next ++ running0) w1 Hin1)
        as [Hblocked|(main' & running' & w' & j & Hrun' & Hin' & Hdone' & Hframe'
                      & Hcalls' & Hstops' & Hj' & Hnone' & Hsome' & Hbound' & Hfirst')].
      { rewrite HnW1. exact Hrest. }
      { left. unfold blocking_bind. rewrite Hturn. exact Hblocked. }
      right. exists main', running', w', j.
      split.
      { unfold blocking_bind. rewrite Hturn, Hrun'. cbn [turns_of omap].
        destruct fn as [fn0|].
        - rewrite bool_decide_eq_true_2 by discriminate. reflexivity.
        - rewrite bool_decide_eq_false_2 by (intros Hne; apply Hne; reflexivity).
          rewrite <- app_assoc. reflexivity. }
      split; [exact Hin'|].
      split.
      { cbn [turns_of omap]. rewrite Hdone', Hdone1. cbn. symmetry.
        apply Permutation_middle. }
      split; [exact (same_frame_trans _ _ _ Hframe1 Hframe')|].
      split.
      { rewrite Hcalls', Hcalls1. cbn [turns_of omap length]. destruct fn as [fn0|].
        - rewrite <- app_assoc. reflexivity.
        - rewrite !app_nil_r. reflexivity. }
      split.
      { rewrite Hstops', Hstops1. f_equal. f_equal.
        destruct main; [reflexivity|exact HL1]. }
      split; [exact Hj'|]. split; [exact Hnone'|]. split; [exact Hsome'|].
      assert (Hreached : dispatch_reached main (w_pool w1) = dispatch_reached main (w_pool w))
        by (destruct main; [reflexivity|exact HL1]).
      split; [rewrite <- Hreached, <- HL1; exact Hbound'|].
      intros -> _ _ _. apply Permutation_nil_cons in Hrun. destruct Hrun.
Qed.

(** The code before the loop, on an idle pool. *)
Lemma _workerpool_startTaskFn_enter_idle (fn : option Z) (data : Z) (w : World) :
  pool_idle (w_pool w) ->
  let w0 := world_with_pool (pool_with_task fn data (w_pool w)) w in
  _workerpool_startTaskFn_enter fn data w = Returns (Some 0) w0 /\
  pool_dispatching fn data (Some 0) [] (w_pool w0).
Proof.
  intros [Hround Hfn Hdone] w0.
  pose proof (pr_state _ _ Hround) as Hst.
  pose proof (ps_lps _ _ Hst) as HL.
  split.
  - unfold _workerpool_startTaskFn_enter, _worker_pool.
    erewrite bind_Returns by (apply MAGIC_ASSERT_ok; exact (ps_magic _ _ Hst)).
    erewrite bind_Returns by reflexivity.
    replace (nWorkers (w_pool w) =? 0) with false by (symmetry; apply Z.eqb_neq; lia).
    unfold utility_assert. rewrite bool_decide_eq_true_2 by exact Hfn.
    erewrite bind_Returns by reflexivity.
    erewrite bind_Returns by reflexivity. reflexivity.
  - constructor.
    + apply (pool_round_same [] (w_pool w)); [exact Hround|reflexivity..].
    + reflexivity.
    + reflexivity.
    + cbn. lia.
    + intros k i Hk. apply elem_of_nil in Hk. destruct Hk.
    + right. cbn. intros i Hi. lia.
Qed.


(** The parallelism cap: the running workers sit on different logical
    processors, so there are at most as many as logical processors. *)
Lemma pool_state_cap (running : list Z) (p : WorkerPool) :
  pool_state running p ->
  Z.of_nat (length running) <= lps_n (logicalProcessors p).
Proof.
  intros Hst.
  set (f := fun k => default 0 (workerLogicalProcessorIdxs p !! Z.to_nat k)).
  assert (Hon : forall k, k ∈ running ->
            worker_on_lp p k (f k) /\ 0 <= f k < lps_n (logicalProcessors p)).
  { intros k Hk. pose proof (pool_state_running_range _ _ _ Hst Hk) as Hr.
    destruct (ps_idxs _ _ Hst k Hr) as (i & Hi & Hir).
    unfold f. unfold worker_on_lp in *. rewrite Hi. cbn. split; [reflexivity|exact Hir]. }
  assert (Hnd : NoDup (f <$> running)).
  { apply NoDup_fmap_2_strong.
    - intros x y Hx Hy Hxy. destruct (Hon x Hx) as [Hox _]. destruct (Hon y Hy) as [Hoy _].
      rewrite Hxy in Hox. exact (ps_exclusive _ _ Hst x y (f y) Hx Hy Hox Hoy).
    - pose proof (pool_state_NoDup _ _ Hst) as Hnd.
      apply NoDup_app in Hnd as (_ & _ & Hnd). apply NoDup_app in Hnd as (Hnd & _ & _).
      exact Hnd. }
  assert (Hsub : f <$> running ⊆+ seqZ 0 (lps_n (logicalProcessors p))).
  { apply NoDup_submseteq; [exact Hnd|].
    intros x Hx. apply list_elem_of_fmap in Hx as (k & -> & Hk).
    apply elem_of_seqZ. destruct (Hon k Hk) as [_ Hr]. lia. }
  apply submseteq_length in Hsub. rewrite length_fmap, length_seqZ in Hsub.
  unfold lps_n in *. lia.
Qed.

Lemma concat_app_pointwise (ls : list LogicalProcessor) :
  concat ((fun lp => lp_readyWorkers lp ++ lp_doneWorkers lp) <$> ls)
  ≡ₚ concat (lp_readyWorkers <$> ls) ++ concat (lp_doneWorkers <$> ls).
Proof.
  induction ls as [|lp ls IH]; [reflexivity|].
  cbn. rewrite IH. rewrite <- !app_assoc. apply Permutation_app_head.
  rewrite !app_assoc. apply Permutation_app_tail. apply Permutation_app_comm.
Qed.

(** The pool once [lps_finishTask] has run, the latch is re-armed and the
    task is cleared. *)
Lemma pool_idle_after_finishTask (p p' : WorkerPool) :
  pool_round [] p ->
  magic p' = magic p -> nWorkers p' = nWorkers p ->
  workerBeginSems p' = workerBeginSems p ->
  workerLogicalProcessorIdxs p' = workerLogicalProcessorIdxs p ->
  workerNativeThreadIDs p' = workerNativeThreadIDs p ->
  logicalProcessors p' = lp_finishTask <$> logicalProcessors p ->
  finishLatch p' = nWorkers p -> taskFn p' = None ->
  pool_idle p'.
Proof.
  intros [[Hm HL Hs Hi Ht Hsem Hcons Hidx Hexcl Hhome] Hlatch Htimers]
    Hmagic HnW Hsems Hidxs Htids Hlps Hfl Hfn.
  assert (Hdone' : done_workers p' = []).
  { unfold done_workers. rewrite Hlps. apply concat_all_nil.
    intros i q Hq. apply list_lookup_fmap_Some in Hq as (lp' & -> & Hlp').
    apply list_lookup_fmap_Some in Hlp' as (lp & -> & Hlp). reflexivity. }
  assert (Hready' : ready_workers p' ≡ₚ ready_workers p ++ done_workers p).
  { unfold ready_workers at 1. rewrite Hlps, <- list_fmap_compose.
    apply concat_app_pointwise. }
  assert (HL' : lps_n (logicalProcessors p') = lps_n (logicalProcessors p)).
  { unfold lps_n. rewrite Hlps, length_fmap. reflexivity. }
  constructor; [|exact Hfn|exact Hdone'].
  constructor; [constructor|..].
  - rewrite Hmagic. exact Hm.
  - rewrite HL', HnW. exact HL.
  - rewrite Hsems, HnW. exact Hs.
  - rewrite Hidxs, HnW. exact Hi.
  - rewrite Htids, HnW. exact Ht.
  - intros k Hk. rewrite Hsems. rewrite HnW in Hk. exact (Hsem k Hk).
  - rewrite Hdone', Hready', HnW. cbn. rewrite app_nil_r. exact Hcons.
  - intros k Hk. rewrite HnW in Hk. rewrite HL'. unfold worker_on_lp. rewrite Hidxs.
    exact (Hidx k Hk).
  - intros k k' i Hk. apply elem_of_nil in Hk. destruct Hk.
  - intros i lp' k Hlp' Hk. unfold worker_on_lp. rewrite Hidxs.
    rewrite Hlps in Hlp'. apply list_lookup_fmap_Some in Hlp' as (lp & -> & Hlp).
    apply (Hhome i lp k Hlp). cbn in Hk. rewrite app_nil_r in Hk. exact Hk.
  - rewrite Hfl, Hdone', HnW. cbn. lia.
  - intros i lp' Hlp'. rewrite Hlps in Hlp'.
    apply list_lookup_fmap_Some in Hlp' as (lp & -> & Hlp).
    cbn [lp_finishTask lp_idleTimerRunning].
    rewrite (Htimers i lp Hlp). unfold worker_on_lp. rewrite Hidxs. reflexivity.
Qed.

(** At the end of a round the latch is at zero exactly when every worker
    has finished its turn; then no worker runs and no worker is ready. *)
Lemma pool_round_finished (running : list Z) (p : WorkerPool) :
  pool_round running p -> finishLatch p = 0 ->
  running = [] /\ ready_workers p = [].
Proof.
  intros Hround Hzero. pose proof (pr_state _ _ Hround) as Hst.
  pose proof (pool_state_lengths _ _ Hst) as Hsum.
  pose proof (pr_latch _ _ Hround) as Hlatch.
  pose proof (ps_lps _ _ Hst) as HL.
  split; apply length_zero_iff_nil; lia.
Qed.

Lemma workerpool_awaitTaskFn_blocked (running : list Z) (w : World) :
  pool_round running (w_pool w) -> finishLatch (w_pool w) <> 0 ->
  workerpool_awaitTaskFn w = None.
Proof.
  intros Hround Hlatch. pose proof (pr_state _ _ Hround) as Hst.
  pose proof (ps_lps _ _ Hst) as HL.
  unfold workerpool_awaitTaskFn, blocking_bind, blocking_of, _worker_pool.
  rewrite MAGIC_ASSERT_ok by exact (ps_magic _ _ Hst).
  cbn [gets].
  replace (nWorkers (w_pool w) =? 0) with false by (symmetry; apply Z.eqb_neq; lia).
  unfold countdownlatch_await, blocking_bind, blocking_of, blocked. cbn [gets].
  replace (finishLatch (w_pool w) =? 0) with false by (symmetry; apply Z.eqb_neq; lia).
  reflexivity.
Qed.

Lemma workerpool_awaitTaskFn_finished (running : list Z) (w : World) :
  pool_round running (w_pool w) -> finishLatch (w_pool w) = 0 ->
  exists w',
    workerpool_awaitTaskFn w = Some (Returns tt w') /\
    pool_idle (w_pool w') /\
    ready_workers (w_pool w') ≡ₚ done_workers (w_pool w) /\
    same_frame w w' /\ w_trace w' = w_trace w /\
    workerLogicalProcessorIdxs (w_pool w') = workerLogicalProcessorIdxs (w_pool w).
Proof.
  intros Hround Hlatch. pose proof (pr_state _ _ Hround) as Hst.
  pose proof (ps_lps _ _ Hst) as HL.
  destruct (pool_round_finished _ _ Hround Hlatch) as [-> Hready].
  unfold workerpool_awaitTaskFn, blocking_bind, blocking_of, _worker_pool.
  rewrite MAGIC_ASSERT_ok by exact (ps_magic _ _ Hst).
  cbn [gets].
  replace (nWorkers (w_pool w) =? 0) with false by (symmetry; apply Z.eqb_neq; lia).
  unfold countdownlatch_await, blocking_bind, blocking_of, blocked. cbn [gets].
  rewrite Hlatch. cbn [Z.eqb ret].
  unfold countdownlatch_reset, lps_finishTask, get_lps, set_lps.
  erewrite bind_Returns by reflexivity.
  erewrite bind_Returns by reflexivity.
  erewrite bind_Returns by reflexivity.
  eexists. split; [reflexivity|].
  split.
  { apply (pool_idle_after_finishTask (w_pool w)); [exact Hround|reflexivity..]. }
  split.
  { cbn. unfold ready_workers, done_workers.
    rewrite <- list_fmap_compose.
    rewrite (concat_app_pointwise (logicalProcessors (w_pool w))).
    fold (ready_workers (w_pool w)). rewrite Hready. reflexivity. }
  split; [|split; reflexivity].
  repeat split. cbn. unfold lps_n. rewrite length_fmap. reflexivity.
Qed.

(** The ready queues that the constructor fills hold every worker once. *)
Lemma ready_built_conserved (k : nat) (nL : Z) :
  0 < nL ->
  concat (lp_readyWorkers <$> (built_lp (Z.of_nat k) nL <$> seqZ 0 nL))
  ≡ₚ seqZ 0 (Z.of_nat k).
Proof.
  intros HnL. induction k as [|k IH].
  - rewrite concat_all_nil; [reflexivity|].
    intros i q Hq. apply list_lookup_fmap_Some in Hq as (lp & -> & Hlp).
    apply list_lookup_fmap_Some in Hlp as (x & -> & Hx). reflexivity.
  - rewrite <- (built_lps_push k nL HnL).
    assert (Hmod : 0 <= Z.of_nat k mod nL < nL) by (apply Z.mod_pos_bound; lia).
    rewrite list_fmap_insert.
    cbn [lp_with_ready lp_readyWorkers].
    rewrite concat_insert_push.
    + rewrite IH, seqZ_S. apply Permutation_cons_append.
    + apply (lookup_fmap_of lp_readyWorkers _ _
               (built_lp (Z.of_nat k) nL (Z.of_nat (Z.to_nat (Z.of_nat k mod nL))))).
      apply lookup_built_lps. lia.
Qed.

Lemma built_pool_idle (nW nL : Z) :
  1 <= nL <= nW -> pool_idle (built_pool nW nL).
Proof.
  intros HnL.
  assert (Hdone : done_workers (built_pool nW nL) = []).
  { unfold done_workers. apply concat_all_nil.
    intros i q Hq. apply list_lookup_fmap_Some in Hq as (lp & -> & Hlp). cbn in Hlp.
    apply list_lookup_fmap_Some in Hlp as (x & -> & Hx). reflexivity. }
  assert (HL : lps_n (logicalProcessors (built_pool nW nL)) = nL).
  { unfold lps_n. cbn. rewrite length_fmap, length_seqZ. lia. }
  assert (Hidx : forall k, 0 <= k < nW ->
            worker_on_lp (built_pool nW nL) k (k mod nL)).
  { intros k Hk. unfold worker_on_lp. cbn.
    rewrite list_lookup_fmap, lookup_seqZ_lt by lia. cbn.
    rewrite Z2Nat.id by lia. reflexivity. }
  constructor; [|reflexivity|exact Hdone].
  constructor; [constructor|..].
  - reflexivity.
  - rewrite HL. cbn. lia.
  - cbn. rewrite length_replicate. lia.
  - cbn. rewrite length_fmap, length_seqZ. lia.
  - cbn. rewrite length_fmap, length_seqZ. lia.
  - intros k Hk. cbn in Hk |- *.
    rewrite bool_decide_eq_false_2 by (intros Hin; apply elem_of_nil in Hin; exact Hin).
    apply lookup_replicate_2. lia.
  - rewrite Hdone. cbn [app]. rewrite app_nil_r. unfold ready_workers. cbn.
    rewrite <- (Z2Nat.id nW) by lia. apply ready_built_conserved. lia.
  - intros k Hk. cbn in Hk. exists (k mod nL). split; [apply Hidx; exact Hk|].
    rewrite HL. apply Z.mod_pos_bound. lia.
  - intros k k' i Hk. apply elem_of_nil in Hk. destruct Hk.
  - intros i lp k Hlp Hk. cbn in Hlp.
    apply list_lookup_fmap_Some in Hlp as (x & -> & Hx).
    apply lookup_seqZ in Hx as [-> Hx].
    rewrite Z.add_0_l in Hk.
    cbn in Hk. rewrite app_nil_r in Hk. apply elem_of_workers_of_lp in Hk as [Hk <-].
    apply Hidx. exact Hk.
  - rewrite Hdone. cbn. lia.
  - intros i lp Hlp. cbn in Hlp.
    apply list_lookup_fmap_Some in Hlp as (x & -> & Hx). cbn.
    split; [discriminate|]. intros (k & Hk & _). apply elem_of_nil in Hk. destruct Hk.
Qed.

(** ** Schedules *)

(** Whatever the order in which the worker threads take their turns, no
    turn fails: a schedule either comes to a turn of a worker that waits, or
    runs through. *)
Lemma run_turns_spec (fn : option Z) (data : Z) (sched : list Z) :
  forall (returned running : list Z) (w : World),
    pool_in_round fn data running (w_pool w) ->
    Forall (fun k => 0 <= k < nWorkers (w_pool w)) sched ->
    run_turns sched returned w = None
    \/ exists (w' : World) (running' : list Z),
         run_turns sched returned w
         = Some (Returns (returned ++ match fn with Some _ => [] | None => sched end) w') /\
         pool_in_round fn data running' (w_pool w') /\
         done_workers (w_pool w') ≡ₚ sched ++ done_workers (w_pool w) /\
         (forall k, k ∈ sched -> k ∉ returned) /\
         same_frame w w' /\
         task_calls (w_trace w')
         = task_calls (w_trace w)
           ++ match fn with
              | Some fn0 => replicate (length sched) (fn0, data)
              | None => []
              end.
Proof.
  induction sched as [|k sched IH]; intros returned running w Hin Hall.
  - right. exists w, running. cbn.
    split; [destruct fn; rewrite app_nil_r; reflexivity|].
    split; [exact Hin|]. split; [reflexivity|].
    split; [intros k Hk; apply elem_of_nil in Hk; destruct Hk|].
    split; [apply same_frame_refl|].
    destruct fn; rewrite app_nil_r; reflexivity.
  - pose proof (Forall_inv Hall) as Hk. pose proof (Forall_inv_tail Hall) as Hrest.
    cbn beta in Hk. cbn [run_turns].
    destruct (decide (k ∈ returned)) as [Hret|Hret].
    { left. rewrite bool_decide_eq_true_2 by exact Hret. reflexivity. }
    rewrite bool_decide_eq_false_2 by exact Hret.
    pose proof (pr_state _ _ (ir_round _ _ _ _ Hin)) as Hst.
    destruct (decide (k ∈ running)) as [Hrun|Hrun].
    2:{ left. unfold blocking_bind.
        rewrite (_worker_run_turn_blocked running k w Hst Hk Hrun). reflexivity. }
    apply elem_of_Permutation in Hrun as [running0 Hrun].
    destruct (_worker_run_turn_running fn data running running0 k w Hin Hrun)
      as (w1 & next & Hturn & Hin1 & _ & _ & Hdone1 & Hframe1 & Hcalls1).
    assert (HnW1 : nWorkers (w_pool w1) = nWorkers (w_pool w))
      by (destruct Hframe1 as (_ & _ & _ & HnW & _); exact HnW).
    destruct (IH (if bool_decide (fn <> None) then returned else returned ++ [k])
                (next ++ running0) w1 Hin1)
      as [Hblocked|(w' & running' & Hrun' & Hin' & Hdone' & Hfresh' & Hframe' & Hcalls')].
    { rewrite HnW1. exact Hrest. }
    + left. unfold blocking_bind. rewrite Hturn. exact Hblocked.
    + right. exists w', running'.
      split.
      { unfold blocking_bind. rewrite Hturn, Hrun'. destruct fn as [fn0|].
        - rewrite bool_decide_eq_true_2 by discriminate. reflexivity.
        - rewrite bool_decide_eq_false_2 by (intros Hne; apply Hne; reflexivity).
          rewrite <- app_assoc. reflexivity. }
      split; [exact Hin'|].
      split.
      { rewrite Hdone', Hdone1. cbn. symmetry. apply Permutation_middle. }
      split.
      { intros k0 Hk0. apply elem_of_cons in Hk0 as [->|Hk0]; [exact Hret|].
        intros Hk0ret. apply (Hfresh' k0 Hk0).
        destruct (bool_decide (fn <> None)); [exact Hk0ret|].
        apply elem_of_app. left. exact Hk0ret. }
      split; [exact (same_frame_trans _ _ _ Hframe1 Hframe')|].
      rewrite Hcalls', Hcalls1. destruct fn as [fn0|].
      * rewrite <- app_assoc. reflexivity.
      * rewrite !app_nil_r. reflexivity.
Qed.


Lemma workerpool_joinAll_joins_blocked (returned : list Z) (n : nat) :
  forall (lo i : Z) (w : World),
    lo <= i < lo + Z.of_nat n -> i ∉ returned ->
    workerpool_joinAll_joins returned n lo w = None.
Proof.
  induction n as [|n IH]; intros lo i w Hi Hnot; [lia|].
  cbn [workerpool_joinAll_joins]. unfold blocking_bind, pthread_join.
  destruct (decide (lo ∈ returned)) as [Hlo|Hlo].
  - rewrite bool_decide_eq_true_2 by exact Hlo. cbn.
    apply (IH (lo + 1) i); [|exact Hnot].
    assert (i <> lo) by (intros ->; contradiction). lia.
  - rewrite bool_decide_eq_false_2 by exact Hlo. reflexivity.
Qed.



(** As long as the latch is not at zero, a worker runs. *)
Lemma pool_in_round_progress (fn : option Z) (data : Z) (running : list Z)
  (p : WorkerPool) :
  pool_in_round fn data running p -> 0 < finishLatch p -> exists k, k ∈ running.
Proof.
  intros [Hround _ _ Hbusy] Hlatch. pose proof (pr_state _ _ Hround) as Hst.
  destruct running as [|k running]; [|exists k; left].
  exfalso.
  pose proof (pool_state_lengths _ _ Hst) as Hsum.
  pose proof (pr_latch _ _ Hround) as Heq.
  pose proof (ps_lps _ _ Hst) as HL.
  destruct Hbusy as [Hnil|Hall].
  - rewrite Hnil in Hsum. cbn in Hsum. lia.
  - destruct (Hall 0 ltac:(lia)) as (k & Hk & _). apply elem_of_nil in Hk. exact Hk.
Qed.

Lemma pool_round_latch_nonneg (running : list Z) (p : WorkerPool) :
  pool_round running p -> 0 <= finishLatch p.
Proof.
  intros Hround. pose proof (pr_state _ _ Hround) as Hst.
  pose proof (pool_state_lengths _ _ Hst) as Hsum.
  pose proof (pr_latch _ _ Hround) as Heq.
  pose proof (ps_lps _ _ Hst) as HL. lia.
Qed.

(** A round can always be run to its end. *)
Lemma round_completes (fn : option Z) (data : Z) (n : nat) :
  forall (returned running : list Z) (w : World),
    pool_in_round fn data running (w_pool w) ->
    finishLatch (w_pool w) = Z.of_nat n ->
    (forall k, k ∈ returned -> k ∈ done_workers (w_pool w)) ->
    exists (sched : list Z) (w' : World) (running' : list Z),
      length sched = n /\
      Forall (fun k => 0 <= k < nWorkers (w_pool w)) sched /\
      run_turns sched returned w
      = Some (Returns (returned ++ match fn with Some _ => [] | None => sched end) w') /\
      pool_in_round fn data running' (w_pool w') /\
      finishLatch (w_pool w') = 0.
Proof.
  induction n as [|n IH]; intros returned running w Hin Hlatch Hret.
  - exists [], w, running. split; [reflexivity|]. split; [constructor|].
    split; [cbn; destruct fn; rewrite app_nil_r; reflexivity|].
    split; [exact Hin|exact Hlatch].
  - pose proof (ir_round _ _ _ _ Hin) as Hround.
    pose proof (pr_state _ _ Hround) as Hst.
    destruct (pool_in_round_progress fn data running _ Hin ltac:(lia)) as [k Hk].
    pose proof (pool_state_running_range _ _ _ Hst Hk) as Hkr.
    pose proof Hk as Hk'. apply elem_of_Permutation in Hk' as [running0 Hrun].
    destruct (_worker_run_turn_running fn data running running0 k w Hin Hrun)
      as (w1 & next & Hturn & Hin1 & _ & _ & Hdone1 & Hframe1 & _).
    pose proof (ir_round _ _ _ _ Hin1) as Hround1.
    assert (HnW1 : nWorkers (w_pool w1) = nWorkers (w_pool w))
      by (destruct Hframe1 as (_ & _ & _ & HnW & _); exact HnW).
    assert (Hlatch1 : finishLatch (w_pool w1) = Z.of_nat n).
    { rewrite (pr_latch _ _ Hround1), HnW1, (length_done_pushed _ _ _ Hdone1).
      rewrite (pr_latch _ _ Hround) in Hlatch. lia. }
    assert (Hknot : k ∉ returned).
    { intros Hkret. apply Hret in Hkret.
      pose proof (pool_state_NoDup _ _ Hst) as Hnd.
      apply NoDup_app in Hnd as (_ & _ & Hnd). apply NoDup_app in Hnd as (_ & Hdisj & _).
      exact (Hdisj k Hk Hkret). }
    destruct (IH (if bool_decide (fn <> None) then returned else returned ++ [k])
                (next ++ running0) w1 Hin1 Hlatch1)
      as (sched & w' & running' & Hlen & Hall & Hrun' & Hin' & Hzero).
    { intros k0 Hk0. rewrite Hdone1.
      destruct (bool_decide (fn <> None)).
      - right. apply Hret. exact Hk0.
      - apply elem_of_app in Hk0 as [Hk0|Hk0].
        + right. apply Hret. exact Hk0.
        + apply list_elem_of_singleton in Hk0. subst k0. left. }
    exists (k :: sched), w', running'.
    split; [cbn; lia|].
    split; [constructor; [exact Hkr|rewrite <- HnW1; exact Hall]|].
    split; [|split; assumption].
    cbn [run_turns]. rewrite bool_decide_eq_false_2 by exact Hknot.
    unfold blocking_bind. rewrite Hturn, Hrun'. destruct fn as [fn0|].
    + rewrite bool_decide_eq_true_2 by discriminate. reflexivity.
    + rewrite bool_decide_eq_false_2 by (intros Hne; apply Hne; reflexivity).
      rewrite <- app_assoc. reflexivity.
Qed.

End RoundInvariants.

(** ** Properties of the round protocol *)

Section RoundProperties.
Context `{Definitions} `{Platform}.

(** X8.  The dispatch under every schedule.  After the code before the
    loop, which stores the task, no worker can take a turn before the loop
    wakes one up.  From there on, whatever the order in which the main
    thread makes the passes of its loop and the workers that have been
    woken up take their turns, no step aborts or leaves the bounds of an
    array, and a schedule either comes to a worker that is blocked or runs
    through.  If it runs through, the pool is in the state of a round:
    every worker is ready, running or done, the running workers sit on
    different logical processors that the loop has been through, a
    semaphore is at 1 exactly for a running worker, no worker had two
    turns, the latch counts the workers that have not had their turn and
    the task function was called once per turn.  The loop has woken up one
    worker for each of the logical processors [0 .. m-1], in this order,
    where [m] is at least 1 once a pass was made and at most [L]; it may
    have woken up fewer than [L], when a worker that ended its turn has
    taken the ready workers away.  The main thread is never blocked: as
    long as it is in the loop its next pass returns, every pass so far has
    woken up a worker, and after at most [L + 1] passes it has left the
    loop; the pool is then in the state on which the turns of a round are
    specified.  Left alone, the main thread ends in the state that
    [_workerpool_startTaskFn] gives. *)
Theorem X8_dispatch_under_every_schedule (fn : option Z) (data : Z) (sched : list Step)
  (w : World) :
  pool_idle (w_pool w) ->
  Forall (valid_step (nWorkers (w_pool w))) sched ->
  let L := lps_n (logicalProcessors (w_pool w)) in
  exists w0 : World,
    _workerpool_startTaskFn_enter fn data w = Returns (Some 0) w0 /\
    (forall k, 0 <= k < nWorkers (w_pool w) -> _worker_run_turn k w0 = None) /\
    run_steps (replicate (S (Z.to_nat L)) step_dispatch) (Some 0) [] w0
    = Some (match _workerpool_startTaskFn fn data w with
            | Returns _ w' => Returns (None, []) w'
            | Aborts w' => Aborts w'
            | Undefined => Undefined
            end) /\
    (run_steps sched (Some 0) [] w0 = None
     \/ exists (main : option Z) (running : list Z) (w' : World) (m : Z),
          run_steps sched (Some 0) [] w0
          = Some (Returns
                    (main, match fn with Some _ => [] | None => turns_of sched end) w') /\
          pool_dispatching fn data main running (w_pool w') /\
          Z.of_nat (length running) <= L /\
          NoDup (turns_of sched) /\
          done_workers (w_pool w') ≡ₚ turns_of sched /\
          finishLatch (w_pool w')
          = nWorkers (w_pool w) - Z.of_nat (length (turns_of sched)) /\
          task_calls (w_trace w')
          = task_calls (w_trace w)
            ++ match fn with
               | Some fn0 => replicate (length (turns_of sched)) (fn0, data)
               | None => []
               end /\
          same_frame w w' /\
          idle_stops (w_trace w') = idle_stops (w_trace w) ++ seqZ 0 m /\
          0 <= m <= L /\ m <= Z.of_nat (passes_of sched) /\
          ((1 <= passes_of sched)%nat -> 1 <= m) /\
          (forall i, main = Some i ->
             i = m /\ m = Z.of_nat (passes_of sched) /\
             exists main1 w1, _workerpool_startTaskFn_iteration i w' = Returns main1 w1) /\
          (L < Z.of_nat (passes_of sched) -> main = None) /\
          (main = None -> pool_in_round fn data running (w_pool w'))).
Proof.
  intros Hidle Hall L.
  destruct (_workerpool_startTaskFn_enter_idle fn data w Hidle) as [Henter Hin0].
  set (w0 := world_with_pool (pool_with_task fn data (w_pool w)) w) in *.
  pose proof (pr_state _ _ (id_round _ Hidle)) as Hst.
  pose proof (pr_state _ _ (di_round _ _ _ _ _ Hin0)) as Hst0.
  exists w0. split; [exact Henter|].
  split.
  { intros k Hk. apply (_worker_run_turn_blocked [] k w0 Hst0 Hk).
    intros Hkin. apply elem_of_nil in Hkin. exact Hkin. }
  split; [exact (_workerpool_startTaskFn_alone fn data [] w w0 Henter)|].
  destruct (run_steps_spec fn data sched (Some 0) [] [] w0 Hin0 Hall)
    as [Hblocked|(main & running & w' & j & Hrun & Hin & Hdone & Hframe & Hcalls & Hstops
                  & Hj & _ & Hsome & Hbound & Hfirst)];
    [left; exact Hblocked|right].
  pose proof (di_round _ _ _ _ _ Hin) as Hround'.
  pose proof (pr_state _ _ Hround') as Hst'.
  change (done_workers (w_pool w0)) with (done_workers (w_pool w)) in Hdone.
  rewrite (id_done _ Hidle), app_nil_r in Hdone.
  cbn [dispatch_reached] in Hstops, Hbound.
  change (lps_n (logicalProcessors (w_pool w0))) with L in Hbound, Hfirst.
  assert (Hframe0 : same_frame w w').
  { apply (same_frame_trans w w0 w'); [repeat split|exact Hframe]. }
  destruct Hframe0 as (Hwk & Hmgr & Hsch & HnW & Htids & Hmin & Hjoined & HL).
  fold L in HL.
  exists main, running, w', (Z.of_nat j).
  split; [exact Hrun|]. split; [exact Hin|].
  split; [rewrite <- HL; exact (pool_state_cap _ _ Hst')|].
  split.
  { pose proof (pool_state_NoDup _ _ Hst') as Hnd.
    apply NoDup_app in Hnd as (_ & _ & Hnd). apply NoDup_app in Hnd as (_ & _ & Hnd).
    rewrite Hdone in Hnd. exact Hnd. }
  split; [exact Hdone|].
  split.
  { rewrite (pr_latch _ _ Hround'), HnW. apply Permutation_length in Hdone. lia. }
  split; [exact Hcalls|].
  split; [repeat split; assumption|].
  split; [exact Hstops|].
  split; [lia|]. split; [lia|].
  split.
  { intros Hpass.
    assert (1 <= j)%nat; [|lia].
    apply Hfirst; [reflexivity| |cbn; pose proof (ps_lps _ _ Hst); fold L; lia|exact Hpass].
    change (ready_workers (w_pool w0)) with (ready_workers (w_pool w)).
    intros Hnil. pose proof (pool_state_lengths _ _ Hst) as Hsum.
    rewrite Hnil, (id_done _ Hidle) in Hsum. cbn in Hsum.
    pose proof (ps_lps _ _ Hst). lia. }
  split.
  { intros i ->. destruct (Hsome i eq_refl) as [Hjeq [= Hi]].
    split; [lia|]. split; [lia|].
    destruct (_workerpool_startTaskFn_iteration_dispatching fn data i running w' Hin)
      as (main1 & running1 & w1 & Hrun1 & _).
    exists main1, w1. exact Hrun1. }
  split.
  { intros Hlt. destruct main as [i|]; [|reflexivity].
    destruct (Hsome i eq_refl) as [Hjeq _]. lia. }
  intros ->. apply pool_dispatching_returned. exact Hin.
Qed.

(** X9.  During a round a worker that has not been woken up is blocked
    in [sem_wait].  The turn of a worker that has been woken up returns,
    without abort and within the bounds of every array: the task function
    is called once when it is not NULL, the worker goes to the done queue
    of the logical processor it sits on, at most one ready worker is
    woken up in its place, so that the number of running workers does not
    grow, and the latch goes down by one; the worker leaves its loop
    exactly when the task function is NULL. *)
Theorem X9_worker_turn (fn : option Z) (data : Z) (running : list Z) (k : Z)
  (w : World) :
  pool_in_round fn data running (w_pool w) ->
  0 <= k < nWorkers (w_pool w) ->
  (k ∉ running -> _worker_run_turn k w = None) /\
  (k ∈ running ->
   exists (w' : World) (running' : list Z),
     _worker_run_turn k w = Some (Returns (bool_decide (fn <> None)) w') /\
     pool_in_round fn data running' (w_pool w') /\
     (k ∉ running') /\
     (length running' <= length running)%nat /\
     done_workers (w_pool w') ≡ₚ k :: done_workers (w_pool w) /\
     finishLatch (w_pool w') = finishLatch (w_pool w) - 1 /\
     task_calls (w_trace w')
     = task_calls (w_trace w)
       ++ match fn with Some fn0 => [(fn0, data)] | None => [] end /\
     same_frame w w').
Proof.
  intros Hin Hk. pose proof (ir_round _ _ _ _ Hin) as Hround.
  pose proof (pr_state _ _ Hround) as Hst.
  split; [intros Hnot; exact (_worker_run_turn_blocked running k w Hst Hk Hnot)|].
  intros Hrunning. apply elem_of_Permutation in Hrunning as [running0 Hrun].
  destruct (_worker_run_turn_running fn data running running0 k w Hin Hrun)
    as (w' & next & Hturn & Hin' & Hnext & _ & Hdone' & Hframe & Hcalls).
  pose proof (ir_round _ _ _ _ Hin') as Hround'.
  exists w', (next ++ running0). split; [exact Hturn|]. split; [exact Hin'|].
  split.
  { intros Hkin. pose proof (pool_state_NoDup _ _ (pr_state _ _ Hround')) as Hnd.
    apply NoDup_app in Hnd as (_ & _ & Hnd). apply NoDup_app in Hnd as (_ & Hdisj & _).
    apply (Hdisj k Hkin). rewrite Hdone'. left. }
  split.
  { apply Permutation_length in Hrun. rewrite length_app, Hrun. cbn. lia. }
  split; [exact Hdone'|].
  split; [|split; assumption].
  destruct Hframe as (_ & _ & _ & HnW & _).
  rewrite (pr_latch _ _ Hround'), (pr_latch _ _ Hround), HnW,
    (length_done_pushed _ _ _ Hdone'). lia.
Qed.

(** X10.  Whatever the order in which the worker threads are scheduled
    from the dispatch on, no turn aborts or leaves the bounds of an array:
    a schedule either reaches a worker that is blocked, or runs through.
    In a schedule that runs through no worker has two turns, the done
    queues hold the workers of the schedule, the latch is at the number of
    workers less the number of turns, the task function has been called
    once per turn, at most as many workers run as there are logical
    processors, and after a NULL task exactly the threads of the schedule
    have returned. *)
Theorem X10_round_any_schedule (fn : option Z) (data : Z) (running sched : list Z)
  (w : World) :
  pool_in_round fn data running (w_pool w) ->
  done_workers (w_pool w) = [] ->
  Forall (fun k => 0 <= k < nWorkers (w_pool w)) sched ->
  run_turns sched [] w = None
  \/ exists (w' : World) (running' : list Z),
       run_turns sched [] w
       = Some (Returns match fn with Some _ => [] | None => sched end w') /\
       pool_in_round fn data running' (w_pool w') /\
       NoDup sched /\
       done_workers (w_pool w') ≡ₚ sched /\
       finishLatch (w_pool w') = nWorkers (w_pool w) - Z.of_nat (length sched) /\
       Z.of_nat (length running') <= lps_n (logicalProcessors (w_pool w)) /\
       task_calls (w_trace w')
       = task_calls (w_trace w)
         ++ match fn with
            | Some fn0 => replicate (length sched) (fn0, data)
            | None => []
            end /\
       same_frame w w'.
Proof.
  intros Hin Hdone Hall.
  destruct (run_turns_spec fn data sched [] running w Hin Hall)
    as [Hblocked|(w' & running' & Hrun & Hin' & Hdone' & _ & Hframe & Hcalls)];
    [left; exact Hblocked|right].
  pose proof (ir_round _ _ _ _ Hin') as Hround'.
  pose proof (pr_state _ _ Hround') as Hst'.
  rewrite Hdone, app_nil_r in Hdone'.
  exists w', running'. split; [exact Hrun|]. split; [exact Hin'|].
  split.
  { pose proof (pool_state_NoDup _ _ Hst') as Hnd.
    apply NoDup_app in Hnd as (_ & _ & Hnd). apply NoDup_app in Hnd as (_ & _ & Hnd).
    rewrite Hdone' in Hnd. exact Hnd. }
  split; [exact Hdone'|].
  destruct Hframe as (Hwk & Hmgr & Hsch & HnW & Htids & Hmin & Hj & HL).
  split.
  { rewrite (pr_latch _ _ Hround'), HnW. apply Permutation_length in Hdone'. lia. }
  split; [rewrite <- HL; exact (pool_state_cap _ _ Hst')|].
  split; [exact Hcalls|]. repeat split; assumption.
Qed.

(** X11.  A round cannot get stuck, and its end cannot be missed: as long
    as the latch is not at zero, [workerpool_awaitTaskFn] is blocked and a
    worker is running, whose turn returns; once the latch is at zero, no
    worker is running or ready, the turn of every worker is blocked, and
    [workerpool_awaitTaskFn] returns. *)
Theorem X11_round_progress (fn : option Z) (data : Z) (running : list Z) (w : World) :
  pool_in_round fn data running (w_pool w) ->
  0 <= finishLatch (w_pool w) /\
  (0 < finishLatch (w_pool w) ->
   workerpool_awaitTaskFn w = None /\
   exists (k : Z) (w' : World),
     k ∈ running /\
     _worker_run_turn k w = Some (Returns (bool_decide (fn <> None)) w')) /\
  (finishLatch (w_pool w) = 0 ->
   running = [] /\ ready_workers (w_pool w) = [] /\
   (forall k, 0 <= k < nWorkers (w_pool w) -> _worker_run_turn k w = None) /\
   exists w', workerpool_awaitTaskFn w = Some (Returns tt w')).
Proof.
  intros Hin. pose proof (ir_round _ _ _ _ Hin) as Hround.
  pose proof (pr_state _ _ Hround) as Hst.
  split; [exact (pool_round_latch_nonneg _ _ Hround)|].
  split.
  - intros Hpos.
    split; [apply (workerpool_awaitTaskFn_blocked running); [exact Hround|lia]|].
    destruct (pool_in_round_progress fn data running _ Hin Hpos) as [k Hk].
    pose proof Hk as Hk'. apply elem_of_Permutation in Hk' as [running0 Hrun].
    destruct (_worker_run_turn_running fn data running running0 k w Hin Hrun)
      as (w' & next & Hturn & _).
    exists k, w'. split; [exact Hk|exact Hturn].
  - intros Hzero.
    destruct (pool_round_finished _ _ Hround Hzero) as [Hnil Hready].
    split; [exact Hnil|]. split; [exact Hready|].
    split.
    + intros k Hk. apply (_worker_run_turn_blocked running k w Hst Hk).
      rewrite Hnil. intros Hkin. apply elem_of_nil in Hkin. exact Hkin.
    + destruct (workerpool_awaitTaskFn_finished running w Hround Hzero) as (w' & Hrun & _).
      exists w'. exact Hrun.
Qed.

(** X12.  At the end of a round [workerpool_awaitTaskFn] makes the pool
    idle again: the latch is re-armed at the number of workers, the task
    is cleared, and every worker is back in a ready queue, that of the
    logical processor it last ran on, while no worker changes logical
    processor and nothing is logged; a new dispatch right after returns. *)
Theorem X12_await_makes_pool_idle (fn fn' : option Z) (data data' : Z)
  (running : list Z) (w : World) :
  pool_in_round fn data running (w_pool w) ->
  finishLatch (w_pool w) = 0 ->
  exists w',
    workerpool_awaitTaskFn w = Some (Returns tt w') /\
    pool_idle (w_pool w') /\
    finishLatch (w_pool w') = nWorkers (w_pool w) /\
    ready_workers (w_pool w') ≡ₚ seqZ 0 (nWorkers (w_pool w)) /\
    workerLogicalProcessorIdxs (w_pool w') = workerLogicalProcessorIdxs (w_pool w) /\
    w_trace w' = w_trace w /\ same_frame w w' /\
    exists w'', _workerpool_startTaskFn fn' data' w' = Returns tt w''.
Proof.
  intros Hin Hzero. pose proof (ir_round _ _ _ _ Hin) as Hround.
  destruct (workerpool_awaitTaskFn_finished running w Hround Hzero)
    as (w' & Hrun & Hidle & Hready & Hframe & Htrace & Hidxs).
  exists w'. split; [exact Hrun|]. split; [exact Hidle|].
  pose proof (id_round _ Hidle) as Hround'.
  pose proof (ps_conserved _ _ (pr_state _ _ Hround')) as Hcons.
  rewrite (id_done _ Hidle) in Hcons. cbn in Hcons. rewrite app_nil_r in Hcons.
  destruct Hframe as (Hwk & Hmgr & Hsch & HnW & Htids & Hmin & Hj & HL).
  split.
  { rewrite (pr_latch _ _ Hround'), (id_done _ Hidle), HnW. cbn. lia. }
  split; [rewrite <- HnW; exact Hcons|].
  split; [exact Hidxs|]. split; [exact Htrace|].
  split; [repeat split; assumption|].
  destruct (_workerpool_startTaskFn_idle fn' data' w' Hidle) as (w'' & _ & Hrun' & _).
  exists w''. exact Hrun'.
Qed.

(** X13.  Every round can be run to its end: from an idle pool, after the
    dispatch of a task there is a schedule in which every worker has
    exactly one turn and that runs through, after which
    [workerpool_awaitTaskFn] returns and the pool is idle again; the task
    function has then been called once per worker. *)
Theorem X13_round_runs_to_completion (fn0 data : Z) (w : World) :
  pool_idle (w_pool w) ->
  exists (w1 w2 w3 : World) (sched : list Z),
    workerpool_startTaskFn (Some fn0) data w = Returns tt w1 /\
    sched ≡ₚ seqZ 0 (nWorkers (w_pool w)) /\
    run_turns sched [] w1 = Some (Returns [] w2) /\
    workerpool_awaitTaskFn w2 = Some (Returns tt w3) /\
    pool_idle (w_pool w3) /\
    task_calls (w_trace w3)
    = task_calls (w_trace w) ++ replicate (Z.to_nat (nWorkers (w_pool w))) (fn0, data) /\
    same_frame w w3.
Proof.
  intros Hidle.
  destruct (_workerpool_startTaskFn_idle (Some fn0) data w Hidle)
    as (w1 & running & Hrun1 & Hin1 & Hdone1 & _ & Hframe1 & Hcalls1).
  pose proof (ir_round _ _ _ _ Hin1) as Hround1.
  pose proof (ps_lps _ _ (pr_state _ _ Hround1)) as HL1.
  assert (HnW1 : nWorkers (w_pool w1) = nWorkers (w_pool w))
    by (destruct Hframe1 as (_ & _ & _ & HnW & _); exact HnW).
  destruct (round_completes (Some fn0) data (Z.to_nat (nWorkers (w_pool w1))) [] running w1
              Hin1)
    as (sched & w2 & running2 & Hlen & Hall & Hrun2 & Hin2 & Hzero).
  { rewrite (pr_latch _ _ Hround1), Hdone1. cbn. lia. }
  { intros k Hk. apply elem_of_nil in Hk. destruct Hk. }
  destruct (run_turns_spec (Some fn0) data sched [] running w1 Hin1 Hall)
    as [Hblocked|(w2' & running2' & Hrun2' & _ & Hdone2 & _ & Hframe2 & Hcalls2)].
  { rewrite Hrun2 in Hblocked. discriminate. }
  rewrite Hrun2 in Hrun2'. injection Hrun2' as <-.
  pose proof (ir_round _ _ _ _ Hin2) as Hround2.
  destruct (workerpool_awaitTaskFn_finished running2 w2 Hround2 Hzero)
    as (w3 & Hrun3 & Hidle3 & _ & Hframe3 & Htrace3 & _).
  exists w1, w2, w3, sched.
  split.
  { unfold workerpool_startTaskFn.
    erewrite bind_Returns
      by (apply MAGIC_ASSERT_ok; exact (ps_magic _ _ (pr_state _ _ (id_round _ Hidle)))).
    unfold utility_assert. rewrite bool_decide_eq_true_2 by discriminate.
    erewrite bind_Returns by reflexivity. exact Hrun1. }
  split.
  { rewrite Hdone1, app_nil_r in Hdone2.
    destruct (pool_round_finished _ _ Hround2 Hzero) as [Hnil Hready].
    pose proof (ps_conserved _ _ (pr_state _ _ Hround2)) as Hcons.
    rewrite Hnil, Hready, Hdone2 in Hcons. cbn in Hcons.
    destruct Hframe2 as (_ & _ & _ & HnW2 & _).
    rewrite Hcons, HnW2, HnW1. reflexivity. }
  split; [exact Hrun2|]. split; [exact Hrun3|]. split; [exact Hidle3|].
  split.
  { rewrite Htrace3, Hcalls2, Hcalls1, Hlen, HnW1. reflexivity. }
  exact (same_frame_trans _ _ _ Hframe1 (same_frame_trans _ _ _ Hframe2 Hframe3)).
Qed.



Lemma array_get_freed {A} (i : Z) (w : World) : array_get (@nil A) i w = Undefined.
Proof.
  unfold array_get. destruct (in_bounds _ _); reflexivity.
Qed.

(** X15.  [workerpool_free] asserts that the pool has been joined: on a
    live pool that has not, it aborts and frees nothing.  On a joined pool
    it returns with the arrays gone and the magic cleared, after which
    every function that asserts the magic aborts, a second
    [workerpool_free] included, while [worker_setMinEventTimeNextRound]
    and [worker_getAffinity], which do not, read an array that is no longer
    there. *)
Theorem X15_free_needs_join_and_clears_magic (w : World) :
  magic (w_pool w) = true ->
  (joined (w_pool w) = false -> workerpool_free w = Aborts w) /\
  (joined (w_pool w) = true ->
   exists w',
     workerpool_free w = Returns tt w' /\
     magic (w_pool w') = false /\
     workerBeginSems (w_pool w') = [] /\
     logicalProcessors (w_pool w') = [] /\
     w_trace w' = w_trace w /\
     workerpool_free w' = Aborts w' /\
     (forall fn data, workerpool_startTaskFn fn data w' = Aborts w') /\
     (forall fn data, _workerpool_startTaskFn fn data w' = Aborts w') /\
     workerpool_awaitTaskFn w' = Some (Aborts w') /\
     workerpool_joinAll_signal w' = Aborts w' /\
     workerpool_getGlobalNextEventTime w' = Aborts w' /\
     workerpool_getNWorkers w' = Aborts w' /\
     (forall threadId, workerpool_getThread threadId w' = Aborts w') /\
     (forall t, worker_roundEndTime (w_worker w) <= t ->
        worker_setMinEventTimeNextRound t w' = Undefined) /\
     worker_getAffinity w' = Undefined).
Proof.
  intros Hmagic. split.
  - intros Hj. unfold workerpool_free, _worker_pool.
    erewrite bind_Returns by (apply MAGIC_ASSERT_ok; exact Hmagic).
    erewrite bind_Returns by reflexivity.
    rewrite Hj. reflexivity.
  - intros Hj.
    set (w' := world_with_pool
                 {| nWorkers := nWorkers (w_pool w);
                    workerBeginSems := [];
                    workerLogicalProcessorIdxs := [];
                    workerNativeThreadIDs := [];
                    finishLatch := 0;
                    taskFn := taskFn (w_pool w); taskData := taskData (w_pool w);
                    joined := joined (w_pool w);
                    logicalProcessors := [];
                    minEventTimes := [];
                    magic := false |} w).
    exists w'. split.
    { unfold workerpool_free, _worker_pool.
      erewrite bind_Returns by (apply MAGIC_ASSERT_ok; exact Hmagic).
      erewrite bind_Returns by reflexivity.
      erewrite bind_Returns by (rewrite Hj; reflexivity). reflexivity. }
    split; [reflexivity|]. split; [reflexivity|]. split; [reflexivity|].
    split; [reflexivity|].
    assert (Hfails : MAGIC_ASSERT w' = Aborts w') by (apply MAGIC_ASSERT_fails; reflexivity).
    split.
    { unfold workerpool_free, bind. rewrite Hfails. reflexivity. }
    split.
    { intros fn data. unfold workerpool_startTaskFn, bind. rewrite Hfails. reflexivity. }
    split.
    { intros fn data. unfold _workerpool_startTaskFn, bind. rewrite Hfails. reflexivity. }
    split.
    { unfold workerpool_awaitTaskFn, blocking_bind, blocking_of. rewrite Hfails.
      reflexivity. }
    split.
    { unfold workerpool_joinAll_signal, bind. rewrite Hfails. reflexivity. }
    split.
    { unfold workerpool_getGlobalNextEventTime, bind. rewrite Hfails. reflexivity. }
    split.
    { unfold workerpool_getNWorkers, bind. rewrite Hfails. reflexivity. }
    split.
    { intros threadId. unfold workerpool_getThread, bind. rewrite Hfails. reflexivity. }
    split.
    { intros t Ht. unfold worker_setMinEventTimeNextRound, _worker_getRoundEndTime,
        _worker_pool, worker_threadID.
      erewrite bind_Returns by reflexivity.
      replace (t <? worker_roundEndTime (w_worker w')) with false
        by (symmetry; apply Z.ltb_ge; exact Ht).
      erewrite bind_Returns by reflexivity.
      erewrite bind_Returns by reflexivity.
      unfold bind. cbn [w_pool w' world_with_pool workerLogicalProcessorIdxs].
      rewrite array_get_freed. reflexivity. }
    unfold worker_getAffinity, _worker_pool, worker_threadID.
    erewrite bind_Returns by reflexivity.
    erewrite bind_Returns by reflexivity.
    unfold bind. cbn [w_pool w' world_with_pool workerLogicalProcessorIdxs].
    rewrite array_get_freed. reflexivity.
Qed.


(** X17.  [workerpool_getThread] checks the upper bound of the thread id
    only: on a live pool an id at or above the number of workers aborts, an
    id of a worker gives its handle, and a negative id passes the assertion
    and reads before the array. *)
Theorem X17_getThread_checks_upper_bound_only (threadId : Z) (w : World) :
  magic (w_pool w) = true -> 0 <= nWorkers (w_pool w) ->
  (nWorkers (w_pool w) <= threadId -> workerpool_getThread threadId w = Aborts w) /\
  (0 <= threadId < nWorkers (w_pool w) ->
     workerpool_getThread threadId w = Returns threadId w) /\
  (threadId < 0 -> workerpool_getThread threadId w = Undefined).
Proof.
  intros Hmagic HnW.
  unfold workerpool_getThread, _worker_pool, utility_assert.
  erewrite bind_Returns by (apply MAGIC_ASSERT_ok; exact Hmagic).
  erewrite bind_Returns by reflexivity.
  split; [|split].
  - intros Hge.
    replace (threadId <? nWorkers (w_pool w)) with false
      by (symmetry; apply Z.ltb_ge; exact Hge).
    reflexivity.
  - intros Hin.
    replace (threadId <? nWorkers (w_pool w)) with true
      by (symmetry; apply Z.ltb_lt; lia).
    erewrite bind_Returns by reflexivity.
    apply array_get_at; [lia|].
    rewrite lookup_seqZ_lt by lia. f_equal. lia.
  - intros Hneg.
    replace (threadId <? nWorkers (w_pool w)) with true
      by (symmetry; apply Z.ltb_lt; lia).
    erewrite bind_Returns by reflexivity.
    unfold array_get, in_bounds.
    replace (0 <=? threadId) with false by (symmetry; apply Z.leb_gt; exact Hneg).
    reflexivity.
Qed.

(** X18.  Affinity consistency.  [_workerpool_setLogicalProcessorIdx]
    aborts for a logical processor index that is negative or not below the
    number of logical processors, before anything is written.  For a
    worker [k] and a logical processor [i] of a live pool it returns, the
    one call logged is the affinity call for the native thread of [k],
    from the CPU of the logical processor that [k] sat on to the CPU of
    [i], and from then on [worker_getAffinity] on the thread of [k] gives
    the CPU of [i]. *)
Theorem X18_affinity_consistency (running : list Z) (k i : Z) (w : World) :
  pool_state running (w_pool w) ->
  0 <= k < nWorkers (w_pool w) ->
  worker_threadID_ (w_worker w) = k ->
  (~ 0 <= i < lps_n (logicalProcessors (w_pool w)) ->
     _workerpool_setLogicalProcessorIdx k i w = Aborts w) /\
  (0 <= i < lps_n (logicalProcessors (w_pool w)) ->
     exists (w' : World) (tid old : Z) (lp lpOld : LogicalProcessor),
       _workerpool_setLogicalProcessorIdx k i w = Returns tt w' /\
       workerNativeThreadIDs (w_pool w) !! Z.to_nat k = Some tid /\
       worker_on_lp (w_pool w) k old /\
       logicalProcessors (w_pool w) !! Z.to_nat old = Some lpOld /\
       logicalProcessors (w_pool w) !! Z.to_nat i = Some lp /\
       w_trace w'
       = w_trace w ++ [call_affinity_setProcessAffinity tid (lp_cpuId lp) (lp_cpuId lpOld)] /\
       worker_on_lp (w_pool w') k i /\
       worker_getAffinity w' = Returns (lp_cpuId lp) w').
Proof.
  intros Hst Hk Htid.
  pose proof (ps_magic _ _ Hst) as Hmagic.
  split.
  - intros Hbad. unfold _workerpool_setLogicalProcessorIdx, get_lps, utility_assert.
    erewrite bind_Returns by (apply MAGIC_ASSERT_ok; exact Hmagic).
    erewrite bind_Returns by reflexivity.
    destruct (Z.ltb_spec i (lps_n (logicalProcessors (w_pool w)))) as [Hlt|Hge];
      [|reflexivity].
    erewrite bind_Returns by reflexivity.
    replace (0 <=? i) with false by (symmetry; apply Z.leb_gt; lia).
    reflexivity.
  - intros Hi.
    destruct (ps_idxs _ _ Hst k Hk) as (old & Hold & Holdr).
    destruct (lookup_lt_is_Some_2 (workerNativeThreadIDs (w_pool w)) (Z.to_nat k))
      as [tid Htidk].
    { pose proof (ps_tids_length _ _ Hst). lia. }
    destruct (lookup_lt_is_Some_2 (logicalProcessors (w_pool w)) (Z.to_nat i))
      as [lp Hlp].
    { unfold lps_n in Hi. lia. }
    destruct (lookup_lt_is_Some_2 (logicalProcessors (w_pool w)) (Z.to_nat old))
      as [lpOld HlpOld].
    { unfold lps_n in Holdr. lia. }
    eexists _, tid, old, lp, lpOld. split.
    { apply (_workerpool_setLogicalProcessorIdx_at k i old tid (lp_cpuId lpOld) lp);
        try assumption; try lia.
      replace (0 <=? old) with true by (symmetry; apply Z.leb_le; lia).
      exists lpOld. split; [exact HlpOld|reflexivity]. }
    split; [exact Htidk|]. split; [exact Hold|]. split; [exact HlpOld|].
    split; [exact Hlp|]. split; [reflexivity|].
    assert (Hnew : forall p', workerLogicalProcessorIdxs p'
                     = <[Z.to_nat k := i]> (workerLogicalProcessorIdxs (w_pool w)) ->
                     worker_on_lp p' k i).
    { intros p' Hp'. apply (worker_on_lp_insert_eq (w_pool w) p' k i i Hp');
        [|reflexivity].
      pose proof (ps_idxs_length _ _ Hst). lia. }
    split; [apply Hnew; reflexivity|].
    unfold worker_getAffinity, _worker_pool, worker_threadID.
    erewrite bind_Returns by reflexivity.
    erewrite bind_Returns by reflexivity.
    cbn [w_worker world_with_trace world_with_pool]. rewrite Htid.
    erewrite bind_Returns
      by (apply (array_get_at _ k i); [lia|apply Hnew; reflexivity]).
    apply lps_cpuId_at; [lia|exact Hlp].
Qed.

End RoundProperties.

(** ** The round protocol on a pool of three workers *)

Lemma example_idle_world_idle : pool_idle (w_pool example_idle_world).
Proof.
  apply (@built_pool_idle shadow_definitions (example_platform double_zero) 3 2). lia.
Qed.

Lemma example_round_world_in_round :
  exists running : list Z,
    pool_in_round (Some 4096) 7 running (w_pool example_round_world) /\
    0 ∈ running /\ done_workers (w_pool example_round_world) = [].
Proof.
  destruct (@_workerpool_startTaskFn_idle shadow_definitions (Some 4096) 7
              example_idle_world example_idle_world_idle)
    as (w' & running & Hrun & Hin & Hdone & _).
  pose proof (@_workerpool_startTaskFn_fresh shadow_definitions
                (example_platform double_zero) 3 2 (Some 4096) 7 example_idle_world
                ltac:(lia) eq_refl) as Hfresh.
  rewrite Hfresh in Hrun. injection Hrun as <-.
  exists running. split; [exact Hin|]. split; [|exact Hdone].
  pose proof (ps_sems _ _ (pr_state _ _ (ir_round _ _ _ _ Hin)) 0 ltac:(cbn; lia)) as Hsem.
  destruct (decide (0 ∈ running)) as [Hyes|Hno]; [exact Hyes|].
  rewrite bool_decide_eq_false_2 in Hsem by exact Hno. discriminate Hsem.
Qed.

Lemma example_round_done_world_in_round :
  exists running : list Z,
    pool_in_round (Some 4096) 7 running (w_pool example_round_done_world).
Proof.
  destruct example_round_world_in_round as (running & Hin & _ & _).
  destruct (@run_turns_spec shadow_definitions (Some 4096) 7 [0; 1; 2] [] running
              example_round_world Hin)
    as [Hblocked|(w' & running' & Hrun & Hin' & _)].
  - repeat constructor; cbn; lia.
  - vm_compute in Hblocked. discriminate Hblocked.
  - assert (Hw' : @run_turns shadow_definitions [0; 1; 2] [] example_round_world
                  = Some (Returns [] example_round_done_world)) by (vm_compute; reflexivity).
    rewrite Hw' in Hrun. injection Hrun as <-. exists running'. exact Hin'.
Qed.

Lemma example_pair_world_idle : pool_idle (w_pool example_pair_world).
Proof.
  apply (@built_pool_idle shadow_definitions (example_platform double_zero) 2 2). lia.
Qed.

Lemma X8_witness :
  exists (w0 w' : World) (running : list Z),
    @_workerpool_startTaskFn_enter (Some 4096) 7 example_pair_world = Returns (Some 0) w0 /\
    @run_steps shadow_definitions
      [step_dispatch; step_turn 0; step_turn 1; step_dispatch] (Some 0) [] w0
    = Some (Returns (None, []) w') /\
    pool_in_round (Some 4096) 7 running (w_pool w') /\
    idle_stops (w_trace w') = [0] /\
    task_calls (w_trace w') = [(4096, 7); (4096, 7)] /\
    workerLogicalProcessorIdxs (w_pool w') = [0; 0] /\
    workerBeginSems (w_pool w') = [0; 0] /\
    finishLatch (w_pool w') = 0.
Proof.
  destruct (@X8_dispatch_under_every_schedule shadow_definitions (Some 4096) 7
              [step_dispatch; step_turn 0; step_turn 1; step_dispatch] example_pair_world
              example_pair_world_idle)
    as (w0 & Henter & _ & _ & [Hnone|(main & running & w' & m & Hrun & _ & _ & _ & _ & _
                                      & _ & _ & _ & _ & _ & _ & _ & _ & Hreturned)]).
  - repeat constructor; cbn; lia.
  - exfalso. vm_compute in Henter. injection Henter as <-.
    vm_compute in Hnone. discriminate.
  - exists w0, w', running. split; [exact Henter|].
    vm_compute in Henter. injection Henter as <-.
    vm_compute in Hrun. injection Hrun as <- <-.
    split; [reflexivity|]. split; [exact (Hreturned eq_refl)|].
    repeat split.
Defined.

Lemma X9_witness :
  exists w' : World,
    @_worker_run_turn shadow_definitions 0 example_round_world = Some (Returns true w') /\
    finishLatch (w_pool w') = 2.
Proof.
  destruct example_round_world_in_round as (running & Hin & Hzero & _).
  destruct (proj2 (@X9_worker_turn shadow_definitions (Some 4096) 7 running 0
                     example_round_world Hin ltac:(cbn; lia)) Hzero)
    as (w' & running' & Hturn & _ & _ & _ & _ & Hlatch & _).
  exists w'. split; [exact Hturn|exact Hlatch].
Defined.

Lemma X10_witness :
  exists (w' : World) (running' : list Z),
    @run_turns shadow_definitions [0; 1; 2] [] example_round_world
    = Some (Returns [] w') /\
    finishLatch (w_pool w') = 0 /\
    task_calls (w_trace w')
    = task_calls (w_trace example_round_world) ++ [(4096, 7); (4096, 7); (4096, 7)].
Proof.
  destruct example_round_world_in_round as (running & Hin & _ & Hdone).
  destruct (@X10_round_any_schedule shadow_definitions (Some 4096) 7 running [0; 1; 2]
              example_round_world Hin Hdone)
    as [Hblocked|(w' & running' & Hrun & _ & _ & _ & Hlatch & _ & Hcalls & _)].
  - repeat constructor; cbn; lia.
  - vm_compute in Hblocked. discriminate Hblocked.
  - exists w', running'. split; [exact Hrun|]. split; [exact Hlatch|exact Hcalls].
Defined.

Lemma X11_witness :
  workerpool_awaitTaskFn example_round_world = None /\
  exists (k : Z) (w' : World),
    @_worker_run_turn shadow_definitions k example_round_world = Some (Returns true w').
Proof.
  destruct example_round_world_in_round as (running & Hin & _ & _).
  destruct (@X11_round_progress shadow_definitions (Some 4096) 7 running
              example_round_world Hin) as (_ & Hpos & _).
  destruct (Hpos ltac:(cbn; lia)) as (Hblocked & k & w' & _ & Hturn).
  split; [exact Hblocked|]. exists k, w'. exact Hturn.
Defined.

Lemma X12_witness :
  exists w' : World,
    workerpool_awaitTaskFn example_round_done_world = Some (Returns tt w') /\
    finishLatch (w_pool w') = 3 /\
    w_trace w' = w_trace example_round_done_world.
Proof.
  destruct example_round_done_world_in_round as (running & Hin).
  destruct (@X12_await_makes_pool_idle shadow_definitions (Some 4096) None 7 0 running
              example_round_done_world Hin eq_refl)
    as (w' & Hrun & _ & Hlatch & _ & _ & Htrace & _).
  exists w'. split; [exact Hrun|]. split; [exact Hlatch|exact Htrace].
Defined.

Lemma X13_witness :
  exists (w1 w2 w3 : World) (sched : list Z),
    @workerpool_startTaskFn shadow_definitions (Some 4096) 7 example_idle_world
    = Returns tt w1 /\
    sched ≡ₚ [0; 1; 2] /\
    @run_turns shadow_definitions sched [] w1 = Some (Returns [] w2) /\
    workerpool_awaitTaskFn w2 = Some (Returns tt w3) /\
    task_calls (w_trace w3) = [(4096, 7); (4096, 7); (4096, 7)].
Proof.
  destruct (@X13_round_runs_to_completion shadow_definitions 4096 7
              example_idle_world example_idle_world_idle)
    as (w1 & w2 & w3 & sched & Hrun1 & Hperm & Hrun2 & Hrun3 & _ & Hcalls & _).
  exists w1, w2, w3, sched. repeat split; assumption.
Defined.


Lemma X15_witness :
  exists w' : World,
    workerpool_free example_joined_world = Returns tt w' /\
    magic (w_pool w') = false /\
    @workerpool_getGlobalNextEventTime shadow_definitions w' = Aborts w'.
Proof.
  destruct (proj2 (@X15_free_needs_join_and_clears_magic shadow_definitions
                     example_joined_world eq_refl) eq_refl)
    as (w' & Hrun & Hmagic & _ & _ & _ & _ & _ & _ & _ & _ & Hscan & _).
  exists w'. split; [exact Hrun|]. split; [exact Hmagic|exact Hscan].
Defined.


Lemma X17_witness :
  workerpool_getThread 1 example_idle_world = Returns 1 example_idle_world.
Proof.
  apply (proj1 (proj2 (X17_getThread_checks_upper_bound_only 1 example_idle_world
                         eq_refl ltac:(cbn; lia)))).
  cbn. lia.
Defined.

Lemma X18_witness :
  exists w' : World,
    @_workerpool_setLogicalProcessorIdx shadow_definitions 0 1 example_idle_world
    = Returns tt w' /\
    worker_getAffinity w' = Returns 1 w'.
Proof.
  destruct (proj2 (@X18_affinity_consistency shadow_definitions [] 0 1
                     example_idle_world
                     (pr_state _ _ (id_round _ example_idle_world_idle))
                     ltac:(cbn; lia) eq_refl))
    as (w' & tid & old & lp & lpOld & Hrun & _ & _ & _ & Hlp & _ & _ & Haff).
  - vm_compute. split; [discriminate|reflexivity].
  - exists w'. split; [exact Hrun|].
    injection Hlp as <-. exact Haff.
Defined.

(** * Events, hosts and counters: proofs *)

Section EventsAndHostsProofs.
Context `{Definitions}.

Lemma sim_bind_Returns {A B} (c : SM A) (k : A -> SM B) s a s' :
  c s = SimReturns a s' -> sim_bind c k s = k a s'.
Proof. unfold sim_bind; intros ->; reflexivity. Qed.

Lemma _worker_bootHost_spec (host : Z) (s : Sim) :
  _worker_bootHost host s
  = SimReturns tt
      (sim_with_activeHost None
         (sim_with_world (world_at_time SIMTIME_INVALID (sim_world s))
            (sim_with_log (sim_log s ++ boot_log host) s))).
Proof.
  unfold _worker_bootHost, sim_bind, worker_setActiveHost, worker_setCurrentTime,
    host_call, sim_modify. cbn.
  unfold sim_with_activeHost, sim_with_world, sim_with_log, world_at_time, boot_log. cbn.
  rewrite <- !app_assoc. reflexivity.
Qed.

Lemma worker_bootHosts_spec (hosts : list Z) : forall s : Sim,
  hosts <> [] ->
  worker_bootHosts hosts s
  = SimReturns tt
      (sim_with_activeHost None
         (sim_with_world (world_at_time SIMTIME_INVALID (sim_world s))
            (sim_with_log (sim_log s ++ concat (boot_log <$> hosts)) s))).
Proof.
  induction hosts as [|host hosts IH]; intros s Hne; [congruence|].
  unfold worker_bootHosts in *. cbn [g_queue_foreach].
  erewrite sim_bind_Returns by apply _worker_bootHost_spec.
  destruct hosts as [|host' hosts].
  - reflexivity.
  - rewrite IH by discriminate.
    unfold sim_with_activeHost, sim_with_world, sim_with_log, world_at_time. cbn.
    rewrite <- !app_assoc. reflexivity.
Qed.

(** X19.  [worker_bootHosts] boots the hosts of the queue in order, each
    exactly once: every host is booted with the clock at 0 and itself as
    the active host, between the start and the stop of its execution
    timer.  After a queue that is not empty the clock is
    [SIMTIME_INVALID] and no host is active, whatever they were before; an
    empty queue changes nothing.  The pool, the manager, the scheduler,
    the routers and the time of the last event are untouched. *)
Theorem X19_bootHosts_boots_each_host_at_time_zero (hosts : list Z) (s : Sim) :
  exists s' : Sim,
    worker_bootHosts hosts s = SimReturns tt s' /\
    sim_log s' = sim_log s ++ concat (boot_log <$> hosts) /\
    logged_calls (sim_log s')
    = logged_calls (sim_log s)
      ++ concat ((fun host => [call_host_continueExecutionTimer host;
                               call_host_boot host;
                               call_host_stopExecutionTimer host]) <$> hosts) /\
    (hosts = [] -> s' = s) /\
    (hosts <> [] ->
       sim_clock s' = SIMTIME_INVALID /\ sim_activeHost s' = None /\
       sim_world s' = world_at_time SIMTIME_INVALID (sim_world s)) /\
    sim_routers s' = sim_routers s /\
    sim_lastEventTime s' = sim_lastEventTime s.
Proof.
  assert (Hcalls : forall l, logged_calls (concat (boot_log <$> l))
            = concat ((fun host => [call_host_continueExecutionTimer host;
                                    call_host_boot host;
                                    call_host_stopExecutionTimer host]) <$> l)).
  { induction l as [|h l IH]; [reflexivity|].
    cbn [fmap list_fmap concat]. unfold logged_calls in *.
    rewrite fmap_app, IH. reflexivity. }
  destruct hosts as [|host hosts].
  - exists s. split; [reflexivity|]. cbn. rewrite !app_nil_r.
    split; [reflexivity|]. split; [reflexivity|]. split; [reflexivity|].
    split; [intros Hne; congruence|]. split; reflexivity.
  - eexists. split; [apply worker_bootHosts_spec; discriminate|].
    cbn [sim_log sim_with_activeHost sim_with_world sim_with_log sim_routers
         sim_lastEventTime sim_activeHost sim_world].
    split; [reflexivity|].
    split; [unfold logged_calls at 1; rewrite fmap_app; fold (logged_calls (sim_log s));
            f_equal; apply Hcalls|].
    split; [discriminate|].
    split; [intros _; repeat split|].
    split; reflexivity.
Qed.

Lemma _worker_freeHostProcesses_spec (host : Z) (s : Sim) :
  _worker_freeHostProcesses host s
  = SimReturns tt
      (sim_with_activeHost None
         (sim_with_log (sim_log s ++ free_log (sim_clock s) host) s)).
Proof.
  unfold _worker_freeHostProcesses, sim_bind, worker_setActiveHost, host_call,
    sim_modify. cbn.
  unfold sim_with_activeHost, sim_with_log, free_log, sim_clock. cbn.
  rewrite <- !app_assoc. reflexivity.
Qed.

Lemma _worker_shutdownHost_spec (host : Z) (s : Sim) :
  _worker_shutdownHost host s
  = SimReturns tt
      (sim_with_activeHost None
         (sim_with_log (sim_log s ++ shutdown_log (sim_clock s) host) s)).
Proof.
  unfold _worker_shutdownHost, sim_bind, worker_setActiveHost, host_call,
    sim_modify. cbn.
  unfold sim_with_activeHost, sim_with_log, shutdown_log, sim_clock. cbn.
  rewrite <- !app_assoc. reflexivity.
Qed.

(** A loop over hosts of which each turn logs at the clock, which it
    leaves alone, and ends with no host active. *)
Lemma g_queue_foreach_logs (f : Z -> SM unit) (entries : SimulationTime -> Z -> list Logged) :
  (forall host s,
     f host s = SimReturns tt
                  (sim_with_activeHost None
                     (sim_with_log (sim_log s ++ entries (sim_clock s) host) s))) ->
  forall (hosts : list Z) (s : Sim),
    g_queue_foreach hosts f s
    = SimReturns tt
        (sim_with_activeHost (if hosts is [] then sim_activeHost s else None)
           (sim_with_log (sim_log s ++ concat (entries (sim_clock s) <$> hosts)) s)).
Proof.
  intros Hf hosts. induction hosts as [|host hosts IH]; intros s.
  - cbn. rewrite app_nil_r. destruct s; reflexivity.
  - cbn [g_queue_foreach]. erewrite sim_bind_Returns by apply Hf.
    rewrite IH. cbn.
    unfold sim_with_activeHost, sim_with_log, sim_clock. cbn.
    rewrite <- !app_assoc. destruct hosts; reflexivity.
Qed.

(** X20.  [worker_finish] works in two passes over the queue: the
    applications of every host are freed before the first host is shut
    down, and a host is released right after its own shutdown, when it is
    no longer the active host.  The three counters are sent to the manager
    last, in the order alloc, dealloc, syscall, also for a NULL or an empty
    queue.  The clock is left as it is, so does everything but the log and
    the active host, which is none after a queue that is not empty. *)
Theorem X20_finish_frees_all_before_shutdown (hosts : option (list Z)) (s : Sim) :
  let hs := default [] hosts in
  let active := if hs is [] then sim_activeHost s else None in
  exists s' : Sim,
    worker_finish hosts s = SimReturns tt s' /\
    sim_log s'
    = sim_log s
      ++ concat (free_log (sim_clock s) <$> hs)
      ++ concat (shutdown_log (sim_clock s) <$> hs)
      ++ counters_log (sim_clock s) active /\
    sim_activeHost s' = active /\
    sim_world s' = sim_world s /\
    sim_routers s' = sim_routers s /\
    sim_lastEventTime s' = sim_lastEventTime s.
Proof.
  intros hs active.
  assert (Htail : forall s0 : Sim,
            (host_call call_manager_add_alloc_object_counts ;;>
             host_call call_manager_add_dealloc_object_counts ;;>
             host_call call_manager_add_syscall_counts) s0
            = SimReturns tt
                (sim_with_log
                   (sim_log s0 ++ counters_log (sim_clock s0) (sim_activeHost s0)) s0)).
  { intros s0. unfold sim_bind, host_call, sim_modify. cbn.
    unfold sim_with_log, counters_log, sim_clock. cbn.
    rewrite <- !app_assoc. reflexivity. }
  unfold worker_finish. destruct hosts as [hosts|].
  - erewrite sim_bind_Returns.
    2:{ erewrite sim_bind_Returns
          by apply (g_queue_foreach_logs _ free_log _worker_freeHostProcesses_spec).
        apply (g_queue_foreach_logs _ shutdown_log _worker_shutdownHost_spec). }
    rewrite Htail. eexists. split; [reflexivity|].
    cbn. unfold sim_clock. cbn. subst hs active. cbn [default].
    rewrite <- !app_assoc.
    destruct hosts; cbn; repeat split; rewrite ?app_nil_r; reflexivity.
  - erewrite sim_bind_Returns by reflexivity.
    rewrite Htail. eexists. split; [reflexivity|].
    cbn. repeat split.
Qed.

(** X21.  [worker_runEvent] runs the task of the event with the clock at
    the time of the event and, by the bracket of the event, with the
    destination host of the event as the active host.  A callback is run
    on the destination host, and a delivery task enqueues its packet in
    the upstream router that the destination host has for the destination
    ip of the packet; afterwards no host is active, the event is released,
    the time of the last event is the time of the event and the clock is
    [SIMTIME_INVALID], so that a [worker_scheduleTask] outside of an event
    aborts while the scheduler runs.  A delivery task on a host without
    such a router aborts, with the clock still at the time of the event,
    the host still active and nothing enqueued. *)
Theorem X21_runEvent_brackets_the_clock (event : Event) (s : Sim) :
  let t := event_getTime event in
  let host := event_dstHost event in
  let on_host (c : HostCall) : Logged :=
    {| logged_clock := t; logged_activeHost := Some host; logged_call := c |} in
  let released : Logged :=
    {| logged_clock := t; logged_activeHost := None;
       logged_call := call_event_unref event |} in
  let finished (routers : gmap (Z * Z) (list Packet)) (c : HostCall) : Sim :=
    {| sim_world := world_at_time SIMTIME_INVALID (sim_world s);
       sim_activeHost := None;
       sim_lastEventTime := t;
       sim_routers := routers;
       sim_log := sim_log s ++ [on_host c; released] |} in
  (forall fn data,
     event_task event = task_callback fn data ->
     worker_runEvent event s
     = SimReturns tt (finished (sim_routers s) (call_task_execute fn data host))) /\
  (forall packet queue,
     event_task event = task_deliverPacket packet ->
     sim_routers s !! (host, packet_getDestinationIP packet) = Some queue ->
     worker_runEvent event s
     = SimReturns tt
         (finished
            (<[(host, packet_getDestinationIP packet) := queue ++ [packet]]> (sim_routers s))
            (call_router_enqueue host (packet_getDestinationIP packet) packet))) /\
  (forall packet,
     event_task event = task_deliverPacket packet ->
     sim_routers s !! (host, packet_getDestinationIP packet) = None ->
     worker_runEvent event s
     = SimAborts
         {| sim_world := world_at_time t (sim_world s);
            sim_activeHost := Some host;
            sim_lastEventTime := sim_lastEventTime s;
            sim_routers := sim_routers s;
            sim_log := sim_log s |}) /\
  (forall s' task h delay,
     worker_runEvent event s = SimReturns tt s' ->
     manager_schedulerIsRunning (w_manager (sim_world s)) = true ->
     sim_clock s' = SIMTIME_INVALID /\
     sim_activeHost s' = None /\
     sim_lastEventTime s' = t /\
     of_world (worker_scheduleTask task h delay) s' = SimAborts s').
Proof.
  intros t host on_host released finished.
  assert (Hcallback : forall fn data,
            event_task event = task_callback fn data ->
            worker_runEvent event s
            = SimReturns tt (finished (sim_routers s) (call_task_execute fn data host))).
  { intros fn data Htask. unfold worker_runEvent, event_execute. rewrite Htask.
    unfold sim_bind, worker_setCurrentTime, worker_setActiveHost, _worker_setLastEventTime,
      host_call, sim_modify, of_world, worker_getCurrentTime, gets. cbn.
    unfold finished, on_host, released, sim_with_world, sim_with_log,
      sim_with_lastEventTime, sim_with_activeHost, world_at_time, sim_clock. cbn.
    rewrite <- !app_assoc. reflexivity. }
  assert (Hdeliver : forall packet queue,
            event_task event = task_deliverPacket packet ->
            sim_routers s !! (host, packet_getDestinationIP packet) = Some queue ->
            worker_runEvent event s
            = SimReturns tt
                (finished
                   (<[(host, packet_getDestinationIP packet) := queue ++ [packet]]>
                      (sim_routers s))
                   (call_router_enqueue host (packet_getDestinationIP packet) packet))).
  { intros packet queue Htask Hrouter. unfold worker_runEvent, event_execute.
    rewrite Htask.
    unfold _worker_runDeliverPacketTask, host_getUpstreamRouter, router_enqueue,
      sim_bind, worker_setCurrentTime, worker_setActiveHost, _worker_setLastEventTime,
      host_call, sim_modify, sim_gets, of_world, worker_getCurrentTime, gets. cbn.
    fold host. rewrite Hrouter. cbn. rewrite Hrouter. cbn.
    unfold finished, on_host, released, sim_with_world, sim_with_log,
      sim_with_lastEventTime, sim_with_routers, sim_with_activeHost, world_at_time,
      sim_clock. cbn.
    rewrite <- !app_assoc. reflexivity. }
  assert (Habort : forall packet,
            event_task event = task_deliverPacket packet ->
            sim_routers s !! (host, packet_getDestinationIP packet) = None ->
            worker_runEvent event s
            = SimAborts
                {| sim_world := world_at_time t (sim_world s);
                   sim_activeHost := Some host;
                   sim_lastEventTime := sim_lastEventTime s;
                   sim_routers := sim_routers s;
                   sim_log := sim_log s |}).
  { intros packet Htask Hrouter. unfold worker_runEvent, event_execute.
    rewrite Htask.
    unfold _worker_runDeliverPacketTask, host_getUpstreamRouter,
      sim_bind, worker_setCurrentTime, worker_setActiveHost, sim_modify, sim_gets. cbn.
    fold host. rewrite Hrouter. reflexivity. }
  split; [exact Hcallback|]. split; [exact Hdeliver|]. split; [exact Habort|].
  intros s' task h delay Hrun Hrunning.
  assert (Hs' : sim_world s' = world_at_time SIMTIME_INVALID (sim_world s) /\
                sim_activeHost s' = None /\ sim_lastEventTime s' = t).
  { destruct (event_task event) as [fn data|packet] eqn:Htask.
    - rewrite (Hcallback fn data eq_refl) in Hrun. injection Hrun as <-.
      repeat split.
    - destruct (sim_routers s !! (host, packet_getDestinationIP packet))
        as [queue|] eqn:Hrouter.
      + rewrite (Hdeliver packet queue eq_refl Hrouter) in Hrun.
        injection Hrun as <-. repeat split.
      + rewrite (Habort packet eq_refl Hrouter) in Hrun. discriminate. }
  destruct Hs' as (Hworld & Hactive & Hlast).
  split; [unfold sim_clock; rewrite Hworld; reflexivity|].
  split; [exact Hactive|]. split; [exact Hlast|].
  unfold of_world.
  rewrite (worker_scheduleTask_outside_event task h delay (sim_world s')).
  - f_equal. destruct s'; reflexivity.
  - rewrite Hworld. exact Hrunning.
  - rewrite Hworld. reflexivity.
Qed.

End EventsAndHostsProofs.

Section DeliveryProofs.
Context `{Definitions} `{Platform}.

(** X22.  From the send to the router.  A packet that
    [worker_sendPacket] lets through and whose event the scheduler accepts
    is queued as an event at the current time plus the delay; when a worker
    runs this event, the copy of the packet, marked SENT, is appended to
    the upstream router that the destination host has for the destination
    ip of the packet; the time of the last event of that worker is then
    the delivery time and its clock is [SIMTIME_INVALID]. *)
Theorem X22_sent_packet_reaches_router (srcHost : Host) (packet : Packet)
  (src dst : Address) (delay : SimulationTime) (queue : list Packet) (s : Sim) :
  let w := sim_world s in
  let event := delivery_event srcHost packet dst (worker_currentTime (w_worker w)) delay in
  let router := (address_getID dst, packet_getDestinationIP packet) in
  manager_schedulerIsRunning (w_manager w) = true ->
  manager_getDNS (w_manager w) !! packet_getSourceIP packet = Some src ->
  manager_getDNS (w_manager w) !! packet_getDestinationIP packet = Some dst ->
  send_delivers w srcHost packet src dst = true ->
  latency_to_delay (send_latency w src dst) = Some delay ->
  address_getID dst ∈ scheduler_hosts (w_scheduler w) ->
  scheduler_accepts (w_scheduler w) event = true ->
  sim_routers s !! router = Some queue ->
  exists s1 s2 : Sim,
    of_world (worker_sendPacket srcHost (Some packet)) s
    = SimReturns (host_after_draw srcHost, packet_with_status PDS_INET_SENT packet) s1 /\
    scheduler_queue (w_scheduler (sim_world s1))
    = scheduler_queue (w_scheduler w) ++ [event] /\
    event_getTime event = simtime_add (worker_currentTime (w_worker w)) delay /\
    worker_runEvent event s1 = SimReturns tt s2 /\
    sim_routers s2 !! router = Some (queue ++ [packet_with_status PDS_INET_SENT packet]) /\
    (forall r, r <> router -> sim_routers s2 !! r = sim_routers s !! r) /\
    sim_lastEventTime s2 = event_getTime event /\
    sim_clock s2 = SIMTIME_INVALID.
Proof.
  intros w event router Hrun Hsrc Hdst Hcond Hdelay Hhost Haccept Hrouter.
  eexists _, _. split.
  { unfold of_world. fold w.
    rewrite (worker_sendPacket_sent srcHost packet src dst delay w) by assumption.
    reflexivity. }
  split.
  { cbn [sim_world sim_with_world]. unfold world_packet_sent. fold event.
    unfold world_after_push.
    cbn [w_scheduler world_with_trace world_path_counted world_with_manager].
    fold w. rewrite Haccept. reflexivity. }
  split; [reflexivity|].
  split.
  { unfold worker_runEvent, event_execute. cbn [event delivery_event event_task].
    unfold _worker_runDeliverPacketTask, host_getUpstreamRouter, router_enqueue,
      sim_bind, worker_setCurrentTime, worker_setActiveHost, _worker_setLastEventTime,
      host_call, sim_modify, sim_gets, of_world, worker_getCurrentTime, gets.
    cbn. fold router. rewrite Hrouter. cbn. rewrite Hrouter. reflexivity. }
  cbn. fold router.
  split; [apply lookup_insert_eq|].
  split; [intros r Hr; apply lookup_insert_ne; congruence|].
  split; reflexivity.
Qed.

End DeliveryProofs.

Lemma X21_witness :
  exists s' : Sim,
    @worker_runEvent shadow_definitions example_delivery_event example_sim
    = SimReturns tt s' /\
    sim_routers s' !! (2, 102)
    = Some [packet_with_status PDS_INET_SENT (example_packet 10)] /\
    logged_activeHost <$> sim_log s' = (logged_activeHost <$> sim_log example_sim)
                                        ++ [Some 2; None] /\
    sim_activeHost s' = None /\
    sim_lastEventTime s' = 500005.
Proof.
  eexists. split.
  - exact (proj1 (proj2 (@X21_runEvent_brackets_the_clock shadow_definitions
                           example_delivery_event example_sim))
             (packet_with_status PDS_INET_SENT (example_packet 10)) [] eq_refl eq_refl).
  - repeat split.
Defined.

Lemma X22_witness :
  exists s1 s2 : Sim,
    of_world (@worker_sendPacket (example_platform double_half) (example_host 1)
                (Some (example_packet 10))) example_sim
    = SimReturns (@host_after_draw (example_platform double_half) (example_host 1),
                  packet_with_status PDS_INET_SENT (example_packet 10)) s1 /\
    @worker_runEvent shadow_definitions example_delivery_event s1 = SimReturns tt s2 /\
    sim_routers s2 !! (2, 102)
    = Some [packet_with_status PDS_INET_SENT (example_packet 10)].
Proof.
  destruct (@X22_sent_packet_reaches_router shadow_definitions
              (example_platform double_half) (example_host 1) (example_packet 10)
              (example_addr 1) (example_addr 2) 500000 [] example_sim)
    as (s1 & s2 & Hsend & _ & _ & Hrun & Hrouter & _).
  - reflexivity.
  - reflexivity.
  - reflexivity.
  - reflexivity.
  - reflexivity.
  - vm_compute. set_solver.
  - reflexivity.
  - reflexivity.
  - exists s1, s2. split; [exact Hsend|]. split; [exact Hrun|exact Hrouter].
Defined.

(** ** The counters *)

Section CounterProofs.

Lemma counter_get_add_value (c : Counter) (name name' : string) (v : Z) :
  counter_get (counter_add_value c name v) name'
  = counter_get c name' + (if decide (name' = name) then v else 0).
Proof.
  unfold counter_get, counter_add_value, Counter in *.
  destruct (decide (name' = name)) as [->|Hne].
  - rewrite lookup_insert_eq. reflexivity.
  - rewrite lookup_insert_ne by congruence. lia.
Qed.

Lemma counter_get_add_counter (c other : Counter) (name : string) :
  counter_get (counter_add_counter c other) name
  = counter_get c name + counter_get other name.
Proof.
  unfold counter_get, counter_add_counter, Counter in *. rewrite lookup_union_with.
  destruct (c !! name), (other !! name); cbn; lia.
Qed.

Lemma count_allocs_single (name : string) (op : CounterOp) :
  count_allocs name [op]
  = match op with
    | op_alloc n => if decide (name = n) then 1 else 0
    | op_dealloc _ => 0
    end.
Proof.
  unfold count_allocs. destruct op as [n|n].
  - destruct (decide (name = n)) as [->|Hne].
    + rewrite filter_cons_True by reflexivity. reflexivity.
    + rewrite filter_cons_False by congruence. reflexivity.
  - rewrite filter_cons_False by discriminate. reflexivity.
Qed.

Lemma count_deallocs_single (name : string) (op : CounterOp) :
  count_deallocs name [op]
  = match op with
    | op_alloc _ => 0
    | op_dealloc n => if decide (name = n) then 1 else 0
    end.
Proof.
  unfold count_deallocs. destruct op as [n|n].
  - rewrite filter_cons_False by discriminate. reflexivity.
  - destruct (decide (name = n)) as [->|Hne].
    + rewrite filter_cons_True by reflexivity. reflexivity.
    + rewrite filter_cons_False by congruence. reflexivity.
Qed.

Lemma counter_op_spec (op : CounterOp) (c : Counters) (name : string) :
  let c' := counter_op op c in
  _use_object_counters c' = _use_object_counters c /\
  alloc_count c' name
  = alloc_count c name
    + (if _use_object_counters c then count_allocs name [op] else 0) /\
  dealloc_count c' name
  = dealloc_count c name
    + (if _use_object_counters c then count_deallocs name [op] else 0) /\
  syscall_count c' name = syscall_count c name /\
  (is_Some (_worker_objectAllocCounter c') <-> is_Some (_worker_objectAllocCounter c)) /\
  (is_Some (_worker_objectDeallocCounter c') <-> is_Some (_worker_objectDeallocCounter c)) /\
  (is_Some (_worker_objectAllocCounter c) ->
   manager_object_alloc_counter_global c' = manager_object_alloc_counter_global c) /\
  (is_Some (_worker_objectDeallocCounter c) ->
   manager_object_dealloc_counter_global c' = manager_object_dealloc_counter_global c).
Proof.
  rewrite count_allocs_single, count_deallocs_single.
  destruct c as [use la ld ls ga gd gs].
  unfold counter_op, __worker_increment_object_alloc_counter,
    __worker_increment_object_dealloc_counter, alloc_count, dealloc_count,
    syscall_count, local_count.
  destruct op as [n|n]; destruct use; cbn [negb _use_object_counters
    _worker_objectAllocCounter _worker_objectDeallocCounter _worker_syscallCounter
    manager_object_alloc_counter_global manager_object_dealloc_counter_global
    manager_syscall_counts_global].
  - destruct la as [counter|];
      cbn [_use_object_counters
           _worker_objectAllocCounter _worker_objectDeallocCounter _worker_syscallCounter
           manager_object_alloc_counter_global manager_object_dealloc_counter_global
           manager_syscall_counts_global];
      rewrite ?counter_get_add_value;
      repeat split; try lia; try tauto; try (intros [? [=]]); eauto.
  - repeat split; try lia; tauto.
  - destruct ld as [counter|];
      cbn [_use_object_counters
           _worker_objectAllocCounter _worker_objectDeallocCounter _worker_syscallCounter
           manager_object_alloc_counter_global manager_object_dealloc_counter_global
           manager_syscall_counts_global];
      rewrite ?counter_get_add_value;
      repeat split; try lia; try tauto; try (intros [? [=]]); eauto.
  - repeat split; try lia; tauto.
Qed.

Lemma count_allocs_cons (name : string) (op : CounterOp) (ops : list CounterOp) :
  count_allocs name (op :: ops) = count_allocs name [op] + count_allocs name ops.
Proof.
  unfold count_allocs. change (op :: ops) with ([op] ++ ops).
  rewrite filter_app, length_app. lia.
Qed.

Lemma count_deallocs_cons (name : string) (op : CounterOp) (ops : list CounterOp) :
  count_deallocs name (op :: ops) = count_deallocs name [op] + count_deallocs name ops.
Proof.
  unfold count_deallocs. change (op :: ops) with ([op] ++ ops).
  rewrite filter_app, length_app. lia.
Qed.

Lemma counter_op_disabled (op : CounterOp) (c : Counters) :
  _use_object_counters c = false -> counter_op op c = c.
Proof.
  intros Hoff. destruct op; cbn;
    unfold __worker_increment_object_alloc_counter,
      __worker_increment_object_dealloc_counter; rewrite Hoff; reflexivity.
Qed.

Lemma counter_ops_spec (ops : list CounterOp) : forall (c : Counters) (name : string),
  let c' := counter_ops ops c in
  _use_object_counters c' = _use_object_counters c /\
  alloc_count c' name
  = alloc_count c name + (if _use_object_counters c then count_allocs name ops else 0) /\
  dealloc_count c' name
  = dealloc_count c name + (if _use_object_counters c then count_deallocs name ops else 0) /\
  syscall_count c' name = syscall_count c name /\
  (is_Some (_worker_objectAllocCounter c') <-> is_Some (_worker_objectAllocCounter c)) /\
  (is_Some (_worker_objectDeallocCounter c') <-> is_Some (_worker_objectDeallocCounter c)) /\
  (is_Some (_worker_objectAllocCounter c) ->
   manager_object_alloc_counter_global c' = manager_object_alloc_counter_global c) /\
  (is_Some (_worker_objectDeallocCounter c) ->
   manager_object_dealloc_counter_global c' = manager_object_dealloc_counter_global c).
Proof.
  induction ops as [|op ops IH]; intros c name.
  - cbn. unfold count_allocs, count_deallocs. cbn.
    destruct (_use_object_counters c); repeat split; try lia; tauto.
  - cbn [counter_ops foldl]. fold (counter_ops ops (counter_op op c)).
    destruct (counter_op_spec op c name) as (Huse1 & Ha1 & Hd1 & Hs1 & Hla1 & Hld1 & Hga1 & Hgd1).
    destruct (IH (counter_op op c) name) as (Huse & Ha & Hd & Hs & Hla & Hld & Hga & Hgd).
    rewrite Huse1 in Huse, Ha, Hd.
    split; [exact Huse|].
    split.
    { rewrite Ha, Ha1, (count_allocs_cons name op ops).
      destruct (_use_object_counters c); lia. }
    split.
    { rewrite Hd, Hd1, (count_deallocs_cons name op ops).
      destruct (_use_object_counters c); lia. }
    split; [rewrite Hs; exact Hs1|].
    split; [rewrite Hla; exact Hla1|].
    split; [rewrite Hld; exact Hld1|].
    split.
    + intros Hlive. rewrite Hga by (apply Hla1; exact Hlive). apply Hga1. exact Hlive.
    + intros Hlive. rewrite Hgd by (apply Hld1; exact Hlive). apply Hgd1. exact Hlive.
Qed.

(** X23.  No increment of an object counter is lost or counted twice.
    With object counting enabled, after any sequence of
    [__worker_increment_object_alloc_counter] and
    [__worker_increment_object_dealloc_counter] calls the count of a name,
    in the counter of the live worker and in the shared counter of the
    manager together, has grown by the number of calls for this name; with
    a live worker the shared counters are not touched, without one the
    calls fall back to the shared counters and create no thread-local
    counter.  With object counting disabled the calls change nothing.
    [worker_add_syscall_counts] adds the counts it is given whether object
    counting is enabled or not, and the object calls never touch the
    syscall counts. *)
Theorem X23_counters_count_each_increment_once (ops : list CounterOp) (c : Counters)
  (name : string) :
  let c' := counter_ops ops c in
  (_use_object_counters c = false -> c' = c) /\
  (_use_object_counters c = true ->
     alloc_count c' name = alloc_count c name + count_allocs name ops /\
     dealloc_count c' name = dealloc_count c name + count_deallocs name ops) /\
  syscall_count c' name = syscall_count c name /\
  (is_Some (_worker_objectAllocCounter c) ->
     is_Some (_worker_objectAllocCounter c') /\
     manager_object_alloc_counter_global c' = manager_object_alloc_counter_global c) /\
  (is_Some (_worker_objectDeallocCounter c) ->
     is_Some (_worker_objectDeallocCounter c') /\
     manager_object_dealloc_counter_global c' = manager_object_dealloc_counter_global c) /\
  (_worker_objectAllocCounter c = None -> _worker_objectAllocCounter c' = None) /\
  (_worker_objectDeallocCounter c = None -> _worker_objectDeallocCounter c' = None) /\
  (forall syscall_counts : Counter,
     let c'' := worker_add_syscall_counts syscall_counts c in
     syscall_count c'' name = syscall_count c name + counter_get syscall_counts name /\
     alloc_count c'' name = alloc_count c name /\
     dealloc_count c'' name = dealloc_count c name).
Proof.
  intros c'.
  destruct (counter_ops_spec ops c name) as (Huse & Ha & Hd & Hs & Hla & Hld & Hga & Hgd).
  fold c' in Huse, Ha, Hd, Hs, Hla, Hld, Hga, Hgd.
  split.
  { intros Hoff. subst c'. clear -Hoff. revert c Hoff.
    induction ops as [|op ops IH]; intros c Hoff; [reflexivity|].
    cbn [counter_ops foldl]. rewrite (counter_op_disabled op c Hoff).
    apply (IH c Hoff). }
  split.
  { intros Hon. rewrite Hon in Ha, Hd. split; assumption. }
  split; [exact Hs|].
  split; [intros Hlive; split; [apply Hla; exact Hlive|apply Hga; exact Hlive]|].
  split; [intros Hlive; split; [apply Hld; exact Hlive|apply Hgd; exact Hlive]|].
  split.
  { intros Hnone. destruct (_worker_objectAllocCounter c') eqn:Hc'; [|reflexivity].
    exfalso. assert (Hsome : is_Some (_worker_objectAllocCounter c)) by (apply Hla; eauto).
    rewrite Hnone in Hsome. destruct Hsome as [? [=]]. }
  split.
  { intros Hnone. destruct (_worker_objectDeallocCounter c') eqn:Hc'; [|reflexivity].
    exfalso. assert (Hsome : is_Some (_worker_objectDeallocCounter c)) by (apply Hld; eauto).
    rewrite Hnone in Hsome. destruct Hsome as [? [=]]. }
  intros syscall_counts c''. subst c''.
  destruct c as [use la ld ls ga gd gs].
  unfold worker_add_syscall_counts, syscall_count, alloc_count, dealloc_count, local_count.
  cbn [_worker_syscallCounter].
  destruct ls as [counter|];
    cbn [_use_object_counters
         _worker_objectAllocCounter _worker_objectDeallocCounter _worker_syscallCounter
         manager_object_alloc_counter_global manager_object_dealloc_counter_global
         manager_syscall_counts_global];
    rewrite ?counter_get_add_counter; repeat split; lia.
Qed.

End CounterProofs.

Lemma X23_witness :
  alloc_count (counter_ops example_counter_ops example_counters) "Packet" = 2 /\
  dealloc_count (counter_ops example_counter_ops example_counters) "Packet" = 1.
Proof.
  destruct (proj1 (proj2 (X23_counters_count_each_increment_once example_counter_ops
                            example_counters "Packet")) eq_refl) as [Ha Hd].
  split; [rewrite Ha|rewrite Hd]; reflexivity.
Defined.
